(* ===== verification/_CoqProject ===== *)
-Q . S2P
Prelude.v
PyStr.v
PyLines.v
PyFormat.v
PyRe.v
Base64.v
Interfaces.v
Instances.v
DataObject.v
BlockCrypter.v
Keys.v
Render.v
Parse.v
Create.v
RoundTrip.v
Headers.v
UserSettings.v
Store.v
Gui.v
GuiFacts.v
GuiEquiv.v
Session.v
Ui.v
UiFacts.v
Connect.v
Examples.v
GuiExamples.v
Tests.v
