(* ===== verification/Prelude.v ===== *)
(** * crippy: a verification development

    The program (sources under [src/]) encrypts a text or a file with a
    password into a self-describing, line-wrapped BASE64 block and decrypts
    such a block again.  Its parts are

    - [src/crippy_app.py]: the exception classes, the [DataObject] payload
      (content type, charset, compression flag, file name, bytes) and the
      [BlockCrypter] codec, which renders a payload as a block
      ([encrypt_to_block]) and parses a block back ([decrypt_from_block],
      [_create_dataobject]);
    - [src/crippy.py]: the Qt main window, whose slots read the widgets,
      call the codec and the settings store, and write the widgets;
    - [src/usersettings.py]: a JSON file used as a key/value store, in
      which the window keeps the directories of the last file dialogs;
    - [src/myplaintextedit.py]: the input widget, which accepts dropped
      files and hands the first of them to the window;
    - [src/crippy_ui.py]: the generated widget tree, which also connects
      the signals of the widgets to the slots of the window by name.

    The window is made by [MainWindow.__init__], which makes the settings
    store and runs [setupUi]; from then on Qt runs a slot of the window
    for each signal that [connectSlotsByName] connected, the slots call
    the codec on what the widgets hold, and the file dialogs read and
    write the settings store.

    This development models the five files: [src/crippy_app.py],
    [src/usersettings.py], the class [MainWindow] of [src/crippy.py] and
    the two event handlers of [src/myplaintextedit.py] as functions, and
    [src/crippy_ui.py] statement by statement.

    ** Files

    - [Prelude] (this file): the types every component shares.  A Python
      [str] is a [list ascii] (code points below 256), a Python [bytes] a
      [list Byte.byte], a Python [int] a [Z].  An exception is a value of
      [exn], a call that may raise returns a [result]; [result] is a monad
      with stdpp's bind notation.  The file also holds the hint database
      [py], the tactics [simplify_result], [by_compute] and [list_norm],
      and the lemmas on lists and on [take_while]/[drop_while].
    - [PyStr] (module [Py]): the [str] and [bytes] methods the sources
      call: [find], [in], slicing, [splitlines], [strip], [lower],
      [replace], [join], [range], the ASCII codec.
    - [PyLines]: [unlines] and [chunks], the reference definitions for
      line splitting and line wrapping, with the lemmas that relate them
      to [Py.splitlines], [Py.join], [Py.slice] and [Py.index_of].
    - [PyFormat] (modules [Fmt], [FmtFacts]): [str] of an integer, the
      format specification [,] and [str.format] for templates whose
      fields are all [{}], with the proofs that the digits stand for the
      number and that the separators change nothing else.
    - [PyRe] (module [Re]): the fragment of Python's [re] the five
      patterns of the sources are written in, as a backtracking matcher
      ([exec], [rmatch], [search]), with the lemmas for a run that never
      gives a character back ([exec_Star_run], [exec_Plus_greedy],
      [search_go_skip]).
    - [Base64] (module [B64]): [base64.urlsafe_b64encode] and the shape of
      its output.
    - [Interfaces]: the libraries the sources call, as type classes with
      laws: [Zlib], [Codecs], [Fernet], [Pbkdf2], [Secrets], [PathLib],
      [Json], [PlatformDirs], and the file system [FS] of [open] (files,
      directories, files that cannot be opened), with the relation
      [same_but] of two file systems that differ in given files only.
    - [Instances]: an implementation of every class (run-length coding, a
      toy cipher, three charsets with and without the Windows name
      [ansi], POSIX paths, a JSON of hexadecimal fields) with the proofs
      of its laws, so that the laws are satisfiable and the model can be
      run.
    - [DataObject]: the dataclass as a record; [_store_data], [from_str],
      [as_str], [from_file], [to_file] as functions of the same name, the
      last two over [FS]; the invariant [wf] of the data model.
    - [BlockCrypter]: the codec: the template [_block], the patterns
      [re_char_set], [re_filename], [re_header], the header loop
      [scan_headers] over the state [headers], and the methods
      [generate_salt], [derive_key_from_password], [BlockCrypter_init],
      [encrypt_to_block], [_create_dataobject], [decrypt_from_block].
    - [Keys], [Render], [Parse], [Create], [RoundTrip]: the theorems on
      the codec.  [Create] proves the two parameter patterns once, as the
      pattern [re_param] of a name and a class of characters
      ([search_param]).
    - [Headers]: the block with the header lines of one object around
      the body of another ([header_values], [block_of], [body_of]), and
      what [decrypt_from_block] makes of it.
    - [UserSettings]: the settings object as the record of its two paths;
      the constructor, the property [settings] with its setter, [get],
      [getitem] and [setitem] as functions of the file system, and their
      theorems.
    - [Store]: what the settings object promises to the window: a
      dictionary.  [spec_step] is an operation on the dictionary,
      [impl_step] the method of [UserSettings] on the file system, and
      [holds] relates a file system to the dictionary its settings file
      holds.
    - [Gui]: the window.  [MainWindow] is the record of what the widgets
      hold (password, echo mode, check box, file name, input, output,
      status bar, closed) and of the settings object; a [World] is the
      window, the file system and the dialogs shown so far.  A method or
      slot of the class is a computation of the same name in the monad
      [gui], which threads the world and stops at the first exception: a
      slot that raises leaves what it changed.  The answer of the user to
      a file dialog, the working directory and the entropy of the cipher
      are arguments of the slots.  [event] lists what the user can do,
      [handle] is the slot [connectSlotsByName] connects to it, [run]
      the world after the events of a session, and [reachable] the
      worlds the event loop leads to from the constructor.  The file
      also holds [dragEnterEvent] and [dropEvent] of
      [src/myplaintextedit.py]; what the class of Qt does with the event
      is an argument.
    - [GuiFacts]: the rules of [preserves] (a slot keeps a property of
      the world whether it returns or raises), the equations [run_...]
      that run a slot statement by statement, and the theorems on the
      window.
    - [GuiEquiv]: the equivalence [same_view] of worlds with the same
      window and the same files, the rules of [respects] (a slot does the
      same from worlds that look the same), and [after] and [run] as
      morphisms of the equivalence.
    - [Session]: the file dialogs from one event to the next: where a
      dialog starts ([dialog_start]), which dialog [select_file_dialog]
      shows, and what [_encrypt_file] leaves of the world after the
      dialog.
    - [Ui]: [src/crippy_ui.py].  The state [Ui] is the list of the
      objects created so far, each under the Python name that holds it
      with its class, object name, parent and the calls made on it, and
      the list of connections.  A statement is a function [Ui -> option
      Ui]: [new] for a constructor call, [setObjectName], [addLayout],
      [call] for every other call, which is recorded and not
      interpreted; [None] is the exception of a name that is not bound.
      [setupUi] and [retranslateUi] are the lists of their statements in
      the order of the source, in seven and two parts.
      [connectSlotsByName] searches the descendants of the window
      ([findChildren]) and connects each slot of the window to the first
      object whose name and signal spell the name of the slot.
    - [UiFacts]: the invariant [wf_ui] of the tree and that the
      statements keep it, the specification of [findChildren] and
      [connectSlotsByName], and what [setupUi] leaves ([final_ui]).
    - [Connect]: the two sides of the connection: [methods], the slots of
      [MainWindow] by name; [react], which makes a gesture of the user
      emit its signals and runs the slots the connections give them;
      [widgets_of], the widgets as a user interface leaves them.
    - [Examples], [GuiExamples]: every theorem with hypotheses at a
      concrete input, and blocks and worlds computed by the model.
    - [Tests]: the unit tests of [src/test_crippy_app.py] replayed on the
      model, with the blocks, keys and objects of the test suite.

    A definition that translates a function of the sources keeps its name;
    an optional argument is an [option]; a method that assigns to [self]
    returns the new object; [to_file] returns the file system after the
    call together with its result.

    ** Theorems

    - Payload ([DataObject]): [_store_data] stores data that stands for
      what was passed in, under each compression mode
      ([store_data_content]); the automatic mode stores the shorter form
      ([store_data_auto]); [as_str] undoes [from_str]
      ([as_str_from_str]); both factories establish [wf]; [to_file]
      writes the data and nothing else ([to_file_writes]), raises without
      a file name ([to_file_missing_filename]), and leaves an empty file
      when decompression fails ([to_file_truncates]).
    - Keys ([Keys]): the length of a salt ([generate_salt_length]); a
      derived key is accepted by the constructor ([derive_key_accepted]).
    - Rendering ([Render]): the body is the token cut into lines of the
      width ([wrap_width], through [map_slice_range], which equates the
      slices over [range] with [chunks]); the loop over [range] ends by
      its bound and not by its fuel ([wrap_terminates]); which objects
      are accepted and what the others raise ([encrypt_accepts],
      [encrypt_unsupported_type]); the text of the block of an accepted
      object ([encrypt_renders]).
    - Parsing ([Parse]): a block of the rendered shape inside any text is
      read header by header and its body decrypted ([parse_block]); the
      four ways a text is refused ([decrypt_no_markers],
      [decrypt_missing_content_type], [decrypt_markers_swapped],
      [decrypt_missing_disposition]).
    - Object construction ([Create]): the two errors of
      [_create_dataobject] and the invariant of what it returns
      ([create_unsupported_type], [create_unsupported_encoding],
      [create_wf]); the charset is found whatever the case, the white
      space and the quotes around it ([create_charset_tolerant]).
    - Round trip ([RoundTrip]): [decrypt_from_block] undoes
      [encrypt_to_block] up to [normalise] ([decrypt_encrypt]); a text
      and a file survive the whole path ([text_round_trip],
      [file_round_trip]); a file name with a quote or a semicolon comes
      back cut off before it ([filename_cut_at_delimiter]).
    - Header lines ([Headers]): the cipher protects the token and not
      the lines around it: the body of a block under the header lines of
      another object with the same bytes is decrypted to that object
      ([header_edit_undetected]), so an edited charset changes the text
      that is read, an edited file name the file that is written, and a
      removed [Content-Encoding] line the bytes of the file (the examples
      [charset_edit_changes_text], [filename_edit_redirects],
      [encoding_edit_changes_file]).

    - Settings ([UserSettings]): what was assigned is what is read, and
      other keys keep their values ([settings_set_settings],
      [getitem_setitem]); [get] returns the default exactly for a missing
      key ([get_spec]); a failed encoding leaves an empty file
      ([set_settings_truncates]), which makes every later access raise
      where the encoding [ansi] is unknown ([broken_without_encoding]).
    - Refinement ([Store]): where the encoding of the settings file
      encodes every text, each method answers what the operation on the
      dictionary answers and keeps [holds] ([step_refines]), and so does
      every sequence of calls ([store_refines]): to its clients
      [UserSettings] is a dictionary.
    - Window ([GuiFacts]): what the window encrypts it decrypts, for a
      text ([gui_round_trip]) and for a file chosen in the dialogs
      ([gui_file_round_trip]) or dropped ([dropped_file_encrypted]); a
      failed decryption shows one dialog and changes nothing but the
      status bar ([failed_decrypt]); a block that decrypts to data the
      output cannot show ends the slot with an exception, without a
      dialog and with a success message ([undecodable_decrypt]), and
      [Decrypt to File] on data that does not decompress empties the
      file that was chosen ([decrypt_to_file_empties]); without the encoding of the settings
      the file dialogs fail for good ([file_dialog_without_encoding]); a
      session writes no file but the settings file and the files chosen
      for saving ([only_chosen_files_written]); in every reachable world the
      echo mode follows the check box ([echo_follows_checkbox]); [File,
      New] restores the initial widgets ([new_resets]); only [File, Exit]
      closes the window ([exit_only_closes]); from every reachable world
      a text can still be encrypted and decrypted
      ([can_always_round_trip]); a drag of files is accepted and its
      first file is the one that is encrypted ([drag_of_urls]); no slot
      reads the dialogs shown so far, so sessions from worlds that look
      the same look the same and show the same dialogs
      ([history_does_not_matter]); the file dialog opens where the last
      file was chosen, the directory having gone through the settings
      file ([dialog_remembers_directory]); a cancelled dialog changes
      nothing but the status bar ([cancelled_open], [cancelled_save]),
      and a file that cannot be read costs the user the input
      ([unreadable_file_clears_input]); the status messages
      ([msg_with_correct_plural_fills], [format_thousands_digits]).
    - User interface ([UiFacts], [Connect]): every statement keeps the
      tree well formed ([new_wf], [call_wf], [setObjectName_wf],
      [addLayout_wf], [exec_keeps]); [setupUi] runs to its end and leaves
      a tree under the window in which every object is named after its
      Python name ([setupUi_tree]); the search for descendants needs no
      more fuel than there are objects and finds the descendants
      ([findChildren_terminates]); [connectSlotsByName] connects exactly
      by name ([connect_by_name]); the slots these connections run are
      the ones [handle] runs ([slots_run_by_name]), so the theorems on
      the window are theorems on the program as Qt wires it; the widgets
      the window starts with are the ones [setupUi] leaves
      ([init_as_setupUi]); two actions can never be triggered
      ([dead_actions]).

    ** Assumptions and bounds

    The theorems hold for every implementation of the interfaces that
    satisfies their laws: decompression undoes compression, decoding
    undoes encoding, charset names are looked up without case, decryption
    under the key undoes encryption, a token is text of the url-safe
    alphabet, PBKDF2 returns as many bytes as asked for.  That a changed
    token is refused is a property of the cipher and is not assumed, so
    nothing is proved about tampering with the token; what is proved
    about tampering is that the header lines can be changed at will
    ([Headers]).  Strings hold code points below
    256: [lower], [isspace] and the line boundaries of [splitlines] are
    those of Latin-1.  The fuel of [Py.range0] and [chunks] is the length
    of the string, one step per chunk, which [range_go_enough] proves
    enough; the fuel of [Fmt.digits] is one more than the binary size of
    the number, which [digits_go_value] proves enough; the fuel of
    [findChildren] is the number of objects, which
    [findChildren_go_enough] proves enough for a tree in which parents
    are created before their children; the matcher recurses on the
    pattern and counts down the length of a run, so [exec] is total.  JSON is assumed to read
    back the dictionary it wrote, and the configuration directory to
    depend on the application name, author and roaming flag only.  Of Qt
    the model assumes what its documentation says: a setter changes its
    widget only; [textChanged] of the input and [stateChanged] of the
    check box are emitted by [clear], [setPlainText] and [setChecked]
    (the latter when the state changes) and run their slots before the
    call returns; a modal dialog returns before the slot goes on; an
    exception in a slot ends the slot and not the program.  Of
    [connectSlotsByName] it assumes the documented rule (a slot
    [on_<object name>_<signal name>] of the object is connected to that
    signal of a descendant with that name, the first that matches), of
    the classes the signals their documentation lists, and of a layout
    that it gives a widget the parent its constructor was given, which
    [final_layouts] checks.  Opening a
    file ignores whether its directory exists.  The round trip is proved for the objects in [sendable]: the
    charset must not be empty or hold a quote, a semicolon or white
    space; the file name must not be empty, hold a quote, a semicolon, a
    line boundary or the end marker, or start or end with white space;
    the text before the block must not hold an equals sign.

    ** Not modelled

    What the setters of [src/crippy_ui.py] do to the picture on the
    screen: sizes, margins, fonts, the icon, texts and shortcuts are
    recorded as calls and not interpreted.  What [QPlainTextEdit] does
    with a drag or a drop is an argument of the handlers of
    [src/myplaintextedit.py].  Of the lines of [src/crippy.py] that
    start the program the model has the constructor and the event loop
    ([reachable], [run]).  Fields of [str.format] other than [{}];
    the internals of zlib, the codecs, Fernet, PBKDF2, JSON and Qt;
    strings with code points above 255; [TypeError] for arguments of a
    wrong type other than a missing [DataObject] and a value assigned to
    [settings] that is no dictionary.  The test suite
    [src/test_crippy_app.py] is no part of the program; its tests are
    examples of the model ([Tests]). *)

From Stdlib Require Import Ascii ZArith Lia.
From Stdlib Require String.
From stdpp Require Import base tactics option list strings.

(** ** Python values *)

Declare Scope py_scope.
Delimit Scope py_scope with py.

Abbreviation str := (list ascii) (only parsing).
Abbreviation bytes := (list Byte.byte) (only parsing).

(** A string literal of the sources, as a [str]. *)
Definition lit (s : string) : str := String.list_ascii_of_string s.
Coercion lit : string >-> list.

#[export] Instance byte_eq_dec : EqDecision Byte.byte := Byte.byte_eq_dec.

(** ** Exceptions and results

    The four exception classes the sources declare carry their message.  The
    others are the built-in exceptions the modelled calls can raise. *)
Inductive exn : Type :=
  | InvalidBlockException (msg : str)
  | InvalidDataException (msg : str)
  | MissingFilenameException (msg : str)
  | InvalidContentException (msg : str)
  | UnicodeEncodeError
  | UnicodeDecodeError
  | LookupError
  | ZlibError
  | InvalidToken
  | OSError
  | KeyError
  | IndexError
  | ValueError
  | TypeError (msg : str).

#[export] Instance exn_eq_dec : EqDecision exn.
Proof. solve_decision. Defined.

Inductive result (A : Type) : Type :=
  | Ok (a : A)
  | Raise (e : exn).
Arguments Ok {A} a.
Arguments Raise {A} e.

#[export] Instance result_eq_dec `{EqDecision A} : EqDecision (result A).
Proof. solve_decision. Defined.

#[export] Instance result_ret : MRet result := fun _ a => Ok a.
#[export] Instance result_bind : MBind result := fun _ _ f m =>
  match m with Ok a => f a | Raise e => Raise e end.
#[export] Instance result_fmap : FMap result := fun _ _ f m =>
  match m with Ok a => Ok (f a) | Raise e => Raise e end.

(** [is_ok m] holds when the call returned. *)
Definition is_ok {A} (m : result A) : bool :=
  match m with Ok _ => true | Raise _ => false end.

(** ** Laws of [result] *)
Section result_laws.
Context {A B C : Type}.
Implicit Types (m : result A) (f : A -> result B) (g : B -> result C).

Lemma bind_Ok a f : Ok a ≫= f = f a.
Proof. reflexivity. Qed.

Lemma bind_Raise e f : Raise e ≫= f = Raise e.
Proof. reflexivity. Qed.

Lemma bind_ret m : m ≫= mret = m.
Proof. by destruct m. Qed.

Lemma bind_assoc m f g : (m ≫= f) ≫= g = m ≫= (fun a => f a ≫= g).
Proof. by destruct m. Qed.

Lemma bind_Ok_inv m f b :
    m ≫= f = Ok b <-> exists a, m = Ok a /\ f a = Ok b.
Proof.
  destruct m as [a|e]; simpl.
  - split; [eauto|]. by intros (? & [= <-] & ?).
  - split; [done|]. by intros (? & [=] & ?).
Qed.

Lemma bind_Raise_inv m f e :
    m ≫= f = Raise e <-> m = Raise e \/ exists a, m = Ok a /\ f a = Raise e.
Proof.
  destruct m as [a|e']; simpl.
  - split; [eauto|]. by intros [[=]|(? & [= <-] & ?)].
  - split; [intros [= ->]; by left|]. by intros [[= ->]|(? & [=] & ?)].
Qed.

Lemma fmap_Ok (h : A -> B) a : h <$> Ok a = Ok (h a).
Proof. reflexivity. Qed.
End result_laws.

(** ** The hint database and the tactics of the development *)

Create HintDb py discriminated.
Create Rewrite HintDb py.
#[export] Hint Rewrite @bind_Ok @bind_Raise @fmap_Ok : py.

(** [simplify_result] turns hypotheses about binds into their components. *)
Ltac simplify_result :=
  repeat match goal with
  | H : Ok _ = Ok _ |- _ => injection H as H; try subst
  | H : Raise _ = Raise _ |- _ => injection H as H; try subst
  | H : Ok _ = Raise _ |- _ => discriminate H
  | H : Raise _ = Ok _ |- _ => discriminate H
  | H : _ ≫= _ = Ok _ |- _ => apply bind_Ok_inv in H as (? & ? & H)
  end.

(** [by_compute] proves a decidable proposition by evaluating its decision
    procedure. *)
Ltac by_compute := apply (bool_decide_unpack _); vm_compute; exact I.

(** [list_norm] brings a concatenation into right-nested form. *)
Ltac list_norm :=
  repeat (progress (rewrite <- ?app_assoc, <- ?app_comm_cons, ?app_nil_l, ?app_nil_r)).

(** ** Lists *)
Section lists.
Context {A : Type}.
Implicit Types (l k : list A) (P Q : A -> bool).

Lemma forallb_Forall P l : forallb P l = true <-> Forall (fun x => P x = true) l.
Proof.
  induction l as [|x l IH]; simpl; [by split|].
  rewrite andb_true_iff, Forall_cons, IH. done.
Qed.

(** Induction over a list three elements at a time. *)
Lemma list_ind3 (P : list A -> Prop) :
  P [] -> (forall a, P [a]) -> (forall a b, P [a; b]) ->
  (forall a b c l, P l -> P (a :: b :: c :: l)) ->
  forall l, P l.
Proof.
  intros H0 H1 H2 H3 l.
  assert (P l /\ (forall a, P (a :: l)) /\ (forall a b, P (a :: b :: l))) as [? _]; [|done].
  induction l as [|x l (IH0 & IH1 & IH2)]; [done|]. auto.
Qed.

Lemma forallb_ext P Q l : (forall x, P x = Q x) -> forallb P l = forallb Q l.
Proof. intros H. induction l as [|x l IH]; simpl; [done|]. by rewrite H, IH. Qed.

Lemma forallb_head P l :
  forallb P l = true -> l <> [] -> exists x k, l = x :: k /\ P x = true.
Proof. destruct l as [|x k]; [done|]. intros [? ?]%andb_true_iff _. eauto. Qed.

Lemma forallb_app_iff P l k :
    forallb P (l ++ k) = true <-> forallb P l = true /\ forallb P k = true.
Proof. rewrite forallb_app, andb_true_iff. done. Qed.

Lemma existsb_false_Forall P l :
    existsb P l = false <-> Forall (fun x => P x = false) l.
Proof.
  induction l as [|x l IH]; simpl; [by split|].
  rewrite orb_false_iff, Forall_cons, IH. done.
Qed.

Lemma drop_length_app l k : drop (length l) (l ++ k) = k.
Proof. by rewrite drop_app_length. Qed.

Lemma take_length_app l k : take (length l) (l ++ k) = l.
Proof. by rewrite take_app_length. Qed.

Lemma elem_of_concat x (ls : list (list A)) l : l ∈ ls -> x ∈ l -> x ∈ concat ls.
Proof.
  induction ls as [|k ls IH]; [by intros ?%elem_of_nil|].
  intros [->|H]%elem_of_cons Hx; simpl; rewrite elem_of_app; eauto.
Qed.
End lists.

(** ** Longest prefix under a test

    [take_while P l] is the longest prefix of [l] whose elements pass [P],
    [drop_while P l] what follows it. *)
Fixpoint take_while {A} (P : A -> bool) (l : list A) : list A :=
  match l with
  | x :: l' => if P x then x :: take_while P l' else []
  | [] => []
  end.

Fixpoint drop_while {A} (P : A -> bool) (l : list A) : list A :=
  match l with
  | x :: l' => if P x then drop_while P l' else l
  | [] => []
  end.

(** [stops P l]: [l] is empty or its head fails [P], so that a run of [P]
    cannot be extended into [l]. *)
Definition stops {A} (P : A -> bool) (l : list A) : bool :=
  match l with
  | [] => true
  | x :: _ => negb (P x)
  end.

Lemma stops_app_l {A} (P : A -> bool) l k :
  l <> [] -> stops P l = true -> stops P (l ++ k) = true.
Proof. by destruct l. Qed.

Lemma stops_ext {A} (P Q : A -> bool) l :
  (forall x, P x = Q x) -> stops P l = stops Q l.
Proof. intros H. destruct l; simpl; [done|]. by rewrite H. Qed.

Section while_lemmas.
Context {A : Type} (P : A -> bool).
Implicit Types (l k : list A).

Lemma take_while_app_stops l k :
  forallb P l = true -> stops P k = true -> take_while P (l ++ k) = l.
Proof.
  intros Hl Hk. induction l as [|y l IH]; simpl in *.
  - destruct k as [|x k]; simpl in *; [done|]. by apply negb_true_iff in Hk as ->.
  - apply andb_true_iff in Hl as [-> Hl]. by rewrite IH.
Qed.

Lemma drop_while_app_stops l k :
  forallb P l = true -> stops P k = true -> drop_while P (l ++ k) = k.
Proof.
  intros Hl Hk. induction l as [|y l IH]; simpl in *.
  - destruct k as [|x k]; simpl in *; [done|]. by apply negb_true_iff in Hk as ->.
  - apply andb_true_iff in Hl as [-> Hl]. by rewrite IH.
Qed.

Lemma take_drop_while l : take_while P l ++ drop_while P l = l.
Proof. induction l as [|x l IH]; simpl; [done|]. destruct (P x); simpl; congruence. Qed.

Lemma take_while_forallb l : forallb P (take_while P l) = true.
Proof. induction l as [|x l IH]; simpl; [done|]. destruct (P x) eqn:E; simpl; [by rewrite E|done]. Qed.

Lemma drop_while_length l : length (drop_while P l) = length l - length (take_while P l).
Proof.
  rewrite <- (take_drop_while l) at 2. rewrite length_app. lia.
Qed.

Lemma take_while_app_stop l x k :
  forallb P l = true -> P x = false -> take_while P (l ++ x :: k) = l.
Proof. intros Hl Hx. apply take_while_app_stops; [done|]. simpl. by rewrite Hx. Qed.

Lemma drop_while_app_stop l x k :
  forallb P l = true -> P x = false -> drop_while P (l ++ x :: k) = x :: k.
Proof. intros Hl Hx. apply drop_while_app_stops; [done|]. simpl. by rewrite Hx. Qed.

Lemma take_while_all l : forallb P l = true -> take_while P l = l.
Proof.
  induction l as [|y l IH]; simpl; [done|].
  intros [-> Hl]%andb_true_iff. by rewrite IH.
Qed.

Lemma drop_while_all l : forallb P l = true -> drop_while P l = [].
Proof.
  induction l as [|y l IH]; simpl; [done|].
  intros [-> Hl]%andb_true_iff. by rewrite IH.
Qed.

Lemma drop_take_while l : drop (length (take_while P l)) l = drop_while P l.
Proof.
  rewrite <- (take_drop_while l) at 2. by rewrite drop_app_length.
Qed.

(** Removing what fails [P] after dropping a run that fails [Q], where [Q]
    is the negation of [P]. *)
Lemma filter_drop_while (Q : A -> Prop) `{!forall x, Decision (Q x)} l :
  (forall x, P x = true -> ~ Q x) -> filter Q (drop_while P l) = filter Q l.
Proof.
  intros HPQ. induction l as [|x l IH]; [done|]. simpl.
  destruct (P x) eqn:E; [|done]. rewrite filter_cons_False by auto. done.
Qed.

Lemma drop_while_head l x : P x = false -> drop_while P (x :: l) = x :: l.
Proof. intros Hx. simpl. by rewrite Hx. Qed.

Lemma drop_while_stops l x k : drop_while P l = x :: k -> P x = false.
Proof.
  induction l as [|y l IH]; simpl; [done|].
  destruct (P y) eqn:E; [done|]. by intros [= <- _].
Qed.

Lemma drop_while_nonempty l x : x ∈ l -> P x = false -> drop_while P l <> [].
Proof.
  induction l as [|y l IH]; [by intros ?%elem_of_nil|].
  intros [->|Hx]%elem_of_cons Hp; simpl.
  - by rewrite Hp.
  - destruct (P y); [by apply IH|done].
Qed.
End while_lemmas.
