(* ===== verification/PyStr.v ===== *)
(** * PyStr: the [str] and [bytes] methods the sources call

    The definitions of module [Py] follow the documented behaviour of the
    Python methods on strings whose code points are below 256 (the type
    [ascii] has exactly these).  They are the runtime the translated
    functions run on; none of them translates a line of [src/]. *)

From Stdlib Require Import Ascii ZArith Lia.
From stdpp Require Import base tactics option list sets.
From S2P Require Import Prelude.

Module Py.

(** ** Characters *)

Definition ord (c : ascii) : N := N_of_ascii c.
Definition chr (n : N) : ascii := ascii_of_N n.

Definition NL : ascii := "010"%char.
Definition CR : ascii := "013"%char.
Definition DQ : ascii := "034"%char.

(** [str.isspace] on one character, which is also what [str.strip] removes
    and what [\s] matches: TAB to CR, FS to US, space, NEL and NBSP. *)
Definition isspace (c : ascii) : bool :=
  let n := ord c in
  ((9 <=? n) && (n <=? 13) || (28 <=? n) && (n <=? 32) || (n =? 133) || (n =? 160))%N.

(** The line boundaries of [str.splitlines]: LF, VT, FF, CR, FS, GS, RS and
    NEL (the pair CR LF is one boundary). *)
Definition islinebreak (c : ascii) : bool :=
  let n := ord c in
  ((10 <=? n) && (n <=? 13) || (28 <=? n) && (n <=? 30) || (n =? 133))%N.

(** [str.lower] on one character: A-Z and the Latin-1 capitals. *)
Definition lower_char (c : ascii) : ascii :=
  let n := ord c in
  if ((65 <=? n) && (n <=? 90) || (192 <=? n) && (n <=? 222) && negb (n =? 215))%N
  then chr (n + 32) else c.

Definition is_ascii (c : ascii) : bool := (ord c <? 128)%N.

(** ** Strings *)

(** [len(s)] *)
Definition len {A} (s : list A) : Z := Z.of_nat (length s).

(** [s.lower()] *)
Definition lower (s : str) : str := map lower_char s.

(** [s.startswith(sub)] *)
Fixpoint startswith (s sub : str) : bool :=
  match sub, s with
  | [], _ => true
  | a :: sub', b :: s' => Ascii.eqb a b && startswith s' sub'
  | _ :: _, [] => false
  end.

(** The least index at which [sub] occurs in [s]. *)
Fixpoint index_of (s sub : str) : option nat :=
  if startswith s sub then Some 0
  else match s with
       | [] => None
       | _ :: s' => S <$> index_of s' sub
       end.

(** [s.find(sub)]: the least index, or [-1]. *)
Definition find (s sub : str) : Z :=
  match index_of s sub with Some n => Z.of_nat n | None => -1 end.

(** [sub in s] *)
Definition contains (s sub : str) : bool :=
  match index_of s sub with Some _ => true | None => false end.

(** An index of a slice, brought into [0 .. len(s)] the way Python does:
    a negative index counts from the end. *)
Definition clamp (n : nat) (i : Z) : nat :=
  if (i <? 0)%Z then Z.to_nat (Z.max 0 (i + Z.of_nat n)) else Nat.min (Z.to_nat i) n.

(** [s[i:j]] *)
Definition slice {A} (s : list A) (i j : Z) : list A :=
  let a := clamp (length s) i in
  let b := clamp (length s) j in
  take (b - a) (drop a s).

(** [s.splitlines(keepends=True)] *)
Fixpoint splitlines (s : str) : list str :=
  match s with
  | [] => []
  | c :: s' =>
    if Ascii.eqb c CR then
      match s' with
      | d :: s'' => if Ascii.eqb d NL then [c; d] :: splitlines s''
                    else [c] :: splitlines s'
      | [] => [[c]]
      end
    else if islinebreak c then [c] :: splitlines s'
    else match splitlines s' with
         | [] => [[c]]
         | l :: ls => (c :: l) :: ls
         end
  end.

(** [s.lstrip()], [s.rstrip()], [s.strip()] *)
Definition lstrip (s : str) : str := drop_while isspace s.
Definition rstrip (s : str) : str := rev (drop_while isspace (rev s)).
Definition strip (s : str) : str := rstrip (lstrip s).

(** [s.replace(old, new)]: the occurrences of [old] are replaced from the
    left and do not overlap.  [skip] counts the characters of an occurrence
    still to be passed over. *)
Fixpoint replace_go (old new : str) (skip : nat) (s : str) : str :=
  match s with
  | [] => []
  | c :: s' =>
    match skip with
    | S k => replace_go old new k s'
    | O => if startswith s old then new ++ replace_go old new (length old - 1) s'
           else c :: replace_go old new O s'
    end
  end.

Definition replace (s old new : str) : str :=
  match old with
  | [] => new ++ concat (map (fun c => c :: new) s)
  | _ => replace_go old new 0 s
  end.

(** [sep.join(l)] *)
Fixpoint join (sep : str) (l : list str) : str :=
  match l with
  | [] => []
  | [x] => x
  | x :: l' => x ++ sep ++ join sep l'
  end.

(** [range(0, stop, step)] for a positive step, as the list it yields. *)
Fixpoint range_go (fuel : nat) (i stop step : Z) : list Z :=
  match fuel with
  | O => []
  | S fuel' => if (i <? stop)%Z then i :: range_go fuel' (i + step) stop step else []
  end.

Definition range0 (stop step : Z) : list Z := range_go (Z.to_nat stop) 0 stop step.

(** ** The ASCII codec: [s.encode("ASCII")] and [b.decode("ASCII")] *)

Definition encode_ascii (s : str) : result bytes :=
  if forallb is_ascii s then Ok (map byte_of_ascii s) else Raise UnicodeEncodeError.

Definition decode_ascii (b : bytes) : result str :=
  let s := map ascii_of_byte b in
  if forallb is_ascii s then Ok s else Raise UnicodeDecodeError.

(** ** Lemmas on characters *)

Lemma lower_char_idemp c : lower_char (lower_char c) = lower_char c.
Proof. by destruct c as [[] [] [] [] [] [] [] []]. Qed.

Lemma islinebreak_isspace c : islinebreak c = true -> isspace c = true.
Proof. by destruct c as [[] [] [] [] [] [] [] []]. Qed.

Lemma lower_idemp s : lower (lower s) = lower s.
Proof.
  unfold lower. rewrite map_map. apply map_ext. intros c. apply lower_char_idemp.
Qed.

Lemma lower_app s t : lower (s ++ t) = lower s ++ lower t.
Proof. apply map_app. Qed.

Lemma lower_length s : length (lower s) = length s.
Proof. apply length_map. Qed.

(** ** Lemmas on [startswith], [index_of], [find] and [contains] *)

Lemma startswith_nil s : startswith s [] = true.
Proof. by destruct s. Qed.

Lemma startswith_cons c s d sub :
  startswith (c :: s) (d :: sub) = Ascii.eqb d c && startswith s sub.
Proof. done. Qed.

Lemma startswith_spec s sub : startswith s sub = true <-> exists t, s = sub ++ t.
Proof.
  revert s. induction sub as [|a sub IH]; intros s.
  - rewrite startswith_nil. split; [eauto|done].
  - destruct s as [|b s]; simpl.
    + split; [done|]. by intros [? [=]].
    + rewrite andb_true_iff, Ascii.eqb_eq, IH. split.
      * intros [-> [t ->]]. eauto.
      * intros [t [= -> ->]]. eauto.
Qed.

Lemma startswith_app sub t : startswith (sub ++ t) sub = true.
Proof. apply startswith_spec. eauto. Qed.

(** A character that does not occur in [sub] bounds every occurrence of
    [sub]: what follows it plays no part in a match that starts before it. *)
Lemma startswith_sep s1 c s2 sub :
  c ∉ sub -> startswith (s1 ++ c :: s2) sub = startswith s1 sub.
Proof.
  revert s1. induction sub as [|a sub IH]; intros s1 Hc; [by rewrite !startswith_nil|].
  apply not_elem_of_cons in Hc as [Hca Hc].
  destruct s1 as [|b s1]; simpl.
  - destruct (Ascii.eqb_spec a c); [congruence|done].
  - by rewrite IH.
Qed.

Lemma index_of_startswith s sub : startswith s sub = true -> index_of s sub = Some 0.
Proof. intros H. destruct s; simpl in *; by rewrite H. Qed.

Lemma index_of_cons c s sub :
  index_of (c :: s) sub
    = if startswith (c :: s) sub then Some 0 else S <$> index_of s sub.
Proof. done. Qed.

Lemma index_of_nil sub : index_of [] sub = if startswith [] sub then Some 0 else None.
Proof. done. Qed.

(** The separator lemma: the first occurrence of [sub] in [s1 ++ c :: s2],
    where [c] does not occur in [sub], is the first in [s1], or else the
    first in [s2]. *)
Lemma index_of_sep s1 c s2 sub :
  c ∉ sub ->
  index_of (s1 ++ c :: s2) sub
    = match index_of s1 sub with
      | Some n => Some n
      | None => (fun n => length s1 + 1 + n) <$> index_of s2 sub
      end.
Proof.
  intros Hc. induction s1 as [|b s1 IH].
  - rewrite app_nil_l, index_of_cons, index_of_nil.
    rewrite <- (startswith_sep [] c s2 sub Hc). simpl app.
    destruct (startswith (c :: s2) sub); [done|]. by destruct (index_of s2 sub).
  - rewrite <- app_comm_cons, !index_of_cons, IH.
    rewrite (app_comm_cons s1 (c :: s2) b), startswith_sep by done.
    destruct (startswith (b :: s1) sub); [done|].
    destruct (index_of s1 sub); [done|]. by destruct (index_of s2 sub).
Qed.

(** A string that lacks a character of [sub] does not contain [sub]. *)
Lemma startswith_absent s sub c : c ∈ sub -> c ∉ s -> startswith s sub = false.
Proof.
  intros Hsub Hs. destruct (startswith s sub) eqn:E; [|done].
  apply startswith_spec in E as [t ->]. set_solver.
Qed.

Lemma index_of_absent s sub c : c ∈ sub -> c ∉ s -> index_of s sub = None.
Proof.
  intros Hsub. induction s as [|b s IH]; intros Hs.
  - by rewrite index_of_nil, (startswith_absent _ _ c).
  - rewrite index_of_cons, (startswith_absent _ _ c), IH by set_solver. done.
Qed.

Lemma index_of_char s c : c ∈ s -> is_Some (index_of s [c]).
Proof.
  induction s as [|b s IH]; [by intros ?%elem_of_nil|].
  rewrite index_of_cons. simpl. rewrite startswith_nil, andb_true_r.
  destruct (Ascii.eqb_spec c b) as [->|Hne]; [eauto|].
  intros [?|H]%elem_of_cons; [congruence|]. destruct (IH H) as [n ->]. eauto.
Qed.

Lemma contains_char s c : c ∈ s -> contains s [c] = true.
Proof. intros H. unfold contains. by destruct (index_of_char s c H) as [n ->]. Qed.

Lemma contains_absent s sub c : c ∈ sub -> c ∉ s -> contains s sub = false.
Proof. intros. unfold contains. by erewrite index_of_absent. Qed.

Lemma contains_startswith s sub : startswith s sub = true -> contains s sub = true.
Proof. intros H. unfold contains. by rewrite index_of_startswith. Qed.

Lemma find_index_of s sub n : index_of s sub = Some n -> find s sub = Z.of_nat n.
Proof. unfold find. by intros ->. Qed.

Lemma find_none s sub : index_of s sub = None <-> find s sub = (-1)%Z.
Proof. unfold find. destruct (index_of s sub); split; (done || lia). Qed.

Lemma find_startswith s sub : startswith s sub = true -> find s sub = 0%Z.
Proof. intros H. by rewrite (find_index_of _ _ 0) by by apply index_of_startswith. Qed.

(** ** Lemmas on slices *)

Lemma len_app {A} (s t : list A) : len (s ++ t) = (len s + len t)%Z.
Proof. unfold len. rewrite length_app. lia. Qed.

Lemma len_nonneg {A} (s : list A) : (0 <= len s)%Z.
Proof. unfold len. lia. Qed.

Lemma clamp_nonneg n i : (0 <= i)%Z -> clamp n i = Nat.min (Z.to_nat i) n.
Proof. intros Hi. unfold clamp. by destruct (Z.ltb_spec i 0); [lia|]. Qed.

Lemma slice_take_drop {A} (s : list A) i j :
  (0 <= i <= j)%Z -> (j <= len s)%Z ->
  slice s i j = take (Z.to_nat (j - i)) (drop (Z.to_nat i) s).
Proof.
  unfold len. intros Hi Hj. unfold slice. rewrite !clamp_nonneg by lia.
  f_equal; [lia|f_equal; lia].
Qed.

(** The slice that starts after [a] and is as long as [b] is [b]. *)
Lemma slice_middle {A} (a b c : list A) :
  slice (a ++ b ++ c) (len a) (len a + len b) = b.
Proof.
  rewrite slice_take_drop; rewrite ?len_app; unfold len; try lia.
  rewrite Nat2Z.id, drop_app_length.
  replace (Z.to_nat _) with (length b) by lia. by rewrite take_app_length.
Qed.

Lemma slice_eq {A} (s a b c : list A) i j :
  s = a ++ b ++ c -> i = len a -> j = (len a + len b)%Z -> slice s i j = b.
Proof. intros -> -> ->. apply slice_middle. Qed.

(** A slice whose end is not after its start is empty. *)
Lemma slice_empty {A} (s : list A) i j : (0 <= j <= i)%Z -> slice s i j = [].
Proof.
  intros H. unfold slice. rewrite !clamp_nonneg by lia.
  apply take_0' || (replace (_ - _) with 0 by lia; done).
Qed.

Lemma slice_length {A} (s : list A) i j :
  (0 <= i)%Z -> (0 <= j)%Z -> (len (slice s i j) <= Z.max 0 (j - i))%Z.
Proof.
  intros Hi Hj. unfold slice, len. rewrite length_take, length_drop.
  rewrite !clamp_nonneg by done. lia.
Qed.

(** ** Lemmas on [splitlines] *)

Lemma linebreak_CR c : islinebreak c = false -> Ascii.eqb c CR = false.
Proof. by destruct c as [[] [] [] [] [] [] [] []]. Qed.

(** A line without a line boundary that ends in a newline is one line. *)
Lemma splitlines_line l rest :
  forallb (fun c => negb (islinebreak c)) l = true ->
  splitlines (l ++ NL :: rest) = (l ++ [NL]) :: splitlines rest.
Proof.
  induction l as [|c l IH]; [done|]. intros [Hc Hl]%andb_true_iff.
  apply negb_true_iff in Hc. simpl. by rewrite (linebreak_CR c), Hc, IH.
Qed.

Lemma splitlines_last l :
  l <> [] -> forallb (fun c => negb (islinebreak c)) l = true -> splitlines l = [l].
Proof.
  induction l as [|c l IH]; [done|]. intros _ [Hc Hl]%andb_true_iff.
  apply negb_true_iff in Hc. simpl. rewrite (linebreak_CR c), Hc by done.
  destruct l as [|d l]; [done|]. by rewrite IH.
Qed.

(** ** Lemmas on [strip] *)

Lemma strip_blank s : forallb isspace s = true -> strip s = [].
Proof. intros H. unfold strip, lstrip, rstrip. by rewrite (drop_while_all _ s). Qed.

Lemma strip_nonblank s c : c ∈ s -> isspace c = false -> strip s <> [].
Proof.
  intros Hc Hs. unfold strip, lstrip, rstrip.
  destruct (drop_while isspace s) as [|d s'] eqn:E.
  { by apply (drop_while_nonempty isspace s c) in E. }
  apply drop_while_stops in E. intros Hnil.
  apply (f_equal (@length ascii)) in Hnil. rewrite length_rev in Hnil.
  apply nil_length_inv in Hnil. revert Hnil.
  apply (drop_while_nonempty _ _ d); [|done].
  apply list_elem_of_In, in_rev. rewrite rev_involutive. by left.
Qed.

(** A string that neither starts nor ends with white space is its own
    [strip]. *)
Lemma strip_id s c d :
  head s = Some c -> last s = Some d -> isspace c = false -> isspace d = false ->
  strip s = s.
Proof.
  intros Hh Hl Hc Hd. unfold strip, lstrip, rstrip.
  destruct s as [|c' s']; [done|]. injection Hh as ->.
  rewrite drop_while_head by done.
  apply last_Some in Hl as [l' ->].
  rewrite rev_app_distr. simpl. rewrite Hd. simpl.
  by rewrite rev_involutive.
Qed.

(** ** Lemmas on [replace] *)

Lemma replace_char s c : replace s [c] [] = filter (fun x => x <> c) s.
Proof.
  unfold replace. induction s as [|b s IH]; [done|].
  simpl. rewrite startswith_nil, andb_true_r.
  destruct (Ascii.eqb_spec c b) as [->|Hne]; simpl.
  - by rewrite filter_cons_False by naive_solver.
  - by rewrite filter_cons_True, IH by naive_solver.
Qed.

End Py.
