(* ===== verification/PyLines.v ===== *)
(** * PyLines: lines and chunks of a string

    The block codec cuts a token into chunks of a fixed width, joins them
    with newlines, and later splits the text between the markers into lines
    again.  This file holds the reference definitions against which those
    routines are stated ([unlines], [chunks]) and the lemmas that relate
    them to [Py.splitlines], [Py.join], [Py.slice], [Py.range0] and
    [Py.index_of], and the lemmas on [Py.range_go]: the fuel that is
    enough and the number of positions. *)

From Stdlib Require Import Ascii ZArith Lia.
From stdpp Require Import base tactics option list strings sets.
From S2P Require Import Prelude PyStr.
Import Py.

(** The lines [ls], each followed by a newline. *)
Definition unlines (ls : list str) : str := concat (map (fun l => l ++ [NL]) ls).

(** A line holds no line boundary. *)
Definition no_linebreak (l : str) : bool := forallb (fun c => negb (islinebreak c)) l.

(** [s] cut into pieces of [n] elements; the last piece may be shorter. *)
Fixpoint chunks_go {A} (fuel n : nat) (s : list A) : list (list A) :=
  match fuel with
  | O => []
  | S fuel' =>
    match s with
    | [] => []
    | _ => take n s :: chunks_go fuel' n (drop n s)
    end
  end.

Definition chunks {A} (n : nat) (s : list A) : list (list A) :=
  chunks_go (length s) n s.

(** ** Lines *)

Lemma unlines_cons l ls : unlines (l :: ls) = l ++ NL :: unlines ls.
Proof. unfold unlines. simpl. by rewrite <- app_assoc. Qed.

Lemma unlines_app ls ks : unlines (ls ++ ks) = unlines ls ++ unlines ks.
Proof. unfold unlines. by rewrite map_app, concat_app. Qed.

Lemma no_linebreak_app l k :
  no_linebreak (l ++ k) = true <-> no_linebreak l = true /\ no_linebreak k = true.
Proof. apply forallb_app_iff. Qed.

(** Without white space there is no line boundary. *)
Lemma no_space_no_linebreak l :
  forallb (fun c => negb (isspace c)) l = true -> no_linebreak l = true.
Proof.
  unfold no_linebreak. rewrite !forallb_Forall. intros H.
  eapply Forall_impl; [done|]. simpl. intros c Hc. destruct (islinebreak c) eqn:E; [|done].
  by rewrite (islinebreak_isspace c E) in Hc.
Qed.

(** [splitlines] gives back the lines of [unlines]. *)
Lemma splitlines_unlines ls rest :
  Forall (fun l => no_linebreak l = true) ls ->
  splitlines (unlines ls ++ rest) = map (fun l => l ++ [NL]) ls ++ splitlines rest.
Proof.
  induction 1 as [|l ls Hl _ IH]; [done|].
  rewrite unlines_cons, <- app_assoc, <- app_comm_cons, splitlines_line by done.
  by rewrite IH.
Qed.

Lemma splitlines_NL s : splitlines (NL :: s) = [NL] :: splitlines s.
Proof. done. Qed.

(** With [keepends] the lines of a text add up to the text. *)
Lemma concat_splitlines s : concat (splitlines s) = s.
Proof.
  induction s as [|c s IH]; [done|]. cbn [splitlines].
  destruct (Ascii.eqb_spec c CR) as [->|_].
  - destruct s as [|d s]; [done|].
    destruct (Ascii.eqb_spec d NL) as [->|_]; [|by cbn [concat]; rewrite IH].
    rewrite splitlines_NL in IH. cbn [concat app] in *. congruence.
  - destruct (islinebreak c); [by cbn [concat]; rewrite IH|].
    destruct (splitlines s) as [|l ls]; cbn [concat app] in *; by rewrite <- IH.
Qed.

(** The first line of a text that starts with an ordinary character starts
    with that character. *)
Lemma splitlines_head c s :
  islinebreak c = false ->
  exists l ls, splitlines (c :: s) = (c :: l) :: ls.
Proof.
  intros Hc. simpl. rewrite (linebreak_CR c Hc), Hc.
  destruct (splitlines s); eauto.
Qed.

(** ** Searching line by line *)

(** [sub] does not start where its first character does not occur. *)
Lemma index_of_skip pre s sub c :
  head sub = Some c -> c ∉ pre ->
  index_of (pre ++ s) sub = (fun n => length pre + n) <$> index_of s sub.
Proof.
  intros Hsub. induction pre as [|b pre IH]; intros Hc.
  - simpl. by destruct (index_of s sub).
  - apply not_elem_of_cons in Hc as [Hcb Hc].
    rewrite <- app_comm_cons, index_of_cons, IH by done.
    destruct sub as [|a sub]; [done|]. injection Hsub as ->. simpl startswith.
    destruct (Ascii.eqb_spec c b) as [->|_]; [done|]. simpl.
    by destruct (index_of s _).
Qed.

Lemma startswith_app_l s t sub :
  startswith s sub = true -> startswith (s ++ t) sub = true.
Proof. intros [u ->]%startswith_spec. rewrite <- app_assoc. apply startswith_app. Qed.

(** What a string contains, every extension of it contains. *)
Lemma contains_app_l s t sub : contains s sub = true -> contains (s ++ t) sub = true.
Proof.
  unfold contains. induction s as [|c s IH].
  - rewrite index_of_nil. destruct (startswith [] sub) eqn:E; [|done]. intros _.
    by rewrite index_of_startswith by by apply startswith_app_l.
  - rewrite <- app_comm_cons, !index_of_cons.
    destruct (startswith (c :: s) sub) eqn:E.
    + by rewrite app_comm_cons, startswith_app_l.
    + intros H. destruct (startswith (c :: s ++ t) sub); [done|].
      destruct (index_of s sub); [|done]. specialize (IH eq_refl).
      by destruct (index_of (s ++ t) sub).
Qed.

Lemma contains_false s sub : contains s sub = false <-> index_of s sub = None.
Proof. unfold contains. by destruct (index_of s sub). Qed.

Lemma len_unlines_cons l ls : len (unlines (l :: ls)) = (len l + 1 + len (unlines ls))%Z.
Proof. rewrite unlines_cons, len_app. unfold len. simpl. lia. Qed.

(** A text whose lines do not hold [sub] is passed over by the search,
    since a newline is no part of [sub]. *)
Lemma index_of_unlines ls rest sub :
  NL ∉ sub -> Forall (fun l => index_of l sub = None) ls ->
  index_of (unlines ls ++ rest) sub
    = (fun n => length (unlines ls) + n) <$> index_of rest sub.
Proof.
  intros Hnl. induction 1 as [|l ls Hl _ IH].
  - simpl. by destruct (index_of rest sub).
  - rewrite unlines_cons, <- app_assoc, <- app_comm_cons, index_of_sep, Hl, IH by done.
    destruct (index_of rest sub); simpl; [|done].
    f_equal. rewrite length_app. simpl. lia.
Qed.

(** ** Chunks *)
Section chunks.
Context {A : Type}.
Implicit Types (s : list A) (n k fuel : nat).

(** The slice [s[k : k + w]] at a position inside [s]. *)
Lemma slice_chunk s k (w : Z) :
  (0 < w)%Z ->
  slice s (Z.of_nat k) (Z.of_nat k + w) = take (Z.to_nat w) (drop k s).
Proof.
  intros Hw. unfold slice. rewrite !clamp_nonneg by lia.
  destruct (decide (k + Z.to_nat w <= length s)).
  - replace (_ - _) with (Z.to_nat w) by lia. f_equal. f_equal. lia.
  - destruct (decide (k <= length s)).
    + replace (Nat.min (Z.to_nat (Z.of_nat k)) (length s)) with k by lia.
      rewrite !take_ge; rewrite ?length_drop; (done || lia).
    + rewrite !drop_ge by lia. by rewrite !take_nil.
Qed.

(** The slices [encrypt_to_block] takes over [range(0, len(s), w)] are the
    chunks of [s]. *)
Lemma map_slice_range_go fuel s k (w : Z) :
  (0 < w)%Z ->
  map (fun i => slice s i (i + w)) (range_go fuel (Z.of_nat k) (len s) w)
    = chunks_go fuel (Z.to_nat w) (drop k s).
Proof.
  intros Hw. revert k. induction fuel as [|fuel IH]; intros k; [done|].
  simpl. unfold len. destruct (Z.ltb_spec (Z.of_nat k) (Z.of_nat (length s))).
  - destruct (drop k s) as [|x t] eqn:E.
    { apply (f_equal length) in E. rewrite length_drop in E. simpl in E. lia. }
    rewrite <- E. simpl. rewrite slice_chunk by done. f_equal.
    replace (Z.of_nat k + w)%Z with (Z.of_nat (k + Z.to_nat w)) by lia.
    fold (len s). rewrite IH. f_equal. rewrite drop_drop. done.
  - by rewrite drop_ge by lia.
Qed.

Lemma map_slice_range s (w : Z) :
  (0 < w)%Z ->
  map (fun i => slice s i (i + w)) (range0 (len s) w) = chunks (Z.to_nat w) s.
Proof.
  intros Hw. unfold range0, chunks. rewrite (map_slice_range_go _ s 0 w Hw).
  unfold len. by rewrite Nat2Z.id.
Qed.

Lemma concat_chunks_go fuel n s :
  0 < n -> length s <= fuel -> concat (chunks_go fuel n s) = s.
Proof.
  intros Hn. revert s. induction fuel as [|fuel IH]; intros s Hs.
  { by destruct s; [|simpl in Hs; lia]. }
  destruct s as [|x s]; [done|]. cbn [chunks_go concat].
  rewrite IH; [apply take_drop|]. rewrite length_drop. simpl in *. lia.
Qed.

(** The chunks of [s] add up to [s]. *)
Lemma concat_chunks n s : 0 < n -> concat (chunks n s) = s.
Proof. intros Hn. by apply concat_chunks_go. Qed.

Lemma chunks_go_length fuel n s :
  0 < n -> Forall (fun c => 0 < length c <= n) (chunks_go fuel n s).
Proof.
  intros Hn. revert s. induction fuel as [|fuel IH]; intros s; [constructor|].
  destruct s as [|x s]; [constructor|]. cbn [chunks_go]. constructor; [|apply IH].
  rewrite length_take. simpl. lia.
Qed.

(** No chunk is empty and none is longer than [n]. *)
Lemma chunks_length n s : 0 < n -> Forall (fun c => 0 < length c <= n) (chunks n s).
Proof. apply chunks_go_length. Qed.

Lemma chunks_go_full fuel n s c :
  0 < n -> length s <= fuel -> c ∈ removelast (chunks_go fuel n s) -> length c = n.
Proof.
  intros Hn. revert s. induction fuel as [|fuel IH]; intros s Hs; [by intros ?%elem_of_nil|].
  destruct s as [|x s]; [by intros ?%elem_of_nil|]. cbn [chunks_go].
  destruct (chunks_go fuel n (drop n (x :: s))) as [|d ds] eqn:E.
  { by intros ?%elem_of_nil. }
  cbn [removelast]. intros [->|Hc]%elem_of_cons.
  - rewrite length_take. destruct fuel; [done|].
    destruct (drop n (x :: s)) eqn:E'; [done|].
    apply (f_equal length) in E'. rewrite length_drop in E'. simpl in *. lia.
  - apply (IH (drop n (x :: s))); [|by rewrite E].
    rewrite length_drop. simpl in *. lia.
Qed.

(** Every chunk but the last is [n] long. *)
Lemma chunks_full n s c : 0 < n -> c ∈ removelast (chunks n s) -> length c = n.
Proof. intros Hn. by apply chunks_go_full. Qed.

Lemma chunks_nil n : chunks n (@nil A) = [].
Proof. done. Qed.

Lemma chunks_elem n s c x : 0 < n -> c ∈ chunks n s -> x ∈ c -> x ∈ s.
Proof.
  intros Hn Hc Hx. rewrite <- (concat_chunks n s Hn).
  by apply (elem_of_concat _ _ c).
Qed.
End chunks.

(** ** Joining *)

Lemma join_cons sep x y l : join sep (x :: y :: l) = x ++ sep ++ join sep (y :: l).
Proof. done. Qed.

(** Removing the separator from a join of pieces that do not hold it gives
    the pieces back to back. *)
Lemma filter_join c ls :
  Forall (fun l => c ∉ l) ls ->
  filter (fun x => x <> c) (join [c] ls) = concat ls.
Proof.
  assert (Hfil : forall l : str, c ∉ l -> filter (fun x => x <> c) l = l).
  { intros l Hl. induction l as [|b l IH]; [done|].
    apply not_elem_of_cons in Hl as [? ?]. rewrite filter_cons_True by done.
    by rewrite IH. }
  induction 1 as [|x ls Hx Hls IH]; [done|].
  destruct ls as [|y ls].
  - simpl. rewrite app_nil_r. by apply Hfil.
  - rewrite join_cons, !filter_app, Hfil, IH by done.
    by rewrite filter_cons_False by naive_solver.
Qed.

Lemma Forall_join (P : ascii -> Prop) sep ls :
  Forall P sep -> Forall (Forall P) ls -> Forall P (join sep ls).
Proof.
  intros Hsep. induction 1 as [|x ls Hx Hls IH]; [constructor|].
  destruct ls as [|y ls]; [done|].
  rewrite join_cons, !Forall_app. auto.
Qed.

(** ** [range] *)
Section range.
Implicit Types (fuel : nat) (i stop step : Z).

(** With a positive step the positions end by themselves: once the fuel
    covers the distance to [stop], more fuel gives the same list. *)
Lemma range_go_enough fuel fuel' i stop step :
  (0 < step)%Z -> Z.to_nat (stop - i) <= fuel -> Z.to_nat (stop - i) <= fuel' ->
  range_go fuel i stop step = range_go fuel' i stop step.
Proof.
  intros Hstep. revert fuel' i.
  induction fuel as [|fuel IH]; intros fuel' i Hf Hf'.
  - destruct fuel' as [|fuel']; [done|]. simpl. destruct (Z.ltb_spec i stop); [lia|done].
  - simpl. destruct (Z.ltb_spec i stop); [|by destruct fuel'; simpl; rewrite ?(proj2 (Z.ltb_ge _ _))].
    destruct fuel' as [|fuel']; [lia|]. simpl. rewrite (proj2 (Z.ltb_lt _ _)) by done.
    f_equal. apply IH; lia.
Qed.

Lemma div_up_nonpos n step :
  (0 < step)%Z -> (n <= 0)%Z -> Z.to_nat ((n + step - 1) / step) = 0.
Proof.
  intros Hstep Hn. assert ((n + step - 1) / step < 1)%Z; [|lia].
  apply Z.div_lt_upper_bound; lia.
Qed.

(** The number of positions is the distance over the step, rounded up. *)
Lemma length_range_go fuel i stop step :
  (0 < step)%Z -> Z.to_nat (stop - i) <= fuel ->
  length (range_go fuel i stop step) = Z.to_nat ((stop - i + step - 1) / step).
Proof.
  intros Hstep. revert i. induction fuel as [|fuel IH]; intros i Hf; simpl.
  { rewrite div_up_nonpos; lia. }
  destruct (Z.ltb_spec i stop); simpl; [|rewrite div_up_nonpos; lia].
  rewrite IH by lia.
  replace (stop - i + step - 1)%Z with (stop - (i + step) + step - 1 + 1 * step)%Z by lia.
  rewrite Z.div_add by lia. rewrite Z2Nat.inj_add; [lia| |lia]. apply Z.div_pos; lia.
Qed.
End range.
