(* ===== verification/PyFormat.v ===== *)
(** * PyFormat: numbers in text and [str.format]

    [src/crippy.py] formats a number with thousands separators and fills
    it into a template with two [{}] fields.  This file defines [str] of
    an integer, the format specification [,] and [str.format] for
    templates whose fields are all [{}]; a doubled brace stands for a
    brace, as in Python.  Fields with a name, an index or a format
    specification do not occur in the sources and are not modelled: the
    model answers them with [ValueError]. *)

From Stdlib Require Import Ascii ZArith Lia.
From stdpp Require Import base tactics option list strings.
From S2P Require Import Prelude PyStr.

Module Fmt.

(** The decimal digit of a number below ten. *)
Definition digit (n : N) : ascii := Py.chr (48 + n).

(** The decimal digits of [n], most significant first, in front of [acc]. *)
Fixpoint digits_go (fuel : nat) (n : N) (acc : str) : str :=
  match fuel with
  | O => acc
  | S fuel' =>
    let acc' := digit (n mod 10) :: acc in
    if (n <? 10)%N then acc' else digits_go fuel' (n / 10) acc'
  end.

(** The binary size of a number bounds the number of its decimal digits. *)
Definition digits (n : N) : str := digits_go (S (N.to_nat (N.size n))) n [].

(** [str(n)] *)
Definition str_of_int (n : Z) : str :=
  (if (n <? 0)%Z then ["-"%char] else []) ++ digits (Z.abs_N n).

(** Digits, least significant first, with a comma after every third that
    is followed by another. *)
Fixpoint group3 (l : str) : str :=
  match l with
  | a :: b :: c :: (_ :: _) as rest => a :: b :: c :: ","%char :: group3 rest
  | _ => l
  end.

(** [f"{n:,}"] *)
Definition format_thousands (n : Z) : str :=
  (if (n <? 0)%Z then ["-"%char] else []) ++ rev (group3 (rev (digits (Z.abs_N n)))).

(** [template.format(args)] for a template whose fields are all [{}]. *)
Fixpoint format (template : str) (args : list str) : result str :=
  match template with
  | [] => Ok []
  | c :: t' =>
    if Ascii.eqb c "{" then
      match t' with
      | d :: t'' =>
        if Ascii.eqb d "}" then
          match args with
          | a :: args' => (fun s => a ++ s) <$> format t'' args'
          | [] => Raise IndexError
          end
        else if Ascii.eqb d "{" then (fun s => c :: s) <$> format t'' args
        else Raise ValueError
      | [] => Raise ValueError
      end
    else if Ascii.eqb c "}" then
      match t' with
      | d :: t'' =>
        if Ascii.eqb d "}" then (fun s => c :: s) <$> format t'' args
        else Raise ValueError
      | [] => Raise ValueError
      end
    else (fun s => c :: s) <$> format t' args
  end.

End Fmt.

(** ** What the digits stand for *)
Module FmtFacts.
Import Fmt.

(** The number a string of decimal digits stands for. *)
Definition value (s : str) : N :=
  fold_left (fun a c => 10 * a + (Py.ord c - 48))%N s 0%N.

(** The integer a string of digits with an optional sign stands for. *)
Definition int_value (s : str) : Z :=
  match s with
  | "-"%char :: s' => - Z.of_N (value s')
  | _ => Z.of_N (value s)
  end.

(** A decimal digit. *)
Definition is_digit (c : ascii) : bool := (48 <=? Py.ord c)%N && (Py.ord c <=? 57)%N.

(** A string without braces. *)
Definition plain (s : str) : bool :=
  forallb (fun c => negb (Ascii.eqb c "{") && negb (Ascii.eqb c "}")) s.

Lemma below_ten d : (d < 10)%N -> In d [0; 1; 2; 3; 4; 5; 6; 7; 8; 9]%N.
Proof.
  intros Hd. assert (exists k, k < 10 /\ d = N.of_nat k) as (k & Hk & ->)
    by (exists (N.to_nat d); lia).
  do 10 (destruct k as [|k]; [simpl; tauto|]). lia.
Qed.

Lemma digit_ord d : (d < 10)%N -> (Py.ord (digit d) - 48)%N = d.
Proof. intros Hd%below_ten. simpl in Hd. by destruct_or!; subst. Qed.

Lemma digit_isdigit d : (d < 10)%N -> is_digit (digit d) = true.
Proof. intros Hd%below_ten. simpl in Hd. by destruct_or!; subst. Qed.

Lemma digits_go_S fuel n acc :
  digits_go (S fuel) n acc
    = if (n <? 10)%N then digit (n mod 10) :: acc
      else digits_go fuel (n / 10) (digit (n mod 10) :: acc).
Proof. done. Qed.

Lemma digits_go_app fuel n acc : digits_go fuel n acc = digits_go fuel n [] ++ acc.
Proof.
  induction fuel as [|fuel IH] in n, acc |- *; [done|]. simpl.
  destruct (n <? 10)%N; [done|]. rewrite IH, (IH _ [_]). by rewrite <- app_assoc.
Qed.

Lemma value_snoc s c : value (s ++ [c]) = (10 * value s + (Py.ord c - 48))%N.
Proof. unfold value. by rewrite fold_left_app. Qed.

(** Fuel above the binary size of the number is enough. *)
Lemma digits_go_value fuel n :
  (n < 2 ^ N.of_nat fuel)%N -> value (digits_go (S fuel) n []) = n.
Proof.
  induction fuel as [|fuel IH] in n |- *; intros Hn.
  - assert (n = 0%N) as -> by (simpl in Hn; lia). done.
  - rewrite digits_go_S. destruct (N.ltb_spec n 10) as [Hlt|Hge].
    + unfold value. simpl. rewrite digit_ord by by apply N.mod_lt.
      rewrite N.mod_small by done. lia.
    + rewrite digits_go_app, value_snoc, digit_ord by by apply N.mod_lt.
      rewrite IH; [by rewrite (N.div_mod n 10) at 3|].
      apply N.Div0.div_lt_upper_bound.
      rewrite Nat2N.inj_succ, N.pow_succ_r' in Hn. lia.
Qed.

Lemma digits_go_isdigit fuel n acc :
  forallb is_digit acc = true -> forallb is_digit (digits_go fuel n acc) = true.
Proof.
  induction fuel as [|fuel IH] in n, acc |- *; [done|]. intros Hacc. rewrite digits_go_S.
  assert (forallb is_digit (digit (n mod 10) :: acc) = true) as Hd.
  { simpl. by rewrite digit_isdigit, Hacc by by apply N.mod_lt. }
  destruct (n <? 10)%N; [done|]. by apply IH.
Qed.

Lemma digits_isdigit n : forallb is_digit (digits n) = true.
Proof. by apply digits_go_isdigit. Qed.

Lemma digits_value_N n : value (digits n) = n.
Proof.
  unfold digits. apply digits_go_value. rewrite N2Nat.id. apply N.size_gt.
Qed.

(** [str.format] copies what has no braces. *)
Lemma format_plain s t args :
  plain s = true -> format (s ++ t) args = (fun r => s ++ r) <$> format t args.
Proof.
  induction s as [|c s IH]; [cbn [app]; by destruct (format t args)|].
  unfold plain. cbn [forallb]. rewrite !andb_true_iff, !negb_true_iff.
  intros [[Ho Hc] Hs]. cbn [format app]. rewrite Ho, Hc, IH by done.
  by destruct (format t args).
Qed.

Lemma int_value_digits s : forallb is_digit s = true -> int_value s = Z.of_N (value s).
Proof.
  destruct s as [|c s]; [done|]. cbn [forallb]. intros [Hc _]%andb_true_iff.
  by destruct c as [[] [] [] [] [] [] [] []].
Qed.

(** No digit is a comma. *)
Definition not_comma (c : ascii) : bool := negb (Ascii.eqb c ",").

Lemma digit_not_comma c : is_digit c = true -> not_comma c = true.
Proof. by destruct c as [[] [] [] [] [] [] [] []]. Qed.

Lemma group3_more a b c d l :
  group3 (a :: b :: c :: d :: l) = a :: b :: c :: ","%char :: group3 (d :: l).
Proof. done. Qed.

Lemma filter_group3 l :
  forallb not_comma l = true -> List.filter not_comma (group3 l) = l.
Proof.
  induction l as [|a|a b|a b c l IH] using list_ind3; cbn [forallb];
    rewrite ?andb_true_iff.
  - done.
  - intros [Ha _]. by cbn; rewrite Ha.
  - intros (Ha & Hb & _). by cbn; rewrite Ha, Hb.
  - intros (Ha & Hb & Hc & Hl). specialize (IH Hl).
    destruct l as [|d l]; [by cbn; rewrite Ha, Hb, Hc|].
    rewrite group3_more. cbn [List.filter]. rewrite Ha, Hb, Hc.
    cbn [not_comma Ascii.eqb Bool.eqb negb]. by rewrite IH.
Qed.

Lemma digits_not_comma m : forallb not_comma (rev (digits m)) = true.
Proof.
  apply List.forallb_forall. intros c Hc%List.in_rev. apply digit_not_comma.
  pose proof (digits_isdigit m) as Hd. rewrite List.forallb_forall in Hd. by apply Hd.
Qed.

Lemma filter_thousands m :
  List.filter not_comma (rev (group3 (rev (digits m)))) = digits m.
Proof.
  by rewrite List.filter_rev, filter_group3, rev_involutive by apply digits_not_comma.
Qed.

(** [str] of an integer is read back as the integer: the digits
    [str_of_int] produces, with the sign, stand for the number, so the
    loop that produces them runs long enough for every number. *)
Lemma str_of_int_value n : int_value (str_of_int n) = n.
Proof.
  unfold str_of_int. destruct (Z.ltb_spec n 0) as [Hn|Hn].
  - cbn [app int_value]. rewrite digits_value_N. lia.
  - cbn [app]. rewrite int_value_digits, digits_value_N by apply digits_isdigit. lia.
Qed.

(** The thousands separators are put between the digits of the
    number and change nothing else: [format_thousands] without its commas
    is [str_of_int]. *)
Theorem format_thousands_digits n :
  List.filter not_comma (format_thousands n) = str_of_int n.
Proof.
  unfold format_thousands, str_of_int. rewrite List.filter_app, filter_thousands.
  by destruct (n <? 0)%Z.
Qed.

(** A field takes the next argument. *)
Lemma format_field t x args :
  format ("{}" ++ t) (x :: args) = (fun r => x ++ r) <$> format t args.
Proof. done. Qed.

(** A template of two fields is filled with the two arguments. *)
Lemma format_two_fields a b c x y :
  plain a = true -> plain b = true -> plain c = true ->
  format (a ++ "{}" ++ b ++ "{}" ++ c) [x; y] = Ok (a ++ x ++ b ++ y ++ c).
Proof.
  intros Ha Hb Hc. rewrite <- (app_nil_r c) at 1.
  rewrite (format_plain a), format_field, (format_plain b), format_field by done.
  rewrite (format_plain c) by done. simpl. by rewrite app_nil_r.
Qed.

End FmtFacts.
