(* ===== verification/PyRe.v ===== *)
(** * PyRe: the fragment of Python's [re] the sources use

    A pattern is a sequence of items: one character of a class, a greedy
    star or plus of a class, the anchors [^] and [$], and the two ends of a
    named group.  Every pattern of [src/crippy_app.py] is of this shape.
    [exec] is the backtracking matcher of [re]: a star or plus first takes
    the longest run and gives characters back one at a time until the rest
    of the pattern matches.  [rmatch] is [re.match] and [search] is
    [re.search] (the leftmost position at which the pattern matches). *)

From Stdlib Require Import Ascii ZArith Lia.
From stdpp Require Import base tactics option list strings.
From S2P Require Import Prelude PyStr.

Module Re.

(** A class of characters. *)
Inductive atom : Type :=
  | Lit (c : ascii)                 (* the character c *)
  | Space                           (* \s *)
  | Any                             (* . : any character but a newline *)
  | OneOf (cs : str) (ws : bool)    (* [...] : one of cs, or \s when ws *)
  | NoneOf (cs : str) (ws : bool).  (* [^...] *)

Inductive item : Type :=
  | One (a : atom)
  | Star (a : atom)
  | Plus (a : atom)
  | Bol
  | Eol
  | Open (g : string)
  | Close (g : string).

Definition regex : Type := list item.

(** The groups of a match object, by name. *)
Definition groups : Type := list (string * str).

(** Two characters are equal, modulo case under [re.IGNORECASE]. *)
Definition char_eq (icase : bool) (a b : ascii) : bool :=
  if icase then Ascii.eqb (Py.lower_char a) (Py.lower_char b) else Ascii.eqb a b.

Definition in_set (icase : bool) (cs : str) (ws : bool) (c : ascii) : bool :=
  existsb (fun x => char_eq icase x c) cs || ws && Py.isspace c.

Definition atom_matches (icase : bool) (a : atom) (c : ascii) : bool :=
  match a with
  | Lit x => char_eq icase x c
  | Space => Py.isspace c
  | Any => negb (Ascii.eqb c Py.NL)
  | OneOf cs ws => in_set icase cs ws c
  | NoneOf cs ws => negb (in_set icase cs ws c)
  end.

(** [$] without [re.MULTILINE]: the end of the string, or just before a
    newline that ends the string. *)
Definition at_eol (s : str) : bool :=
  match s with
  | [] => true
  | [c] => Ascii.eqb c Py.NL
  | _ => false
  end.

(** The first of [f n], [f (n-1)], ..., [f lo] that succeeds. *)
Fixpoint first_down {X} (f : nat -> option X) (n lo : nat) : option X :=
  if n <? lo then None
  else match f n with
       | Some x => Some x
       | None => match n with
                 | O => None
                 | S n' => first_down f n' lo
                 end
       end.

(** [m[g]] for a group that took part in the match. *)
Definition group (m : groups) (g : string) : str :=
  match list_find (fun p => p.1 = g) m with
  | Some (_, p) => p.2
  | None => []
  end.

(** The text a group captured: what was consumed since it was opened. *)
Definition captured (opens : groups) (g : string) (s : str) : str :=
  let s0 := group opens g in take (length s0 - length s) s0.

(** [exec icase r bol s opens caps] matches [r] at the head of [s]; [bol]
    says whether [s] is the whole subject, [opens] holds for each open
    group the input that remained when it was opened. *)
Fixpoint exec (icase : bool) (r : regex) (bol : bool) (s : str)
    (opens caps : groups) : option groups :=
  match r with
  | [] => Some caps
  | One a :: r' =>
    match s with
    | c :: s' => if atom_matches icase a c then exec icase r' false s' opens caps else None
    | [] => None
    end
  | Star a :: r' =>
    first_down (fun k => exec icase r' (bol && (k =? 0)) (drop k s) opens caps)
      (length (take_while (atom_matches icase a) s)) 0
  | Plus a :: r' =>
    first_down (fun k => exec icase r' false (drop k s) opens caps)
      (length (take_while (atom_matches icase a) s)) 1
  | Bol :: r' => if bol then exec icase r' bol s opens caps else None
  | Eol :: r' => if at_eol s then exec icase r' bol s opens caps else None
  | Open g :: r' => exec icase r' bol s ((g, s) :: opens) caps
  | Close g :: r' => exec icase r' bol s opens ((g, captured opens g s) :: caps)
  end.

(** [re.match(r, s, flags)] *)
Definition rmatch (icase : bool) (r : regex) (s : str) : option groups :=
  exec icase r true s [] [].

Fixpoint search_go (icase : bool) (r : regex) (bol : bool) (s : str) : option groups :=
  match exec icase r bol s [] [] with
  | Some m => Some m
  | None => match s with
            | [] => None
            | _ :: s' => search_go icase r false s'
            end
  end.

(** [re.search(r, s, flags)] *)
Definition search (icase : bool) (r : regex) (s : str) : option groups :=
  search_go icase r true s.

(** A literal word as a pattern. *)
Definition word (w : str) : regex := map (fun c => One (Lit c)) w.

(** ** How the matcher runs

    The lemmas below are the steps of a run of [exec] that never has to
    give a character back: a literal that matches, a star or plus whose
    longest run is followed by something the rest of the pattern accepts. *)

Lemma first_down_unfold {X} (f : nat -> option X) n lo :
  first_down f n lo
    = if n <? lo then None
      else match f n with
           | Some x => Some x
           | None => match n with O => None | S n' => first_down f n' lo end
           end.
Proof. by destruct n. Qed.

Lemma first_down_hit {X} (f : nat -> option X) n lo x :
  lo <= n -> f n = Some x -> first_down f n lo = Some x.
Proof.
  intros Hlo Hf. rewrite first_down_unfold, Hf.
  by destruct (Nat.ltb_spec n lo); [lia|].
Qed.

Lemma first_down_zero {X} (f : nat -> option X) : first_down f 0 0 = f 0.
Proof. rewrite first_down_unfold. simpl. by destruct (f 0). Qed.

Lemma first_down_none {X} (f : nat -> option X) lo : 0 < lo -> first_down f 0 lo = None.
Proof. intros H. rewrite first_down_unfold. by destruct (Nat.ltb_spec 0 lo); [|lia]. Qed.

Section exec_steps.
Context (icase : bool).
Implicit Types (r : regex) (a : atom) (s u t : str) (opens caps m : groups).

Lemma exec_One_hit a r bol c s opens caps :
  atom_matches icase a c = true ->
  exec icase (One a :: r) bol (c :: s) opens caps = exec icase r false s opens caps.
Proof. intros H. simpl. by rewrite H. Qed.

Lemma exec_One_miss a r bol c s opens caps :
  atom_matches icase a c = false ->
  exec icase (One a :: r) bol (c :: s) opens caps = None.
Proof. intros H. simpl. by rewrite H. Qed.

Lemma exec_Bol r s opens caps :
  exec icase (Bol :: r) true s opens caps = exec icase r true s opens caps.
Proof. done. Qed.

Lemma exec_Eol r bol s opens caps :
  at_eol s = true ->
  exec icase (Eol :: r) bol s opens caps = exec icase r bol s opens caps.
Proof. intros H. simpl. by rewrite H. Qed.

Lemma exec_Open g r bol s opens caps :
  exec icase (Open g :: r) bol s opens caps = exec icase r bol s ((g, s) :: opens) caps.
Proof. done. Qed.

Lemma exec_Close g r bol s opens caps :
  exec icase (Close g :: r) bol s opens caps
    = exec icase r bol s opens ((g, captured opens g s) :: caps).
Proof. done. Qed.

(** A star whose class does not match the next character takes nothing. *)
Lemma exec_Star_skip a r bol t opens caps :
  stops (atom_matches icase a) t = true ->
  exec icase (Star a :: r) bol t opens caps = exec icase r bol t opens caps.
Proof.
  intros Ht. cbn [exec].
  rewrite <- (app_nil_l t) at 1. rewrite take_while_app_stops by done.
  simpl length. rewrite first_down_zero. simpl. by rewrite andb_true_r.
Qed.

(** A star takes the longest run [u] when the rest of the pattern accepts
    what follows. *)
Lemma exec_Star_greedy a r bol u t opens caps m :
  u <> [] ->
  forallb (atom_matches icase a) u = true ->
  stops (atom_matches icase a) t = true ->
  exec icase r false t opens caps = Some m ->
  exec icase (Star a :: r) bol (u ++ t) opens caps = Some m.
Proof.
  intros Hu Hall Ht Hr. cbn [exec]. rewrite take_while_app_stops by done.
  apply first_down_hit; [lia|]. rewrite drop_app_length.
  destruct u; [done|]. simpl. by rewrite andb_false_r.
Qed.

Lemma exec_Plus_greedy a r bol u t opens caps m :
  u <> [] ->
  forallb (atom_matches icase a) u = true ->
  stops (atom_matches icase a) t = true ->
  exec icase r false t opens caps = Some m ->
  exec icase (Plus a :: r) bol (u ++ t) opens caps = Some m.
Proof.
  intros Hu Hall Ht Hr. cbn [exec]. rewrite take_while_app_stops by done.
  apply first_down_hit; [destruct u; simpl; [done|lia]|]. by rewrite drop_app_length.
Qed.

(** A star inside the pattern takes the run [u], empty or not. *)
Lemma exec_Star_run a r u t opens caps m :
  forallb (atom_matches icase a) u = true ->
  stops (atom_matches icase a) t = true ->
  exec icase r false t opens caps = Some m ->
  exec icase (Star a :: r) false (u ++ t) opens caps = Some m.
Proof.
  intros Hall Ht Hr. destruct u as [|c u]; [by rewrite exec_Star_skip|].
  by apply exec_Star_greedy.
Qed.

(** A star that ends the pattern accepts whatever follows. *)
Lemma exec_Star_last a bol s opens caps : exec icase [Star a] bol s opens caps = Some caps.
Proof. cbn [exec]. by apply first_down_hit; [lia|]. Qed.

(** A plus whose class does not match the next character fails. *)
Lemma exec_Plus_miss a r bol t opens caps :
  stops (atom_matches icase a) t = true ->
  exec icase (Plus a :: r) bol t opens caps = None.
Proof.
  intros Ht. cbn [exec].
  rewrite <- (app_nil_l t) at 1. rewrite take_while_app_stops by done.
  apply first_down_none. lia.
Qed.

(** A literal word is matched character by character. *)
Lemma exec_word (w w' : str) r bol s opens caps :
  w <> [] ->
  Forall2 (fun x y => char_eq icase x y = true) w w' ->
  exec icase (word w ++ r) bol (w' ++ s) opens caps = exec icase r false s opens caps.
Proof.
  intros Hw H. revert bol. induction H as [|x y w w' Hxy H IH]; intros bol; [done|].
  change (word (x :: w) ++ r) with (One (Lit x) :: word w ++ r).
  rewrite <- app_comm_cons, exec_One_hit by done.
  destruct w as [|x' w]; [|by apply IH].
  by apply Forall2_nil_inv_l in H as ->.
Qed.

Lemma group_hd g v m : group ((g, v) :: m) g = v.
Proof. unfold group. simpl. by rewrite decide_True. Qed.

(** The text of a group that was opened when [v ++ s] remained and is
    closed when [s] remains is [v]. *)
Lemma captured_hd g v s opens : captured ((g, v ++ s) :: opens) g s = v.
Proof.
  unfold captured. rewrite group_hd, length_app.
  replace (_ + _ - _) with (length v) by lia. apply take_app_length.
Qed.

(** ** [search] passes over a prefix that cannot start a match *)
Lemma search_go_skip a r bol p s :
  forallb (fun c => negb (atom_matches icase a c)) p = true ->
  search_go icase (One a :: r) bol (p ++ s)
    = search_go icase (One a :: r) (bol && bool_decide (p = [])) s.
Proof.
  revert bol. induction p as [|c p IH]; intros bol Hp.
  - by rewrite andb_true_r.
  - apply andb_true_iff in Hp as [Hc Hp]. apply negb_true_iff in Hc.
    rewrite <- app_comm_cons. cbn [search_go]. rewrite exec_One_miss by done.
    rewrite IH by done. by rewrite andb_false_r.
Qed.

Lemma search_go_hit r bol s m :
  exec icase r bol s [] [] = Some m -> search_go icase r bol s = Some m.
Proof. intros H. destruct s; simpl; by rewrite H. Qed.

End exec_steps.

End Re.
