(* ===== verification/Base64.v ===== *)
(** * Base64: [base64.urlsafe_b64encode]

    The encoder of RFC 4648 with the url-safe alphabet, which
    [derive_key_from_password] applies to the derived key.  Three bytes
    become four characters; a last group of one or two bytes is padded
    with [=]. *)

From Stdlib Require Import Ascii ZArith Lia.
From stdpp Require Import base tactics option list.
From S2P Require Import Prelude PyStr.

(** The alphabet of [base64.urlsafe_b64encode]. *)
Definition is_b64url (c : ascii) : bool :=
  let n := Py.ord c in
  ((65 <=? n) && (n <=? 90) || (97 <=? n) && (n <=? 122) || (48 <=? n) && (n <=? 57)
   || (n =? 45) || (n =? 95) || (n =? 61))%N.

Module B64.

(** The character of a six-bit value. *)
Definition digit (n : N) : ascii :=
  (if n <? 26 then Py.chr (65 + n)
   else if n <? 52 then Py.chr (97 + (n - 26))
   else if n <? 62 then Py.chr (48 + (n - 52))
   else if n =? 62 then "-"%char else "_"%char)%N.

Definition pad : ascii := "="%char.

Definition sextets3 (a b c : N) : list N :=
  [a / 4; (a mod 4) * 16 + b / 16; (b mod 16) * 4 + c / 64; c mod 64]%N.

Fixpoint encode_go (l : list N) : str :=
  match l with
  | a :: b :: c :: l' => map digit (sextets3 a b c) ++ encode_go l'
  | [a; b] => map digit (take 3 (sextets3 a b 0)) ++ [pad]
  | [a] => map digit (take 2 (sextets3 a 0 0)) ++ [pad; pad]
  | [] => []
  end.

(** [base64.urlsafe_b64encode(b)] *)
Definition urlsafe_b64encode (b : bytes) : bytes :=
  map byte_of_ascii (encode_go (map Byte.to_N b)).

(** ** The shape of the output *)

Lemma digit_b64url n : (n < 64)%N -> is_b64url (digit n) = true.
Proof.
  intros Hn.
  assert (H : forallb (fun k => is_b64url (digit (N.of_nat k))) (seq 0 64) = true)
    by (vm_compute; reflexivity).
  rewrite forallb_forall in H. specialize (H (N.to_nat n)).
  rewrite N2Nat.id in H. apply H, in_seq. lia.
Qed.

Lemma sextets3_bounded a b c :
  (a < 256)%N -> (b < 256)%N -> (c < 256)%N ->
  Forall (fun n => (n < 64)%N) (sextets3 a b c).
Proof.
  intros Ha Hb Hc. unfold sextets3.
  pose proof (N.mod_upper_bound a 4). pose proof (N.mod_upper_bound b 16).
  pose proof (N.mod_upper_bound c 64).
  assert (a / 4 < 64)%N by (apply N.Div0.div_lt_upper_bound; lia).
  assert (b / 16 < 16)%N by (apply N.Div0.div_lt_upper_bound; lia).
  assert (c / 64 < 4)%N by (apply N.Div0.div_lt_upper_bound; lia).
  repeat constructor; lia.
Qed.

Lemma digits_b64url l :
  Forall (fun n => (n < 64)%N) l -> forallb is_b64url (map digit l) = true.
Proof.
  induction 1 as [|n l Hn _ IH]; [done|]. simpl map. cbn [forallb].
  by rewrite digit_b64url, IH.
Qed.

(** The output is text of the url-safe alphabet. *)
Lemma encode_go_b64url l :
  Forall (fun n => (n < 256)%N) l -> forallb is_b64url (encode_go l) = true.
Proof.
  induction l as [|a|a b|a b c l IH] using list_ind3; [done|..];
    rewrite ?Forall_cons; cbn [encode_go]; rewrite forallb_app.
  - intros (Ha & _).
    rewrite digits_b64url; [done|]. by apply Forall_take, sextets3_bounded.
  - intros (Ha & Hb & _).
    rewrite digits_b64url; [done|]. by apply Forall_take, sextets3_bounded.
  - intros (Ha & Hb & Hc & Hl). rewrite IH by done.
    rewrite digits_b64url; [done|]. by apply sextets3_bounded.
Qed.

Lemma urlsafe_b64encode_b64url b :
  forallb is_b64url (map ascii_of_byte (urlsafe_b64encode b)) = true.
Proof.
  unfold urlsafe_b64encode. rewrite map_map.
  rewrite (map_ext _ id), map_id by apply ascii_of_byte_of_ascii.
  apply encode_go_b64url, Forall_forall. intros n (x & <- & _)%list_elem_of_In%in_map_iff.
  pose proof (Byte.to_N_bounded x). lia.
Qed.

(** Four characters for every three bytes, the last group padded. *)
Lemma encode_go_length l : length (encode_go l) = 4 * ((length l + 2) / 3).
Proof.
  induction l as [| | |a b c l IH] using list_ind3; [done..|].
  cbn [encode_go length app map sextets3]. rewrite IH.
  replace (S (S (S (length l))) + 2) with (1 * 3 + (length l + 2)) by lia.
  rewrite Nat.div_add_l by done. lia.
Qed.

Lemma urlsafe_b64encode_length b :
  length (urlsafe_b64encode b) = 4 * ((length b + 2) / 3).
Proof. unfold urlsafe_b64encode. by rewrite length_map, encode_go_length, length_map. Qed.

End B64.
