(* ===== verification/Interfaces.v ===== *)
(** * Interfaces: the libraries the sources call

    [src/crippy_app.py] calls [zlib], the text codecs of [str.encode] and
    [bytes.decode], [cryptography.fernet.Fernet], [PBKDF2HMAC],
    [secrets.token_bytes], [pathlib.Path] and [open]; [src/usersettings.py]
    calls [json] and [platformdirs].  None of them is code of the
    repository, so each is a type class: its operations are what the
    sources call, its laws are what the theorems about the sources assume
    of the library.  [Instances] gives an implementation of every class, so
    that the laws are satisfiable and the theorems can be run.  The file
    system is the record [FS]; [same_but] relates two file systems that
    differ in the files of a list only. *)

From Stdlib Require Import Ascii ZArith Lia.
From stdpp Require Import base tactics option list strings gmap.
From S2P Require Import Prelude PyStr Base64.

(** [zlib.compress] and [zlib.decompress]; the latter raises [zlib.error]
    on data that is no zlib stream. *)
Class Zlib : Type := {
  zlib_compress : bytes -> bytes;
  zlib_decompress : bytes -> result bytes;
  zlib_decompress_compress b : zlib_decompress (zlib_compress b) = Ok b;
}.

(** [text.encode(charset)] and [data.decode(charset)].  They raise
    [LookupError] for an unknown charset and a [UnicodeError] for text or
    bytes the charset cannot represent.  Decoding undoes encoding, and the
    name of a charset is looked up modulo case. *)
Class Codecs : Type := {
  codec_encode : str -> str -> result bytes;
  codec_decode : str -> bytes -> result str;
  codec_decode_encode cs s b :
    codec_encode cs s = Ok b -> codec_decode cs b = Ok s;
  codec_encode_lower cs s : codec_encode (Py.lower cs) s = codec_encode cs s;
  codec_decode_lower cs b : codec_decode (Py.lower cs) b = codec_decode cs b;
}.

(** [Fernet(key)], [Fernet.encrypt] and [Fernet.decrypt].  The constructor
    raises [ValueError] unless the key is the url-safe BASE64 form of 32
    bytes.  [encrypt] reads the clock and draws an initialisation vector;
    the two are its [fernet_entropy] argument.  The url-safe BASE64 form of
    any 32 bytes is a key.  A token is url-safe BASE64
    text, and [decrypt] under the same key returns what was encrypted;
    [decrypt] raises [InvalidToken] on anything else it cannot authenticate. *)
Class Fernet : Type := {
  fernet_entropy : Type;
  fernet_key_ok : bytes -> bool;
  fernet_encrypt : bytes -> fernet_entropy -> bytes -> bytes;
  fernet_decrypt : bytes -> bytes -> result bytes;
  fernet_key_accepts raw :
    length raw = 32 -> fernet_key_ok (B64.urlsafe_b64encode raw) = true;
  fernet_decrypt_encrypt key r data :
    fernet_key_ok key = true ->
    fernet_decrypt key (fernet_encrypt key r data) = Ok data;
  fernet_token_b64url key r data :
    forallb is_b64url (map ascii_of_byte (fernet_encrypt key r data)) = true;
}.

(** The token [Fernet.encrypt] returns, as text. *)
Definition token_text `{!Fernet} (key : bytes) (r : fernet_entropy) (data : bytes) : str :=
  map ascii_of_byte (fernet_encrypt key r data).

(** [PBKDF2HMAC(algorithm=SHA256, length, salt, iterations).derive(password)]:
    a function of its arguments that returns [length] bytes. *)
Class Pbkdf2 : Type := {
  pbkdf2_hmac_sha256 : nat -> bytes -> Z -> bytes -> bytes;
  pbkdf2_length n salt iterations password :
    length (pbkdf2_hmac_sha256 n salt iterations password) = n;
}.

(** [secrets.token_bytes(n)]: [n] bytes read from a source of randomness,
    which is the argument [secrets_source]; [ValueError] for a negative [n]. *)
Class Secrets : Type := {
  secrets_source : Type;
  token_bytes : secrets_source -> Z -> result bytes;
  token_bytes_ok src n :
    (0 <= n)%Z -> exists b, token_bytes src n = Ok b /\ Py.len b = n;
  token_bytes_neg src n : (n < 0)%Z -> token_bytes src n = Raise ValueError;
}.

(** [pathlib.Path]: construction from a string, [.name], [.parts], [.parent],
    the [/] operator and [str()]. *)
Class PathLib : Type := {
  path : Type;
  Path : str -> path;
  path_name : path -> str;
  path_parts : path -> list str;
  path_parent : path -> path;
  path_join : path -> path -> path;
  path_str : path -> str;
}.

(** [json.dumps] and [json.loads] on a dictionary with string keys and
    values of type [V]: loading what was dumped gives the dictionary back;
    [loads] raises [ValueError] on a text that is no JSON document. *)
Class Json (V : Type) : Type := {
  json_dumps : gmap str V -> str;
  json_loads : str -> result (gmap str V);
  json_loads_dumps d : json_loads (json_dumps d) = Ok d;
}.

(** [PlatformDirs(appname, appauthor, roaming).user_config_path] *)
Class PlatformDirs `{!PathLib} : Type := {
  user_config_path : str -> option str -> bool -> path;
}.

(** The files [open] reads and writes, by the string form of their path,
    and the directories.  A path in [fs_locked] cannot be opened for
    writing.  Opening a file does not look at its directory. *)
Record FS : Type := {
  fs_files : gmap str bytes;
  fs_locked : gset str;
  fs_dirs : gset str;
}.

(** The file system with the file [p] holding [data]. *)
Definition fs_put (fs : FS) (p : str) (data : bytes) : FS :=
  {| fs_files := <[p := data]> (fs_files fs); fs_locked := fs_locked fs;
     fs_dirs := fs_dirs fs |}.

(** [open(p, "rb").read()] *)
Definition fs_read (fs : FS) (p : str) : result bytes :=
  match fs_files fs !! p with
  | Some data => Ok data
  | None => Raise OSError
  end.

(** [open(p, "wb")]: the file is created or truncated. *)
Definition fs_open_wb (fs : FS) (p : str) : result FS :=
  if decide (p ∈ fs_locked fs) then Raise OSError else Ok (fs_put fs p []).

(** [fh.write(data)] on the file opened at [p]: the file system after the
    write and the number of bytes written. *)
Definition fs_write (fs : FS) (p : str) (data : bytes) : FS * Z :=
  (fs_put fs p data, Py.len data).

(** [Path(p).exists()] *)
Definition fs_exists (fs : FS) (p : str) : bool :=
  bool_decide (is_Some (fs_files fs !! p)) || bool_decide (p ∈ fs_dirs fs).

(** [Path(p).mkdir(parents=True)] for a path that does not exist. *)
Definition fs_mkdir (fs : FS) (p : str) : FS :=
  {| fs_files := fs_files fs; fs_locked := fs_locked fs; fs_dirs := {[ p ]} ∪ fs_dirs fs |}.

(** [Path(p).read_text(encoding)]: the file is opened, then decoded. *)
Definition fs_read_text `{!Codecs} (fs : FS) (p encoding : str) : result str :=
  b ← fs_read fs p; codec_decode encoding b.

(** [Path(p).write_text(data, encoding)]: the file is opened for writing,
    which creates or truncates it, and then the text is encoded and
    written; the result is the number of characters written. *)
Definition fs_write_text `{!Codecs} (fs : FS) (p : str) (data encoding : str)
    : FS * result Z :=
  match fs_open_wb fs p with
  | Raise e => (fs, Raise e)
  | Ok fs1 =>
    match codec_encode encoding data with
    | Raise e => (fs1, Raise e)
    | Ok b => (fs_put fs1 p b, Ok (Py.len data))
    end
  end.

(** [same_but keep fs fs']: the file systems differ at most in the files
    of [keep]. *)
Definition same_but (keep : list str) (fs fs' : FS) : Prop :=
  fs_locked fs' = fs_locked fs /\ fs_dirs fs' = fs_dirs fs /\
  forall p, p ∉ keep -> fs_files fs' !! p = fs_files fs !! p.

(** ** The characters of a token

    A character of the url-safe alphabet is ASCII, is no white space and is
    none of the characters the block format gives a meaning. *)
Lemma is_b64url_ascii c : is_b64url c = true -> Py.is_ascii c = true.
Proof. by destruct c as [[] [] [] [] [] [] [] []]. Qed.

Lemma is_b64url_isspace c : is_b64url c = true -> Py.isspace c = false.
Proof. by destruct c as [[] [] [] [] [] [] [] []]. Qed.

Lemma is_b64url_plain c :
  is_b64url c = true -> c <> Py.NL /\ c <> ":"%char /\ c <> " "%char.
Proof. by destruct c as [[] [] [] [] [] [] [] []]. Qed.

(** ** Reading what was written *)

Lemma fs_read_put fs p data : fs_read (fs_put fs p data) p = Ok data.
Proof. unfold fs_read, fs_put. simpl. by rewrite lookup_insert_eq. Qed.

Lemma fs_files_put_ne fs p q data :
  q <> p -> fs_files (fs_put fs p data) !! q = fs_files fs !! q.
Proof. intros Hq. unfold fs_put. simpl. by rewrite lookup_insert_ne. Qed.

Lemma fs_read_put_ne fs p q data : q <> p -> fs_read (fs_put fs p data) q = fs_read fs q.
Proof. intros Hq. unfold fs_read. by rewrite fs_files_put_ne. Qed.

Lemma fs_put_put fs p d1 d2 : fs_put (fs_put fs p d1) p d2 = fs_put fs p d2.
Proof. unfold fs_put. simpl. by rewrite insert_insert_eq. Qed.

Lemma fs_exists_put fs p data : fs_exists (fs_put fs p data) p = true.
Proof.
  unfold fs_exists, fs_put. simpl. rewrite lookup_insert_eq.
  by rewrite bool_decide_eq_true_2 by eauto.
Qed.

#[export] Instance same_but_refl keep : Reflexive (same_but keep).
Proof. by intros fs. Qed.

#[export] Instance same_but_trans keep : Transitive (same_but keep).
Proof.
  intros fs1 fs2 fs3 (Hl & Hd & Hf) (Hl' & Hd' & Hf'). split_and!; [congruence..|].
  intros p Hp. by rewrite Hf', Hf.
Qed.

Lemma same_but_put keep fs p data : p ∈ keep -> same_but keep fs (fs_put fs p data).
Proof.
  intros Hp. split_and!; [done..|]. intros q Hq. apply lookup_insert_ne. by intros ->.
Qed.

Lemma same_but_open_wb keep fs fs' p :
  p ∈ keep -> fs_open_wb fs p = Ok fs' -> same_but keep fs fs'.
Proof.
  unfold fs_open_wb. intros Hp. destruct (decide _); [done|]. intros [= <-].
  by apply same_but_put.
Qed.

Lemma same_but_write_text `{!Codecs} keep fs p data encoding :
  p ∈ keep -> same_but keep fs (fs_write_text fs p data encoding).1.
Proof.
  intros Hp. unfold fs_write_text.
  destruct (fs_open_wb fs p) as [fs1|] eqn:E; [|done].
  apply (same_but_open_wb keep) in E; [|done].
  destruct (codec_encode _ _); simpl; [|done]. etrans; [done|]. by apply same_but_put.
Qed.

Section token_text.
Context `{!Fernet}.

Lemma token_text_b64url key r data : forallb is_b64url (token_text key r data) = true.
Proof. apply fernet_token_b64url. Qed.

Lemma token_text_ascii key r data : forallb Py.is_ascii (token_text key r data) = true.
Proof.
  apply forallb_Forall. eapply Forall_impl; [apply forallb_Forall, token_text_b64url|].
  apply is_b64url_ascii.
Qed.

(** A token decodes as ASCII, and its text encodes to the token. *)
Lemma decode_ascii_token key r data :
  Py.decode_ascii (fernet_encrypt key r data) = Ok (token_text key r data).
Proof.
  unfold Py.decode_ascii. fold (token_text key r data). by rewrite token_text_ascii.
Qed.

Lemma encode_ascii_token key r data :
  Py.encode_ascii (token_text key r data) = Ok (fernet_encrypt key r data).
Proof.
  unfold Py.encode_ascii. rewrite token_text_ascii. f_equal.
  unfold token_text. rewrite map_map. rewrite <- (map_id (fernet_encrypt _ _ _)) at 2.
  apply map_ext. apply byte_of_ascii_of_byte.
Qed.
End token_text.
