(* ===== verification/Instances.v ===== *)
(** * Instances: an implementation of every interface

    The classes of [Interfaces] stand for libraries outside the repository.
    This file implements each of them by a small executable stand-in and
    proves its laws, so that the laws are consistent and every theorem of
    the development can be applied to concrete data.  The stand-ins are not
    the libraries: [Rle] is a run-length coder where the program uses zlib,
    [Toy] a keyed hexadecimal envelope where it uses Fernet, [ToyJson] a
    list of hexadecimal fields where it uses JSON.  The codecs come in two
    forms: [charsets_codecs] does not know the name [ansi], as Python on
    every system but Windows, and [windows_codecs] does. *)

From Stdlib Require Import Ascii ZArith Lia.
From stdpp Require Import base tactics option list strings gmap.
From S2P Require Import Prelude PyStr Base64 Interfaces.

(** ** A run-length coder for [Zlib] *)
Module Rle.

Definition byte_of_count (n : nat) : Byte.byte := default Byte.x00 (Byte.of_nat n).

(** The runs of equal bytes, none longer than 255. *)
Fixpoint runs (b : bytes) : list (nat * Byte.byte) :=
  match b with
  | [] => []
  | x :: b' =>
    match runs b' with
    | (n, y) :: r =>
      if decide (x = y) then
        if n <? 255 then (S n, y) :: r else (1, x) :: (n, y) :: r
      else (1, x) :: (n, y) :: r
    | [] => [(1, x)]
    end
  end.

Definition expand (l : list (nat * Byte.byte)) : bytes :=
  l ≫= (fun p => replicate p.1 p.2).

Definition pack (l : list (nat * Byte.byte)) : bytes :=
  l ≫= (fun p => [byte_of_count p.1; p.2]).

Fixpoint unpack (b : bytes) : result (list (nat * Byte.byte)) :=
  match b with
  | [] => Ok []
  | n :: x :: b' =>
    if Byte.to_nat n =? 0 then Raise ZlibError
    else (fun r => (Byte.to_nat n, x) :: r) <$> unpack b'
  | [_] => Raise ZlibError
  end.

Definition compress (b : bytes) : bytes := pack (runs b).
Definition decompress (b : bytes) : result bytes := expand <$> unpack b.

Lemma expand_runs b : expand (runs b) = b.
Proof.
  induction b as [|x b IH]; [done|]. simpl.
  destruct (runs b) as [|[n y] r]; [by rewrite <- IH|].
  rewrite <- IH.
  destruct (decide (x = y)) as [->|]; [destruct (n <? 255)|]; by unfold expand.
Qed.

Lemma runs_bounded b : Forall (fun p => 1 <= p.1 <= 255) (runs b).
Proof.
  induction b as [|x b IH]; simpl; [constructor|].
  destruct (runs b) as [|[n y] r]; [rewrite Forall_singleton; simpl; lia|].
  apply Forall_cons in IH as [Hn Hr]; simpl in Hn.
  destruct (decide (x = y)); [destruct (Nat.ltb_spec n 255)|];
    rewrite ?Forall_cons; simpl; repeat split; (lia || done).
Qed.

Lemma to_nat_byte_of_count n : n <= 255 -> Byte.to_nat (byte_of_count n) = n.
Proof.
  intros Hn. unfold byte_of_count.
  destruct (Byte.of_nat n) as [y|] eqn:E; simpl.
  - by apply Byte.to_of_nat.
  - apply Byte.of_nat_None_iff in E. lia.
Qed.

Lemma unpack_pack l : Forall (fun p => 1 <= p.1 <= 255) l -> unpack (pack l) = Ok l.
Proof.
  induction 1 as [|[n x] l [Hn1 Hn2] _ IH]; [done|].
  simpl in *. change (pack ((n, x) :: l)) with (byte_of_count n :: x :: pack l).
  simpl. rewrite to_nat_byte_of_count by done.
  destruct (Nat.eqb_spec n 0); [lia|]. by rewrite IH.
Qed.

Lemma rle_decompress_compress b : decompress (compress b) = Ok b.
Proof.
  unfold decompress, compress.
  rewrite unpack_pack by apply runs_bounded. simpl. by rewrite expand_runs.
Qed.

End Rle.

#[export] Instance rle_zlib : Zlib := {|
  zlib_compress := Rle.compress;
  zlib_decompress := Rle.decompress;
  zlib_decompress_compress := Rle.rle_decompress_compress;
|}.

(** ** Hexadecimal text, the envelope of the stand-in for [Fernet] *)
Module Hex.

Definition digit (n : N) : Byte.byte :=
  byte_of_ascii (if (n <? 10)%N then Py.chr (48 + n) else Py.chr (87 + n)).

Definition value (c : Byte.byte) : option N :=
  let n := Byte.to_N c in
  if ((48 <=? n) && (n <=? 57))%N then Some (n - 48)%N
  else if ((97 <=? n) && (n <=? 102))%N then Some (n - 87)%N
  else None.

Definition encode1 (x : Byte.byte) : bytes :=
  let n := Byte.to_N x in [digit (n / 16); digit (n mod 16)].

Definition encode (b : bytes) : bytes := b ≫= encode1.

Definition decode1 (h l : Byte.byte) : option Byte.byte :=
  n1 ← value h; n2 ← value l; Byte.of_N (n1 * 16 + n2).

Fixpoint decode (b : bytes) : option bytes :=
  match b with
  | [] => Some []
  | h :: l :: b' => x ← decode1 h l; (x ::.) <$> decode b'
  | [_] => None
  end.

Lemma hex_decode1_encode1 x : decode1 (digit (Byte.to_N x / 16)) (digit (Byte.to_N x mod 16)) = Some x.
Proof. by destruct x. Qed.

Lemma hex_decode_encode b : decode (encode b) = Some b.
Proof.
  induction b as [|x b IH]; [done|].
  change (encode (x :: b)) with (digit (Byte.to_N x / 16) :: digit (Byte.to_N x mod 16) :: encode b).
  cbn [decode]. rewrite hex_decode1_encode1. simpl. by rewrite IH.
Qed.

Lemma hex_encode1_b64url x : forallb is_b64url (map ascii_of_byte (encode1 x)) = true.
Proof. by destruct x. Qed.

Lemma hex_encode_b64url b : forallb is_b64url (map ascii_of_byte (encode b)) = true.
Proof.
  induction b as [|x b IH]; [done|].
  change (encode (x :: b)) with (encode1 x ++ encode b).
  rewrite map_app, forallb_app, hex_encode1_b64url, IH. done.
Qed.

End Hex.

(** ** A stand-in for [Fernet]

    A key is accepted when it has the 44 characters of 32 BASE64-encoded
    bytes.  A token is the hexadecimal form of a digest of the key, the
    byte of entropy and the data; [decrypt] refuses a token whose digest is
    not that of its key. *)
Module Toy.

Definition digest (key : bytes) : Byte.byte :=
  default Byte.x00 (Byte.of_N (foldr (fun x n => (Byte.to_N x + 31 * n) mod 256)%N 7%N key)).

Definition key_ok (key : bytes) : bool := bool_decide (length key = 44).

Definition encrypt (key : bytes) (r : Byte.byte) (data : bytes) : bytes :=
  Hex.encode (digest key :: r :: data).

Definition decrypt (key token : bytes) : result bytes :=
  match Hex.decode token with
  | Some (d :: _ :: data) => if decide (d = digest key) then Ok data else Raise InvalidToken
  | _ => Raise InvalidToken
  end.

Lemma toy_key_accepts raw : length raw = 32 -> key_ok (B64.urlsafe_b64encode raw) = true.
Proof.
  intros H. unfold key_ok. by rewrite B64.urlsafe_b64encode_length, H.
Qed.

Lemma toy_decrypt_encrypt key r data :
  key_ok key = true -> decrypt key (encrypt key r data) = Ok data.
Proof.
  intros _. unfold decrypt, encrypt. rewrite Hex.hex_decode_encode.
  by rewrite decide_True.
Qed.

Lemma toy_encrypt_b64url key r data :
  forallb is_b64url (map ascii_of_byte (encrypt key r data)) = true.
Proof. apply Hex.hex_encode_b64url. Qed.

End Toy.

#[export] Instance toy_fernet : Fernet := {|
  fernet_entropy := Byte.byte;
  fernet_key_ok := Toy.key_ok;
  fernet_encrypt := Toy.encrypt;
  fernet_decrypt := Toy.decrypt;
  fernet_key_accepts := Toy.toy_key_accepts;
  fernet_decrypt_encrypt := Toy.toy_decrypt_encrypt;
  fernet_token_b64url := Toy.toy_encrypt_b64url;
|}.

(** ** Stand-ins for [PBKDF2HMAC] and [secrets] *)

#[export] Instance toy_pbkdf2 : Pbkdf2 := {|
  pbkdf2_hmac_sha256 n salt iterations password := resize n Byte.x00 (password ++ salt);
  pbkdf2_length n salt iterations password := length_resize _ _ _;
|}.

Definition toy_token_bytes (src : bytes) (n : Z) : result bytes :=
  if (n <? 0)%Z then Raise ValueError else Ok (resize (Z.to_nat n) Byte.x00 src).

Lemma toy_token_bytes_ok src n :
  (0 <= n)%Z -> exists b, toy_token_bytes src n = Ok b /\ Py.len b = n.
Proof.
  intros Hn. unfold toy_token_bytes. destruct (Z.ltb_spec n 0); [lia|].
  eexists; split; [done|]. unfold Py.len. rewrite length_resize. lia.
Qed.

Lemma toy_token_bytes_neg src n : (n < 0)%Z -> toy_token_bytes src n = Raise ValueError.
Proof. intros Hn. unfold toy_token_bytes. by destruct (Z.ltb_spec n 0); [|lia]. Qed.

#[export] Instance toy_secrets : Secrets := {|
  secrets_source := bytes;
  token_bytes := toy_token_bytes;
  token_bytes_ok := toy_token_bytes_ok;
  token_bytes_neg := toy_token_bytes_neg;
|}.

(** ** Three charsets for [Codecs]: ASCII, Latin-1 and UTF-8

    UTF-8 is implemented for the code points a [str] of this development
    can hold (one or two bytes); its decoder raises on a sequence that
    would decode to a code point above 255. *)
Module Charsets.

Definition byte_of_N (n : N) : Byte.byte := default Byte.x00 (Byte.of_N n).

Inductive kind : Type := Ascii7 | Latin1 | Utf8.

Definition lookup (cs : str) : option kind :=
  let n := Py.lower cs in
  if decide (n = lit "ascii") then Some Ascii7
  else if decide (n = lit "us-ascii") then Some Ascii7
  else if decide (n = lit "latin-1") then Some Latin1
  else if decide (n = lit "latin1") then Some Latin1
  else if decide (n = lit "iso-8859-1") then Some Latin1
  else if decide (n = lit "utf-8") then Some Utf8
  else if decide (n = lit "utf8") then Some Utf8
  else None.

Definition utf8_encode1 (c : ascii) : bytes :=
  let n := Py.ord c in
  if (n <? 128)%N then [byte_of_N n]
  else [byte_of_N (192 + n / 64); byte_of_N (128 + n mod 64)].

Fixpoint utf8_decode (b : bytes) : result str :=
  match b with
  | [] => Ok []
  | x :: b' =>
    let n := Byte.to_N x in
    if (n <? 128)%N then (Py.chr n ::.) <$> utf8_decode b'
    else if ((n =? 194) || (n =? 195))%N then
      match b' with
      | y :: b'' =>
        let m := Byte.to_N y in
        if ((128 <=? m) && (m <? 192))%N
        then (Py.chr ((n - 192) * 64 + (m - 128)) ::.) <$> utf8_decode b''
        else Raise UnicodeDecodeError
      | [] => Raise UnicodeDecodeError
      end
    else Raise UnicodeDecodeError
  end.

Definition encode (cs s : str) : result bytes :=
  match lookup cs with
  | Some Ascii7 => Py.encode_ascii s
  | Some Latin1 => Ok (map byte_of_ascii s)
  | Some Utf8 => Ok (s ≫= utf8_encode1)
  | None => Raise LookupError
  end.

Definition decode (cs : str) (b : bytes) : result str :=
  match lookup cs with
  | Some Ascii7 => Py.decode_ascii b
  | Some Latin1 => Ok (map ascii_of_byte b)
  | Some Utf8 => utf8_decode b
  | None => Raise LookupError
  end.

Lemma utf8_decode_encode1 c b :
  utf8_decode (utf8_encode1 c ++ b) = (c ::.) <$> utf8_decode b.
Proof. by destruct c as [[] [] [] [] [] [] [] []]. Qed.

Lemma utf8_decode_encode s : utf8_decode (s ≫= utf8_encode1) = Ok s.
Proof.
  induction s as [|c s IH]; [done|].
  change ((c :: s) ≫= utf8_encode1) with (utf8_encode1 c ++ (s ≫= utf8_encode1)).
  by rewrite utf8_decode_encode1, IH.
Qed.

Lemma map_ascii_of_byte_of_ascii (s : str) : map ascii_of_byte (map byte_of_ascii s) = s.
Proof.
  induction s as [|c s IH]; simpl; [done|].
  by rewrite ascii_of_byte_of_ascii, IH.
Qed.

Lemma charsets_decode_encode cs s b : encode cs s = Ok b -> decode cs b = Ok s.
Proof.
  unfold encode, decode. destruct (lookup cs) as [[]|]; [..|done].
  - unfold Py.encode_ascii, Py.decode_ascii.
    destruct (forallb Py.is_ascii s) eqn:E; intros [= <-].
    by rewrite map_ascii_of_byte_of_ascii, E.
  - intros [= <-]. by rewrite map_ascii_of_byte_of_ascii.
  - intros [= <-]. apply utf8_decode_encode.
Qed.

End Charsets.

Lemma charsets_lookup_lower cs : Charsets.lookup (Py.lower cs) = Charsets.lookup cs.
Proof. unfold Charsets.lookup. by rewrite Py.lower_idemp. Qed.

Lemma charsets_encode_lower cs s : Charsets.encode (Py.lower cs) s = Charsets.encode cs s.
Proof. unfold Charsets.encode. by rewrite charsets_lookup_lower. Qed.

Lemma charsets_decode_lower cs b : Charsets.decode (Py.lower cs) b = Charsets.decode cs b.
Proof. unfold Charsets.decode. by rewrite charsets_lookup_lower. Qed.

#[export] Instance charsets_codecs : Codecs := {|
  codec_encode := Charsets.encode;
  codec_decode := Charsets.decode;
  codec_decode_encode := Charsets.charsets_decode_encode;
  codec_encode_lower := charsets_encode_lower;
  codec_decode_lower := charsets_decode_lower;
|}.

(** The codecs of a Windows system: the names [ansi] and [mbcs] stand for
    the ANSI code page, for which Latin-1 is taken here. *)
Definition windows_name (cs : str) : str :=
  if decide (Py.lower cs = lit "ansi") then lit "latin-1"
  else if decide (Py.lower cs = lit "mbcs") then lit "latin-1"
  else cs.

Lemma windows_name_lower cs s :
  Charsets.encode (windows_name (Py.lower cs)) s = Charsets.encode (windows_name cs) s /\
  forall b, Charsets.decode (windows_name (Py.lower cs)) b
            = Charsets.decode (windows_name cs) b.
Proof.
  unfold windows_name. rewrite Py.lower_idemp.
  repeat case_decide; try done.
  split; [apply charsets_encode_lower|apply charsets_decode_lower].
Qed.

Definition windows_codecs : Codecs := {|
  codec_encode cs := Charsets.encode (windows_name cs);
  codec_decode cs := Charsets.decode (windows_name cs);
  codec_decode_encode cs := Charsets.charsets_decode_encode (windows_name cs);
  codec_encode_lower cs s := proj1 (windows_name_lower cs s);
  codec_decode_lower cs b := proj2 (windows_name_lower cs []) b;
|}.

(** ** POSIX paths for [PathLib]

    A path is its list of components and whether it starts at the root.
    Empty components and [.] are dropped when a string is parsed, as
    [pathlib.PurePosixPath] does. *)
Module Posix.

Record t : Type := { absolute : bool; components : list str }.

(** [s.split(sep)] for a separator of one character. *)
Fixpoint split (sep : ascii) (s : str) : list str :=
  match s with
  | [] => [[]]
  | c :: s' =>
    if Ascii.eqb c sep then [] :: split sep s'
    else match split sep s' with
         | l :: ls => (c :: l) :: ls
         | [] => [[c]]
         end
  end.

Definition keep (c : str) : bool :=
  negb (bool_decide (c = [])) && negb (bool_decide (c = lit ".")).

Definition parse (s : str) : t :=
  {| absolute := Py.startswith s "/";
     components := List.filter keep (split "/" s) |}.

Definition name (p : t) : str := default [] (last (components p)).

Definition parts (p : t) : list str :=
  (if absolute p then [lit "/"] else []) ++ components p.

Definition parent (p : t) : t :=
  {| absolute := absolute p; components := removelast (components p) |}.

Definition join (a b : t) : t :=
  if absolute b then b
  else {| absolute := absolute a; components := components a ++ components b |}.

Definition to_str (p : t) : str :=
  if absolute p then lit "/" ++ Py.join "/" (components p)
  else match components p with
       | [] => lit "."
       | cs => Py.join "/" cs
       end.

End Posix.

#[export] Instance posix_pathlib : PathLib := {|
  path := Posix.t;
  Path := Posix.parse;
  path_name := Posix.name;
  path_parts := Posix.parts;
  path_parent := Posix.parent;
  path_join := Posix.join;
  path_str := Posix.to_str;
|}.

(** ** A stand-in for [json] on dictionaries of strings

    A dictionary is dumped as its keys and values in turn, each in
    hexadecimal and closed by a semicolon. *)
Module ToyJson.

Definition SEP : ascii := ";"%char.

Definition hex_of (s : str) : str := map ascii_of_byte (Hex.encode (map byte_of_ascii s)).

Definition of_hex (h : str) : option str :=
  map ascii_of_byte <$> Hex.decode (map byte_of_ascii h).

Definition field (s : str) : str := hex_of s ++ [SEP].

Definition dumps (d : gmap str str) : str :=
  concat (map (fun kv => field kv.1 ++ field kv.2) (map_to_list d)).

(** The fields of a text; [cur] holds the characters of the field being
    read, in reverse. *)
Fixpoint fields_go (cur : str) (s : str) : option (list str) :=
  match s with
  | [] => if cur is [] then Some [] else None
  | c :: s' =>
    if Ascii.eqb c SEP then x ← of_hex (rev cur); (x ::.) <$> fields_go [] s'
    else fields_go (c :: cur) s'
  end.

Fixpoint pairs (l : list str) : option (list (str * str)) :=
  match l with
  | [] => Some []
  | k :: v :: l' => ((k, v) ::.) <$> pairs l'
  | [_] => None
  end.

Definition loads (s : str) : result (gmap str str) :=
  match fields_go [] s ≫= pairs with
  | Some l => Ok (list_to_map l)
  | None => Raise ValueError
  end.

Lemma of_hex_hex_of s : of_hex (hex_of s) = Some s.
Proof.
  unfold of_hex, hex_of. rewrite map_map.
  rewrite (map_ext _ id), map_id by apply byte_of_ascii_of_byte.
  rewrite Hex.hex_decode_encode. simpl. rewrite map_map.
  by rewrite (map_ext _ id), map_id by apply ascii_of_byte_of_ascii.
Qed.

Lemma hex_of_no_SEP s : Forall (fun c => Ascii.eqb c SEP = false) (hex_of s).
Proof.
  eapply Forall_impl; [apply forallb_Forall, Hex.hex_encode_b64url|].
  intros c. simpl. by destruct c as [[] [] [] [] [] [] [] []].
Qed.

Lemma fields_go_run cur h :
  Forall (fun c => Ascii.eqb c SEP = false) h ->
  forall rest, fields_go cur (h ++ SEP :: rest)
    = x ← of_hex (rev cur ++ h); (x ::.) <$> fields_go [] rest.
Proof.
  intros Hh. revert cur. induction Hh as [|c h Hc _ IH]; intros cur rest.
  - by rewrite app_nil_r.
  - cbn [app fields_go]. rewrite Hc, IH. cbn [rev]. by rewrite <- app_assoc.
Qed.

Lemma fields_go_field s rest :
  fields_go [] (field s ++ rest) = (s ::.) <$> fields_go [] rest.
Proof.
  unfold field. rewrite <- app_assoc. cbn [app].
  rewrite fields_go_run by apply hex_of_no_SEP. cbn [rev app].
  by rewrite of_hex_hex_of.
Qed.

Lemma fields_pairs l :
  fields_go [] (concat (map (fun kv => field kv.1 ++ field kv.2) l)) ≫= pairs = Some l.
Proof.
  induction l as [|[k v] l IH]; [done|]. cbn [map concat fst snd].
  rewrite <- !app_assoc, !fields_go_field.
  destruct (fields_go [] _) as [fs|]; [|done]. simpl in *. by rewrite IH.
Qed.

Lemma toy_loads_dumps d : loads (dumps d) = Ok d.
Proof. unfold loads, dumps. by rewrite fields_pairs, list_to_map_to_list. Qed.

End ToyJson.

#[export] Instance toy_json : Json str := {|
  json_dumps := ToyJson.dumps;
  json_loads := ToyJson.loads;
  json_loads_dumps := ToyJson.toy_loads_dumps;
|}.

(** ** The configuration directory of a user on a POSIX system *)
#[export] Instance posix_platformdirs : PlatformDirs := {|
  user_config_path app_name app_author roaming :=
    Posix.parse (lit "/home/user/.config/" ++ app_name);
|}.
