(* ===== verification/DataObject.v ===== *)
(** * DataObject: the payload of [src/crippy_app.py]

    The dataclass [DataObject] is the record of the same name; its methods
    are functions that return the new object (a method that assigns to
    [self]) or a [result] (a method that can raise).  [from_file] and
    [to_file] read and write the file system [FS]. *)

From Stdlib Require Import Ascii ZArith Lia.
From stdpp Require Import base tactics option list strings gmap.
From S2P Require Import Prelude PyStr Interfaces.

(** [DataObject.DEFAULT_CHARSET] *)
Definition DEFAULT_CHARSET : str := "utf-8".

Record DataObject : Type := {
  content_type : option str;
  charset : option str;
  is_zipped : bool;
  filename : option str;
  binary_data : option bytes;
}.

#[export] Instance DataObject_eq_dec : EqDecision DataObject.
Proof. solve_decision. Defined.

(** [DataObject()]: every field at its default. *)
Definition DataObject_new : DataObject :=
  {| content_type := None; charset := None; is_zipped := false;
     filename := None; binary_data := None |}.

Definition set_content_type (v : option str) (o : DataObject) : DataObject :=
  {| content_type := v; charset := charset o; is_zipped := is_zipped o;
     filename := filename o; binary_data := binary_data o |}.

Definition set_charset (v : option str) (o : DataObject) : DataObject :=
  {| content_type := content_type o; charset := v; is_zipped := is_zipped o;
     filename := filename o; binary_data := binary_data o |}.

Definition set_filename (v : option str) (o : DataObject) : DataObject :=
  {| content_type := content_type o; charset := charset o; is_zipped := is_zipped o;
     filename := v; binary_data := binary_data o |}.

Definition set_data (z : bool) (v : bytes) (o : DataObject) : DataObject :=
  {| content_type := content_type o; charset := charset o; is_zipped := z;
     filename := filename o; binary_data := Some v |}.

Section DataObject.
Context `{!Zlib, !Codecs, !PathLib}.

(** [_store_data(self, data, zip_data)].  [zip_data] is [None] (compress
    when that makes the data shorter), [False] or [True]. *)
Definition _store_data (self : DataObject) (data : option bytes)
    (zip_data : option bool) : DataObject :=
  match data with
  | None => self
  | Some data =>
    let zipped_data := zlib_compress data in
    let zip_data :=
      match zip_data with
      | None => bool_decide (Py.len zipped_data < Py.len data)%Z
      | Some b => b
      end in
    if zip_data then set_data true zipped_data self
    else set_data false data self
  end.

(** [DataObject.from_str(text, charset, zip_data)] *)
Definition from_str (text : option str) (charset : option str)
    (zip_data : option bool) : result DataObject :=
  let data_obj := DataObject_new in
  let data_obj := set_content_type (Some (lit "text/plain")) data_obj in
  let cs := match charset with None => DEFAULT_CHARSET | Some c => c end in
  let data_obj := set_charset (Some cs) data_obj in
  let data_obj := set_filename None data_obj in
  match text with
  | Some text =>
    data ← codec_encode cs text;
    Ok (_store_data data_obj (Some data) zip_data)
  | None => Ok data_obj
  end.

(** The bytes of the object, decompressed when they are stored compressed. *)
Definition plain_data (self : DataObject) (data : bytes) : result bytes :=
  if is_zipped self then zlib_decompress data else Ok data.

(** [as_str(self, charset)] *)
Definition as_str (self : DataObject) (charset : option str) : result (option str) :=
  match binary_data self with
  | Some data =>
    let charset := match charset with None => DataObject.charset self | Some c => Some c end in
    let charset := match charset with None => DEFAULT_CHARSET | Some c => c end in
    raw ← plain_data self data;
    Some <$> codec_decode charset raw
  | None => Ok None
  end.

(** [DataObject.from_file] once its argument is a path.  The file may hold
    no data at all ([None]) only under the mocked [open] of the test
    suite; a real read returns bytes. *)
Definition from_path (fs : FS) (filename : path) (zip_data : option bool)
    : result DataObject :=
  let data_obj := DataObject_new in
  let data_obj := set_content_type (Some (lit "application/octet-stream")) data_obj in
  let data_obj := set_filename (Some (path_name filename)) data_obj in
  let data_obj := set_charset None data_obj in
  data ← fs_read fs (path_str filename);
  Ok (_store_data data_obj (Some data) zip_data).

(** [DataObject.from_file(filename, zip_data)] for a file name given as a
    string. *)
Definition from_file (fs : FS) (filename : str) (zip_data : option bool)
    : result DataObject :=
  from_path fs (Path filename) zip_data.

(** The path [to_file] writes to: the argument overrules the attribute, and
    the directory is used only for a file name of one part. *)
Definition target_of (self : DataObject) (filename directory : option str)
    : result path :=
  target_file ←
    match filename with
    | None =>
      match DataObject.filename self with
      | None => Raise (MissingFilenameException "to_file(): no filename received")
      | Some f => Ok (Path f)
      end
    | Some f => Ok (Path f)
    end;
  match directory with
  | Some d =>
    if bool_decide (Py.len (path_parts target_file) = 1%Z)
    then Ok (path_join (Path d) target_file) else Ok target_file
  | None => Ok target_file
  end.

(** [to_file(self, filename, directory)]: the file system after the call,
    and the value returned or the exception raised.  The file is opened
    (and so truncated) before the data is decompressed. *)
Definition to_file (self : DataObject) (fs : FS) (filename directory : option str)
    : FS * result (option (str * Z)) :=
  match binary_data self with
  | None => (fs, Ok None)
  | Some data =>
    match target_of self filename directory with
    | Raise e => (fs, Raise e)
    | Ok target_file =>
      match fs_open_wb fs (path_str target_file) with
      | Raise e => (fs, Raise e)
      | Ok fs1 =>
        match plain_data self data with
        | Raise e => (fs1, Raise e)
        | Ok raw =>
          let '(fs2, num_bytes) := fs_write fs1 (path_str target_file) raw in
          (fs2, Ok (Some (path_str target_file, num_bytes)))
        end
      end
    end
  end.

End DataObject.

Arguments _store_data {_} _ _ _ : simpl never.

(** ** What the payload promises

    [wf] is the invariant of the data model: a text payload carries no file
    name and a binary payload no charset. *)
Definition wf (o : DataObject) : Prop :=
  (content_type o = Some (lit "text/plain") -> filename o = None) /\
  (content_type o = Some (lit "application/octet-stream") -> charset o = None).

#[export] Instance wf_dec o : Decision (wf o).
Proof. unfold wf. apply _. Defined.

Section DataObject_facts.
Context `{!Zlib, !Codecs, !PathLib}.
Implicit Types (self o : DataObject) (data : bytes) (fs : FS).

(** The bytes a payload stands for: its data, decompressed if need be. *)
Definition content (o : DataObject) : result (option bytes) :=
  match binary_data o with
  | Some d => Some <$> plain_data o d
  | None => Ok None
  end.

Lemma _store_data_fields self (d : option bytes) zip_data :
  let o := _store_data self d zip_data in
  content_type o = content_type self /\ charset o = charset self /\
  filename o = filename self.
Proof.
  destruct d as [data|]; [|done]. unfold _store_data.
  by destruct zip_data as [[]|]; [..|case_bool_decide].
Qed.

(** What [_store_data] stores stands for the data that was passed in. *)
Lemma store_data_plain self data zip_data :
  exists stored,
    binary_data (_store_data self (Some data) zip_data) = Some stored /\
    plain_data (_store_data self (Some data) zip_data) stored = Ok data.
Proof.
  unfold _store_data, plain_data.
  destruct zip_data as [[]|]; [..|case_bool_decide]; simpl; eexists; split; try done;
    by rewrite ?zlib_decompress_compress.
Qed.

(** C5 - [_store_data] keeps the data under every compression mode: what is
    stored, decompressed when the flag says it is compressed, is the data
    that was passed in. *)
Theorem store_data_content self data zip_data :
  content (_store_data self (Some data) zip_data) = Ok (Some data).
Proof.
  unfold content, _store_data, plain_data.
  destruct zip_data as [[]|]; [..|case_bool_decide]; simpl;
    by rewrite ?zlib_decompress_compress.
Qed.

(** C7 - in the automatic mode the stored bytes are as long as the shorter of
    the data and its compressed form, and the flag is set exactly when the
    compressed form is strictly shorter. *)
Theorem store_data_auto self data :
  let o := _store_data self (Some data) None in
  Py.len <$> binary_data o
    = Some (Z.min (Py.len (zlib_compress data)) (Py.len data)) /\
  is_zipped o = bool_decide (Py.len (zlib_compress data) < Py.len data)%Z.
Proof.
  unfold _store_data. case_bool_decide; simpl; split; try done; f_equal; lia.
Qed.

(** A forced mode is obeyed whatever the sizes are. *)
Lemma store_data_forced self data b :
  let o := _store_data self (Some data) (Some b) in
  is_zipped o = b /\
  binary_data o = Some (if b then zlib_compress data else data).
Proof. by destruct b. Qed.

(** Without data nothing is stored and nothing else changes. *)
Lemma store_data_nothing self zip_data : _store_data self None zip_data = self.
Proof. done. Qed.

Lemma _store_data_wf self (d : option bytes) zip_data :
  wf self -> wf (_store_data self d zip_data).
Proof.
  unfold wf. destruct (_store_data_fields self d zip_data) as (-> & -> & ->). done.
Qed.

(** Decoding what [_store_data] stored decodes the data that was passed. *)
Lemma as_str_store_data self data zip_data arg :
  as_str (_store_data self (Some data) zip_data) arg
    = Some <$> codec_decode
        (default DEFAULT_CHARSET (from_option Some (charset self) arg)) data.
Proof.
  unfold as_str, _store_data, plain_data.
  destruct zip_data as [[]|]; [..|case_bool_decide]; simpl;
    rewrite ?zlib_decompress_compress; simpl;
    by destruct arg, (charset self).
Qed.

(** C6 - [from_str] then [as_str] gives the text back: when the charset can
    encode the text, decoding the payload returns it, under every
    compression mode; when it cannot, [from_str] raises what the codec
    raised. *)
Theorem as_str_from_str text cs zip_data :
  from_str (Some text) cs zip_data ≫= (fun o => as_str o None)
    = codec_encode (default DEFAULT_CHARSET cs) text ≫= (fun _ => Ok (Some text)).
Proof.
  unfold from_str. replace (match cs with Some c => c | None => DEFAULT_CHARSET end)
    with (default DEFAULT_CHARSET cs) by by destruct cs.
  destruct (codec_encode _ text) as [b|e] eqn:E; [|done].
  rewrite !bind_Ok, as_str_store_data. simpl. by rewrite (codec_decode_encode _ _ _ E).
Qed.

(** A payload without data has no text. *)
Lemma as_str_no_data self cs : binary_data self = None -> as_str self cs = Ok None.
Proof. unfold as_str. by intros ->. Qed.

(** Both factories build payloads that satisfy the invariant. *)
Lemma from_str_wf text cs zip_data o : from_str text cs zip_data = Ok o -> wf o.
Proof.
  unfold from_str. destruct text as [text|].
  - intros (b & _ & [= <-])%bind_Ok_inv. by apply _store_data_wf.
  - by intros [= <-].
Qed.

Lemma from_file_wf fs f zip_data o : from_file fs f zip_data = Ok o -> wf o.
Proof.
  unfold from_file, from_path. intros (b & _ & [= <-])%bind_Ok_inv. by apply _store_data_wf.
Qed.

(** ** Writing a payload to a file *)

(** Without data nothing is written. *)
Lemma to_file_no_data self fs f d :
  binary_data self = None -> to_file self fs f d = (fs, Ok None).
Proof. unfold to_file. by intros ->. Qed.

(** The argument overrules the attribute. *)
Lemma target_of_arg self f d :
  target_of self (Some f) d
    = Ok (match d with
          | Some d => if bool_decide (Py.len (path_parts (Path f)) = 1%Z)
                      then path_join (Path d) (Path f) else Path f
          | None => Path f
          end).
Proof. unfold target_of. rewrite bind_Ok. destruct d; [by case_bool_decide|done]. Qed.

Lemma target_of_attr self f d :
  filename self = Some f -> target_of self None d = target_of self (Some f) d.
Proof. unfold target_of. by intros ->. Qed.

Lemma target_of_missing self d :
  filename self = None ->
  target_of self None d
    = Raise (MissingFilenameException "to_file(): no filename received").
Proof. unfold target_of. by intros ->. Qed.

(** Without a file name, neither as argument nor in the object,
    [to_file] raises [MissingFilenameException] and leaves the file system
    as it was. *)
Theorem to_file_missing_filename self fs data d :
  binary_data self = Some data -> filename self = None ->
  to_file self fs None d
    = (fs, Raise (MissingFilenameException "to_file(): no filename received")).
Proof. intros Hb Hf. unfold to_file. by rewrite Hb, target_of_missing. Qed.

(** The run of [to_file] that succeeds: the target is opened, which empties
    it, and the bytes are written. *)
Lemma to_file_run self fs f d data raw t :
  binary_data self = Some data -> target_of self f d = Ok t ->
  path_str t ∉ fs_locked fs -> plain_data self data = Ok raw ->
  to_file self fs f d
    = (fs_put fs (path_str t) raw, Ok (Some (path_str t, Py.len raw))).
Proof.
  intros Hb Ht Hl Hraw. unfold to_file, fs_open_wb, fs_write.
  by rewrite Hb, Ht, decide_False, Hraw, fs_put_put.
Qed.

(** C26 - [to_file] writes the data, decompressed if it is stored
    compressed, to the target path and returns the path and the number of
    bytes written; afterwards the file holds exactly these bytes and no
    other file has changed. *)
Theorem to_file_writes self fs f d data raw t :
  binary_data self = Some data -> target_of self f d = Ok t ->
  path_str t ∉ fs_locked fs -> plain_data self data = Ok raw ->
  exists fs',
    to_file self fs f d = (fs', Ok (Some (path_str t, Py.len raw))) /\
    fs_read fs' (path_str t) = Ok raw /\
    forall p, p <> path_str t -> fs_files fs' !! p = fs_files fs !! p.
Proof.
  intros Hb Ht Hl Hraw. rewrite (to_file_run _ _ _ _ data raw t) by done.
  eexists. split; [done|]. split; [apply fs_read_put|].
  intros p Hp. by apply fs_files_put_ne.
Qed.

(** [to_file] on data that does not decompress: the target was opened
    for writing when the exception is raised. *)
Lemma to_file_raise self fs f d data t e :
  binary_data self = Some data -> target_of self f d = Ok t ->
  path_str t ∉ fs_locked fs -> plain_data self data = Raise e ->
  to_file self fs f d = (fs_put fs (path_str t) [], Raise e).
Proof.
  intros Hb Ht Hl Hraw. unfold to_file, fs_open_wb.
  by rewrite Hb, Ht, decide_False, Hraw.
Qed.

(** C27 - [to_file] opens its target before it decompresses the data: when
    decompression fails, the exception is raised after the file was
    created or truncated, and the file is left empty. *)
Theorem to_file_truncates self fs f d data t e :
  binary_data self = Some data -> target_of self f d = Ok t ->
  path_str t ∉ fs_locked fs -> plain_data self data = Raise e ->
  exists fs',
    to_file self fs f d = (fs', Raise e) /\ fs_read fs' (path_str t) = Ok [].
Proof.
  intros Hb Ht Hl Hraw. rewrite (to_file_raise self fs f d data t e) by done.
  eexists. split; [done|]. apply fs_read_put.
Qed.

(** A target that cannot be opened leaves the file system as it was. *)
Lemma to_file_locked self fs f d data t :
  binary_data self = Some data -> target_of self f d = Ok t ->
  path_str t ∈ fs_locked fs ->
  to_file self fs f d = (fs, Raise OSError).
Proof.
  intros Hb Ht Hl. unfold to_file, fs_open_wb. by rewrite Hb, Ht, decide_True.
Qed.

(** [from_path] reads the file and nothing else. *)
Lemma from_path_read fs fs' p zip_data :
  fs_read fs' (path_str p) = fs_read fs (path_str p) ->
  from_path fs' p zip_data = from_path fs p zip_data.
Proof. unfold from_path. by intros ->. Qed.

Lemma from_path_inv fs p zip_data o :
  from_path fs p zip_data = Ok o -> exists data, fs_read fs (path_str p) = Ok data.
Proof. unfold from_path. intros (data & Hd & _)%bind_Ok_inv. eauto. Qed.

(** [to_file] changes no file but its target. *)
Lemma to_file_frame keep self fs f d t :
  target_of self f d = Ok t -> path_str t ∈ keep ->
  same_but keep fs (to_file self fs f d).1.
Proof.
  intros Ht Hp. unfold to_file. rewrite Ht. destruct (binary_data self); [|done].
  destruct (fs_open_wb _ _) as [fs1|] eqn:E; [|done].
  apply (same_but_open_wb keep) in E; [|done].
  destruct (plain_data _ _); simpl; [|done]. etrans; [done|]. by apply same_but_put.
Qed.

End DataObject_facts.
