(* ===== verification/BlockCrypter.v ===== *)
(** * BlockCrypter: the block codec of [src/crippy_app.py]

    [BlockCrypter] extends [Fernet]: an instance holds the key and the
    default width of a block.  [encrypt_to_block] renders a [DataObject] as
    a block, [decrypt_from_block] finds the block in a text, reads its
    headers line by line and decrypts its body, and [_create_dataobject]
    turns the headers and the decrypted bytes into a [DataObject]. *)

From Stdlib Require Import Ascii ZArith Lia.
From stdpp Require Import base tactics option list strings.
From S2P Require Import Prelude PyStr PyRe Base64 Interfaces DataObject.
Import Py.

(** The default salt, [bytes.fromhex("e512060efc9b086e9951d505bab83173")]. *)
Definition SALT : bytes :=
  [Byte.xe5; Byte.x12; Byte.x06; Byte.x0e; Byte.xfc; Byte.x9b; Byte.x08; Byte.x6e;
   Byte.x99; Byte.x51; Byte.xd5; Byte.x05; Byte.xba; Byte.xb8; Byte.x31; Byte.x73].

Record BlockCrypter : Type := {
  key : bytes;
  default_width : Z;
}.

Definition _start_block : str := "===== START BLOCK =====".
Definition _end_block : str := "===== END BLOCK =====".

(** [self._block.format(content_type=..., content_disposition=...,
    content_encoding=..., data=...)] *)
Definition _block (content_type content_disposition content_encoding data : str) : str :=
  _start_block ++ [NL]
  ++ lit "Content-Type: " ++ content_type ++ [NL]
  ++ lit "Content-Disposition: " ++ content_disposition ++ [NL]
  ++ content_encoding
  ++ [NL]
  ++ data ++ [NL]
  ++ _end_block ++ [NL].

(** ** The patterns of the parser *)

(** The pattern [re_char_set]:
    [; \s* charset \s* = \s* Q* (?P<charset> C+) T*]
    where [Q] is a single or a double quote, [C] any character but a quote,
    a semicolon and white space, and [T] a quote, a semicolon or white
    space. *)
Definition re_char_set : Re.regex :=
  [Re.One (Re.Lit ";"); Re.Star Re.Space] ++ Re.word "charset"
  ++ [Re.Star Re.Space; Re.One (Re.Lit "="); Re.Star Re.Space;
      Re.Star (Re.OneOf ["'"%char; DQ] false);
      Re.Open "charset"; Re.Plus (Re.NoneOf ["'"%char; DQ; ";"%char] true);
      Re.Close "charset";
      Re.Star (Re.OneOf ["'"%char; DQ; ";"%char] true)].

(** The pattern [re_filename]:
    [; \s* filename \s* = \s* Q* (?P<filename> F+) T*]
    where [F] is any character but a quote and a semicolon (white space is
    allowed in a file name). *)
Definition re_filename : Re.regex :=
  [Re.One (Re.Lit ";"); Re.Star Re.Space] ++ Re.word "filename"
  ++ [Re.Star Re.Space; Re.One (Re.Lit "="); Re.Star Re.Space;
      Re.Star (Re.OneOf ["'"%char; DQ] false);
      Re.Open "filename"; Re.Plus (Re.NoneOf ["'"%char; DQ; ";"%char] false);
      Re.Close "filename";
      Re.Star (Re.OneOf ["'"%char; DQ; ";"%char] true)].

(** The pattern of a header line: [^ \s* name : \s* G \s* $], where [G] is
    the group [g] around a greedy star of the dot. *)
Definition re_header (name : str) (g : string) : Re.regex :=
  [Re.Bol; Re.Star Re.Space] ++ Re.word name ++ [Re.One (Re.Lit ":")]
  ++ [Re.Star Re.Space; Re.Open g; Re.Star Re.Any; Re.Close g;
      Re.Star Re.Space; Re.Eol].

(** The value of the header [name] on [line], if [line] is that header. *)
Definition header_value (name : str) (g : string) (line : str) : option str :=
  (fun m => Re.group m g) <$> Re.rmatch true (re_header name g) line.

(** ** The state of the header loop of [decrypt_from_block] *)
Record headers : Type := {
  h_content_type : option str;
  h_content_disposition : option str;
  h_content_encoding : option str;
  base64_start_pos : Z;
}.

Definition advance (n : Z) (h : headers) : headers :=
  {| h_content_type := h_content_type h;
     h_content_disposition := h_content_disposition h;
     h_content_encoding := h_content_encoding h;
     base64_start_pos := base64_start_pos h + n |}.

(** The three [re.match] tests of the loop, in their order. *)
Definition read_header (line : str) (h : headers) : headers :=
  match header_value "content-type" "type" line with
  | Some v =>
    {| h_content_type := Some v;
       h_content_disposition := h_content_disposition h;
       h_content_encoding := h_content_encoding h;
       base64_start_pos := base64_start_pos h |}
  | None =>
  match header_value "content-disposition" "disp" line with
  | Some v =>
    {| h_content_type := h_content_type h;
       h_content_disposition := Some v;
       h_content_encoding := h_content_encoding h;
       base64_start_pos := base64_start_pos h |}
  | None =>
  match header_value "content-encoding" "enc" line with
  | Some v =>
    {| h_content_type := h_content_type h;
       h_content_disposition := h_content_disposition h;
       h_content_encoding := Some v;
       base64_start_pos := base64_start_pos h |}
  | None => h
  end end end.

(** The [for] loop over the lines between the markers: a line that is not
    blank and holds no colon ends it. *)
Fixpoint scan_headers (lines : list str) (h : headers) : headers :=
  match lines with
  | [] => h
  | line :: lines' =>
    if (0 <? len (strip line))%Z then
      if contains line ":" then
        scan_headers lines' (advance (len line) (read_header line h))
      else h
    else scan_headers lines' (advance (len line) h)
  end.

Section BlockCrypter.
Context `{!Zlib, !Codecs, !PathLib, !Fernet, !Pbkdf2, !Secrets}.

(** [BlockCrypter.generate_salt(length=32)] *)
Definition generate_salt (src : secrets_source) (length : option Z) : result bytes :=
  token_bytes src (default 32%Z length).

(** [BlockCrypter.derive_key_from_password(password, salt, iterations=1_500_000)] *)
Definition derive_key_from_password (password : str) (salt : bytes)
    (iterations : option Z) : result bytes :=
  pw ← codec_encode "utf-8" password;
  Ok (B64.urlsafe_b64encode
        (pbkdf2_hmac_sha256 32 salt (default 1500000%Z iterations) pw)).

(** [BlockCrypter(key, width=70)] *)
Definition BlockCrypter_init (key : bytes) (width : option Z) : result BlockCrypter :=
  if fernet_key_ok key then Ok {| key := key; default_width := default 70%Z width |}
  else Raise ValueError.

(** The body of a block: the token, wrapped at [width] columns if
    [width > 0]. *)
Definition wrap (encrypted_data : str) (width : Z) : str :=
  if (0 <? width)%Z then
    join [NL] (map (fun i => slice encrypted_data i (i + width))
                   (range0 (len encrypted_data) width))
  else encrypted_data.

(** The two header values [encrypt_to_block] computes from the object. *)
Definition block_headers (data : DataObject) (ct0 : str) : result (str * str) :=
  let content_type := lower ct0 in
  if decide (content_type = lit "text/plain") then
    Ok (match charset data with
        | Some cs => content_type ++ lit "; charset=" ++ lower cs
        | None => content_type
        end, lit "inline")
  else if decide (content_type = lit "application/octet-stream") then
    Ok (content_type,
        match filename data with
        | Some f => lit "attachment" ++ lit "; filename=" ++ [DQ] ++ f ++ [DQ]
        | None => lit "attachment"
        end)
  else Raise (InvalidDataException
                (lit "content_type '" ++ ct0 ++ lit "' is not supported")).

(** [encrypt_to_block(self, data, width)].  [data] is [None] when the
    argument is no [DataObject]; [r] is what [Fernet.encrypt] reads from the
    clock and the random source. *)
Definition encrypt_to_block (self : BlockCrypter) (data : option DataObject)
    (width : option Z) (r : fernet_entropy) : result str :=
  match data with
  | None => Raise (InvalidDataException "got no DataObject")
  | Some data =>
  match binary_data data with
  | None => Raise (InvalidDataException "got no binary_data")
  | Some bin =>
  match content_type data with
  | None => Raise (InvalidDataException "no content_type specified")
  | Some ct0 =>
    '(content_type, content_disposition) ← block_headers data ct0;
    let content_encoding :=
      if is_zipped data then lit "Content-Encoding: gzip" ++ [NL] else [] in
    encrypted_data ← decode_ascii (fernet_encrypt (key self) r bin);
    let width := default (default_width self) width in
    Ok (_block content_type content_disposition content_encoding
               (wrap encrypted_data width))
  end end end.

(** [_create_dataobject(self, content_type, content_disposition,
    content_encoding, binary_data)] *)
Definition _create_dataobject (content_type content_disposition : str)
    (content_encoding : option str) (binary_data : bytes) : result DataObject :=
  let content_type_lower := lower content_type in
  '(obj_content_type, obj_charset, obj_filename) ←
    (if contains content_type_lower "text/plain" then
       Ok (lit "text/plain",
           (fun m => strip (Re.group m "charset"))
             <$> Re.search true re_char_set content_type_lower,
           None)
     else if contains content_type_lower "application/octet-stream" then
       Ok (lit "application/octet-stream",
           None,
           (fun m => strip (Re.group m "filename"))
             <$> Re.search true re_filename content_disposition)
     else Raise (InvalidContentException
                   (lit "_create_dataobject(): content_type is not supported: '"
                    ++ content_type ++ lit "'")));
  obj_is_zipped ←
    match content_encoding with
    | None => Ok false
    | Some ce =>
      if decide (strip (lower ce) = lit "gzip") then Ok true
      else Raise (InvalidContentException
                    (lit "_create_dataobject(): content_encoding is not supported: '"
                     ++ ce ++ lit "'"))
    end;
  Ok {| DataObject.content_type := Some obj_content_type;
        charset := obj_charset;
        is_zipped := obj_is_zipped;
        filename := obj_filename;
        DataObject.binary_data := Some binary_data |}.

(** [decrypt_from_block(self, block)] *)
Definition decrypt_from_block (self : BlockCrypter) (block : str) : result DataObject :=
  let start_block_pos := find block _start_block in
  let end_block_pos := find block _end_block in
  if bool_decide (start_block_pos = (-1)%Z) || bool_decide (end_block_pos = (-1)%Z)
  then Raise (InvalidBlockException "cannot find block markers")
  else
    let start_block_pos := (start_block_pos + len _start_block)%Z in
    let h := scan_headers (splitlines (slice block start_block_pos end_block_pos))
               {| h_content_type := None; h_content_disposition := None;
                  h_content_encoding := None; base64_start_pos := start_block_pos |} in
    match h_content_type h with
    | None => Raise (InvalidBlockException "expected 'Content-Type:' not found in block")
    | Some content_type =>
    match h_content_disposition h with
    | None =>
      Raise (InvalidBlockException "expected 'Content-Disposition:' not found in block")
    | Some content_disposition =>
      token ← encode_ascii (replace (slice block (base64_start_pos h) end_block_pos) [NL] []);
      decrypted_data ← fernet_decrypt (key self) token;
      _create_dataobject content_type content_disposition (h_content_encoding h)
                         decrypted_data
    end end.

End BlockCrypter.
