(* ===== verification/Keys.v ===== *)
(** * Keys: salts, derived keys and the constructor of [BlockCrypter]

    [generate_salt] returns as many random bytes as asked for (32 by
    default), [derive_key_from_password] returns the url-safe BASE64 form
    of the 32 bytes PBKDF2 derives, which is 44 characters of the url-safe
    alphabet, and the constructor of [BlockCrypter] accepts such a key. *)

From Stdlib Require Import Ascii ZArith Lia.
From stdpp Require Import base tactics option list strings.
From S2P Require Import Prelude PyStr Base64 Interfaces DataObject BlockCrypter.
Import Py.

Section keys.
Context `{!Codecs, !Fernet, !Pbkdf2, !Secrets}.

(** [generate_salt] returns a salt of the length asked for, 32 bytes
    when no length is given, and raises [ValueError] for a negative
    length. *)
Theorem generate_salt_length src n :
  match generate_salt src n with
  | Ok salt => len salt = default 32%Z n
  | Raise e => e = ValueError /\ (default 32 n < 0)%Z
  end.
Proof.
  unfold generate_salt. destruct (Z.ltb_spec (default 32%Z n) 0) as [Hn|Hn].
  - by rewrite token_bytes_neg.
  - by destruct (token_bytes_ok src _ Hn) as (b & -> & Hb).
Qed.

(** The key derived from the bytes of a password. *)
Lemma derive_key_ok password salt iterations pw :
  codec_encode "utf-8" password = Ok pw ->
  derive_key_from_password password salt iterations
    = Ok (B64.urlsafe_b64encode
            (pbkdf2_hmac_sha256 32 salt (default 1500000%Z iterations) pw)).
Proof. unfold derive_key_from_password. by intros ->. Qed.

(** A derived key is one [Fernet] accepts, so the constructor returns. *)
Lemma derived_key_init password salt iterations width k :
  derive_key_from_password password salt iterations = Ok k ->
  fernet_key_ok k = true /\
  BlockCrypter_init k width = Ok {| key := k; default_width := default 70%Z width |}.
Proof.
  unfold derive_key_from_password. intros (pw & _ & [= <-])%bind_Ok_inv.
  unfold BlockCrypter_init. by rewrite fernet_key_accepts by apply pbkdf2_length.
Qed.

(** C28 - a derived key is 44 characters of the url-safe alphabet, and the
    constructor of [BlockCrypter] accepts it; the width of the instance is
    the one given, 70 by default. *)
Theorem derive_key_accepted password salt iterations width k :
  derive_key_from_password password salt iterations = Ok k ->
  len k = 44%Z /\
  forallb is_b64url (map ascii_of_byte k) = true /\
  BlockCrypter_init k width = Ok {| key := k; default_width := default 70%Z width |}.
Proof.
  unfold derive_key_from_password. intros (pw & _ & [= <-])%bind_Ok_inv.
  split; [|split].
  - unfold len. by rewrite B64.urlsafe_b64encode_length, pbkdf2_length.
  - apply B64.urlsafe_b64encode_b64url.
  - unfold BlockCrypter_init. by rewrite fernet_key_accepts by apply pbkdf2_length.
Qed.

(** When no iteration count is given the key is the one for 1,500,000
    iterations (the docstring of the method says 480000). *)
Lemma derive_key_default_iterations password salt :
  derive_key_from_password password salt None
    = derive_key_from_password password salt (Some 1500000%Z).
Proof. done. Qed.

(** The constructor refuses what [Fernet] refuses. *)
Lemma init_refuses k width :
  fernet_key_ok k = false -> BlockCrypter_init k width = Raise ValueError.
Proof. unfold BlockCrypter_init. by intros ->. Qed.

End keys.
