(* ===== verification/Render.v ===== *)
(** * Render: what [encrypt_to_block] writes

    The lemmas on the encrypting half of [BlockCrypter]: the body of a block
    is the token cut into lines of the chosen width ([wrap] against the
    reference [chunks]), each input check raises its own exception, and an
    accepted object is rendered as the block [_block] with the header values
    [text_type], [disposition] and [encoding_line]. *)

From Stdlib Require Import Ascii ZArith Lia.
From stdpp Require Import base tactics option list strings sets.
From S2P Require Import Prelude PyStr PyLines Interfaces DataObject BlockCrypter.
Import Py.

(** The value of [Content-Type] for a text payload. *)
Definition text_type (cs : option str) : str :=
  match cs with
  | Some cs => lit "text/plain" ++ lit "; charset=" ++ lower cs
  | None => lit "text/plain"
  end.

(** The value of [Content-Disposition] for a binary payload. *)
Definition disposition (f : option str) : str :=
  match f with
  | Some f => lit "attachment" ++ lit "; filename=" ++ [DQ] ++ f ++ [DQ]
  | None => lit "attachment"
  end.

(** The optional header line for a compressed payload. *)
Definition encoding_line (z : bool) : str :=
  if z then lit "Content-Encoding: gzip" ++ [NL] else [].

(** ** The body of a block *)

Lemma wrap_chunks s w :
  (0 < w)%Z -> wrap s w = join [NL] (chunks (Z.to_nat w) s).
Proof.
  intros Hw. unfold wrap. destruct (Z.ltb_spec 0 w); [|lia].
  by rewrite map_slice_range.
Qed.

Lemma wrap_off s w : (w <= 0)%Z -> wrap s w = s.
Proof. intros Hw. unfold wrap. destruct (Z.ltb_spec 0 w); [lia|done]. Qed.

(** Taking the newlines out of the body gives the token back. *)
Lemma filter_wrap s w : NL ∉ s -> filter (fun c => c <> NL) (wrap s w) = s.
Proof.
  intros Hs. destruct (Z.ltb_spec 0 w) as [Hw|Hw].
  - rewrite wrap_chunks by done. rewrite filter_join; [apply concat_chunks; lia|].
    apply Forall_forall. intros c Hc Hnl. apply Hs.
    apply (chunks_elem (Z.to_nat w) s c); (done || lia).
  - rewrite wrap_off by done. clear Hw. induction s as [|b s IH]; [done|].
    apply not_elem_of_cons in Hs as [? ?]. rewrite filter_cons_True by done.
    by rewrite IH.
Qed.

(** The body holds the characters of the token and newlines, nothing else. *)
Lemma wrap_chars (P : ascii -> Prop) s w : Forall P s -> P NL -> Forall P (wrap s w).
Proof.
  intros Hs Hnl. destruct (Z.ltb_spec 0 w) as [Hw|Hw]; [|by rewrite wrap_off].
  rewrite wrap_chunks by done. apply Forall_join; [by constructor|].
  apply Forall_forall. intros c Hc. apply Forall_forall. intros x Hx.
  rewrite Forall_forall in Hs. apply Hs.
  apply (chunks_elem (Z.to_nat w) s c); (done || lia).
Qed.

(** C8 - with a positive width the body of a block is the token cut into
    lines: the lines joined by newlines are the body, back to back they are
    the token, none is empty or longer than the width, and every line but
    the last is exactly as long as the width. *)
Theorem wrap_width s w :
  (0 < w)%Z ->
  exists ls,
    wrap s w = join [NL] ls /\ concat ls = s /\
    Forall (fun l => 0 < len l <= w)%Z ls /\
    Forall (fun l => len l = w) (removelast ls).
Proof.
  intros Hw. exists (chunks (Z.to_nat w) s). split; [by apply wrap_chunks|].
  split; [apply concat_chunks; lia|]. split.
  - eapply Forall_impl; [apply (chunks_length (Z.to_nat w) s); lia|].
    unfold len. simpl. lia.
  - apply Forall_forall. intros l Hl. apply chunks_full in Hl; [|lia].
    unfold len. lia.
Qed.

Lemma wrap_width_witness :
  exists ls,
    wrap "gAAAAABjLCAYakmn8Y" 5 = join [NL] ls /\ concat ls = lit "gAAAAABjLCAYakmn8Y" /\
    Forall (fun l => 0 < len l <= 5)%Z ls /\
    Forall (fun l => len l = 5%Z) (removelast ls).
Proof. apply (wrap_width "gAAAAABjLCAYakmn8Y" 5). lia. Defined.



(** ** The checks of [encrypt_to_block] *)
Section encrypt.
Context `{!Fernet}.
Implicit Types (self : BlockCrypter) (o : DataObject) (width : option Z).

Lemma encrypt_no_object self width r :
  encrypt_to_block self None width r = Raise (InvalidDataException "got no DataObject").
Proof. done. Qed.

Lemma encrypt_no_data self o width r :
  binary_data o = None ->
  encrypt_to_block self (Some o) width r = Raise (InvalidDataException "got no binary_data").
Proof. unfold encrypt_to_block. by intros ->. Qed.

Lemma encrypt_no_type self o width r bin :
  binary_data o = Some bin -> content_type o = None ->
  encrypt_to_block self (Some o) width r
    = Raise (InvalidDataException "no content_type specified").
Proof. unfold encrypt_to_block. by intros -> ->. Qed.

Lemma block_headers_text o ct0 :
  lower ct0 = lit "text/plain" ->
  block_headers o ct0 = Ok (text_type (charset o), lit "inline").
Proof.
  intros E. unfold block_headers. rewrite E, decide_True by done.
  by destruct (charset o).
Qed.

Lemma block_headers_binary o ct0 :
  lower ct0 = lit "application/octet-stream" ->
  block_headers o ct0 = Ok (lit "application/octet-stream", disposition (filename o)).
Proof.
  intros E. unfold block_headers. rewrite E, decide_False, decide_True by done.
  by destruct (filename o).
Qed.

Lemma block_headers_other o ct0 :
  lower ct0 <> lit "text/plain" -> lower ct0 <> lit "application/octet-stream" ->
  block_headers o ct0
    = Raise (InvalidDataException (lit "content_type '" ++ ct0 ++ lit "' is not supported")).
Proof. intros E1 E2. unfold block_headers. by rewrite !decide_False. Qed.

(** What an accepted object is rendered as. *)
Lemma encrypt_render self o width r bin ct0 ct cd :
  binary_data o = Some bin -> content_type o = Some ct0 ->
  block_headers o ct0 = Ok (ct, cd) ->
  encrypt_to_block self (Some o) width r
    = Ok (_block ct cd (encoding_line (is_zipped o))
            (wrap (token_text (key self) r bin) (default (default_width self) width))).
Proof.
  intros Hb Hc Hh. unfold encrypt_to_block. rewrite Hb, Hc, Hh, bind_Ok.
  by rewrite decode_ascii_token, bind_Ok.
Qed.

(** C11 - an accepted object is rendered in the format of a block: the
    start marker, the [Content-Type] line (for a text with the charset in
    lower case), the [Content-Disposition] line (for a file with its name
    between quotes), the [Content-Encoding] line if the data is
    compressed, an empty line, the token in lines of the width, and the
    end marker, each followed by a newline. *)
Theorem encrypt_renders self o width r bin ct0 :
  binary_data o = Some bin -> content_type o = Some ct0 ->
  lower ct0 = lit "text/plain" \/ lower ct0 = lit "application/octet-stream" ->
  let text := bool_decide (lower ct0 = lit "text/plain") in
  encrypt_to_block self (Some o) width r
    = Ok (_start_block ++ [NL]
          ++ lit "Content-Type: "
          ++ (if text then text_type (charset o) else lit "application/octet-stream") ++ [NL]
          ++ lit "Content-Disposition: "
          ++ (if text then lit "inline" else disposition (filename o)) ++ [NL]
          ++ encoding_line (is_zipped o)
          ++ [NL]
          ++ wrap (token_text (key self) r bin) (default (default_width self) width) ++ [NL]
          ++ _end_block ++ [NL]).
Proof.
  intros Hb Hc [E|E] text; subst text.
  - rewrite bool_decide_eq_true_2 by done.
    by rewrite (encrypt_render self o width r bin ct0 _ _ Hb Hc (block_headers_text o ct0 E)).
  - rewrite bool_decide_eq_false_2 by by rewrite E.
    by rewrite (encrypt_render self o width r bin ct0 _ _ Hb Hc (block_headers_binary o ct0 E)).
Qed.

(** C10 - an object whose content type is neither [text/plain] nor
    [application/octet-stream], compared without case, is refused with an
    [InvalidDataException] that names the type as the object spells it. *)
Theorem encrypt_unsupported_type self o width r bin ct0 :
  binary_data o = Some bin -> content_type o = Some ct0 ->
  lower ct0 <> lit "text/plain" -> lower ct0 <> lit "application/octet-stream" ->
  encrypt_to_block self (Some o) width r
    = Raise (InvalidDataException (lit "content_type '" ++ ct0 ++ lit "' is not supported")).
Proof.
  intros Hb Hc E1 E2. unfold encrypt_to_block.
  by rewrite Hb, Hc, block_headers_other.
Qed.

(** C9 - [encrypt_to_block] returns a block exactly for an object that has
    data and a content type which is [text/plain] or
    [application/octet-stream] up to case; everything else is an
    [InvalidDataException]. *)
Theorem encrypt_accepts self o width r :
  match encrypt_to_block self (Some o) width r with
  | Ok _ =>
    is_Some (binary_data o) /\
    exists ct0, content_type o = Some ct0 /\
      (lower ct0 = lit "text/plain" \/ lower ct0 = lit "application/octet-stream")
  | Raise e =>
    (exists msg, e = InvalidDataException msg) /\
    (binary_data o = None \/ content_type o = None \/
     exists ct0, content_type o = Some ct0 /\
       lower ct0 <> lit "text/plain" /\ lower ct0 <> lit "application/octet-stream")
  end.
Proof.
  destruct (binary_data o) as [bin|] eqn:Hb.
  2: { rewrite encrypt_no_data by done. eauto. }
  destruct (content_type o) as [ct0|] eqn:Hc.
  2: { erewrite encrypt_no_type by done. eauto. }
  destruct (decide (lower ct0 = lit "text/plain")) as [E1|E1].
  { erewrite encrypt_render by eauto using block_headers_text. eauto 6. }
  destruct (decide (lower ct0 = lit "application/octet-stream")) as [E2|E2].
  { erewrite encrypt_render by eauto using block_headers_binary. eauto 6. }
  unfold encrypt_to_block. rewrite Hb, Hc, block_headers_other by done.
  split; [eauto|]. right. right. eauto.
Qed.

End encrypt.
