(* ===== verification/Parse.v ===== *)
(** * Parse: how [decrypt_from_block] reads a block

    The lemmas on the parsing half of [BlockCrypter]: what the pattern of a
    header line captures ([header_value]), how the header loop
    ([scan_headers]) passes over blank lines, header lines and the body,
    and where the markers of a block of the rendered shape are found.
    [parse_block] puts them together: a text that holds a block of that
    shape is decrypted from the body of the block and its header values
    are handed to [_create_dataobject]. *)

From Stdlib Require Import Ascii ZArith Lia.
From stdpp Require Import base tactics option list strings sets.
From S2P Require Import Prelude PyStr PyLines PyRe Base64 Interfaces DataObject BlockCrypter Render.
Import Py.

(** A value a header line can carry so that the parser reads it back: it
    is not empty, does not start with white space and holds no line
    boundary. *)
Definition header_ok (v : str) : Prop :=
  v <> [] /\ stops isspace v = true /\ no_linebreak v = true.

(** The lines between the start marker and the body of a block. *)
Definition header_lines (ct cd : str) (z : bool) : list str :=
  [] :: (lit "Content-Type: " ++ ct) :: (lit "Content-Disposition: " ++ cd)
     :: (if z then [lit "Content-Encoding: gzip"] else []) ++ [[]].

(** The state of the header loop at its start. *)
Definition headers_init (p : Z) : headers :=
  {| h_content_type := None; h_content_disposition := None;
     h_content_encoding := None; base64_start_pos := p |}.

(** The characters of a body: the url-safe alphabet and the newline. *)
Definition is_body_char (c : ascii) : bool := is_b64url c || Ascii.eqb c NL.

Definition is_NL (c : ascii) : bool := Ascii.eqb c NL.

(** The text between the markers, as [decrypt_from_block] slices it. *)
Definition region (block : str) : str :=
  slice block (find block _start_block + len _start_block) (find block _end_block).

(** ** Header lines *)

Lemma no_linebreak_NL v :
  no_linebreak v = true -> forallb (Re.atom_matches true Re.Any) v = true.
Proof.
  unfold no_linebreak. rewrite !forallb_Forall. intros H.
  eapply Forall_impl; [done|]. simpl. intros c Hc.
  by destruct (Ascii.eqb_spec c NL) as [->|].
Qed.

(** The pattern of the header [name] on the line [K: v], where [K] is
    [name] up to case, captures [v]. *)
Lemma header_value_line name g K v :
  name <> [] ->
  Forall2 (fun x y => Re.char_eq true x y = true) name K ->
  stops isspace K = true ->
  header_ok v ->
  header_value name g (K ++ ":"%char :: " "%char :: v ++ [NL]) = Some v.
Proof.
  intros Hname HK HsK (Hv & Hsv & Hnl). unfold header_value, Re.rmatch, re_header.
  cbn [app]. rewrite Re.exec_Bol.
  rewrite Re.exec_Star_skip.
  2: { destruct HK; [done|]. simpl in *. done. }
  rewrite (Re.exec_word true name K), Re.exec_One_hit by done.
  assert (stops isspace (v ++ [NL]) = true) by (by destruct v).
  rewrite (Re.exec_Star_greedy true _ _ _ [" "%char] (v ++ [NL]) _ _ [(g, v)]);
    [by simpl; rewrite Re.group_hd|done..|].
  rewrite Re.exec_Open.
  apply (Re.exec_Star_greedy true _ _ _ v [NL]); [done|by apply no_linebreak_NL|done|].
  by rewrite Re.exec_Close, Re.captured_hd.
Qed.

Lemma header_ok_app p v :
  p <> [] -> stops isspace p = true -> no_linebreak p = true -> no_linebreak v = true ->
  header_ok (p ++ v).
Proof.
  intros Hp Hs Hl Hv. split; [by destruct p|]. split; [by destruct p|].
  by apply no_linebreak_app.
Qed.

(** ** The header loop *)

Lemma advance_advance n m h : advance n (advance m h) = advance (m + n) h.
Proof. unfold advance. simpl. f_equal. lia. Qed.

Lemma advance_0 h : advance 0 h = h.
Proof. destruct h. unfold advance. simpl. f_equal. lia. Qed.

Lemma strip_len_pos s c :
  c ∈ s -> isspace c = false -> (0 <? len (strip s))%Z = true.
Proof.
  intros Hc Hs. apply Z.ltb_lt. pose proof (strip_nonblank s c Hc Hs).
  unfold len. destruct (strip s); simpl; [done|lia].
Qed.

Lemma scan_blank line ls h :
  forallb isspace line = true ->
  scan_headers (line :: ls) h = scan_headers ls (advance (len line) h).
Proof. intros H. simpl. by rewrite strip_blank. Qed.

Lemma scan_header c line ls h :
  c ∈ line -> isspace c = false -> contains line ":" = true ->
  scan_headers (line :: ls) h = scan_headers ls (advance (len line) (read_header line h)).
Proof. intros Hc Hs Hcol. cbn [scan_headers]. by rewrite (strip_len_pos line c), Hcol. Qed.

Lemma scan_stop c line ls h :
  c ∈ line -> isspace c = false -> contains line ":" = false ->
  scan_headers (line :: ls) h = h.
Proof. intros Hc Hs Hcol. cbn [scan_headers]. by rewrite (strip_len_pos line c), Hcol. Qed.

(** What [read_header] stores for each of the three headers. *)
Lemma read_header_type line h v :
  header_value "content-type" "type" line = Some v ->
  read_header line h
    = {| h_content_type := Some v; h_content_disposition := h_content_disposition h;
         h_content_encoding := h_content_encoding h;
         base64_start_pos := base64_start_pos h |}.
Proof. unfold read_header. by intros ->. Qed.

Lemma read_header_disp line h v :
  header_value "content-type" "type" line = None ->
  header_value "content-disposition" "disp" line = Some v ->
  read_header line h
    = {| h_content_type := h_content_type h; h_content_disposition := Some v;
         h_content_encoding := h_content_encoding h;
         base64_start_pos := base64_start_pos h |}.
Proof. unfold read_header. by intros -> ->. Qed.

Lemma read_header_enc line h v :
  header_value "content-type" "type" line = None ->
  header_value "content-disposition" "disp" line = None ->
  header_value "content-encoding" "enc" line = Some v ->
  read_header line h
    = {| h_content_type := h_content_type h;
         h_content_disposition := h_content_disposition h;
         h_content_encoding := Some v;
         base64_start_pos := base64_start_pos h |}.
Proof. unfold read_header. by intros -> -> ->. Qed.

Lemma header_value_type ct :
  header_ok ct ->
  header_value "content-type" "type" ((lit "Content-Type: " ++ ct) ++ [NL]) = Some ct.
Proof.
  intros H.
  apply (header_value_line "content-type" "type" "Content-Type" ct);
    [done|repeat constructor|done..].
Qed.

Lemma header_value_disp cd :
  header_ok cd ->
  header_value "content-disposition" "disp" ((lit "Content-Disposition: " ++ cd) ++ [NL])
    = Some cd.
Proof.
  intros H.
  apply (header_value_line "content-disposition" "disp" "Content-Disposition" cd);
    [done|repeat constructor|done..].
Qed.

(** A header line is not blank and holds a colon. *)
Lemma scan_header_line p v ls h :
  head p = Some "C"%char -> contains p ":" = true ->
  scan_headers (((p ++ v) ++ [NL]) :: ls) h
    = scan_headers ls (advance (len p + len v + 1) (read_header ((p ++ v) ++ [NL]) h)).
Proof.
  intros Hp Hc. rewrite (scan_header "C").
  - by rewrite !len_app.
  - destruct p; [done|]. injection Hp as ->. by left.
  - done.
  - rewrite <- app_assoc. by apply contains_app_l.
Qed.

(** The loop over the header lines of a block: it reads the three values
    and stands at the first line of the body. *)
Lemma scan_header_lines ct cd z rest p :
  header_ok ct -> header_ok cd ->
  scan_headers (map (fun l => l ++ [NL]) (header_lines ct cd z) ++ rest) (headers_init p)
    = scan_headers rest
        {| h_content_type := Some ct; h_content_disposition := Some cd;
           h_content_encoding := if z then Some (lit "gzip") else None;
           base64_start_pos := p + len (unlines (header_lines ct cd z)) |}.
Proof.
  intros Hct Hcd. unfold header_lines. cbn [map app].
  rewrite scan_blank, !scan_header_line by done.
  rewrite (read_header_type ((lit "Content-Type: " ++ ct) ++ [NL]) _ ct)
    by by apply header_value_type.
  rewrite (read_header_disp ((lit "Content-Disposition: " ++ cd) ++ [NL]) _ cd)
    by (done || by apply header_value_disp).
  rewrite !len_unlines_cons, !len_app.
  destruct z; cbn [map app].
  - rewrite (scan_header_line (lit "Content-Encoding: ") (lit "gzip")) by done.
    rewrite (read_header_enc _ _ (lit "gzip")) by done.
    rewrite scan_blank by done. f_equal. unfold advance. simpl. f_equal.
    rewrite ?len_unlines_cons, ?len_app. unfold len, unlines. simpl. lia.
  - rewrite scan_blank by done. f_equal. unfold advance. simpl. f_equal.
    rewrite ?len_unlines_cons, ?len_app. unfold len, unlines. simpl. lia.
Qed.

(** ** The header loop over whole lines

    The loop passes over a line that is blank or holds a colon, and of the
    lines it passes over the last that matches the pattern of a header
    gives the value of that header. *)

Definition is_blank (l : str) : bool := forallb isspace l.

(** A line the loop passes over. *)
Definition passable (l : str) : bool := is_blank l || contains l ":".

(** What the loop does with such a line. *)
Definition pass_line (h : headers) (l : str) : headers :=
  advance (len l + 1) (if is_blank l then h else read_header (l ++ [NL]) h).

(** The value of a header on a line, and the header a line sets: the
    three patterns are tried in their order. *)
Definition value_on (name : str) (g : string) (l : str) : option str :=
  if is_blank l then None else header_value name g (l ++ [NL]).

Definition type_on (l : str) : option str := value_on "content-type" "type" l.

Definition disp_on (l : str) : option str :=
  match type_on l with
  | Some _ => None
  | None => value_on "content-disposition" "disp" l
  end.

Definition enc_on (l : str) : option str :=
  match type_on l, disp_on l with
  | None, None => value_on "content-encoding" "enc" l
  | _, _ => None
  end.

(** The last value [f] finds on the lines, or [d] if it finds none. *)
Definition last_of (f : str -> option str) (hl : list str) (d : option str) : option str :=
  foldl (fun acc l => match f l with Some v => Some v | None => acc end) d hl.

(** The state of the loop after the lines [hl]. *)
Definition after_lines (hl : list str) (h : headers) : headers :=
  {| h_content_type := last_of type_on hl (h_content_type h);
     h_content_disposition := last_of disp_on hl (h_content_disposition h);
     h_content_encoding := last_of enc_on hl (h_content_encoding h);
     base64_start_pos := base64_start_pos h + len (unlines hl) |}.

Lemma not_blank_elem l : is_blank l = false -> exists c, c ∈ l /\ isspace c = false.
Proof.
  induction l as [|c l IH]; [done|]. simpl. destruct (isspace c) eqn:E.
  - intros (d & Hd & Hs)%IH. exists d. split; [by right|done].
  - intros _. exists c. split; [by left|done].
Qed.

Lemma scan_line l ls h :
  passable l = true ->
  scan_headers ((l ++ [NL]) :: ls) h = scan_headers ls (pass_line h l).
Proof.
  intros Hl. unfold pass_line, passable in *. destruct (is_blank l) eqn:Eb.
  - rewrite scan_blank by by apply forallb_app_iff. by rewrite len_app.
  - destruct (not_blank_elem l Eb) as (c & Hc & Hs).
    rewrite (scan_header c); [by rewrite len_app|by apply elem_of_app; left|done|].
    by apply contains_app_l.
Qed.

Lemma scan_lines hl rest h :
  forallb passable hl = true ->
  scan_headers (map (fun l => l ++ [NL]) hl ++ rest) h = scan_headers rest (foldl pass_line h hl).
Proof.
  revert h. induction hl as [|l hl IH]; intros h Hp; [done|].
  apply andb_true_iff in Hp as [Hl Hp]. cbn [map app foldl].
  by rewrite scan_line, IH.
Qed.

(** One line, field by field. *)
Lemma pass_line_fields h l :
  pass_line h l = after_lines [l] h.
Proof.
  unfold pass_line, after_lines, last_of, enc_on, disp_on, type_on, value_on, read_header.
  cbn [foldl]. rewrite len_unlines_cons. unfold unlines at 1. cbn [map concat].
  destruct (is_blank l); [|destruct (header_value "content-type" _ _);
    [|destruct (header_value "content-disposition" _ _);
      [|destruct (header_value "content-encoding" _ _)]]];
    unfold advance, len; simpl; f_equal; lia.
Qed.

Lemma after_lines_cons l hl h : after_lines (l :: hl) h = after_lines hl (after_lines [l] h).
Proof.
  unfold after_lines, last_of. cbn [foldl h_content_type h_content_disposition
    h_content_encoding base64_start_pos]. f_equal.
  rewrite !len_unlines_cons. change (len (unlines [])) with 0%Z. lia.
Qed.

Lemma pass_lines hl h : foldl pass_line h hl = after_lines hl h.
Proof.
  revert h. induction hl as [|l hl IH]; intros h.
  - destruct h. unfold after_lines, unlines, len. simpl. f_equal. lia.
  - cbn [foldl]. by rewrite IH, pass_line_fields, <- after_lines_cons.
Qed.

(** ** The body *)

Lemma is_body_char_plain c :
  is_body_char c = true -> c <> ":"%char /\ (c = NL \/ isspace c = false).
Proof. by destruct c as [[] [] [] [] [] [] [] []]; (split; [|auto]). Qed.

(** A body is passed over up to its first character that is no newline:
    the first line that is not blank holds no colon and ends the loop. *)
Lemma scan_body B h :
  forallb is_body_char B = true ->
  scan_headers (splitlines B) h = advance (len (take_while is_NL B)) h.
Proof.
  revert h. induction B as [|c B IH]; intros h HB; [by rewrite advance_0|].
  apply (forallb_app_iff _ [c]) in HB as [Hc HB].
  simpl in Hc. rewrite andb_true_r in Hc.
  destruct (is_body_char_plain c Hc) as [Hcol [->|Hsp]].
  - rewrite splitlines_NL, scan_blank, IH, advance_advance by done.
    f_equal. simpl. unfold len. simpl. lia.
  - assert (Hlb : islinebreak c = false).
    { destruct (islinebreak c) eqn:E; [|done]. by rewrite (islinebreak_isspace c E) in Hsp. }
    destruct (splitlines_head c B Hlb) as (l & ls & E). rewrite E.
    pose proof (concat_splitlines (c :: B)) as Hcat. rewrite E in Hcat.
    injection Hcat as Hcat. rewrite (scan_stop c); [|by left|done|].
    + replace (take_while is_NL (c :: B)) with (@nil ascii); [by rewrite advance_0|].
      simpl. unfold is_NL. by destruct (Ascii.eqb_spec c NL) as [->|].
    + apply (contains_absent _ _ ":"%char); [by left|].
      rewrite not_elem_of_cons. split; [done|]. intros Hin.
      rewrite forallb_Forall, Forall_forall in HB.
      destruct (is_body_char_plain ":"%char); [|done]. apply HB.
      rewrite <- Hcat, elem_of_app. by left.
Qed.

Lemma is_body_char_app B :
  forallb is_body_char B = true -> forallb is_body_char (B ++ [NL]) = true.
Proof. intros H. by apply forallb_app_iff. Qed.

Lemma body_no_space B : forallb is_body_char B = true -> " "%char ∉ B.
Proof.
  rewrite forallb_Forall, Forall_forall. intros H Hin. by apply H in Hin.
Qed.

Lemma filter_body B :
  filter (fun c => c <> NL) (drop_while is_NL (B ++ [NL])) = filter (fun c => c <> NL) B.
Proof.
  rewrite (filter_drop_while is_NL).
  - rewrite filter_app, filter_cons_False by naive_solver. by rewrite app_nil_r.
  - intros x Hx. unfold is_NL in Hx. apply Ascii.eqb_eq in Hx. naive_solver.
Qed.

(** ** The markers *)

Lemma block_shape ct cd z B :
  _block ct cd (encoding_line z) B
    = _start_block ++ unlines (header_lines ct cd z) ++ B ++ NL :: _end_block ++ [NL].
Proof.
  unfold _block, header_lines, encoding_line.
  destruct z; cbn [app]; rewrite !unlines_cons; unfold unlines; cbn [map concat];
    by list_norm.
Qed.

Lemma header_lines_no_linebreak ct cd z :
  header_ok ct -> header_ok cd ->
  Forall (fun l => no_linebreak l = true) (header_lines ct cd z).
Proof.
  intros (_ & _ & Hct) (_ & _ & Hcd). unfold header_lines.
  destruct z; repeat constructor; by apply no_linebreak_app.
Qed.

(** A text without [=] before the block does not hide its start. *)
Lemma find_start_block pre rest :
  "="%char ∉ pre -> find (pre ++ _start_block ++ rest) _start_block = len pre.
Proof.
  intros Hpre. erewrite find_index_of; [|rewrite (index_of_skip pre _ _ "="%char) by done;
    by rewrite index_of_startswith by apply startswith_app].
  unfold len. lia.
Qed.

Lemma header_line_no_marker p v :
  "="%char ∉ p -> contains v _end_block = false -> index_of (p ++ v) _end_block = None.
Proof.
  intros Hp Hv%contains_false. by rewrite (index_of_skip p v _ "="%char), Hv.
Qed.

Lemma header_lines_no_marker ct cd z :
  contains ct _end_block = false -> contains cd _end_block = false ->
  Forall (fun l => index_of l _end_block = None)
         (_start_block :: tail (header_lines ct cd z)).
Proof.
  intros Hct Hcd. unfold header_lines.
  destruct z; repeat constructor; (done || apply header_line_no_marker; (done || by_compute)).
Qed.

(** The end marker is found where the block has it: no header line and no
    line of the body holds it. *)
Lemma find_end_block pre ct cd z B post :
  "="%char ∉ pre ->
  contains ct _end_block = false -> contains cd _end_block = false ->
  forallb is_body_char B = true ->
  find (pre ++ _start_block ++ unlines (header_lines ct cd z) ++ B ++ NL :: _end_block ++ post)
       _end_block
    = (len pre + len _start_block + len (unlines (header_lines ct cd z)) + len B + 1)%Z.
Proof.
  intros Hpre Hct Hcd HB.
  change (header_lines ct cd z) with ([] :: tail (header_lines ct cd z)).
  rewrite (app_assoc _start_block).
  replace (_start_block ++ unlines ([] :: tail (header_lines ct cd z)))
    with (unlines (_start_block :: tail (header_lines ct cd z)))
    by by rewrite !unlines_cons.
  erewrite find_index_of.
  2: { rewrite (index_of_skip pre _ _ "="%char) by done.
       rewrite index_of_unlines by (by_compute || by apply header_lines_no_marker).
       rewrite index_of_sep by by_compute.
       rewrite (index_of_absent B _ " "%char) by (by_compute || by apply body_no_space).
       by rewrite index_of_startswith by apply startswith_app. }
  rewrite !len_unlines_cons. unfold len. simpl. lia.
Qed.

(** ** Reading a block *)
Section parse.
Context `{!Fernet}.
Context (pre ct cd : str) (z : bool) (B post : str).
Hypothesis Hpre : "="%char ∉ pre.
Hypothesis Hct : header_ok ct.
Hypothesis Hcd : header_ok cd.
Hypothesis Hct_end : contains ct _end_block = false.
Hypothesis Hcd_end : contains cd _end_block = false.
Hypothesis HB : forallb is_body_char B = true.

(** The text that holds the block, and the positions the parser computes. *)
Let text : str :=
  pre ++ _start_block ++ unlines (header_lines ct cd z) ++ B ++ NL :: _end_block
      ++ NL :: post.
Let start_pos : Z := (len pre + len _start_block)%Z.
Let body_pos : Z := (start_pos + len (unlines (header_lines ct cd z)))%Z.
Let end_pos : Z := (body_pos + len B + 1)%Z.

Lemma text_find_start : find text _start_block = len pre.
Proof. by apply find_start_block. Qed.

Lemma text_find_end : find text _end_block = end_pos.
Proof. unfold text, end_pos, body_pos, start_pos. by rewrite find_end_block. Qed.

(** The lines between the markers. *)
Lemma text_slice_region :
  slice text start_pos end_pos = unlines (header_lines ct cd z) ++ B ++ [NL].
Proof.
  apply (slice_eq _ (pre ++ _start_block) _ (_end_block ++ NL :: post)).
  - unfold text. by list_norm.
  - unfold start_pos. by rewrite len_app.
  - unfold end_pos, body_pos, start_pos. rewrite !len_app. unfold len. simpl. lia.
Qed.

(** The header loop over these lines. *)
Lemma text_scan :
  scan_headers (splitlines (unlines (header_lines ct cd z) ++ B ++ [NL]))
               (headers_init start_pos)
    = {| h_content_type := Some ct; h_content_disposition := Some cd;
         h_content_encoding := if z then Some (lit "gzip") else None;
         base64_start_pos := body_pos + len (take_while is_NL (B ++ [NL])) |}.
Proof.
  rewrite splitlines_unlines by by apply header_lines_no_linebreak.
  rewrite scan_header_lines by done.
  by rewrite scan_body by by apply is_body_char_app.
Qed.

(** The body, from the first character that is no newline. *)
Lemma text_slice_body :
  slice text (body_pos + len (take_while is_NL (B ++ [NL]))) end_pos
    = drop_while is_NL (B ++ [NL]).
Proof.
  apply (slice_eq _ (pre ++ _start_block ++ unlines (header_lines ct cd z)
                         ++ take_while is_NL (B ++ [NL]))
                    _ (_end_block ++ NL :: post)).
  - unfold text. list_norm. do 3 f_equal.
    rewrite (app_assoc (take_while _ _)), take_drop_while. by list_norm.
  - unfold body_pos, start_pos. rewrite !len_app. lia.
  - unfold end_pos, body_pos, start_pos. rewrite !len_app.
    pose proof (f_equal len (take_drop_while is_NL (B ++ [NL]))) as E.
    rewrite !len_app in E. unfold len in *. simpl in *. lia.
Qed.

(** How [decrypt_from_block] runs on the text: the positions, the header
    loop and the slice of the body, one after the other. *)
Lemma decrypt_rendered self :
  decrypt_from_block self (pre ++ _block ct cd (encoding_line z) B ++ post)
    = token ← encode_ascii (filter (fun c => c <> NL) B);
      data ← fernet_decrypt (key self) token;
      _create_dataobject ct cd (if z then Some (lit "gzip") else None) data.
Proof.
  rewrite block_shape. list_norm. fold text. unfold decrypt_from_block.
  rewrite text_find_start, text_find_end.
  rewrite !bool_decide_eq_false_2
    by (unfold end_pos, body_pos, start_pos, len; lia).
  fold start_pos. rewrite text_slice_region.
  fold (headers_init start_pos). rewrite text_scan. cbn [h_content_type h_content_disposition
    h_content_encoding base64_start_pos]. cbv zeta.
  by rewrite text_slice_body, replace_char, filter_body.
Qed.

(** C4 - a text that holds a block of the rendered shape is read as that
    block: the markers are found, the three header values are taken from
    their lines, the body without its newlines is decrypted under the key
    of the instance, and the result is what [_create_dataobject] makes of
    the header values and the decrypted bytes.  The text before the block
    may be any text without an equals sign, the text after it any text. *)
Theorem parse_block self :
  decrypt_from_block self (pre ++ _block ct cd (encoding_line z) B ++ post)
    = token ← encode_ascii (filter (fun c => c <> NL) B);
      data ← fernet_decrypt (key self) token;
      _create_dataobject ct cd (if z then Some (lit "gzip") else None) data.
Proof. apply decrypt_rendered. Qed.

End parse.

(** ** The errors of [decrypt_from_block] *)

Lemma read_header_keeps_type line h :
  header_value "content-type" "type" line = None ->
  h_content_type (read_header line h) = h_content_type h.
Proof.
  intros E. unfold read_header. rewrite E.
  by destruct (header_value "content-disposition" "disp" line),
              (header_value "content-encoding" "enc" line).
Qed.

Lemma read_header_keeps_disp line h :
  header_value "content-disposition" "disp" line = None ->
  h_content_disposition (read_header line h) = h_content_disposition h.
Proof.
  intros E. unfold read_header. rewrite E.
  by destruct (header_value "content-type" "type" line),
              (header_value "content-encoding" "enc" line).
Qed.

(** The loop finds no header that no line carries. *)
Lemma scan_headers_no_type ls h :
  Forall (fun l => header_value "content-type" "type" l = None) ls ->
  h_content_type h = None -> h_content_type (scan_headers ls h) = None.
Proof.
  intros Hls. revert h. induction Hls as [|l ls Hl _ IH]; intros h Hh; [done|].
  cbn [scan_headers]. destruct (0 <? len (strip l))%Z; [|by apply IH].
  destruct (contains l ":"); [|done]. apply IH.
  cbn [advance h_content_type]. by rewrite read_header_keeps_type.
Qed.

Lemma scan_headers_no_disp ls h :
  Forall (fun l => header_value "content-disposition" "disp" l = None) ls ->
  h_content_disposition h = None -> h_content_disposition (scan_headers ls h) = None.
Proof.
  intros Hls. revert h. induction Hls as [|l ls Hl _ IH]; intros h Hh; [done|].
  cbn [scan_headers]. destruct (0 <? len (strip l))%Z; [|by apply IH].
  destruct (contains l ":"); [|done]. apply IH.
  cbn [advance h_content_disposition]. by rewrite read_header_keeps_disp.
Qed.

Section errors.
Context `{!Fernet}.
Implicit Types (self : BlockCrypter) (block : str).

(** C22 - a text that lacks one of the two markers is refused with
    [InvalidBlockException]: the markers cannot be found. *)
Theorem decrypt_no_markers self block :
  contains block _start_block = false \/ contains block _end_block = false ->
  decrypt_from_block self block
    = Raise (InvalidBlockException "cannot find block markers").
Proof.
  intros Hm. unfold decrypt_from_block.
  destruct Hm as [Hm|Hm]; apply contains_false, find_none in Hm; rewrite Hm; [done|].
  by rewrite orb_true_r.
Qed.

Lemma find_found s sub : contains s sub = true -> (0 <= find s sub)%Z.
Proof. unfold contains, find. destruct (index_of s sub); [lia|done]. Qed.

Lemma decrypt_no_type self block :
  contains block _start_block = true -> contains block _end_block = true ->
  Forall (fun l => header_value "content-type" "type" l = None)
         (splitlines (region block)) ->
  decrypt_from_block self block
    = Raise (InvalidBlockException "expected 'Content-Type:' not found in block").
Proof.
  intros Hs%find_found He%find_found Hls. unfold decrypt_from_block.
  rewrite !bool_decide_eq_false_2 by lia. cbn [orb]. cbv zeta.
  fold (region block). by rewrite scan_headers_no_type.
Qed.

(** When both markers are there but no line between them is a
    [Content-Type] header, the text is refused with
    [InvalidBlockException]: the header is missing. *)
Theorem decrypt_missing_content_type self block :
  contains block _start_block = true -> contains block _end_block = true ->
  Forall (fun l => header_value "content-type" "type" l = None)
         (splitlines (region block)) ->
  decrypt_from_block self block
    = Raise (InvalidBlockException "expected 'Content-Type:' not found in block").
Proof. apply decrypt_no_type. Qed.

(** C23 - when the end marker comes before the end of the start marker,
    both markers are found and the text between them is empty: the text is
    refused for its missing [Content-Type] header, not for its markers. *)
Theorem decrypt_markers_swapped self block :
  contains block _start_block = true -> contains block _end_block = true ->
  (find block _end_block <= find block _start_block + len _start_block)%Z ->
  decrypt_from_block self block
    = Raise (InvalidBlockException "expected 'Content-Type:' not found in block").
Proof.
  intros Hs He Hle. apply decrypt_no_type; [done..|].
  unfold region. rewrite slice_empty; [constructor|].
  apply find_found in He. lia.
Qed.

(** When both markers are there and a [Content-Type] header was read
    but no line between the markers is a [Content-Disposition] header, the
    text is refused with [InvalidBlockException]: the header is missing. *)
Theorem decrypt_missing_disposition self block v :
  contains block _start_block = true -> contains block _end_block = true ->
  h_content_type (scan_headers (splitlines (region block))
     (headers_init (find block _start_block + len _start_block))) = Some v ->
  Forall (fun l => header_value "content-disposition" "disp" l = None)
         (splitlines (region block)) ->
  decrypt_from_block self block
    = Raise (InvalidBlockException "expected 'Content-Disposition:' not found in block").
Proof.
  intros Hs%find_found He%find_found Hv Hls. unfold decrypt_from_block.
  rewrite !bool_decide_eq_false_2 by lia. cbn [orb]. cbv zeta.
  fold (region block). fold (headers_init (find block _start_block + len _start_block)).
  by rewrite Hv, scan_headers_no_disp.
Qed.

End errors.
