(* ===== verification/Create.v ===== *)
(** * Create: what [_create_dataobject] makes of the headers

    [_create_dataobject] looks for the content type in the value of the
    [Content-Type] header, searches the charset or the file name with a
    pattern, and checks the value of [Content-Encoding].  The lemmas give
    its result on the header values [encrypt_to_block] writes, its two
    errors, and the invariant of the object it returns. *)

From Stdlib Require Import Ascii ZArith Lia.
From stdpp Require Import base tactics option list strings sets.
From S2P Require Import Prelude PyStr PyLines PyRe Interfaces DataObject BlockCrypter Render.
Import Py.

(** A quote or a semicolon: what ends a charset and a file name in the
    patterns. *)
Definition is_delim (c : ascii) : bool :=
  Ascii.eqb c "'" || Ascii.eqb c DQ || Ascii.eqb c ";".

(** A character the pattern of the charset accepts in a charset. *)
Definition charset_char (c : ascii) : bool := negb (is_delim c) && negb (isspace c).

(** A character the pattern of the file name accepts in a file name. *)
Definition filename_char (c : ascii) : bool := negb (is_delim c).

(** The flag [_create_dataobject] derives from [Content-Encoding]. *)
Definition zipped_of (content_encoding : option str) : result bool :=
  match content_encoding with
  | None => Ok false
  | Some ce =>
    if decide (strip (lower ce) = lit "gzip") then Ok true
    else Raise (InvalidContentException
                  (lit "_create_dataobject(): content_encoding is not supported: '"
                   ++ ce ++ lit "'"))
  end.

(** The content type, charset and file name [_create_dataobject] derives
    from [Content-Type] and [Content-Disposition]. *)
Definition kind_of (content_type content_disposition : str)
    : result (str * option str * option str) :=
  let content_type_lower := lower content_type in
  if contains content_type_lower "text/plain" then
    Ok (lit "text/plain",
        (fun m => strip (Re.group m "charset"))
          <$> Re.search true re_char_set content_type_lower,
        None)
  else if contains content_type_lower "application/octet-stream" then
    Ok (lit "application/octet-stream",
        None,
        (fun m => strip (Re.group m "filename"))
          <$> Re.search true re_filename content_disposition)
  else Raise (InvalidContentException
                (lit "_create_dataobject(): content_type is not supported: '"
                 ++ content_type ++ lit "'")).

(** A charset the parser reads back: not empty, and of characters the
    pattern accepts. *)
Definition charset_ok (cs : str) : Prop := cs <> [] /\ forallb charset_char cs = true.

(** A file name the parser reads back: not empty, of characters the
    pattern accepts, without a line boundary, without white space at
    either end, and without the end marker in it. *)
Definition filename_ok (f : str) : Prop :=
  f <> [] /\ forallb filename_char f = true /\ no_linebreak f = true /\
  stops isspace f = true /\ stops isspace (rev f) = true /\
  contains f _end_block = false.

(** ** The character classes of the patterns *)

Lemma atom_charset c :
  Re.atom_matches true (Re.NoneOf ["'"%char; DQ; ";"%char] true) c = charset_char c.
Proof. by destruct c as [[] [] [] [] [] [] [] []]. Qed.

Lemma atom_filename c :
  Re.atom_matches true (Re.NoneOf ["'"%char; DQ; ";"%char] false) c = filename_char c.
Proof. by destruct c as [[] [] [] [] [] [] [] []]. Qed.

Lemma atom_quote c :
  is_delim c = false -> Re.atom_matches true (Re.OneOf ["'"%char; DQ] false) c = false.
Proof. by destruct c as [[] [] [] [] [] [] [] []]. Qed.

Lemma charset_char_lower c : charset_char (lower_char c) = charset_char c.
Proof. by destruct c as [[] [] [] [] [] [] [] []]. Qed.

Lemma lower_char_not_E c : lower_char c <> "E"%char.
Proof. by destruct c as [[] [] [] [] [] [] [] []]. Qed.

Lemma charset_char_plain c :
  charset_char c = true -> isspace c = false /\ is_delim c = false.
Proof. unfold charset_char. by destruct (is_delim c), (isspace c). Qed.

Lemma charset_ok_lower cs : charset_ok cs -> charset_ok (lower cs).
Proof.
  intros [Hne Hcs]. split; [by destruct cs|]. clear Hne.
  induction cs as [|c cs IH]; [done|]. apply andb_true_iff in Hcs as [Hc Hcs].
  simpl. by rewrite charset_char_lower, Hc, IH.
Qed.

(** A string without white space is its own [strip]. *)
Lemma strip_no_space s : forallb (fun c => negb (isspace c)) s = true -> strip s = s.
Proof.
  intros H. destruct s as [|c s]; [done|].
  destruct (last (c :: s)) as [d|] eqn:E; [|by apply last_None in E].
  rewrite forallb_Forall, Forall_forall in H.
  apply (strip_id _ c d); [done|done|..]; apply negb_true_iff, H; [by left|].
  by apply last_Some_elem_of.
Qed.

Lemma strip_ends s :
  s <> [] -> stops isspace s = true -> stops isspace (rev s) = true -> strip s = s.
Proof.
  intros Hne Hh Hl. destruct s as [|c s]; [done|].
  destruct (last (c :: s)) as [d|] eqn:E; [|by apply last_None in E].
  apply (strip_id _ c d); [done|done|by apply negb_true_iff|].
  apply last_Some in E as [k E]. rewrite E, rev_app_distr in Hl.
  by apply negb_true_iff.
Qed.

(** ** The searches

    The two patterns are one pattern with two parameters: the name of the
    parameter and whether white space ends its value. *)
Definition re_param (name : str) (g : string) (ws : bool) : Re.regex :=
  [Re.One (Re.Lit ";"); Re.Star Re.Space] ++ Re.word name
  ++ [Re.Star Re.Space; Re.One (Re.Lit "="); Re.Star Re.Space;
      Re.Star (Re.OneOf ["'"%char; DQ] false);
      Re.Open g; Re.Plus (Re.NoneOf ["'"%char; DQ; ";"%char] ws);
      Re.Close g;
      Re.Star (Re.OneOf ["'"%char; DQ; ";"%char] true)].

(** A single or a double quote. *)
Definition is_quote (c : ascii) : bool := Ascii.eqb c "'" || Ascii.eqb c DQ.

(** A character of the value of a parameter. *)
Definition param_char (ws : bool) (c : ascii) : bool :=
  if ws then charset_char c else filename_char c.

Lemma atom_param ws c :
  Re.atom_matches true (Re.NoneOf ["'"%char; DQ; ";"%char] ws) c = param_char ws c.
Proof. destruct ws; [apply atom_charset|apply atom_filename]. Qed.

Lemma atom_is_quote c :
  Re.atom_matches true (Re.OneOf ["'"%char; DQ] false) c = is_quote c.
Proof. by destruct c as [[] [] [] [] [] [] [] []]. Qed.

Lemma atom_semicolon c :
  Re.atom_matches true (Re.Lit ";") c = Ascii.eqb c ";".
Proof. by destruct c as [[] [] [] [] [] [] [] []]. Qed.

Lemma param_char_no_quote ws c : param_char ws c = true -> is_quote c = false.
Proof. by destruct ws, c as [[] [] [] [] [] [] [] []]. Qed.

Section search.
Context (name : str) (g : string) (ws : bool).
Context (K pre sp1 sp2 sp3 q v rest : str).
Hypothesis Hname : name <> [].
Hypothesis HK : Forall2 (fun x y => Re.char_eq true x y = true) name K.
Hypothesis HKs : stops isspace K = true.
Hypothesis Hpre : forallb (fun c => negb (Ascii.eqb c ";")) pre = true.
Hypothesis Hsp1 : forallb isspace sp1 = true.
Hypothesis Hsp2 : forallb isspace sp2 = true.
Hypothesis Hsp3 : forallb isspace sp3 = true.
Hypothesis Hq : forallb is_quote q = true.
Hypothesis Hne : v <> [].
Hypothesis Hv : forallb (param_char ws) v = true.
Hypothesis Hqv : stops isspace (q ++ v) = true.
Hypothesis Hrest : stops (param_char ws) rest = true.

Lemma K_nonempty : K <> [].
Proof. intros ->. by apply Forall2_nil_inv_r in HK. Qed.

Lemma value_stops_quote : stops (Re.atom_matches true (Re.OneOf ["'"%char; DQ] false)) (v ++ rest) = true.
Proof.
  apply stops_app_l; [done|]. destruct (forallb_head _ _ Hv Hne) as (c & k & -> & Hc).
  cbn [stops]. by rewrite atom_is_quote, (param_char_no_quote ws).
Qed.

(** The value [v] of the parameter, written after any text without a
    semicolon, with white space around the name and the equals sign and
    quotes before the value, and followed by a character that ends it. *)
Lemma search_param :
  Re.search true (re_param name g ws)
    (pre ++ ";"%char :: sp1 ++ K ++ sp2 ++ "="%char :: sp3 ++ q ++ v ++ rest)
  = Some [(g, v)].
Proof.
  unfold Re.search, re_param. cbn [app].
  rewrite Re.search_go_skip by by rewrite (forallb_ext _ _ _ (fun c => f_equal negb (atom_semicolon c))).
  apply Re.search_go_hit. rewrite Re.exec_One_hit by done.
  apply Re.exec_Star_run; [done|by apply stops_app_l; [apply K_nonempty|]|].
  rewrite (Re.exec_word true name K) by done.
  apply Re.exec_Star_run; [done..|]. rewrite Re.exec_One_hit by done.
  apply Re.exec_Star_run; [done| |].
  { rewrite app_assoc. apply stops_app_l; [by destruct q, v|done]. }
  apply Re.exec_Star_run; [by rewrite (forallb_ext _ _ _ atom_is_quote)|apply value_stops_quote|].
  rewrite Re.exec_Open.
  apply (Re.exec_Plus_greedy true _ _ _ v rest);
    [done|by rewrite (forallb_ext _ _ _ (atom_param ws))
     |by rewrite (stops_ext _ _ _ (atom_param ws))|].
  by rewrite Re.exec_Close, Re.captured_hd, Re.exec_Star_last.
Qed.

End search.

(** The charset pattern finds the charset [encrypt_to_block] wrote. *)
Lemma search_charset cs :
  charset_ok cs ->
  Re.search true re_char_set (lit "text/plain; charset=" ++ cs) = Some [("charset", cs)].
Proof.
  intros [Hne Hcs]. destruct (forallb_head _ _ Hcs Hne) as (c & k & E & Hc).
  apply charset_char_plain in Hc as [Hsp Hdl].
  rewrite <- (app_nil_r cs) at 1.
  apply (search_param "charset" "charset" true "charset" "text/plain" " " [] [] [] cs []);
    try done; [repeat constructor|]. rewrite E. simpl. by rewrite Hsp.
Qed.

(** The file name pattern finds the file name [encrypt_to_block] wrote
    between its double quotes. *)
Lemma search_filename f :
  f <> [] -> forallb filename_char f = true ->
  Re.search true re_filename (lit "attachment; filename=" ++ [DQ] ++ f ++ [DQ])
    = Some [("filename", f)].
Proof.
  intros Hne Hf.
  apply (search_param "filename" "filename" false "filename" "attachment" " " [] [] [DQ] f [DQ]);
    try done. repeat constructor.
Qed.

(** ** [_create_dataobject] *)

(** [_create_dataobject] is its two decisions one after the other. *)
Lemma _create_dataobject_unfold ct cd ce d :
  _create_dataobject ct cd ce d
    = '(t, c, f) ← kind_of ct cd;
      z ← zipped_of ce;
      Ok {| content_type := Some t; charset := c; is_zipped := z; filename := f;
            binary_data := Some d |}.
Proof. done. Qed.

Lemma zipped_of_flag (z : bool) : zipped_of (if z then Some (lit "gzip") else None) = Ok z.
Proof. by destruct z. Qed.

Lemma charset_ok_no_space cs :
  charset_ok cs -> forallb (fun c => negb (isspace c)) cs = true.
Proof.
  intros [_ H]. rewrite forallb_Forall in *. eapply Forall_impl; [done|].
  simpl. by intros c [-> _]%charset_char_plain.
Qed.

Lemma kind_of_text cs cd :
  from_option charset_ok True cs ->
  kind_of (text_type cs) cd = Ok (lit "text/plain", lower <$> cs, None).
Proof.
  destruct cs as [cs|]; [|done]. intros Hcs%charset_ok_lower.
  unfold kind_of, text_type. rewrite !lower_app, lower_idemp.
  rewrite contains_startswith by apply startswith_app.
  change (lower (lit "text/plain") ++ lower (lit "; charset=") ++ lower cs)
    with (lit "text/plain; charset=" ++ lower cs).
  rewrite search_charset by done. simpl. rewrite Re.group_hd.
  by rewrite strip_no_space by by apply charset_ok_no_space.
Qed.

Lemma kind_of_binary f :
  from_option filename_ok True f ->
  kind_of (lit "application/octet-stream") (disposition f)
    = Ok (lit "application/octet-stream", None, f).
Proof.
  destruct f as [f|]; [|done]. intros (Hne & Hf & _ & Hh & Hl & _).
  unfold kind_of, disposition.
  change (contains (lower (lit "application/octet-stream")) (lit "text/plain")) with false.
  change (contains (lower (lit "application/octet-stream"))
                   (lit "application/octet-stream")) with true.
  cbv iota.
  change (lit "attachment" ++ lit "; filename=" ++ [DQ] ++ f ++ [DQ])
    with (lit "attachment; filename=" ++ [DQ] ++ f ++ [DQ]).
  rewrite search_filename by done. simpl. rewrite Re.group_hd.
  by rewrite strip_ends.
Qed.

Lemma quotes_then_charset q cs :
  forallb is_quote q = true -> charset_ok cs -> stops isspace (q ++ cs) = true.
Proof.
  intros Hq [Hne Hcs]. destruct q as [|c q].
  - destruct (forallb_head _ _ Hcs Hne) as (c & k & -> & [Hc _]%charset_char_plain).
    simpl. by rewrite Hc.
  - apply andb_true_iff in Hq as [Hc _]. simpl.
    by destruct c as [[] [] [] [] [] [] [] []].
Qed.

(** The file name pattern takes the name up to the first quote or
    semicolon in it. *)
Lemma search_filename_cut a d b :
  a <> [] -> forallb filename_char a = true -> is_delim d = true ->
  Re.search true re_filename (disposition (Some (a ++ d :: b))) = Some [("filename", a)].
Proof.
  intros Hne Ha Hd. unfold disposition. rewrite <- (app_assoc a).
  apply (search_param "filename" "filename" false "filename" "attachment" " " [] [] [DQ]
           a (d :: b ++ [DQ])); try done; [repeat constructor|].
  simpl. unfold filename_char. by rewrite Hd.
Qed.

Lemma kind_of_binary_cut a d b :
  a <> [] -> forallb filename_char a = true -> is_delim d = true ->
  kind_of (lit "application/octet-stream") (disposition (Some (a ++ d :: b)))
    = Ok (lit "application/octet-stream", None, Some (strip a)).
Proof.
  intros Hne Ha Hd. unfold kind_of.
  change (contains (lower (lit "application/octet-stream")) (lit "text/plain")) with false.
  change (contains (lower (lit "application/octet-stream"))
                   (lit "application/octet-stream")) with true.
  cbv iota. rewrite search_filename_cut by done. simpl. by rewrite Re.group_hd.
Qed.

(** What the parser makes of the headers of a text payload. *)
Lemma create_text cs cd (z : bool) d :
  from_option charset_ok True cs ->
  _create_dataobject (text_type cs) cd (if z then Some (lit "gzip") else None) d
    = Ok {| content_type := Some (lit "text/plain"); charset := lower <$> cs;
            is_zipped := z; filename := None; binary_data := Some d |}.
Proof.
  intros H. by rewrite _create_dataobject_unfold, kind_of_text, zipped_of_flag.
Qed.

(** What the parser makes of the headers of a binary payload. *)
Lemma create_binary f (z : bool) d :
  from_option filename_ok True f ->
  _create_dataobject (lit "application/octet-stream") (disposition f)
                     (if z then Some (lit "gzip") else None) d
    = Ok {| content_type := Some (lit "application/octet-stream"); charset := None;
            is_zipped := z; filename := f; binary_data := Some d |}.
Proof.
  intros H. by rewrite _create_dataobject_unfold, kind_of_binary, zipped_of_flag.
Qed.

(** What the parser makes of a file name with a quote or a semicolon in
    it: the name up to that character. *)
Lemma create_binary_cut a d b (z : bool) data :
  a <> [] -> forallb filename_char a = true -> is_delim d = true ->
  _create_dataobject (lit "application/octet-stream") (disposition (Some (a ++ d :: b)))
                     (if z then Some (lit "gzip") else None) data
    = Ok {| content_type := Some (lit "application/octet-stream"); charset := None;
            is_zipped := z; filename := Some (strip a); binary_data := Some data |}.
Proof.
  intros Hne Ha Hd.
  by rewrite _create_dataobject_unfold, kind_of_binary_cut, zipped_of_flag.
Qed.

(** C24 - the charset of a text is read from the [Content-Type] value
    whatever the case of the value, whatever the white space after the
    semicolon and around the equals sign, and whether or not quotes stand
    before and after it; what follows the charset, from a quote, a
    semicolon or white space on, is ignored.  The object carries the
    charset in lower case. *)
Theorem create_charset_tolerant ct pre sp1 sp2 sp3 q cs rest cd (z : bool) d :
  lower ct = pre ++ ";"%char :: sp1 ++ lit "charset" ++ sp2 ++ "="%char :: sp3
                 ++ q ++ cs ++ rest ->
  contains pre "text/plain" = true ->
  forallb (fun c => negb (Ascii.eqb c ";")) pre = true ->
  forallb isspace sp1 = true -> forallb isspace sp2 = true -> forallb isspace sp3 = true ->
  forallb is_quote q = true -> charset_ok cs -> stops charset_char rest = true ->
  _create_dataobject ct cd (if z then Some (lit "gzip") else None) d
    = Ok {| content_type := Some (lit "text/plain"); charset := Some cs;
            is_zipped := z; filename := None; binary_data := Some d |}.
Proof.
  intros E Hpre Hsemi Hsp1 Hsp2 Hsp3 Hq Hcs Hrest.
  rewrite _create_dataobject_unfold, zipped_of_flag. unfold kind_of. rewrite E.
  rewrite contains_app_l by done.
  rewrite (search_param "charset" "charset" true "charset");
    [|done|repeat constructor|done..|apply Hcs|apply Hcs|by apply quotes_then_charset|done].
  simpl. rewrite Re.group_hd. by rewrite strip_no_space by by apply charset_ok_no_space.
Qed.

Lemma create_charset_tolerant_witness :
  _create_dataobject "Text/Plain ;  CHARSET = 'UTF-8' ; format=flowed" "inline" None []
    = Ok {| content_type := Some (lit "text/plain"); charset := Some (lit "utf-8");
            is_zipped := false; filename := None; binary_data := Some [] |}.
Proof.
  apply (create_charset_tolerant _ "text/plain " "  " " " " " "'" "utf-8"
           "' ; format=flowed" "inline" false []); by_compute.
Defined.

(** A [Content-Type] value that holds neither [text/plain] nor
    [application/octet-stream], compared without case, is refused with an
    [InvalidContentException] that quotes the value. *)
Theorem create_unsupported_type ct cd ce d :
  contains (lower ct) "text/plain" = false ->
  contains (lower ct) "application/octet-stream" = false ->
  _create_dataobject ct cd ce d
    = Raise (InvalidContentException
               (lit "_create_dataobject(): content_type is not supported: '"
                ++ ct ++ lit "'")).
Proof.
  intros H1 H2. rewrite _create_dataobject_unfold. unfold kind_of. by rewrite H1, H2.
Qed.

Lemma create_unsupported_type_witness :
  _create_dataobject "image/png" "inline" None []
    = Raise (InvalidContentException
               "_create_dataobject(): content_type is not supported: 'image/png'").
Proof. by apply (create_unsupported_type "image/png" "inline" None []). Defined.

Lemma kind_of_supported ct cd :
  contains (lower ct) "text/plain" = true \/
  contains (lower ct) "application/octet-stream" = true ->
  exists k, kind_of ct cd = Ok k.
Proof.
  intros H. unfold kind_of. destruct (contains (lower ct) "text/plain"); [eauto|].
  destruct H as [H|H]; [done|]. rewrite H. eauto.
Qed.

(** With a supported content type, a [Content-Encoding] value other
    than [gzip], compared without case and without the white space around
    it, is refused with an [InvalidContentException] that quotes the
    value. *)
Theorem create_unsupported_encoding ct cd e d :
  contains (lower ct) "text/plain" = true \/
  contains (lower ct) "application/octet-stream" = true ->
  strip (lower e) <> lit "gzip" ->
  _create_dataobject ct cd (Some e) d
    = Raise (InvalidContentException
               (lit "_create_dataobject(): content_encoding is not supported: '"
                ++ e ++ lit "'")).
Proof.
  intros Hs He. destruct (kind_of_supported ct cd Hs) as (((t & c) & f) & Hk).
  rewrite _create_dataobject_unfold, Hk, bind_Ok. unfold zipped_of.
  by rewrite decide_False.
Qed.

Lemma create_unsupported_encoding_witness :
  _create_dataobject "text/plain" "inline" (Some (lit "deflate")) []
    = Raise (InvalidContentException
               "_create_dataobject(): content_encoding is not supported: 'deflate'").
Proof.
  apply (create_unsupported_encoding "text/plain" "inline" "deflate" []); [by left|done].
Defined.

(** C25 - an object [_create_dataobject] returns satisfies the invariant of
    the data model (a text payload has no file name, a binary payload no
    charset), holds the decrypted bytes, and its content type is one of
    the two supported ones. *)
Theorem create_wf ct cd ce d o :
  _create_dataobject ct cd ce d = Ok o ->
  wf o /\ binary_data o = Some d /\
  (content_type o = Some (lit "text/plain") \/
   content_type o = Some (lit "application/octet-stream")).
Proof.
  rewrite _create_dataobject_unfold. intros (((t & c) & f) & Hk & Ho)%bind_Ok_inv.
  apply bind_Ok_inv in Ho as (z & _ & [= <-]). unfold kind_of in Hk.
  destruct (contains (lower ct) "text/plain").
  { injection Hk as <- <- <-. by repeat split; [..|left]. }
  destruct (contains (lower ct) "application/octet-stream"); [|done].
  injection Hk as <- <- <-. by repeat split; [..|right].
Qed.

Lemma create_wf_witness :
  let o := {| content_type := Some (lit "text/plain"); charset := Some (lit "utf-8");
              is_zipped := true; filename := None; binary_data := Some [] |} in
  wf o /\ binary_data o = Some [] /\
  (content_type o = Some (lit "text/plain") \/
   content_type o = Some (lit "application/octet-stream")).
Proof.
  apply (create_wf "text/plain; charset=utf-8" "inline" (Some (lit "GZIP ")) []).
  by vm_compute.
Defined.
