(* ===== verification/RoundTrip.v ===== *)
(** * RoundTrip: [decrypt_from_block] undoes [encrypt_to_block]

    The block [encrypt_to_block] renders for an object, placed in any text
    that has no equals sign before it, is read back by
    [decrypt_from_block] as the object in normal form ([normalise]): the
    content type and the charset in lower case, and of charset and file
    name only the one that belongs to the content type.  [sendable] says
    which objects this holds for; the end-to-end theorems compose the
    round trip with the factories and the readers of [DataObject]. *)

From Stdlib Require Import Ascii ZArith Lia.
From stdpp Require Import base tactics option list strings sets gmap.
From S2P Require Import Prelude PyStr PyLines PyRe Interfaces DataObject BlockCrypter.
From S2P Require Import Render Parse Create.
Import Py.

(** The object is a text payload. *)
Definition is_text (o : DataObject) : bool :=
  bool_decide (lower <$> content_type o = Some (lit "text/plain")).

(** What a block keeps of an object. *)
Definition normalise (o : DataObject) : DataObject :=
  {| content_type := lower <$> content_type o;
     charset := if is_text o then lower <$> charset o else None;
     is_zipped := is_zipped o;
     filename := if is_text o then None else filename o;
     binary_data := binary_data o |}.

(** The objects a block carries faithfully: there is data, the content
    type is one of the two supported ones, and the charset of a text or
    the file name of a binary payload is one the parser reads back. *)
Definition sendable (o : DataObject) : Prop :=
  is_Some (binary_data o) /\
  (lower <$> content_type o = Some (lit "text/plain") /\
     from_option charset_ok True (charset o)
   \/ lower <$> content_type o = Some (lit "application/octet-stream") /\
     from_option filename_ok True (filename o)).

#[export] Instance charset_ok_dec cs : Decision (charset_ok cs).
Proof. unfold charset_ok. apply _. Defined.

#[export] Instance filename_ok_dec f : Decision (filename_ok f).
Proof. unfold filename_ok. apply _. Defined.

#[export] Instance sendable_dec o : Decision (sendable o).
Proof. unfold sendable. destruct (charset o), (filename o); simpl; apply _. Defined.

(** ** The header values of a rendered block can be read back *)

Lemma lower_no_E cs : "E"%char ∉ lower cs.
Proof.
  induction cs as [|c cs IH]; [by intros ?%elem_of_nil|].
  simpl. rewrite not_elem_of_cons. split; [|done].
  intros E. by apply (lower_char_not_E c).
Qed.

Lemma text_type_header_ok cs :
  from_option charset_ok True cs -> header_ok (text_type cs).
Proof.
  destruct cs as [cs|]; [|done]. intros Hcs%charset_ok_lower. unfold text_type.
  rewrite app_assoc. apply header_ok_app; [done..|].
  by apply no_space_no_linebreak, charset_ok_no_space.
Qed.

Lemma text_type_no_marker cs : contains (text_type cs) _end_block = false.
Proof.
  destruct cs as [cs|]; [|done]. apply (contains_absent _ _ "E"%char); [by_compute|].
  unfold text_type. rewrite !not_elem_of_app.
  repeat split; [by_compute..|apply lower_no_E].
Qed.

(** The value of [Content-Disposition] for a file name without a line
    boundary is one line, and holds the end marker only if the name does. *)
Lemma disposition_name_header_ok f :
  no_linebreak f = true -> header_ok (disposition (Some f)).
Proof.
  intros Hl. unfold disposition. rewrite app_assoc. apply header_ok_app; [done..|].
  by rewrite !no_linebreak_app.
Qed.

Lemma disposition_name_no_marker f :
  contains f _end_block = false -> contains (disposition (Some f)) _end_block = false.
Proof.
  intros Hf%contains_false. apply contains_false. unfold disposition.
  rewrite app_assoc. cbn [app]. rewrite index_of_sep by by_compute.
  change (index_of (lit "attachment" ++ lit "; filename=") _end_block) with (@None nat).
  by rewrite index_of_sep, Hf by by_compute.
Qed.

Lemma disposition_header_ok f :
  from_option filename_ok True f -> header_ok (disposition f).
Proof.
  destruct f as [f|]; [|done]. intros (_ & _ & Hl & _).
  by apply disposition_name_header_ok.
Qed.

Lemma disposition_no_marker f :
  from_option filename_ok True f -> contains (disposition f) _end_block = false.
Proof.
  destruct f as [f|]; [|done]. intros (_ & _ & _ & _ & _ & Hf).
  by apply disposition_name_no_marker.
Qed.

Lemma normalise_text o bin ct0 :
  binary_data o = Some bin -> content_type o = Some ct0 ->
  lower ct0 = lit "text/plain" ->
  normalise o
    = {| content_type := Some (lit "text/plain"); charset := lower <$> charset o;
         is_zipped := is_zipped o; filename := None; binary_data := Some bin |}.
Proof. intros Hb Hc Hct. unfold normalise, is_text. rewrite Hb, Hc. simpl. by rewrite Hct. Qed.

Lemma normalise_binary o bin ct0 :
  binary_data o = Some bin -> content_type o = Some ct0 ->
  lower ct0 = lit "application/octet-stream" ->
  normalise o
    = {| content_type := Some (lit "application/octet-stream"); charset := None;
         is_zipped := is_zipped o; filename := filename o; binary_data := Some bin |}.
Proof. intros Hb Hc Hct. unfold normalise, is_text. rewrite Hb, Hc. simpl. by rewrite Hct. Qed.

Section round_trip.
Context `{!Zlib, !Codecs, !PathLib, !Fernet}.
Implicit Types (self : BlockCrypter) (o : DataObject) (width : option Z).

Lemma token_no_NL key r bin : NL ∉ token_text key r bin.
Proof.
  intros Hin. pose proof (token_text_b64url key r bin) as Htok.
  rewrite forallb_Forall, Forall_forall in Htok. by apply Htok in Hin.
Qed.

Lemma wrap_body key r bin w :
  forallb is_body_char (wrap (token_text key r bin) w) = true.
Proof.
  apply forallb_Forall, (wrap_chars (fun c => is_body_char c = true)); [|done].
  eapply Forall_impl; [apply forallb_Forall, token_text_b64url|].
  intros c Hc. unfold is_body_char. by rewrite Hc.
Qed.

(** Reading a rendered body back and decrypting it gives the data. *)
Lemma decrypt_body self r bin w :
  fernet_key_ok (key self) = true ->
  (token ← encode_ascii (filter (fun c => c <> NL)
                                (wrap (token_text (key self) r bin) w));
   fernet_decrypt (key self) token) = Ok bin.
Proof.
  intros Hkey. rewrite filter_wrap by apply token_no_NL.
  by rewrite encode_ascii_token, bind_Ok, fernet_decrypt_encrypt.
Qed.

(** The round trip of a text payload and of a binary payload. *)
Lemma decrypt_encrypt_text self o width r pre post bin ct0 :
  fernet_key_ok (key self) = true -> "="%char ∉ pre ->
  binary_data o = Some bin -> content_type o = Some ct0 ->
  lower ct0 = lit "text/plain" -> from_option charset_ok True (charset o) ->
  encrypt_to_block self (Some o) width r
    ≫= (fun block => decrypt_from_block self (pre ++ block ++ post))
  = Ok {| content_type := Some (lit "text/plain"); charset := lower <$> charset o;
          is_zipped := is_zipped o; filename := None; binary_data := Some bin |}.
Proof.
  intros Hkey Hpre Hb Hc Hct Hcs.
  erewrite encrypt_render by eauto using block_headers_text. rewrite bind_Ok.
  rewrite decrypt_rendered
    by (done || apply text_type_no_marker || apply wrap_body || by apply text_type_header_ok).
  rewrite <- bind_assoc, decrypt_body, bind_Ok by done. by apply create_text.
Qed.

Lemma decrypt_encrypt_binary self o width r pre post bin ct0 :
  fernet_key_ok (key self) = true -> "="%char ∉ pre ->
  binary_data o = Some bin -> content_type o = Some ct0 ->
  lower ct0 = lit "application/octet-stream" ->
  from_option filename_ok True (filename o) ->
  encrypt_to_block self (Some o) width r
    ≫= (fun block => decrypt_from_block self (pre ++ block ++ post))
  = Ok {| content_type := Some (lit "application/octet-stream"); charset := None;
          is_zipped := is_zipped o; filename := filename o; binary_data := Some bin |}.
Proof.
  intros Hkey Hpre Hb Hc Hct Hf.
  erewrite encrypt_render by eauto using block_headers_binary. rewrite bind_Ok.
  rewrite decrypt_rendered
    by (done || apply wrap_body || by apply disposition_no_marker
        || by apply disposition_header_ok).
  rewrite <- bind_assoc, decrypt_body, bind_Ok by done. by apply create_binary.
Qed.

(** C40 - a file name is written between double quotes as it is and read
    back up to the first quote or semicolon: the block of a binary
    payload whose file name holds one of these is decrypted, without an
    error, to the payload under the name cut off before that character
    and stripped of white space. *)
Theorem filename_cut_at_delimiter self o width r pre post bin ct0 a d b :
  fernet_key_ok (key self) = true -> "="%char ∉ pre ->
  binary_data o = Some bin -> content_type o = Some ct0 ->
  lower ct0 = lit "application/octet-stream" ->
  filename o = Some (a ++ d :: b) ->
  a <> [] -> forallb filename_char a = true -> is_delim d = true ->
  no_linebreak (a ++ d :: b) = true -> contains (a ++ d :: b) _end_block = false ->
  encrypt_to_block self (Some o) width r
    ≫= (fun block => decrypt_from_block self (pre ++ block ++ post))
  = Ok {| content_type := Some (lit "application/octet-stream"); charset := None;
          is_zipped := is_zipped o; filename := Some (strip a);
          binary_data := Some bin |}.
Proof.
  intros Hkey Hpre Hb Hc Hct Hf Hne Ha Hd Hl Hend.
  erewrite encrypt_render by eauto using block_headers_binary. rewrite bind_Ok, Hf.
  rewrite decrypt_rendered
    by (done || apply wrap_body || by apply disposition_name_no_marker
        || by apply disposition_name_header_ok).
  rewrite <- bind_assoc, decrypt_body, bind_Ok by done. by apply create_binary_cut.
Qed.

(** C1 - [decrypt_from_block] undoes [encrypt_to_block]: the block rendered
    for a sendable object under a valid key, at any width and with any
    entropy of the cipher, placed after any text without an equals sign
    and before any text, is decrypted to the object in normal form: the
    same data and compression flag, the content type and the charset in
    lower case, and the file name as it was. *)
Theorem decrypt_encrypt self o width r pre post :
  fernet_key_ok (key self) = true -> "="%char ∉ pre -> sendable o ->
  encrypt_to_block self (Some o) width r
    ≫= (fun block => decrypt_from_block self (pre ++ block ++ post))
  = Ok (normalise o).
Proof.
  intros Hkey Hpre [[bin Hb] Ho].
  destruct (content_type o) as [ct0|] eqn:Hc; [|by destruct Ho as [[? _]|[? _]]].
  destruct Ho as [[[= Hct] Hm]|[[= Hct] Hm]].
  - rewrite (normalise_text o bin ct0) by done.
    by apply (decrypt_encrypt_text _ _ _ _ _ _ bin ct0).
  - rewrite (normalise_binary o bin ct0) by done.
    by apply (decrypt_encrypt_binary _ _ _ _ _ _ bin ct0).
Qed.

(** The path of a text, step by step: the object [from_str] makes, its
    block, the object read back from the block, and the text of that. *)
Lemma text_path self text cs zip_data width r pre post :
  fernet_key_ok (key self) = true -> "="%char ∉ pre ->
  charset_ok (default DEFAULT_CHARSET cs) ->
  is_ok (codec_encode (default DEFAULT_CHARSET cs) text) = true ->
  exists o block o',
    from_str (Some text) cs zip_data = Ok o /\
    encrypt_to_block self (Some o) width r = Ok block /\
    decrypt_from_block self (pre ++ block ++ post) = Ok o' /\
    as_str o' None = Ok (Some text) /\
    filename o' = None /\ binary_data o' = binary_data o.
Proof.
  intros Hkey Hpre Hcs Henc. unfold from_str.
  replace (match cs with Some c => c | None => DEFAULT_CHARSET end)
    with (default DEFAULT_CHARSET cs) by by destruct cs.
  destruct (codec_encode _ text) as [b|] eqn:E; [|done]. rewrite !bind_Ok.
  match goal with |- context [_store_data ?base _ _] =>
    destruct (store_data_plain base b zip_data) as (stored & Hs & Hp);
    destruct (_store_data_fields base (Some b) zip_data) as (Hct & Hch & _);
    pose proof (decrypt_encrypt_text self (_store_data base (Some b) zip_data)
                  width r pre post stored (lit "text/plain") Hkey Hpre Hs) as Hrt
  end.
  cbn [charset content_type set_filename set_charset set_content_type] in Hct, Hch.
  rewrite Hct, Hch in Hrt. specialize (Hrt eq_refl eq_refl Hcs).
  apply bind_Ok_inv in Hrt as (block & Hblock & Hrt).
  eexists _, block, _. split_and!; [done|done|exact Hrt|..|done|by rewrite Hs].
  unfold as_str. cbn [binary_data charset fmap option_fmap option_map].
  etrans; [apply (f_equal (fun m => m ≫= _) Hp)|].
  by rewrite bind_Ok, codec_decode_lower, (codec_decode_encode _ _ _ E).
Qed.

(** C2 - a text survives the whole path: [from_str], [encrypt_to_block],
    [decrypt_from_block] on the block inside a text, and [as_str] return
    the text that was put in, under every compression mode and width,
    whenever the charset can encode the text and its name is one the
    parser reads back. *)
Theorem text_round_trip self text cs zip_data width r pre post :
  fernet_key_ok (key self) = true -> "="%char ∉ pre ->
  charset_ok (default DEFAULT_CHARSET cs) ->
  is_ok (codec_encode (default DEFAULT_CHARSET cs) text) = true ->
  (o ← from_str (Some text) cs zip_data;
   block ← encrypt_to_block self (Some o) width r;
   o' ← decrypt_from_block self (pre ++ block ++ post);
   as_str o' None) = Ok (Some text).
Proof.
  intros Hkey Hpre Hcs Henc.
  destruct (text_path self text cs zip_data width r pre post)
    as (o & block & o' & -> & Hb & Ho' & Hs & _); [done..|].
  by rewrite bind_Ok, Hb, bind_Ok, Ho', bind_Ok.
Qed.

(** The path of a file, step by step: the object [from_path] makes of
    it, its block, and the object read back from the block, which carries
    the name of the file and data that stands for its bytes. *)
Lemma file_path self fs p zip_data width r pre post data :
  fernet_key_ok (key self) = true -> "="%char ∉ pre ->
  fs_read fs (path_str p) = Ok data -> filename_ok (path_name p) ->
  exists o block o' stored,
    from_path fs p zip_data = Ok o /\
    encrypt_to_block self (Some o) width r = Ok block /\
    decrypt_from_block self (pre ++ block ++ post) = Ok o' /\
    filename o' = Some (path_name p) /\
    binary_data o = Some stored /\ binary_data o' = Some stored /\
    plain_data o' stored = Ok data.
Proof.
  intros Hkey Hpre Hread Hname. unfold from_path. rewrite Hread, !bind_Ok.
  match goal with |- context [_store_data ?base _ _] =>
    destruct (store_data_plain base data zip_data) as (stored & Hs & Hp);
    destruct (_store_data_fields base (Some data) zip_data) as (Hct & _ & Hfn);
    pose proof (decrypt_encrypt_binary self (_store_data base (Some data) zip_data)
                  width r pre post stored (lit "application/octet-stream")
                  Hkey Hpre Hs) as Hrt
  end.
  rewrite Hct, Hfn in Hrt. specialize (Hrt eq_refl eq_refl Hname).
  apply bind_Ok_inv in Hrt as (block & Hblock & Hrt).
  by eexists _, block, _, stored.
Qed.

(** C3 - a file survives the whole path: the object [decrypt_from_block]
    returns for the block of a file read by [from_file] carries the name
    of the file, and [to_file] writes the bytes of the file under that
    name, whatever the compression mode and the width, when the name is
    one the parser reads back. *)
Theorem file_round_trip self fs name zip_data width r pre post data fs2 :
  fernet_key_ok (key self) = true -> "="%char ∉ pre ->
  fs_read fs (path_str (Path name)) = Ok data ->
  filename_ok (path_name (Path name)) ->
  path_str (Path (path_name (Path name))) ∉ fs_locked fs2 ->
  exists o' fs3,
    (o ← from_file fs name zip_data;
     block ← encrypt_to_block self (Some o) width r;
     decrypt_from_block self (pre ++ block ++ post)) = Ok o' /\
    filename o' = Some (path_name (Path name)) /\
    to_file o' fs2 None None
      = (fs3, Ok (Some (path_str (Path (path_name (Path name))), len data))) /\
    fs_read fs3 (path_str (Path (path_name (Path name)))) = Ok data.
Proof.
  intros Hkey Hpre Hread Hname Hlock. unfold from_file.
  destruct (file_path self fs (Path name) zip_data width r pre post data)
    as (o & block & o' & stored & -> & Hb & Ho' & Hfn & _ & Hs & Hp); [done..|].
  rewrite bind_Ok, Hb, bind_Ok. do 2 eexists. split; [done|]. split; [done|].
  erewrite to_file_run; [|done|by unfold target_of; rewrite Hfn|done|exact Hp].
  split; [done|]. apply fs_read_put.
Qed.

End round_trip.
