(* ===== verification/Headers.v ===== *)
(** * Headers: what the cipher does not protect

    [encrypt_to_block] encrypts the data of an object and writes the
    content type, the charset, the file name and the compression flag as
    header lines in front of the token.  The token is authenticated by the
    cipher; the header lines are plain text.  This file shows what follows
    for [decrypt_from_block]: the body of a block under the header lines of
    another object is accepted and read as that other object, so whoever
    can edit a block can choose, without the key, the charset the text is
    decoded with, the name the file is proposed under, and whether the
    data is decompressed. *)

From Stdlib Require Import Ascii ZArith Lia.
From stdpp Require Import base tactics option list strings sets gmap.
From S2P Require Import Prelude PyStr PyLines PyRe Interfaces DataObject BlockCrypter.
From S2P Require Import Render Parse Create RoundTrip.
Import Py.

(** The three header values [encrypt_to_block] writes for an object: the
    value of [Content-Type], the value of [Content-Disposition] and the
    line of [Content-Encoding]. *)
Definition header_values (o : DataObject) : str * str * str :=
  if is_text o then (text_type (charset o), lit "inline", encoding_line (is_zipped o))
  else (lit "application/octet-stream", disposition (filename o),
        encoding_line (is_zipped o)).

(** The block with the header lines of [o] and the body [body]. *)
Definition block_of (o : DataObject) (body : str) : str :=
  let '(ct, cd, enc) := header_values o in _block ct cd enc body.

Section headers.
Context `{!Zlib, !Codecs, !PathLib, !Fernet}.
Implicit Types (self : BlockCrypter) (o : DataObject) (width : option Z).

(** The body [encrypt_to_block] writes: the token in lines. *)
Definition body_of self width (r : fernet_entropy) (bin : bytes) : str :=
  wrap (token_text (key self) r bin) (default (default_width self) width).

Lemma is_text_true o ct0 :
  content_type o = Some ct0 -> lower ct0 = lit "text/plain" -> is_text o = true.
Proof. intros Hc Hct. unfold is_text. rewrite Hc. simpl. by rewrite Hct. Qed.

Lemma is_text_false o ct0 :
  content_type o = Some ct0 -> lower ct0 = lit "application/octet-stream" ->
  is_text o = false.
Proof. intros Hc Hct. unfold is_text. rewrite Hc. simpl. by rewrite Hct. Qed.

(** The block of a sendable object is its header lines and the body. *)
Lemma encrypt_block_of self o width r bin :
  sendable o -> binary_data o = Some bin ->
  encrypt_to_block self (Some o) width r = Ok (block_of o (body_of self width r bin)).
Proof.
  intros [_ Ho] Hb. unfold block_of, header_values, body_of.
  destruct (content_type o) as [ct0|] eqn:Hc; [|by destruct Ho as [[? _]|[? _]]].
  destruct Ho as [[[= Hct] _]|[[= Hct] _]].
  - rewrite (is_text_true o ct0) by done.
    by apply (encrypt_render self o width r bin ct0), block_headers_text.
  - rewrite (is_text_false o ct0) by done.
    by apply (encrypt_render self o width r bin ct0), block_headers_binary.
Qed.

(** Reading the block of a sendable object, from the round trip. *)
Lemma decrypt_block_of self o width r pre post bin :
  fernet_key_ok (key self) = true -> "="%char ∉ pre ->
  sendable o -> binary_data o = Some bin ->
  decrypt_from_block self (pre ++ block_of o (body_of self width r bin) ++ post)
    = Ok (normalise o).
Proof.
  intros Hkey Hpre Hs Hb. pose proof (encrypt_block_of self o width r bin Hs Hb) as He.
  destruct Hs as [_ Ho].
  destruct (content_type o) as [ct0|] eqn:Hc; [|by destruct Ho as [[? _]|[? _]]].
  destruct Ho as [[[= Hct] Hm]|[[= Hct] Hm]].
  - rewrite (normalise_text o bin ct0) by done.
    rewrite <- (decrypt_encrypt_text self o width r pre post bin ct0) by done.
    by rewrite He.
  - rewrite (normalise_binary o bin ct0) by done.
    rewrite <- (decrypt_encrypt_binary self o width r pre post bin ct0) by done.
    by rewrite He.
Qed.

(** C12 - the header lines of a block are not authenticated: the body of
    the block of an object [o], put under the header lines of any other
    sendable object [o'] that holds the same bytes, is decrypted without
    an error to [o'] in normal form, with the charset, the file name and
    the compression flag of [o'] and not those of [o]. *)
Theorem header_edit_undetected self o o' width r pre post :
  fernet_key_ok (key self) = true -> "="%char ∉ pre ->
  sendable o -> sendable o' -> binary_data o' = binary_data o ->
  exists body,
    encrypt_to_block self (Some o) width r = Ok (block_of o body) /\
    decrypt_from_block self (pre ++ block_of o' body ++ post) = Ok (normalise o').
Proof.
  intros Hkey Hpre Hs Hs' Hb. destruct (proj1 Hs) as [bin Hbin].
  exists (body_of self width r bin). split; [by apply encrypt_block_of|].
  apply decrypt_block_of; [done..|]. by rewrite Hb.
Qed.

(** The text read from the edited block is the bytes of [o] decoded with
    the charset of [o']. *)
Lemma as_str_normalise o :
  as_str (normalise o) None = as_str o (if is_text o then None else Some DEFAULT_CHARSET).
Proof.
  unfold as_str, normalise. cbn [binary_data charset is_zipped].
  destruct (binary_data o) as [bin|]; [|done]. unfold plain_data. cbn [is_zipped].
  destruct (is_text o); [|done].
  destruct (charset o) as [cs|]; [|done]. simpl.
  destruct (if is_zipped o then _ else _); [|done].
  by rewrite !bind_Ok, codec_decode_lower.
Qed.

End headers.
