(* ===== verification/UserSettings.v ===== *)
(** * UserSettings: the settings file of [src/usersettings.py]

    A [UserSettings] object holds the path of a file in the configuration
    directory of the user.  The file is the JSON dump of a dictionary; the
    property [settings] reads and writes all of it, [__getitem__], [get]
    and [__setitem__] one entry.  Every access reads the file, every
    change writes it, so the methods are functions of the file system.
    The values of the dictionary are of a type [V] that [json] handles. *)

From Stdlib Require Import Ascii ZArith Lia.
From stdpp Require Import base tactics option list strings gmap.
From S2P Require Import Prelude PyStr Interfaces.

(** [UserSettings.DEFAULT_FILENAME] *)
Definition DEFAULT_FILENAME : str := "settings.json".

(** The encoding of the settings file. *)
Definition SETTINGS_ENCODING : str := "ansi".

(** What is assigned to [settings]: a dictionary, or a value of another
    type, of which the setter reports the name. *)
Inductive assigned (V : Type) : Type :=
  | IsDict (d : gmap str V)
  | NotDict (type_name : str).
Arguments IsDict {V} d.
Arguments NotDict {V} type_name.

Section UserSettings.
Context `{!Codecs, !PathLib, !PlatformDirs} {V : Type} `{!Json V}.

Record UserSettings : Type := {
  platformdirs : path;
  user_settings_file : path;
}.

(** [UserSettings(app_name, app_author, filename, roaming)]: the
    configuration directory is created when it does not exist, and the
    file is looked for in it under the base name of [filename]. *)
Definition UserSettings_init (fs : FS) (app_name : str) (app_author : option str)
    (filename : option str) (roaming : bool) : FS * UserSettings :=
  let config := user_config_path app_name app_author roaming in
  let fs := if fs_exists fs (path_str config) then fs else fs_mkdir fs (path_str config) in
  (fs, {| platformdirs := config;
          user_settings_file :=
            match filename with
            | None => path_join config (Path DEFAULT_FILENAME)
            | Some f => path_join config (Path (path_name (Path f)))
            end |}).

(** The getter of [settings]. *)
Definition settings (self : UserSettings) (fs : FS) : result (gmap str V) :=
  if fs_exists fs (path_str (user_settings_file self)) then
    text ← fs_read_text fs (path_str (user_settings_file self)) SETTINGS_ENCODING;
    json_loads text
  else Ok ∅.

(** The setter of [settings]. *)
Definition set_settings (self : UserSettings) (fs : FS) (value : assigned V)
    : FS * result unit :=
  match value with
  | IsDict d =>
    let '(fs', r) := fs_write_text fs (path_str (user_settings_file self))
                                   (json_dumps d) SETTINGS_ENCODING in
    (fs', r ≫= fun _ => Ok tt)
  | NotDict type_name =>
    (fs, Raise (TypeError (lit "operand type must be a 'dict', got: '"
                           ++ type_name ++ lit "'")))
  end.

(** [self[name]] *)
Definition getitem (self : UserSettings) (fs : FS) (name : str) : result V :=
  d ← settings self fs;
  match d !! name with
  | Some v => Ok v
  | None => Raise KeyError
  end.

(** [get(self, name, default)] *)
Definition get (self : UserSettings) (fs : FS) (name : str) (default : V) : result V :=
  match getitem self fs name with
  | Raise KeyError => Ok default
  | r => r
  end.

(** [self[key] = value] *)
Definition setitem (self : UserSettings) (fs : FS) (key : str) (value : V)
    : FS * result unit :=
  match settings self fs with
  | Raise e => (fs, Raise e)
  | Ok current_settings => set_settings self fs (IsDict (<[key := value]> current_settings))
  end.

End UserSettings.

Arguments UserSettings {_}.

(** ** What the settings store promises *)
Section UserSettings_facts.
Context `{!Codecs, !PathLib, !PlatformDirs} {V : Type} `{!Json V}.
Implicit Types (self : UserSettings) (fs : FS) (d : gmap str V).

(** Without a file there are no settings. *)
Lemma settings_fresh self fs :
  fs_exists fs (path_str (user_settings_file self)) = false ->
  settings (V := V) self fs = Ok ∅.
Proof. unfold settings. by intros ->. Qed.

(** The run of the setter that succeeds. *)
Lemma set_settings_run self fs d b :
  path_str (user_settings_file self) ∉ fs_locked fs ->
  codec_encode SETTINGS_ENCODING (json_dumps d) = Ok b ->
  set_settings self fs (IsDict d)
    = (fs_put fs (path_str (user_settings_file self)) b, Ok tt).
Proof.
  intros Hl Hb. unfold set_settings, fs_write_text, fs_open_wb.
  by rewrite decide_False, Hb, fs_put_put.
Qed.

Lemma settings_put self fs d b :
  codec_encode SETTINGS_ENCODING (json_dumps d) = Ok b ->
  settings self (fs_put fs (path_str (user_settings_file self)) b) = Ok d.
Proof.
  intros Hb. unfold settings, fs_read_text. rewrite fs_exists_put, fs_read_put, bind_Ok.
  by rewrite (codec_decode_encode _ _ _ Hb), bind_Ok, json_loads_dumps.
Qed.

(** What the setter made of the file when it returned. *)
Lemma set_settings_inv self fs fs' d :
  set_settings self fs (IsDict d) = (fs', Ok tt) ->
  exists b, codec_encode SETTINGS_ENCODING (json_dumps d) = Ok b /\
            fs' = fs_put fs (path_str (user_settings_file self)) b.
Proof.
  unfold set_settings, fs_write_text, fs_open_wb.
  destruct (decide _); [by intros [= _ ?]|].
  destruct (codec_encode _ _) as [b|e]; [|by intros [= _ ?]].
  rewrite fs_put_put. intros [= <-]. eauto.
Qed.

Lemma setitem_inv self fs fs' k v :
  setitem self fs k v = (fs', Ok tt) ->
  exists d, settings self fs = Ok d /\ settings self fs' = Ok (<[k := v]> d).
Proof.
  unfold setitem. destruct (settings self fs) as [d|e] eqn:E; [|by intros [= _ ?]].
  intros (b & Hb & ->)%set_settings_inv. eauto using settings_put.
Qed.

(** The run of [self[key] = value] that succeeds. *)
Lemma setitem_run self fs k v d b :
  settings self fs = Ok d ->
  path_str (user_settings_file self) ∉ fs_locked fs ->
  codec_encode SETTINGS_ENCODING (json_dumps (<[k := v]> d)) = Ok b ->
  setitem self fs k v = (fs_put fs (path_str (user_settings_file self)) b, Ok tt).
Proof. intros Hd Hl Hb. unfold setitem. rewrite Hd. by apply set_settings_run. Qed.

(** What was assigned to [settings] is what [settings] returns:
    after the setter returned, the getter gives the dictionary. *)
Theorem settings_set_settings self fs fs' d :
  set_settings self fs (IsDict d) = (fs', Ok tt) -> settings self fs' = Ok d.
Proof. intros (b & Hb & ->)%set_settings_inv. by apply settings_put. Qed.

(** C29 - [self[key] = value] then [self[key]] gives the value, and every
    other key is as it was: looked up after the assignment it gives what
    it gave before. *)
Theorem getitem_setitem self fs fs' k v :
  setitem self fs k v = (fs', Ok tt) ->
  getitem self fs' k = Ok v /\
  forall k', k' <> k -> getitem self fs' k' = getitem self fs k'.
Proof.
  intros (d & Hd & Hd')%setitem_inv. unfold getitem. rewrite Hd, Hd', !bind_Ok.
  split; [by rewrite lookup_insert_eq|].
  intros k' Hk. by rewrite !bind_Ok, lookup_insert_ne.
Qed.

(** [get] returns the default exactly for a key that is missing: it
    returns the value of a key that is there, the default when the
    settings can be read and lack the key, and raises what reading the
    settings raised. *)
Theorem get_spec self fs name default :
  get self fs name default
    = match settings self fs with
      | Ok d => Ok (from_option id default (d !! name))
      | Raise KeyError => Ok default
      | Raise e => Raise e
      end.
Proof.
  unfold get, getitem. destruct (settings self fs) as [d|e]; [|by destruct e].
  rewrite bind_Ok. by destruct (d !! name).
Qed.

(** Assigning a value that is no dictionary to [settings] raises
    [TypeError] with the name of its type and leaves the file as it was. *)
Lemma set_settings_not_dict self fs type_name :
  set_settings (V := V) self fs (NotDict type_name)
    = (fs, Raise (TypeError (lit "operand type must be a 'dict', got: '"
                             ++ type_name ++ lit "'"))).
Proof. done. Qed.

(** The setter opens the file before the text is encoded: when the
    encoding is not known or cannot represent the text, the exception is
    raised after the file was created or truncated, and the file is
    empty. *)
Theorem set_settings_truncates self fs d e :
  path_str (user_settings_file self) ∉ fs_locked fs ->
  codec_encode SETTINGS_ENCODING (json_dumps d) = Raise e ->
  exists fs',
    set_settings self fs (IsDict d) = (fs', Raise e) /\
    fs_read fs' (path_str (user_settings_file self)) = Ok [].
Proof.
  intros Hl He. unfold set_settings, fs_write_text, fs_open_wb.
  rewrite decide_False, He by done. eexists. split; [done|]. apply fs_read_put.
Qed.

(** The constructor leaves a file system in which the configuration
    directory exists, and it changes no file. *)
Lemma init_creates_directory fs app_name app_author filename roaming :
  let '(fs', self) := UserSettings_init fs app_name app_author filename roaming in
  fs_exists fs' (path_str (platformdirs self)) = true /\
  fs_files fs' = fs_files fs.
Proof.
  unfold UserSettings_init. simpl.
  destruct (fs_exists fs _) eqn:E; [done|]. split; [|done].
  unfold fs_exists, fs_mkdir. simpl.
  rewrite (bool_decide_eq_true_2 (_ ∈ _)) by set_solver. by rewrite orb_true_r.
Qed.

(** ** An encoding the codecs do not know *)

(** Without a settings file [get] returns the default. *)
Lemma get_fresh self fs name default :
  fs_exists fs (path_str (user_settings_file self)) = false ->
  get self fs name default = Ok default.
Proof. intros Hf. unfold get, getitem. by rewrite settings_fresh. Qed.

(** The first assignment creates the file and then fails to encode. *)
Lemma setitem_unknown_encoding self fs k v e :
  fs_exists fs (path_str (user_settings_file self)) = false ->
  path_str (user_settings_file self) ∉ fs_locked fs ->
  (forall s, codec_encode SETTINGS_ENCODING s = Raise e) ->
  setitem self fs k v = (fs_put fs (path_str (user_settings_file self)) [], Raise e).
Proof.
  intros Hf Hl He. unfold setitem. rewrite settings_fresh by done.
  unfold set_settings, fs_write_text, fs_open_wb. by rewrite decide_False, He.
Qed.

(** A settings file that cannot be decoded makes [get] raise. *)
Lemma get_unknown_encoding self fs name default b :
  fs_read fs (path_str (user_settings_file self)) = Ok b ->
  codec_decode SETTINGS_ENCODING b = Raise LookupError ->
  get self fs name default = Raise LookupError.
Proof.
  intros Hb Hd. unfold get, getitem, settings, fs_read_text, fs_exists. rewrite Hb.
  unfold fs_read in Hb. destruct (fs_files fs !! _) eqn:E; [|done].
  rewrite bool_decide_eq_true_2 by done. simpl. by rewrite Hd.
Qed.

(** C30 - where the codecs do not know the encoding of the settings file,
    the store breaks on its first assignment: before it, [get] returns
    the default; the assignment raises [LookupError] and leaves an empty
    settings file; from then on [get] raises [LookupError] instead of
    returning the default, and every further assignment raises and
    changes nothing. *)
Theorem broken_without_encoding self fs k v :
  (forall s, codec_encode SETTINGS_ENCODING s = Raise LookupError) ->
  (forall b, codec_decode SETTINGS_ENCODING b = Raise LookupError) ->
  fs_exists fs (path_str (user_settings_file self)) = false ->
  path_str (user_settings_file self) ∉ fs_locked fs ->
  exists fs',
    setitem self fs k v = (fs', Raise LookupError) /\
    fs_read fs' (path_str (user_settings_file self)) = Ok [] /\
    (forall name default,
       get self fs name default = Ok default /\
       get self fs' name default = Raise LookupError) /\
    (forall k' v', setitem self fs' k' v' = (fs', Raise LookupError)).
Proof.
  intros Henc Hdec Hf Hl. eexists. split; [by apply setitem_unknown_encoding|].
  split; [apply fs_read_put|]. split.
  - intros name default. split; [by apply get_fresh|].
    by apply (get_unknown_encoding _ _ _ _ []); [apply fs_read_put|].
  - intros k' v'. unfold setitem, settings, fs_read_text.
    by rewrite fs_exists_put, fs_read_put, bind_Ok, Hdec.
Qed.

(** ** A settings file that works

    The settings can be read and the file can be written. *)
Definition usable self fs : Prop :=
  is_ok (settings self fs) = true /\ path_str (user_settings_file self) ∉ fs_locked fs.

(** [get] of settings that can be read returns. *)
Lemma get_usable self fs name default :
  usable self fs -> exists v, get self fs name default = Ok v.
Proof.
  intros [Hs _]. unfold get, getitem. destruct (settings self fs) as [d|]; [|done].
  rewrite bind_Ok. destruct (d !! name); eauto.
Qed.

(** Where the encoding of the file encodes every text, an assignment to
    usable settings returns and leaves them usable, with the key set. *)
Lemma setitem_usable self fs k v :
  (forall s, is_ok (codec_encode SETTINGS_ENCODING s) = true) -> usable self fs ->
  exists b,
    setitem self fs k v = (fs_put fs (path_str (user_settings_file self)) b, Ok tt) /\
    usable self (fs_put fs (path_str (user_settings_file self)) b) /\
    getitem self (fs_put fs (path_str (user_settings_file self)) b) k = Ok v.
Proof.
  intros Henc [Hs Hl]. destruct (settings self fs) as [d|] eqn:Hd; [|done].
  specialize (Henc (json_dumps (<[k := v]> d))).
  destruct (codec_encode _ _) as [b|] eqn:Hb; [|done]. exists b.
  pose proof (settings_put self fs _ b Hb) as Hd'.
  split; [by apply (setitem_run self fs k v d)|]. unfold usable, getitem.
  by rewrite Hd', bind_Ok, lookup_insert_eq.
Qed.

(** The setter and [self[key] = value] change no file but the settings
    file. *)
Lemma set_settings_frame keep self fs value :
  path_str (user_settings_file self) ∈ keep ->
  same_but keep fs (set_settings self fs value).1.
Proof.
  intros Hp. destruct value as [d|]; [|done]. unfold set_settings.
  pose proof (same_but_write_text keep fs _ (json_dumps d) SETTINGS_ENCODING Hp) as Hw.
  by destruct (fs_write_text _ _ _ _).
Qed.

Lemma setitem_frame keep self fs k v :
  path_str (user_settings_file self) ∈ keep -> same_but keep fs (setitem self fs k v).1.
Proof.
  intros Hp. unfold setitem. destruct (settings self fs); [|done].
  by apply set_settings_frame.
Qed.

End UserSettings_facts.
