(* ===== verification/Store.v ===== *)
(** * Store: the dictionary that [UserSettings] implements

    To the code that uses it, a [UserSettings] object of
    [src/usersettings.py] is a dictionary that outlives the program.  The
    specification is that dictionary: [spec_step] says what each operation
    answers and what it makes of the dictionary.  The implementation is
    [impl_step], the methods of [UserSettings.v] on the file system.  The
    two are related by [holds]: the settings file can be read, it holds the
    dictionary, and it can be written.  Where the encoding of the file
    encodes every text, each operation of the implementation answers what
    the specification answers and keeps the relation, and so does every
    sequence of operations. *)

From Stdlib Require Import Ascii ZArith Lia.
From stdpp Require Import base tactics option list strings gmap.
From S2P Require Import Prelude PyStr Interfaces UserSettings.

Section Store.
Context `{!Codecs, !PathLib, !PlatformDirs} {V : Type} `{!Json V}.

(** The operations of the store, and what they answer. *)
Inductive op : Type :=
  | Settings
  | SetSettings (value : assigned V)
  | GetItem (name : str)
  | Get (name : str) (default : V)
  | SetItem (key : str) (value : V).

Inductive answer : Type :=
  | Dict (d : gmap str V)
  | Value (v : V)
  | Done.

(** ** The specification: a dictionary *)
Definition spec_step (o : op) (d : gmap str V) : gmap str V * result answer :=
  match o with
  | Settings => (d, Ok (Dict d))
  | SetSettings (IsDict d') => (d', Ok Done)
  | SetSettings (NotDict type_name) =>
    (d, Raise (TypeError (lit "operand type must be a 'dict', got: '"
                          ++ type_name ++ lit "'")))
  | GetItem name =>
    (d, match d !! name with Some v => Ok (Value v) | None => Raise KeyError end)
  | Get name default => (d, Ok (Value (from_option id default (d !! name))))
  | SetItem key value => (<[key := value]> d, Ok Done)
  end.

(** ** The implementation: the methods of [UserSettings] *)
Definition impl_step (self : UserSettings) (o : op) (fs : FS) : FS * result answer :=
  match o with
  | Settings => (fs, Dict <$> settings self fs)
  | SetSettings value =>
    let '(fs', r) := set_settings self fs value in (fs', (fun _ => Done) <$> r)
  | GetItem name => (fs, Value <$> getitem self fs name)
  | Get name default => (fs, Value <$> get self fs name default)
  | SetItem key value =>
    let '(fs', r) := setitem self fs key value in (fs', (fun _ => Done) <$> r)
  end.

(** A sequence of operations: the state it leaves and the answers, the
    first first.  An operation that raised is followed by the next. *)
Fixpoint spec_run (os : list op) (d : gmap str V) : gmap str V * list (result answer) :=
  match os with
  | [] => (d, [])
  | o :: os' =>
    let rest := spec_run os' (spec_step o d).1 in (rest.1, (spec_step o d).2 :: rest.2)
  end.

Fixpoint impl_run (self : UserSettings) (os : list op) (fs : FS)
    : FS * list (result answer) :=
  match os with
  | [] => (fs, [])
  | o :: os' =>
    let rest := impl_run self os' (impl_step self o fs).1 in
    (rest.1, (impl_step self o fs).2 :: rest.2)
  end.

(** ** The abstraction *)

(** The file system holds the dictionary [d] in the settings file of
    [self], and the file can be written. *)
Definition holds (self : UserSettings) (fs : FS) (d : gmap str V) : Prop :=
  settings self fs = Ok d /\ path_str (user_settings_file self) ∉ fs_locked fs.

(** The encoding of the settings file encodes every text. *)
Definition encodes_all : Prop :=
  forall s, is_ok (codec_encode SETTINGS_ENCODING s) = true.

Implicit Types (self : UserSettings) (fs : FS) (d : gmap str V) (o : op).

Lemma holds_usable self fs d : holds self fs d -> usable self fs.
Proof. intros [Hd Hl]. split; [by rewrite Hd|done]. Qed.

(** A dictionary assigned to the store is held by it afterwards. *)
Lemma set_settings_holds self fs d d' :
  encodes_all -> holds self fs d ->
  exists fs', set_settings self fs (IsDict d') = (fs', Ok tt) /\ holds self fs' d'.
Proof.
  intros Henc [_ Hl]. specialize (Henc (json_dumps d')).
  destruct (codec_encode _ _) as [b|] eqn:Hb; [|done]. eexists. split.
  - by apply (set_settings_run self fs d' b).
  - split; [by apply settings_put|done].
Qed.

(** One operation: the same answer, and the relation is kept. *)
Lemma step_refines self o fs d :
  encodes_all -> holds self fs d ->
  (impl_step self o fs).2 = (spec_step o d).2
  /\ holds self (impl_step self o fs).1 (spec_step o d).1.
Proof.
  intros Henc Hh. pose proof Hh as [Hd Hl].
  destruct o as [|[d'|n]|name|name default|k v]; cbn [impl_step spec_step].
  - by rewrite Hd.
  - by destruct (set_settings_holds self fs d d' Henc Hh) as (fs' & -> & ?).
  - done.
  - unfold getitem. rewrite Hd, bind_Ok. by destruct (d !! name).
  - unfold get, getitem. rewrite Hd, bind_Ok. by destruct (d !! name).
  - unfold setitem. rewrite Hd.
    by destruct (set_settings_holds self fs d (<[k := v]> d) Henc Hh) as (fs' & -> & ?).
Qed.

Lemma run_refines self os fs d :
  encodes_all -> holds self fs d ->
  (impl_run self os fs).2 = (spec_run os d).2
  /\ holds self (impl_run self os fs).1 (spec_run os d).1.
Proof.
  intros Henc. induction os as [|o os IH] in fs, d |- *; intros Hh; [done|].
  cbn [impl_run spec_run fst snd].
  destruct (step_refines self o fs d Henc Hh) as [-> Hh'].
  destruct (IH _ _ Hh') as [-> ?]. done.
Qed.

(** C13 - [UserSettings] implements a dictionary: where the encoding of
    the settings file encodes every text and the file holds a dictionary
    and can be written, every sequence of [settings], assignments to
    [settings], [self[name]], [get] and [self[key] = value] answers what the
    same sequence answers on the dictionary, exceptions included, and
    leaves the file holding the dictionary the sequence leaves. *)
Theorem store_refines self os fs d :
  encodes_all -> holds self fs d ->
  (impl_run self os fs).2 = (spec_run os d).2
  /\ holds self (impl_run self os fs).1 (spec_run os d).1.
Proof. apply run_refines. Qed.

(** Before the settings file exists the store holds the empty dictionary. *)
Lemma fresh_holds self fs :
  fs_exists fs (path_str (user_settings_file self)) = false ->
  path_str (user_settings_file self) ∉ fs_locked fs ->
  holds self fs ∅.
Proof. intros Hf Hl. split; [by apply settings_fresh|done]. Qed.

End Store.
