(* ===== verification/Gui.v ===== *)
(** * Gui: the main window of [src/crippy.py]

    The window is the record [MainWindow] of what its widgets hold; the
    world a slot runs in is the window, the file system and the dialogs
    shown so far.  A slot is a computation in the monad [gui], which
    threads the world and stops at the first exception that is not
    caught: what a slot changed before it raised stays changed, as it does
    when Qt returns to its event loop.  What the user answers to a file
    dialog, the working directory and the entropy of the cipher are
    arguments of the slots that need them.

    Two signals are connected by [connectSlotsByName] and are part of the
    model: changing the text of the input runs [on_te_input_textChanged],
    and changing the state of the check box runs
    [on_cb_show_password_stateChanged].  Of [src/myplaintextedit.py] the
    two event handlers of the input are modelled: [dragEnterEvent], which
    accepts a drag of URLs before the class of Qt sees it, and
    [dropEvent], which emits [file_dropped].  What the class of Qt does
    with an event is an argument of the first and the text
    [text_after_drop] of the second. *)

From Stdlib Require Import Ascii ZArith Lia.
From stdpp Require Import base tactics option list strings gmap.
From S2P Require Import Prelude PyStr PyFormat Interfaces DataObject BlockCrypter.
From S2P Require Import UserSettings.
Import Py.

(** [QLineEdit.EchoMode], as far as the sources use it. *)
Inductive EchoMode : Type := Normal | Password.

#[export] Instance EchoMode_eq_dec : EqDecision EchoMode.
Proof. solve_decision. Defined.

(** A dialog the user was shown. *)
Inductive dialog : Type :=
  | About (title text : str)
  | Critical (title text : str)
  | OpenFileName (caption dir : str)
  | SaveFileName (caption dir : str).

#[export] Instance dialog_eq_dec : EqDecision dialog.
Proof. solve_decision. Defined.

Definition __version__ : str := "1.0.0".

Definition __copyright__ : str :=
  join "<br>"
    [lit "Copyright (C) 2021-2025  Ben Hattem";
     [];
     lit "This program comes with ABSOLUTELY NO WARRANTY.";
     lit "This is free software, and you are welcome to redistribute it under certain conditions."].

(** [msg_with_correct_plural(template, number)] *)
Definition msg_with_correct_plural (template : str) (number : Z) : result str :=
  let s_or_no_s : str := if decide (number = 1%Z) then [] else lit "s" in
  let str_number := replace (Fmt.format_thousands number) "," "." in
  Fmt.format template [str_number; s_or_no_s].

Definition LAST_LOAD_PATH : str := "LAST_LOAD_PATH".
Definition LAST_SAVE_PATH : str := "LAST_SAVE_PATH".

(** The bytes of an object are there and not empty ([if data.binary_data]). *)
Definition has_data (o : DataObject) : bool :=
  match binary_data o with
  | Some (_ :: _) => true
  | _ => false
  end.

(** [0 if data.binary_data is None else len(data.binary_data)] *)
Definition len_data (o : DataObject) : Z :=
  match binary_data o with
  | None => 0
  | Some b => len b
  end.

(** What a drag holds: the local files of its URLs, and the text that the
    input holds after the drop when the widget handles the drop itself. *)
Record mime : Type := {
  urls : list str;
  text_after_drop : str;
}.

(** A drag over the input: what it holds, and whether the widget has
    accepted it. *)
Record drag : Type := {
  drag_mime : mime;
  accepted : bool;
}.

(** [mime_data.hasUrls()] and [event.accept()] *)
Definition hasUrls (m : mime) : bool := negb (bool_decide (urls m = [])).

Definition accept (event : drag) : drag := {| drag_mime := drag_mime event; accepted := true |}.

(** [dragEnterEvent(self, event)] of [src/myplaintextedit.py]: a drag that
    holds URLs is accepted, and then the method of [QPlainTextEdit] sees
    the event; [super_dragEnterEvent] is that method. *)
Definition dragEnterEvent (super_dragEnterEvent : drag -> drag) (event : drag) : drag :=
  super_dragEnterEvent (if hasUrls (drag_mime event) then accept event else event).

Section Gui.
Context `{!Zlib, !Codecs, !PathLib, !Fernet, !Pbkdf2, !PlatformDirs, !Json str}.

(** The widgets of the window and the settings object. *)
Record MainWindow : Type := {
  user_settings : UserSettings;
  le_password : str;
  echo_mode : EchoMode;
  cb_show_password : bool;
  le_filename : str;
  te_input : str;
  te_output : str;
  status_bar : str;
  closed : bool;
}.

Record World : Type := {
  window : MainWindow;
  disk : FS;
  shown : list dialog;
}.

(** ** The monad of the slots *)
Definition gui (A : Type) : Type := World -> World * result A.

#[export] Instance gui_ret : MRet gui := fun _ a w => (w, Ok a).

#[export] Instance gui_bind : MBind gui := fun _ _ f m w =>
  match m w with
  | (w', Ok a) => f a w'
  | (w', Raise e) => (w', Raise e)
  end.

(** [self] *)
Definition get_window : gui MainWindow := fun w => (w, Ok (window w)).

Definition update (f : MainWindow -> MainWindow) : gui unit := fun w =>
  ({| window := f (window w); disk := disk w; shown := shown w |}, Ok tt).

(** A call that can raise. *)
Definition lift {A} (r : result A) : gui A := fun w => (w, r).

(** A call that reads the file system, and one that changes it. *)
Definition read_disk {A} (f : FS -> result A) : gui A := fun w => (w, f (disk w)).

Definition on_disk {A} (f : FS -> FS * result A) : gui A := fun w =>
  let '(fs, r) := f (disk w) in
  ({| window := window w; disk := fs; shown := shown w |}, r).

(** A modal dialog is shown and dismissed. *)
Definition show (d : dialog) : gui unit := fun w =>
  ({| window := window w; disk := disk w; shown := d :: shown w |}, Ok tt).

(** ** The widgets *)

Definition set_le_password (s : str) (m : MainWindow) : MainWindow :=
  {| user_settings := user_settings m; le_password := s; echo_mode := echo_mode m;
     cb_show_password := cb_show_password m; le_filename := le_filename m;
     te_input := te_input m; te_output := te_output m; status_bar := status_bar m;
     closed := closed m |}.

Definition setEchoMode (e : EchoMode) (m : MainWindow) : MainWindow :=
  {| user_settings := user_settings m; le_password := le_password m; echo_mode := e;
     cb_show_password := cb_show_password m; le_filename := le_filename m;
     te_input := te_input m; te_output := te_output m; status_bar := status_bar m;
     closed := closed m |}.

Definition set_cb_show_password (b : bool) (m : MainWindow) : MainWindow :=
  {| user_settings := user_settings m; le_password := le_password m;
     echo_mode := echo_mode m; cb_show_password := b; le_filename := le_filename m;
     te_input := te_input m; te_output := te_output m; status_bar := status_bar m;
     closed := closed m |}.

Definition set_le_filename (s : str) (m : MainWindow) : MainWindow :=
  {| user_settings := user_settings m; le_password := le_password m;
     echo_mode := echo_mode m; cb_show_password := cb_show_password m; le_filename := s;
     te_input := te_input m; te_output := te_output m; status_bar := status_bar m;
     closed := closed m |}.

Definition set_te_input (s : str) (m : MainWindow) : MainWindow :=
  {| user_settings := user_settings m; le_password := le_password m;
     echo_mode := echo_mode m; cb_show_password := cb_show_password m;
     le_filename := le_filename m; te_input := s; te_output := te_output m;
     status_bar := status_bar m; closed := closed m |}.

Definition set_te_output (s : str) (m : MainWindow) : MainWindow :=
  {| user_settings := user_settings m; le_password := le_password m;
     echo_mode := echo_mode m; cb_show_password := cb_show_password m;
     le_filename := le_filename m; te_input := te_input m; te_output := s;
     status_bar := status_bar m; closed := closed m |}.

(** [status_bar.showMessage(s)]; [clearMessage] shows the empty message. *)
Definition showMessage (s : str) (m : MainWindow) : MainWindow :=
  {| user_settings := user_settings m; le_password := le_password m;
     echo_mode := echo_mode m; cb_show_password := cb_show_password m;
     le_filename := le_filename m; te_input := te_input m; te_output := te_output m;
     status_bar := s; closed := closed m |}.

Definition set_closed (m : MainWindow) : MainWindow :=
  {| user_settings := user_settings m; le_password := le_password m;
     echo_mode := echo_mode m; cb_show_password := cb_show_password m;
     le_filename := le_filename m; te_input := te_input m; te_output := te_output m;
     status_bar := status_bar m; closed := true |}.

(** ** The slots that signals run *)

(** [on_cb_show_password_stateChanged(self)] *)
Definition on_cb_show_password_stateChanged : gui unit :=
  self ← get_window;
  (if cb_show_password self then update (setEchoMode Normal)
   else update (setEchoMode Password));;
  update (showMessage []).

(** [on_te_input_textChanged(self)] *)
Definition on_te_input_textChanged : gui unit :=
  update (set_te_output []);;
  update (showMessage []).

(** [cb_show_password.setChecked(b)]: the signal is emitted when the state
    changes. *)
Definition setChecked (b : bool) : gui unit :=
  self ← get_window;
  if bool_decide (cb_show_password self = b) then mret tt
  else update (set_cb_show_password b);; on_cb_show_password_stateChanged.

(** [te_input.setPlainText(s)], [te_input.clear()] and an edit by the
    user: the signal is emitted. *)
Definition te_input_set (s : str) : gui unit :=
  update (set_te_input s);; on_te_input_textChanged.

(** ** The methods of the window *)

(** [MainWindow()]: the settings object and the widgets as [setupUi]
    leaves them. *)
Definition MainWindow_init (fs : FS) : World :=
  let '(fs', s) := UserSettings_init fs "crippy" (Some (lit "nl.benhattem")) None false in
  {| window := {| user_settings := s; le_password := []; echo_mode := Password;
                  cb_show_password := false; le_filename := []; te_input := [];
                  te_output := []; status_bar := []; closed := false |};
     disk := fs'; shown := [] |}.

(** [reset_gui(self)] *)
Definition reset_gui : gui unit :=
  update (set_le_password []);;
  setChecked false;;
  update (set_le_filename []);;
  te_input_set [];;
  update (set_te_output []);;
  update (showMessage []).

Definition on_file_new_triggered : gui unit := reset_gui.

Definition on_file_exit_triggered : gui unit := update set_closed.

Definition on_help_about_triggered : gui unit :=
  let about_text :=
    join "<br>"
      [lit "<b>crippy</b> V" ++ __version__;
       [];
       __copyright__;
       [];
       lit "Encrypt / decrypt text and files to and from BASE64 encoded blocks."] in
  show (About "About" about_text).

(** [select_file_dialog(self, save, overrule_filename)]; [cwd] is
    [Path.cwd()] and [answer] the file the user selects, empty when the
    dialog is cancelled. *)
Definition select_file_dialog (save : bool) (overrule_filename : option str)
    (cwd answer : str) : gui str :=
  let setting := if save then LAST_SAVE_PATH else LAST_LOAD_PATH in
  self ← get_window;
  start ← read_disk (fun fs => get (user_settings self) fs setting cwd);
  let start_path := Path start in
  let given_filename :=
    match overrule_filename with
    | None => le_filename self
    | Some f => f
    end in
  let start_path :=
    if bool_decide (given_filename = []) then start_path
    else path_join start_path (Path (path_name (Path given_filename))) in
  let str_start_path := path_str start_path in
  show (if save then SaveFileName "Save File" str_start_path
        else OpenFileName "Open File" str_start_path);;
  let filename := answer in
  (if bool_decide (overrule_filename = None) && negb (bool_decide (filename = [])) then
     let path_filename := Path filename in
     on_disk (fun fs => setitem (user_settings self) fs setting
                                (path_str (path_parent path_filename)));;
     update (set_le_filename (path_name path_filename))
   else mret tt);;
  mret filename.

(** [encrypt(self, data)] *)
Definition encrypt (data : DataObject) (r : fernet_entropy) : gui str :=
  self ← get_window;
  key ← lift (derive_key_from_password (le_password self) SALT None);
  block_crypter ← lift (BlockCrypter_init key None);
  encrypted_data ← lift (encrypt_to_block block_crypter (Some data) None r);
  msg ← lift (msg_with_correct_plural "Encrypted {} byte{}..." (len_data data));
  update (showMessage msg);;
  mret encrypted_data.

(** [on_encrypt_input_to_output_triggered(self)] *)
Definition on_encrypt_input_to_output_triggered (r : fernet_entropy) : gui unit :=
  self ← get_window;
  data ← lift (from_str (Some (te_input self)) None None);
  encrypted_block ← encrypt data r;
  update (set_te_output encrypted_block).

(** [_encrypt_file(self, filename)] for a file name that is a string, and
    for one that is a path (a path is never empty). *)
Definition _encrypt_file_path (filename : path) (r : fernet_entropy) : gui unit :=
  te_input_set [];;
  data ← read_disk (fun fs => from_path fs filename None);
  encrypted_block ← encrypt data r;
  update (set_te_output encrypted_block).

Definition _encrypt_file (filename : str) (r : fernet_entropy) : gui unit :=
  if bool_decide (filename = []) then mret tt
  else _encrypt_file_path (Path filename) r.

(** [on_encrypt_file_to_output_triggered(self)] *)
Definition on_encrypt_file_to_output_triggered (cwd answer : str) (r : fernet_entropy)
    : gui unit :=
  filename ← select_file_dialog false None cwd answer;
  _encrypt_file filename r.

(** [decrypt(self)] *)
Definition decrypt : gui DataObject :=
  self ← get_window;
  let input_text := te_input self in
  if bool_decide (input_text = []) then
    show (Critical "No input"
            (lit "There is no input." ++ [NL; NL]
             ++ lit "Please provide an input block..." ++ [NL]));;
    lift (from_str (Some []) None None)
  else
    key ← lift (derive_key_from_password (le_password self) SALT None);
    block_crypter ← lift (BlockCrypter_init key None);
    match decrypt_from_block block_crypter input_text with
    | Raise _ =>
      show (Critical "Decryption error"
              (lit "Could not decrypt input." ++ [NL; NL]
               ++ lit "Please check your password..." ++ [NL]));;
      lift (from_str (Some []) None None)
    | Ok decrypted_data =>
      match filename decrypted_data with
      | Some f => update (set_le_filename (path_name (Path f)))
      | None => mret tt
      end;;
      msg ← lift (msg_with_correct_plural "Decrypted {} byte{}" (len_data decrypted_data));
      update (showMessage msg);;
      mret decrypted_data
    end.

(** [on_decrypt_input_to_output_triggered(self)] *)
Definition on_decrypt_input_to_output_triggered : gui unit :=
  decrypted_data ← decrypt;
  (if has_data decrypted_data then
     output_text ← lift (as_str decrypted_data None);
     update (set_te_output (default [] output_text))
   else mret tt);;
  self ← get_window;
  update (showMessage (status_bar self ++ lit "...")).

(** [on_decrypt_input_to_file_triggered(self)] *)
Definition on_decrypt_input_to_file_triggered (cwd answer : str) : gui unit :=
  decrypted_data ← decrypt;
  if has_data decrypted_data then
    filename ← select_file_dialog true None cwd answer;
    if negb (bool_decide (filename = [])) then
      update (set_te_output []);;
      on_disk (fun fs => to_file decrypted_data fs (Some filename) None);;
      self ← get_window;
      update (showMessage (status_bar self ++ lit ", saved to '" ++ filename ++ lit "'..."))
    else
      self ← get_window;
      update (showMessage (status_bar self ++ lit ", NOT saved (cancelled)..."))
  else mret tt.

Definition on_pb_encrypt_from_file_clicked := on_encrypt_file_to_output_triggered.
Definition on_pb_decrypt_to_file_clicked := on_decrypt_input_to_file_triggered.
Definition on_pb_encrypt_clicked := on_encrypt_input_to_output_triggered.
Definition on_pb_decrypt_clicked := on_decrypt_input_to_output_triggered.

(** [on_te_input_file_dropped(self, filename)] *)
Definition on_te_input_file_dropped (filename : path) (r : fernet_entropy) : gui unit :=
  self ← get_window;
  on_disk (fun fs => setitem (user_settings self) fs LAST_LOAD_PATH
                             (path_str (path_parent filename)));;
  _encrypt_file_path filename r.

(** ** The drop event of the input ([src/myplaintextedit.py]) *)

(** [dropEvent]: the first URL is emitted as [file_dropped]; a drop
    without URLs is handled by the widget, which changes its text. *)
Definition dropEvent (m : mime) (r : fernet_entropy) : gui unit :=
  match urls m with
  | url :: _ => on_te_input_file_dropped (Path url) r
  | [] => te_input_set (text_after_drop m)
  end.

(** ** What the user does

    The menu items and the buttons of [src/crippy_ui.py] whose signals
    have a slot, the check box, and the edits of the three fields the
    user can type in.  The actions [file_open] and [file_save] of the
    user interface are in no menu and have no slot. *)
Inductive event : Type :=
  | FileNew
  | FileExit
  | HelpAbout
  | ShowPasswordClicked
  | PasswordEdited (s : str)
  | FilenameEdited (s : str)
  | InputEdited (s : str)
  | EncryptInputToOutput (r : fernet_entropy)
  | EncryptFileToOutput (cwd answer : str) (r : fernet_entropy)
  | DecryptInputToOutput
  | DecryptInputToFile (cwd answer : str)
  | PbEncrypt (r : fernet_entropy)
  | PbEncryptFromFile (cwd answer : str) (r : fernet_entropy)
  | PbDecrypt
  | PbDecryptToFile (cwd answer : str)
  | Dropped (m : mime) (r : fernet_entropy).

(** The slot an event runs, as [connectSlotsByName] connects them. *)
Definition handle (e : event) : gui unit :=
  match e with
  | FileNew => on_file_new_triggered
  | FileExit => on_file_exit_triggered
  | HelpAbout => on_help_about_triggered
  | ShowPasswordClicked => self ← get_window; setChecked (negb (cb_show_password self))
  | PasswordEdited s => update (set_le_password s)
  | FilenameEdited s => update (set_le_filename s)
  | InputEdited s => te_input_set s
  | EncryptInputToOutput r => on_encrypt_input_to_output_triggered r
  | EncryptFileToOutput cwd answer r => on_encrypt_file_to_output_triggered cwd answer r
  | DecryptInputToOutput => on_decrypt_input_to_output_triggered
  | DecryptInputToFile cwd answer => on_decrypt_input_to_file_triggered cwd answer
  | PbEncrypt r => on_pb_encrypt_clicked r
  | PbEncryptFromFile cwd answer r => on_pb_encrypt_from_file_clicked cwd answer r
  | PbDecrypt => on_pb_decrypt_clicked
  | PbDecryptToFile cwd answer => on_pb_decrypt_to_file_clicked cwd answer
  | Dropped m r => dropEvent m r
  end.

(** The world after an event, whether its slot returned or raised. *)
Definition after (e : event) (w : World) : World := (handle e w).1.

(** The world after the events of a session, the first of them first. *)
Definition run (es : list event) (w : World) : World :=
  fold_left (fun w e => after e w) es w.

(** The worlds the window can be in, from a file system at its start. *)
Inductive reachable (fs : FS) : World -> Prop :=
  | reachable_init : reachable fs (MainWindow_init fs)
  | reachable_step w e : reachable fs w -> reachable fs (after e w).

End Gui.
