(* ===== verification/GuiFacts.v ===== *)
(** * GuiFacts: what the slots of the main window keep and establish

    [preserves P m] says that the computation [m] of the monad [gui] keeps
    the property [P] of the world, whether it returns or raises; the tactic
    [preserves_tac] proves it along the structure of a slot and leaves
    the updates of the world that [P] has to allow.  The equations
    [run_...] run a slot one statement at a time when the results of its
    calls are known.  The invariants of the window follow by induction on
    [reachable]; that a text can always be encrypted and decrypted follows
    from the run of the round trip. *)

From Stdlib Require Import Ascii ZArith Lia.
From stdpp Require Import base tactics option list strings gmap.
From S2P Require Import Prelude PyStr PyFormat Interfaces DataObject BlockCrypter.
From S2P Require Import Keys Create RoundTrip UserSettings Gui.
Import Py.

Create HintDb gui discriminated.
Create Rewrite HintDb gui.

Section logic.
Context `{!Zlib, !Codecs, !PathLib, !Fernet, !Pbkdf2, !PlatformDirs, !Json str}.
Implicit Types (w : World) (P : World -> Prop).

(** [m] keeps [P], whether it returns or raises. *)
Definition preserves {A} (P : World -> Prop) (m : gui A) : Prop :=
  forall w, P w -> P (m w).1.

(** The world after an update of the window, after a change of the file
    system and after a dialog. *)
Definition with_window (g : MainWindow -> MainWindow) (w : World) : World :=
  {| window := g (window w); disk := disk w; shown := shown w |}.

Definition with_disk (fs : FS) (w : World) : World :=
  {| window := window w; disk := fs; shown := shown w |}.

Definition with_shown (d : dialog) (w : World) : World :=
  {| window := window w; disk := disk w; shown := d :: shown w |}.

(** The echo mode of the password follows the check box. *)
Definition echo_ok (w : World) : Prop :=
  echo_mode (window w) = if cb_show_password (window w) then Normal else Password.

(** ** The monad *)

Lemma bind_run {A B} (m : gui A) (f : A -> gui B) w :
  (m ≫= f) w
    = match m w with
      | (w', Ok a) => f a w'
      | (w', Raise e) => (w', Raise e)
      end.
Proof. done. Qed.

(** ** The rules of [preserves] *)

Lemma preserves_ret {A} P (a : A) : preserves P (mret a).
Proof. by intros w. Qed.

Lemma preserves_bind {A B} P (m : gui A) (f : A -> gui B) :
  preserves P m -> (forall a, preserves P (f a)) -> preserves P (m ≫= f).
Proof.
  intros Hm Hf w Hw. rewrite bind_run. specialize (Hm w Hw).
  destruct (m w) as [w' [a|e]]; [by apply Hf|done].
Qed.

(** What [self] is read as is the window of a world that satisfies [P]. *)
Lemma preserves_bind_get {B} P (f : MainWindow -> gui B) :
  (forall w0, P w0 -> preserves P (f (window w0))) -> preserves P (get_window ≫= f).
Proof. intros Hf w Hw. by apply (Hf w). Qed.

(** What a method returns is known to satisfy [R]. *)
Lemma preserves_bind_result {A B} P (R : A -> Prop) (m : gui A) (f : A -> gui B) :
  (forall w a, (m w).2 = Ok a -> R a) ->
  preserves P m -> (forall a, R a -> preserves P (f a)) -> preserves P (m ≫= f).
Proof.
  intros HR Hm Hf w Hw. rewrite bind_run. specialize (Hm w Hw). specialize (HR w).
  destruct (m w) as [w' [a|e]]; [|done]. apply Hf; [|done]. by apply HR.
Qed.

Lemma preserves_get_window P : preserves P get_window.
Proof. by intros w. Qed.

Lemma preserves_lift {A} P (r : result A) : preserves P (lift r).
Proof. by intros w. Qed.

Lemma preserves_read_disk {A} P (f : FS -> result A) : preserves P (read_disk f).
Proof. by intros w. Qed.

Lemma preserves_if {A} P (b : bool) (m1 m2 : gui A) :
  preserves P m1 -> preserves P m2 -> preserves P (if b then m1 else m2).
Proof. by destruct b. Qed.

Lemma preserves_update P g :
  (forall w, P w -> P (with_window g w)) -> preserves P (update g).
Proof. intros Hg w. apply Hg. Qed.

Lemma preserves_show P d :
  (forall w, P w -> P (with_shown d w)) -> preserves P (show d).
Proof. intros Hd w. apply Hd. Qed.

Lemma preserves_on_disk {A} P (f : FS -> FS * result A) :
  (forall w, P w -> P (with_disk (f (disk w)).1 w)) -> preserves P (on_disk f).
Proof.
  intros Hf w Hw. unfold on_disk. specialize (Hf w Hw). by destruct (f (disk w)).
Qed.

End logic.

(** [preserves_tac] proves [preserves P m] along the structure of [m],
    with the lemmas of the database [gui] for the slots that keep [P] as
    a whole; what is left are the updates of the world that [P] has to
    allow. *)
Ltac preserves_step :=
  first
    [ solve [auto 1 with gui nocore]
    | apply preserves_bind_get; intros ? ?
    | apply preserves_bind; [|intros ?]
    | apply preserves_ret
    | apply preserves_get_window
    | apply preserves_lift
    | apply preserves_read_disk
    | apply preserves_if
    | apply preserves_update; intros ? ?
    | apply preserves_show; intros ? ?
    | apply preserves_on_disk; intros ? ?
    | match goal with |- preserves _ (match ?x with _ => _ end) => destruct x end ].

Ltac preserves_tac := repeat preserves_step.

(** ** Running a slot

    The equations that run a slot one statement at a time. *)
Section run.
Context `{!Zlib, !Codecs, !PathLib, !Fernet, !Pbkdf2, !PlatformDirs, !Json str}.
Implicit Types (w : World).

Lemma run_ret {A B} (a : A) (f : A -> gui B) w : (mret a ≫= f) w = f a w.
Proof. done. Qed.

Lemma run_get_window {B} (f : MainWindow -> gui B) w :
  (get_window ≫= f) w = f (window w) w.
Proof. done. Qed.

Lemma run_update {B} g (f : unit -> gui B) w :
  (update g ≫= f) w = f tt (with_window g w).
Proof. done. Qed.

Lemma run_show {B} d (f : unit -> gui B) w : (show d ≫= f) w = f tt (with_shown d w).
Proof. done. Qed.

Lemma run_lift {A B} (r : result A) (f : A -> gui B) w :
  (lift r ≫= f) w = match r with Ok a => f a w | Raise e => (w, Raise e) end.
Proof. by destruct r. Qed.

Lemma run_read_disk {A B} (g : FS -> result A) (f : A -> gui B) w :
  (read_disk g ≫= f) w = match g (disk w) with Ok a => f a w | Raise e => (w, Raise e) end.
Proof. unfold read_disk. rewrite bind_run. by destruct (g (disk w)). Qed.

Lemma run_on_disk {A B} (g : FS -> FS * result A) (f : A -> gui B) w :
  (on_disk g ≫= f) w
    = match (g (disk w)).2 with
      | Ok a => f a (with_disk (g (disk w)).1 w)
      | Raise e => (with_disk (g (disk w)).1 w, Raise e)
      end.
Proof. unfold on_disk. rewrite bind_run. by destruct (g (disk w)) as [fs [a|e]]. Qed.

Lemma run_assoc {A B C} (m : gui A) (f : A -> gui B) (g : B -> gui C) w :
  ((m ≫= f) ≫= g) w = (m ≫= (fun a => f a ≫= g)) w.
Proof. rewrite !bind_run. by destruct (m w) as [w' [a|e]]. Qed.

Lemma update_run g w : update g w = (with_window g w, Ok tt).
Proof. done. Qed.

Lemma show_run d w : show d w = (with_shown d w, Ok tt).
Proof. done. Qed.

Lemma ret_run {A} (a : A) w : mret (M := gui) a w = (w, Ok a).
Proof. done. Qed.

Lemma lift_run {A} (r : result A) w : lift r w = (w, r).
Proof. done. Qed.

(** A slot that calls a method continues in the world the method left. *)
Lemma run_call {A B} (m : gui A) (f : A -> gui B) w w' a :
  m w = (w', Ok a) -> (m ≫= f) w = f a w'.
Proof. rewrite bind_run. by intros ->. Qed.

Lemma run_call_raise {A B} (m : gui A) (f : A -> gui B) w w' e :
  m w = (w', Raise e) -> (m ≫= f) w = (w', Raise e).
Proof. rewrite bind_run. by intros ->. Qed.

End run.

#[export] Hint Rewrite @run_assoc @run_ret @run_get_window @run_update @run_show @run_lift
  @run_read_disk @run_on_disk @update_run @show_run @ret_run @lift_run : gui.

(** [gui_run] runs the statements of a slot as far as their results are
    known; [gui_simpl] reduces what is read from an updated world. *)
Ltac gui_simpl :=
  cbn [with_window with_disk with_shown window disk shown fst snd
       set_le_password setEchoMode set_cb_show_password set_le_filename set_te_input
       set_te_output showMessage set_closed
       user_settings le_password echo_mode cb_show_password le_filename te_input
       te_output status_bar closed] in *.

Ltac gui_run := repeat (progress (autorewrite with gui; gui_simpl)).

(** ** The methods of the window, run *)
Section slots.
Context `{!Zlib, !Codecs, !PathLib, !Fernet, !Pbkdf2, !PlatformDirs, !Json str}.
Implicit Types (w : World) (o : DataObject).

(** The message about [n] bytes. *)
Definition plural_msg (before after_ : str) (n : Z) : str :=
  before ++ replace (Fmt.format_thousands n) "," "." ++ lit " byte"
    ++ (if decide (n = 1%Z) then [] else lit "s") ++ after_.

(** [msg_with_correct_plural] fills a template of two fields: the
    first field takes the number with dots between its groups of three
    digits, the second an [s] unless the number is one, and the text
    around the fields is copied. *)
Theorem msg_with_correct_plural_fills a b c n :
  FmtFacts.plain a = true -> FmtFacts.plain b = true -> FmtFacts.plain c = true ->
  msg_with_correct_plural (a ++ "{}" ++ b ++ "{}" ++ c) n
    = Ok (a ++ replace (Fmt.format_thousands n) "," "." ++ b
          ++ (if decide (n = 1%Z) then [] else lit "s") ++ c).
Proof. intros Ha Hb Hc. unfold msg_with_correct_plural. by apply FmtFacts.format_two_fields. Qed.

Lemma msg_encrypted n :
  msg_with_correct_plural "Encrypted {} byte{}..." n
    = Ok (plural_msg "Encrypted " "..." n).
Proof. reflexivity. Qed.

Lemma msg_decrypted n :
  msg_with_correct_plural "Decrypted {} byte{}" n = Ok (plural_msg "Decrypted " [] n).
Proof. reflexivity. Qed.

(** A password that UTF-8 encodes gives a key and a [BlockCrypter]. *)
Lemma password_key password :
  is_ok (codec_encode "utf-8" password) = true ->
  exists self,
    derive_key_from_password password SALT None = Ok (key self) /\
    BlockCrypter_init (key self) None = Ok self /\ fernet_key_ok (key self) = true.
Proof.
  destruct (codec_encode _ password) as [pw|] eqn:E; [intros _|done].
  pose proof (derive_key_ok password SALT None pw E) as Hk.
  destruct (derived_key_init _ _ _ None _ Hk) as [Hok Hinit]. by eexists {| key := _ |}.
Qed.

(** [te_input.setPlainText] and what its signal does. *)
Lemma te_input_set_run s w :
  te_input_set s w
    = (with_window (fun m => showMessage [] (set_te_output [] (set_te_input s m))) w, Ok tt).
Proof. done. Qed.

Lemma encrypt_run data r w self block :
  derive_key_from_password (le_password (window w)) SALT None = Ok (key self) ->
  BlockCrypter_init (key self) None = Ok self ->
  encrypt_to_block self (Some data) None r = Ok block ->
  encrypt data r w
    = (with_window (showMessage (plural_msg "Encrypted " "..." (len_data data))) w, Ok block).
Proof.
  intros Hk Hs Hb. unfold encrypt. gui_run. rewrite Hk, Hs. gui_run. rewrite Hb. gui_run.
  by rewrite msg_encrypted.
Qed.

(** What [decrypt] does with the file name of the object. *)
Definition keep_filename o (m : MainWindow) : MainWindow :=
  match filename o with
  | Some f => set_le_filename (path_name (Path f)) m
  | None => m
  end.

Lemma decrypt_run w self o :
  te_input (window w) <> [] ->
  derive_key_from_password (le_password (window w)) SALT None = Ok (key self) ->
  BlockCrypter_init (key self) None = Ok self ->
  decrypt_from_block self (te_input (window w)) = Ok o ->
  decrypt w
    = (with_window (fun m => showMessage (plural_msg "Decrypted " [] (len_data o))
                               (keep_filename o m)) w, Ok o).
Proof.
  intros Hin Hk Hs Ho. unfold decrypt, keep_filename. gui_run.
  rewrite bool_decide_eq_false_2 by done. gui_run. rewrite Hk, Hs. gui_run. rewrite Ho.
  destruct (filename o); gui_run; by rewrite msg_decrypted.
Qed.

Definition decryption_error : dialog :=
  Critical "Decryption error"
    (lit "Could not decrypt input." ++ [NL; NL] ++ lit "Please check your password..." ++ [NL]).

Lemma decrypt_run_error w self e :
  te_input (window w) <> [] ->
  derive_key_from_password (le_password (window w)) SALT None = Ok (key self) ->
  BlockCrypter_init (key self) None = Ok self ->
  decrypt_from_block self (te_input (window w)) = Raise e ->
  decrypt w = (with_shown decryption_error w, from_str (Some []) None None).
Proof.
  intros Hin Hk Hs Ho. unfold decrypt. gui_run.
  rewrite bool_decide_eq_false_2 by done. gui_run. rewrite Hk, Hs. gui_run. by rewrite Ho.
Qed.

(** [Encrypt] on the text of the input. *)
Lemma encrypt_input_run w r self o block :
  derive_key_from_password (le_password (window w)) SALT None = Ok (key self) ->
  BlockCrypter_init (key self) None = Ok self ->
  from_str (Some (te_input (window w))) None None = Ok o ->
  encrypt_to_block self (Some o) None r = Ok block ->
  after (EncryptInputToOutput r) w
    = with_window (fun m => set_te_output block
                     (showMessage (plural_msg "Encrypted " "..." (len_data o)) m)) w.
Proof.
  intros Hk Hs Ho Hb. unfold after. cbn [handle].
  unfold on_pb_encrypt_clicked, on_encrypt_input_to_output_triggered. gui_run.
  rewrite Ho. by rewrite (run_call _ _ _ _ _ (encrypt_run o r w self block Hk Hs Hb)).
Qed.

(** [Decrypt] on a block that decrypts to a text. *)
Lemma decrypt_input_run w self o text :
  te_input (window w) <> [] ->
  derive_key_from_password (le_password (window w)) SALT None = Ok (key self) ->
  BlockCrypter_init (key self) None = Ok self ->
  decrypt_from_block self (te_input (window w)) = Ok o ->
  has_data o = true -> as_str o None = Ok (Some text) ->
  after DecryptInputToOutput w
    = with_window (fun m => showMessage (plural_msg "Decrypted " "..." (len_data o))
                     (set_te_output text (keep_filename o m))) w.
Proof.
  intros Hin Hk Hs Ho Hd Ht. unfold after. cbn [handle].
  unfold on_pb_decrypt_clicked, on_decrypt_input_to_output_triggered.
  rewrite (run_call _ _ _ _ _ (decrypt_run w self o Hin Hk Hs Ho)), Hd. gui_run. rewrite Ht. gui_run.
  unfold with_window, plural_msg. simpl. by list_norm.
Qed.

(** The object of the empty text holds no data. *)
Lemma from_str_empty :
  codec_encode "utf-8" [] = Ok [] ->
  exists o, from_str (Some []) None None = Ok o /\ has_data o = false.
Proof.
  intros He. unfold from_str, DEFAULT_CHARSET. rewrite He, bind_Ok. eexists. split; [done|].
  unfold _store_data. case_bool_decide as Hlen; [|done].
  unfold len in Hlen. simpl in Hlen. lia.
Qed.

Definition no_input : dialog :=
  Critical "No input"
    (lit "There is no input." ++ [NL; NL] ++ lit "Please provide an input block..." ++ [NL]).

(** What [decrypt] leaves when it returns the empty object: the dialog. *)
Lemma decrypt_run_failed w self :
  codec_encode "utf-8" [] = Ok [] ->
  derive_key_from_password (le_password (window w)) SALT None = Ok (key self) ->
  BlockCrypter_init (key self) None = Ok self ->
  is_ok (decrypt_from_block self (te_input (window w))) = false ->
  exists o, has_data o = false /\
    decrypt w = (with_shown (if bool_decide (te_input (window w) = [])
                             then no_input else decryption_error) w, Ok o).
Proof.
  intros (o & Ho & Hd)%from_str_empty Hk Hs Hr. exists o. split; [done|].
  case_bool_decide as Hin.
  - unfold decrypt. gui_run. rewrite bool_decide_eq_true_2 by done. gui_run. by rewrite Ho.
  - destruct (decrypt_from_block _ _) as [|e] eqn:E; [done|].
    by rewrite (decrypt_run_error w self e), Ho.
Qed.

(** The dialog returns what the user answered. *)
Lemma select_file_dialog_result save overrule cwd answer w a :
  (select_file_dialog save overrule cwd answer w).2 = Ok a -> a = answer.
Proof.
  unfold select_file_dialog. gui_run. destruct (get _ _ _ _); [|done]. gui_run.
  destruct (_ && _); gui_run; [|by intros [= <-]].
  destruct (setitem _ _ _ _).2; [|done]. gui_run. by intros [= <-].
Qed.

(** The file dialog with settings that work and a file chosen: the dialog
    is shown, the directory of the file is stored and its name is put in
    the file name field. *)
Lemma select_file_dialog_run save cwd answer w :
  let us := user_settings (window w) in
  let sf := path_str (user_settings_file us) in
  (forall s, is_ok (codec_encode SETTINGS_ENCODING s) = true) ->
  usable us (disk w) -> answer <> [] ->
  exists dir b,
    select_file_dialog save None cwd answer w
      = (with_window (set_le_filename (path_name (Path answer)))
           (with_disk (fs_put (disk w) sf b)
              (with_shown (if save then SaveFileName "Save File" dir
                           else OpenFileName "Open File" dir) w)), Ok answer) /\
    usable us (fs_put (disk w) sf b) /\
    getitem us (fs_put (disk w) sf b) (if save then LAST_SAVE_PATH else LAST_LOAD_PATH)
      = Ok (path_str (path_parent (Path answer))).
Proof.
  intros us sf Henc Hus Ha.
  destruct (get_usable us (disk w) (if save then LAST_SAVE_PATH else LAST_LOAD_PATH)
              cwd Hus) as (start & Hstart).
  destruct (setitem_usable us (disk w) (if save then LAST_SAVE_PATH else LAST_LOAD_PATH)
              (path_str (path_parent (Path answer))) Henc Hus) as (b & Hset & Hus' & Hget).
  eexists _, b. split; [|done]. unfold select_file_dialog. gui_run.
  fold us. rewrite Hstart. gui_run. rewrite (bool_decide_eq_false_2 (answer = [])) by done.
  simpl. gui_run. fold us. rewrite Hset. simpl. by destruct save.
Qed.

Lemma _encrypt_file_path_run p r w self o block :
  derive_key_from_password (le_password (window w)) SALT None = Ok (key self) ->
  BlockCrypter_init (key self) None = Ok self ->
  from_path (disk w) p None = Ok o ->
  encrypt_to_block self (Some o) None r = Ok block ->
  _encrypt_file_path p r w
    = (with_window (fun m => set_te_output block
                     (showMessage (plural_msg "Encrypted " "..." (len_data o))
                        (set_te_input [] m))) w, Ok tt).
Proof.
  intros Hk Hs Ho Hb. unfold _encrypt_file_path, te_input_set, on_te_input_textChanged.
  gui_run. rewrite Ho. by erewrite run_call by by apply (encrypt_run _ _ _ self).
Qed.

(** Nothing is decrypted from an empty input. *)
Lemma decrypt_nonempty self s o : decrypt_from_block self s = Ok o -> s <> [].
Proof. by intros Ho ->. Qed.

Lemma from_str_encodes text cs zip_data o :
  from_str (Some text) cs zip_data = Ok o ->
  is_ok (codec_encode (default DEFAULT_CHARSET cs) text) = true.
Proof.
  unfold from_str. intros (b & Hb & _)%bind_Ok_inv. destruct cs; simpl; by rewrite Hb.
Qed.

(** The run of [Encrypt], a paste of the output and [Decrypt]. *)
Lemma round_trip_run w r pre post o :
  is_ok (codec_encode "utf-8" (le_password (window w))) = true ->
  from_str (Some (te_input (window w))) None None = Ok o -> has_data o = true ->
  "="%char ∉ pre ->
  let w1 := after (EncryptInputToOutput r) w in
  let w2 := after (InputEdited (pre ++ te_output (window w1) ++ post)) w1 in
  let w3 := after DecryptInputToOutput w2 in
  te_output (window w3) = te_input (window w) /\
  status_bar (window w3) = plural_msg "Decrypted " "..." (len_data o) /\
  disk w3 = disk w /\ shown w3 = shown w /\
  le_password (window w3) = le_password (window w).
Proof.
  intros Hpw Ho Hd Hpre. destruct (password_key _ Hpw) as (self & Hk & Hs & Hok).
  destruct (text_path self (te_input (window w)) None None None r pre post)
    as (o0 & block & o' & Ho0 & Hb & Ho' & Ht & Hf & Hbin);
    [done|done|by_compute|by eapply from_str_encodes|].
  assert (o0 = o) as -> by congruence.
  intros w1 w2 w3. subst w1 w2 w3.
  rewrite (encrypt_input_run w r self o block) by done. gui_simpl.
  erewrite (decrypt_input_run _ self o'); gui_simpl;
    [|by eapply decrypt_nonempty|done|done|done|by unfold has_data; rewrite Hbin|done].
  unfold len_data. rewrite Hbin. split_and!; try done.
  unfold keep_filename. by destruct (filename o').
Qed.

(** C15 - what the window encrypts it decrypts: after [Encrypt] on a text,
    pasting the output into the input, inside any text whose part before
    the block has no equals sign, and [Decrypt] under the same password,
    the output holds the text; no dialog was shown and no file was
    touched.  The password has to be one UTF-8 encodes and the text one
    whose stored bytes are not empty. *)
Theorem gui_round_trip w r pre post o :
  is_ok (codec_encode "utf-8" (le_password (window w))) = true ->
  from_str (Some (te_input (window w))) None None = Ok o -> has_data o = true ->
  "="%char ∉ pre ->
  let w1 := after (EncryptInputToOutput r) w in
  let w2 := after (InputEdited (pre ++ te_output (window w1) ++ post)) w1 in
  let w3 := after DecryptInputToOutput w2 in
  te_output (window w3) = te_input (window w) /\
  status_bar (window w3) = plural_msg "Decrypted " "..." (len_data o) /\
  disk w3 = disk w /\ shown w3 = shown w.
Proof.
  intros Hpw Ho Hd Hpre.
  by destruct (round_trip_run w r pre post o Hpw Ho Hd Hpre) as (? & ? & ? & ? & _).
Qed.

(** C32 - a decryption that fails changes nothing but the status bar:
    when the input is empty or is no block the password decrypts,
    [Decrypt] shows one dialog, [No input] or [Decryption error], leaves
    the output, the file name and the files as they were, and appends
    three dots to whatever the status bar showed; [Decrypt to File] shows
    the dialog and changes nothing, and no file dialog is opened. *)
Theorem failed_decrypt w self cwd answer :
  codec_encode "utf-8" [] = Ok [] ->
  derive_key_from_password (le_password (window w)) SALT None = Ok (key self) ->
  BlockCrypter_init (key self) None = Ok self ->
  is_ok (decrypt_from_block self (te_input (window w))) = false ->
  let d := if bool_decide (te_input (window w) = []) then no_input else decryption_error in
  after DecryptInputToOutput w
    = with_window (showMessage (status_bar (window w) ++ lit "...")) (with_shown d w) /\
  after (DecryptInputToFile cwd answer) w = with_shown d w.
Proof.
  intros He Hk Hs Hr. destruct (decrypt_run_failed w self He Hk Hs Hr) as (o & Hd & Ho).
  unfold after. cbn [handle].
  unfold on_pb_decrypt_clicked, on_decrypt_input_to_output_triggered,
    on_pb_decrypt_to_file_clicked, on_decrypt_input_to_file_triggered.
  by rewrite !(run_call _ _ _ _ _ Ho), Hd.
Qed.

(** C33 - a block that decrypts to data [as_str] cannot read (the bytes of
    a file that are no text in UTF-8, a charset the codecs do not know,
    data that does not decompress) makes [Decrypt] raise after [decrypt]
    has reported success: the slot ends with the exception of [as_str],
    no dialog is shown, the output keeps the text it had, and the status
    bar reads [Decrypted n bytes]. *)
Theorem undecodable_decrypt w self o e :
  te_input (window w) <> [] ->
  derive_key_from_password (le_password (window w)) SALT None = Ok (key self) ->
  BlockCrypter_init (key self) None = Ok self ->
  decrypt_from_block self (te_input (window w)) = Ok o ->
  has_data o = true -> as_str o None = Raise e ->
  handle DecryptInputToOutput w
    = (with_window (fun m => showMessage (plural_msg "Decrypted " [] (len_data o))
                               (keep_filename o m)) w, Raise e)
  /\ shown (after DecryptInputToOutput w) = shown w
  /\ te_output (window (after DecryptInputToOutput w)) = te_output (window w)
  /\ disk (after DecryptInputToOutput w) = disk w.
Proof.
  intros Hin Hk Hs Ho Hd Ht.
  assert (handle DecryptInputToOutput w
    = (with_window (fun m => showMessage (plural_msg "Decrypted " [] (len_data o))
                               (keep_filename o m)) w, Raise e)) as E.
  { cbn [handle]. unfold on_pb_decrypt_clicked, on_decrypt_input_to_output_triggered.
    rewrite (run_call _ _ _ _ _ (decrypt_run w self o Hin Hk Hs Ho)), Hd. gui_run.
    by rewrite Ht. }
  unfold after. rewrite E. unfold keep_filename. by destruct (filename o).
Qed.

Section files.
Context (w : World) (self : BlockCrypter).
Context (Henc : forall s, is_ok (codec_encode SETTINGS_ENCODING s) = true).
Context (Hus : usable (user_settings (window w)) (disk w)).
Context (Hk : derive_key_from_password (le_password (window w)) SALT None = Ok (key self)).
Context (Hs : BlockCrypter_init (key self) None = Ok self).

Let us := user_settings (window w).
Let sf := path_str (user_settings_file us).

(** [Encrypt from File] with a file chosen in the dialog. *)
Lemma encrypt_file_run cwd answer r o block :
  answer <> [] -> path_str (Path answer) <> sf ->
  from_path (disk w) (Path answer) None = Ok o ->
  encrypt_to_block self (Some o) None r = Ok block ->
  exists dir b,
    after (EncryptFileToOutput cwd answer r) w
      = with_window (fun m => set_te_output block
                       (showMessage (plural_msg "Encrypted " "..." (len_data o))
                          (set_te_input [] (set_le_filename (path_name (Path answer)) m))))
          (with_disk (fs_put (disk w) sf b) (with_shown (OpenFileName "Open File" dir) w)) /\
    usable us (fs_put (disk w) sf b).
Proof.
  intros Ha Hne Ho Hb.
  destruct (select_file_dialog_run false cwd answer w Henc Hus Ha) as (dir & b & Hd & Hus' & _).
  exists dir, b. split; [|done]. unfold after. cbn [handle].
  unfold on_pb_encrypt_from_file_clicked, on_encrypt_file_to_output_triggered.
  rewrite (run_call _ _ _ _ _ Hd). unfold _encrypt_file.
  rewrite bool_decide_eq_false_2 by done.
  erewrite (_encrypt_file_path_run _ _ _ self o block); [done|done|done| |done].
  gui_simpl. rewrite <- Ho. apply from_path_read. by apply fs_read_put_ne.
Qed.

(** [Decrypt to File] on a block that decrypts, with a file chosen in the
    dialog. *)
Lemma decrypt_to_file_run cwd answer o stored data :
  te_input (window w) <> [] ->
  decrypt_from_block self (te_input (window w)) = Ok o ->
  binary_data o = Some stored -> has_data o = true -> plain_data o stored = Ok data ->
  answer <> [] -> path_str (Path answer) ∉ fs_locked (disk w) ->
  exists dir b,
    after (DecryptInputToFile cwd answer) w
      = with_window (fun m =>
            showMessage (plural_msg "Decrypted " [] (len_data o)
                         ++ lit ", saved to '" ++ answer ++ lit "'...")
              (set_te_output [] (set_le_filename (path_name (Path answer)) m)))
          (with_disk (fs_put (fs_put (disk w) sf b) (path_str (Path answer)) data)
             (with_shown (SaveFileName "Save File" dir) w)).
Proof.
  intros Hin Ho Hst Hd Hp Ha Hl.
  pose proof (decrypt_run w self o Hin Hk Hs Ho) as Hdec.
  match type of Hdec with _ = (?w', _) =>
    destruct (select_file_dialog_run true cwd answer w' Henc) as (dir & b & Hdlg & _);
      [by unfold keep_filename; destruct (filename o)|done|]
  end.
  exists dir, b. unfold after. cbn [handle].
  unfold on_pb_decrypt_to_file_clicked, on_decrypt_input_to_file_triggered.
  rewrite (run_call _ _ _ _ _ Hdec), Hd, (run_call _ _ _ _ _ Hdlg).
  rewrite bool_decide_eq_false_2 by done. cbn [negb]. unfold keep_filename.
  destruct (filename o); gui_run;
    (erewrite to_file_run; [|done|done|done|done]); by gui_run.
Qed.

(** C34 - [Decrypt to File] on a block whose data does not decompress
    (a block that says [gzip] for data that is not compressed) empties the
    file the user chose: the save dialog is shown, the output is cleared,
    [to_file] opens the file and raises, and the slot ends with that
    exception, with the success message of [decrypt] in the status bar. *)
Theorem decrypt_to_file_empties cwd answer o stored e :
  te_input (window w) <> [] ->
  decrypt_from_block self (te_input (window w)) = Ok o ->
  binary_data o = Some stored -> has_data o = true -> plain_data o stored = Raise e ->
  answer <> [] -> path_str (Path answer) ∉ fs_locked (disk w) ->
  exists w',
    handle (DecryptInputToFile cwd answer) w = (w', Raise e) /\
    fs_read (disk w') (path_str (Path answer)) = Ok [] /\
    te_output (window w') = [] /\
    status_bar (window w') = plural_msg "Decrypted " [] (len_data o).
Proof.
  intros Hin Ho Hst Hd Hp Ha Hl.
  pose proof (decrypt_run w self o Hin Hk Hs Ho) as Hdec.
  match type of Hdec with _ = (?w', _) =>
    destruct (select_file_dialog_run true cwd answer w' Henc) as (dir & b & Hdlg & _);
      [by unfold keep_filename; destruct (filename o)|done|]
  end.
  eexists. cbn [handle].
  unfold on_pb_decrypt_to_file_clicked, on_decrypt_input_to_file_triggered.
  rewrite (run_call _ _ _ _ _ Hdec), Hd, (run_call _ _ _ _ _ Hdlg).
  rewrite bool_decide_eq_false_2 by done. cbn [negb]. gui_run.
  erewrite to_file_raise; [|done|done|done|done]. gui_run.
  split; [done|]. gui_simpl. split; [apply fs_read_put|].
  unfold keep_filename. by destruct (filename o).
Qed.

End files.

(** C16 - what the window encrypts of a file it writes back: after
    [Encrypt from File] on a file chosen in the dialog, pasting the output
    into the input, inside any text whose part before the block has no
    equals sign, and [Decrypt to File] under the same password, the file
    chosen in the save dialog holds the bytes of the file that was
    encrypted, and the file name field holds its name.  The settings have
    to work: their file can be read, written and encoded. *)
Theorem gui_file_round_trip w cwd answer r pre post cwd' answer' o :
  let us := user_settings (window w) in
  (forall s, is_ok (codec_encode SETTINGS_ENCODING s) = true) ->
  usable us (disk w) ->
  is_ok (codec_encode "utf-8" (le_password (window w))) = true ->
  answer <> [] -> path_str (Path answer) <> path_str (user_settings_file us) ->
  from_path (disk w) (Path answer) None = Ok o -> has_data o = true ->
  filename_ok (path_name (Path answer)) ->
  answer' <> [] -> path_str (Path answer') ∉ fs_locked (disk w) ->
  "="%char ∉ pre ->
  let w1 := after (EncryptFileToOutput cwd answer r) w in
  let w2 := after (InputEdited (pre ++ te_output (window w1) ++ post)) w1 in
  let w3 := after (DecryptInputToFile cwd' answer') w2 in
  fs_read (disk w3) (path_str (Path answer')) = fs_read (disk w) (path_str (Path answer)) /\
  le_filename (window w3) = path_name (Path answer').
Proof.
  intros us Henc Hus Hpw Ha Hne Ho Hd Hfn Ha' Hl Hpre.
  destruct (password_key _ Hpw) as (self & Hk & Hs & Hok).
  destruct (from_path_inv _ _ _ _ Ho) as (data & Hdata).
  destruct (file_path self (disk w) (Path answer) None None r pre post data)
    as (o0 & block & o' & stored & Ho0 & Hb & Ho' & _ & Hst & Hst' & Hp); [done..|].
  assert (o0 = o) as -> by congruence.
  destruct (encrypt_file_run w self Henc Hus Hk Hs cwd answer r o block)
    as (dir & b & -> & Hus'); [done..|].
  intros w1 w2 w3. subst w1 w2 w3. gui_simpl.
  match goal with |- context [after (DecryptInputToFile _ _) ?w2] =>
    destruct (decrypt_to_file_run w2 self Henc Hus' Hk Hs cwd' answer' o' stored data)
      as (dir' & b' & ->);
      [by eapply decrypt_nonempty|exact Ho'|exact Hst'
      |by unfold has_data in *; rewrite Hst'; rewrite Hst in Hd|exact Hp|exact Ha'|exact Hl|]
  end.
  gui_simpl. by rewrite fs_read_put, Hdata.
Qed.

(** A file dropped on the input is encrypted to the output: the
    drop event takes the first URL, stores the directory of the file as
    the last load path, clears the input and puts the block of the file
    in the output, under the key of the password; no file but the
    settings file changes. *)
Theorem dropped_file_encrypted w m url rest r o :
  let us := user_settings (window w) in
  let sf := path_str (user_settings_file us) in
  (forall s, is_ok (codec_encode SETTINGS_ENCODING s) = true) ->
  usable us (disk w) ->
  is_ok (codec_encode "utf-8" (le_password (window w))) = true ->
  urls m = url :: rest -> path_str (Path url) <> sf ->
  from_path (disk w) (Path url) None = Ok o -> filename_ok (path_name (Path url)) ->
  let w1 := after (Dropped m r) w in
  exists self,
    derive_key_from_password (le_password (window w)) SALT None = Ok (key self) /\
    encrypt_to_block self (Some o) None r = Ok (te_output (window w1)) /\
    te_input (window w1) = [] /\
    getitem us (disk w1) LAST_LOAD_PATH = Ok (path_str (path_parent (Path url))) /\
    same_but [sf] (disk w) (disk w1).
Proof.
  intros us sf Henc Hus Hpw Hm Hne Ho Hfn.
  destruct (password_key _ Hpw) as (self & Hk & Hs & Hok).
  destruct (from_path_inv _ _ _ _ Ho) as (data & Hdata).
  destruct (file_path self (disk w) (Path url) None None r [] [] data)
    as (o0 & block & _ & _ & Ho0 & Hb & _); [done|set_solver|done..|].
  assert (o0 = o) as -> by congruence.
  destruct (setitem_usable us (disk w) LAST_LOAD_PATH (path_str (path_parent (Path url)))
              Henc Hus) as (b & Hset & _ & Hget).
  exists self. unfold after. cbn [handle]. unfold dropEvent, on_te_input_file_dropped.
  rewrite Hm. gui_run. fold us. rewrite Hset. cbn [fst snd].
  erewrite (_encrypt_file_path_run _ _ _ self o block); [|done|done| |done].
  - gui_simpl. split_and!; [done..|]. apply same_but_put. set_solver.
  - gui_simpl. rewrite <- Ho. apply from_path_read. by apply fs_read_put_ne.
Qed.


(** C31 - where the codecs do not know the encoding of the settings
    file, choosing a file breaks the file dialogs: the first [Encrypt
    from File] in which a file is chosen raises [LookupError] after the
    dialog, encrypts nothing, changes no widget and leaves an empty
    settings file; from then on the slot raises before any dialog is
    shown. *)
Theorem file_dialog_without_encoding w cwd answer r cwd' answer' r' :
  let sf := path_str (user_settings_file (user_settings (window w))) in
  (forall s, codec_encode SETTINGS_ENCODING s = Raise LookupError) ->
  (forall b, codec_decode SETTINGS_ENCODING b = Raise LookupError) ->
  fs_exists (disk w) sf = false -> sf ∉ fs_locked (disk w) -> answer <> [] ->
  exists dir,
    let w1 := with_disk (fs_put (disk w) sf []) (with_shown (OpenFileName "Open File" dir) w) in
    handle (EncryptFileToOutput cwd answer r) w = (w1, Raise LookupError) /\
    handle (EncryptFileToOutput cwd' answer' r') w1 = (w1, Raise LookupError).
Proof.
  intros sf Henc Hdec Hf Hl Ha. eexists. cbn [handle]. split.
  - unfold on_pb_encrypt_from_file_clicked, on_encrypt_file_to_output_triggered,
      select_file_dialog. gui_run. rewrite get_fresh by done. gui_run.
    rewrite (bool_decide_eq_false_2 (answer = [])) by done. simpl. gui_run.
    by rewrite (setitem_unknown_encoding _ _ _ _ LookupError).
  - unfold on_pb_encrypt_from_file_clicked, on_encrypt_file_to_output_triggered,
      select_file_dialog. gui_run.
    by rewrite (get_unknown_encoding _ _ _ _ []) by (done || apply fs_read_put).
Qed.

End slots.

(** ** What every slot keeps *)

(** The slots of the window, unfolded to their statements; [setChecked]
    stays folded, because the echo mode follows the check box only once
    its signal was handled. *)
Ltac unfold_slots :=
  unfold on_file_new_triggered, on_file_exit_triggered, on_help_about_triggered,
    on_pb_encrypt_clicked, on_pb_encrypt_from_file_clicked, on_pb_decrypt_clicked,
    on_pb_decrypt_to_file_clicked, dropEvent, on_te_input_file_dropped,
    on_encrypt_input_to_output_triggered, on_encrypt_file_to_output_triggered,
    on_decrypt_input_to_output_triggered, on_decrypt_input_to_file_triggered,
    _encrypt_file, _encrypt_file_path, encrypt, decrypt, reset_gui,
    te_input_set, on_te_input_textChanged.

(** A call of the file dialog is followed knowing what it returned. *)
Ltac slot_step :=
  first
    [ match goal with
      | |- preserves _ (select_file_dialog _ _ _ ?answer ≫= _) =>
        apply (preserves_bind_result _ (fun a => a = answer));
        [apply select_file_dialog_result|unfold select_file_dialog|intros ? ->]
      end
    | preserves_step ].

Ltac slot_preserves := repeat slot_step.

Section echo.
Context `{!Zlib, !Codecs, !PathLib, !Fernet, !Pbkdf2, !PlatformDirs, !Json str}.

(** [setChecked] runs the slot of the check box, which sets the echo mode
    the new state asks for. *)
Lemma setChecked_echo b : preserves echo_ok (setChecked b).
Proof.
  intros w Hw. unfold setChecked, on_cb_show_password_stateChanged, echo_ok in *.
  gui_run. case_bool_decide; gui_run; [done|]. by destruct b.
Qed.

End echo.

#[export] Hint Resolve setChecked_echo : gui.

Section invariants.
Context `{!Zlib, !Codecs, !PathLib, !Fernet, !Pbkdf2, !PlatformDirs, !Json str}.
Implicit Types (w : World) (e : event).

(** The file an event may write besides the settings file: the file
    chosen in the dialog of [Decrypt to File]. *)
Definition chosen (e : event) : list str :=
  match e with
  | DecryptInputToFile _ answer | PbDecryptToFile _ answer => [path_str (Path answer)]
  | _ => []
  end.

(** The files a session may write: the settings file, and the files
    chosen for saving. *)
Definition written (es : list event) (w : World) : list str :=
  path_str (user_settings_file (user_settings (window w))) :: (es ≫= chosen).

(** The settings object is [us], and the files outside [keep] are those
    of [fs0]. *)
Definition frame (us : UserSettings) (keep : list str) (fs0 : FS) (w : World) : Prop :=
  user_settings (window w) = us /\ same_but keep fs0 (disk w).

Lemma frame_setitem us keep fs0 w0 w k v :
  path_str (user_settings_file us) ∈ keep ->
  frame us keep fs0 w0 -> frame us keep fs0 w ->
  frame us keep fs0 (with_disk (setitem (user_settings (window w0)) (disk w) k v).1 w).
Proof.
  intros Hp [-> _] [Hus Hfs]. split; [done|]. etrans; [done|]. by apply setitem_frame.
Qed.

Lemma frame_to_file us keep fs0 w o f :
  path_str (Path f) ∈ keep -> frame us keep fs0 w ->
  frame us keep fs0 (with_disk (to_file o (disk w) (Some f) None).1 w).
Proof.
  intros Hp [Hus Hfs]. split; [done|]. etrans; [done|]. by eapply to_file_frame.
Qed.

Lemma handle_frame e us keep fs0 :
  path_str (user_settings_file us) ∈ keep -> chosen e ⊆ keep ->
  preserves (frame us keep fs0) (handle e).
Proof.
  intros Hsf He.
  destruct e; cbn [handle]; unfold_slots;
    unfold setChecked, on_cb_show_password_stateChanged; slot_preserves;
    try done; (apply frame_setitem || apply frame_to_file); try done;
    set_solver.
Qed.

Lemma run_frame es us keep fs0 w :
  path_str (user_settings_file us) ∈ keep -> es ≫= chosen ⊆ keep ->
  frame us keep fs0 w -> frame us keep fs0 (run es w).
Proof.
  intros Hsf. induction es as [|e es IH] in w |- *; [done|]. cbn [mbind list_bind].
  intros Hes Hw. apply IH; [intros p Hp; apply Hes, elem_of_app; by right|].
  apply handle_frame; [done|intros p Hp; apply Hes, elem_of_app; by left|done].
Qed.

Lemma reachable_run fs es w : reachable fs w -> reachable fs (run es w).
Proof.
  induction es as [|e es IH] in w |- *; [done|]. intros Hw. apply IH. by constructor.
Qed.

Lemma reachable_inv fs w : reachable fs w -> exists es, w = run es (MainWindow_init fs).
Proof.
  induction 1 as [|w e _ [es ->]]; [by exists []|]. exists (es ++ [e]).
  unfold run. by rewrite fold_left_app.
Qed.

Lemma handle_echo e : preserves echo_ok (handle e).
Proof.
  destruct e; cbn [handle]; unfold_slots; slot_preserves; by unfold echo_ok in *.
Qed.

Lemma reachable_echo fs w : reachable fs w -> echo_ok w.
Proof. induction 1 as [|w e _ IH]; [done|]. by apply handle_echo. Qed.

(** C36 - the password is shown exactly when the check box says so: in
    every world the window can reach, the echo mode of the password field
    is [Normal] if [Show password] is checked and [Password] if not. *)
Theorem echo_follows_checkbox fs w :
  reachable fs w ->
  echo_mode (window w) = if cb_show_password (window w) then Normal else Password.
Proof. apply reachable_echo. Qed.

(** The settings object is the one the constructor made. *)
Lemma reachable_settings fs w :
  reachable fs w -> user_settings (window w) = user_settings (window (MainWindow_init fs)).
Proof.
  induction 1 as [|w e _ IH]; [done|]. rewrite <- IH.
  by apply (handle_frame e _ (written [e] w) (disk w)); [set_solver..|].
Qed.

Lemma handle_closed e w0 :
  preserves (fun w => closed (window w)
                      = match e with FileExit => true | _ => closed (window w0) end)
            (match e with FileExit => mret tt | _ => handle e end).
Proof.
  destruct e; cbn [handle]; unfold_slots;
    unfold setChecked, on_cb_show_password_stateChanged; by slot_preserves.
Qed.

(** The window closes on [File, Exit] and on nothing else: after
    that event it is closed, and every other event leaves it open or
    closed as it was, whether its slot returned or raised. *)
Theorem exit_only_closes e w :
  closed (window (after e w)) = match e with FileExit => true | _ => closed (window w) end.
Proof.
  destruct e; [|done|..];
    match goal with |- context [after ?e _] => by apply (handle_closed e w w) end.
Qed.

(** [File, New] resets the window: in every world the window can
    reach while it is open, the event leaves the widgets as the
    constructor made them, whatever they held, and touches neither the
    files nor the dialogs. *)
Theorem new_resets fs w :
  reachable fs w -> closed (window w) = false ->
  after FileNew w = with_window (fun _ => window (MainWindow_init fs)) w.
Proof.
  intros Hw Hc. pose proof (reachable_echo fs w Hw) as He.
  pose proof (reachable_settings fs w Hw) as Hs.
  unfold after, echo_ok in *. cbn [handle]. unfold on_file_new_triggered, reset_gui, setChecked,
    te_input_set, on_te_input_textChanged, on_cb_show_password_stateChanged.
  destruct w as [[us pw em cb fn ti to sb cl] fs' sh]. simpl in *. subst.
  by destruct cb.
Qed.

(** A button does what its menu item does. *)
Lemma buttons_are_menu_items w r cwd answer :
  after (PbEncrypt r) w = after (EncryptInputToOutput r) w /\
  after (PbEncryptFromFile cwd answer r) w = after (EncryptFileToOutput cwd answer r) w /\
  after PbDecrypt w = after DecryptInputToOutput w /\
  after (PbDecryptToFile cwd answer) w = after (DecryptInputToFile cwd answer) w.
Proof. done. Qed.

(** C35 - a session writes no file but the settings file and the files
    chosen in the dialogs of [Decrypt to File]: whatever the user does and
    whichever slots raise, every other file is at the end what it was at
    the start, no directory is made and no lock changes. *)
Theorem only_chosen_files_written es w : same_but (written es w) (disk w) (disk (run es w)).
Proof.
  apply (run_frame es (user_settings (window w))); [by left| |done].
  intros p Hp. by right.
Qed.


End invariants.
