(* ===== verification/GuiEquiv.v ===== *)
(** * GuiEquiv: worlds that look the same

    A world records the dialogs shown so far, but no slot reads them: what
    a slot does depends on the widgets and on the files only.  Two worlds
    with the same window and the same files are related by [same_view], an
    equivalence; [respects m] says that the computation [m] returns the
    same, leaves worlds that look the same and shows the same dialogs when
    it starts from worlds that look the same.  Every slot respects the
    view, so [after] and [run] are morphisms of [same_view] and a world
    can be replaced by one that looks the same by rewriting. *)

From Stdlib Require Import Ascii ZArith Lia.
From stdpp Require Import base tactics option list strings gmap.
From S2P Require Import Prelude PyStr PyFormat Interfaces DataObject BlockCrypter.
From S2P Require Import UserSettings Gui GuiFacts.
Import Py.

Section view.
Context `{!Zlib, !Codecs, !PathLib, !Fernet, !Pbkdf2, !PlatformDirs, !Json str}.
Implicit Types (w : World).

(** The same window over the same files. *)
Definition same_view (w w' : World) : Prop := window w = window w' /\ disk w = disk w'.

#[export] Instance same_view_equivalence : Equivalence same_view.
Proof.
  split; [done|by intros ? ? [? ?]|]. intros ? ? ? [? ?] [? ?]. split; congruence.
Qed.

(** From worlds that look the same [m] returns the same, leaves worlds
    that look the same, and shows the same dialogs. *)
Definition respects {A} (m : gui A) : Prop :=
  forall w w', same_view w w' ->
    same_view (m w).1 (m w').1 /\ (m w).2 = (m w').2 /\
    exists ds, shown (m w).1 = ds ++ shown w /\ shown (m w').1 = ds ++ shown w'.

(** ** The rules of [respects] *)

Lemma respects_ret {A} (a : A) : respects (mret a).
Proof. intros w w' Hw. split_and!; [done..|]. by exists []. Qed.

Lemma respects_bind {A B} (m : gui A) (f : A -> gui B) :
  respects m -> (forall a, respects (f a)) -> respects (m ≫= f).
Proof.
  intros Hm Hf w w' Hw. rewrite !bind_run.
  destruct (Hm w w' Hw) as (Hv & Hr & ds & Hs & Hs').
  destruct (m w) as [w1 r1], (m w') as [w1' r1']. simpl in *. subst r1'.
  destruct r1 as [a|e]; [|split_and!; eauto].
  destruct (Hf a w1 w1' Hv) as (Hv2 & Hr2 & ds2 & Hs2 & Hs2'). split_and!; [done..|].
  exists (ds2 ++ ds). by rewrite Hs2, Hs2', Hs, Hs', !(assoc_L (++)).
Qed.

Lemma respects_get_window : respects get_window.
Proof. intros w w' [Hw Hd]. split_and!; [done|by simpl; rewrite Hw|by exists []]. Qed.

Lemma respects_update g : respects (update g).
Proof. intros w w' [Hw Hd]. split_and!; [by split; simpl; rewrite ?Hw|done|by exists []]. Qed.

Lemma respects_lift {A} (r : result A) : respects (lift r).
Proof. intros w w' Hw. split_and!; [done..|]. by exists []. Qed.

Lemma respects_read_disk {A} (f : FS -> result A) : respects (read_disk f).
Proof. intros w w' [Hw Hd]. split_and!; [done|by simpl; rewrite Hd|by exists []]. Qed.

Lemma respects_on_disk {A} (f : FS -> FS * result A) : respects (on_disk f).
Proof.
  intros w w' [Hw Hd]. unfold on_disk. rewrite Hd. destruct (f (disk w')) as [fs r].
  split_and!; [done..|]. by exists [].
Qed.

Lemma respects_show d : respects (show d).
Proof. intros w w' [Hw Hd]. split_and!; [done..|]. by exists [d]. Qed.

End view.

Infix "≈" := same_view (at level 70, no associativity) : stdpp_scope.

(** [respects_tac] proves [respects m] along the structure of [m]. *)
Ltac respects_step :=
  first
    [ apply respects_bind; [|intros ?]
    | apply respects_ret
    | apply respects_get_window
    | apply respects_lift
    | apply respects_read_disk
    | apply respects_update
    | apply respects_show
    | apply respects_on_disk
    | match goal with
      | |- respects (if ?b then _ else _) => destruct b
      | |- respects (match ?x with _ => _ end) => destruct x
      end ].

Ltac respects_tac := repeat respects_step.

Section morphisms.
Context `{!Zlib, !Codecs, !PathLib, !Fernet, !Pbkdf2, !PlatformDirs, !Json str}.
Implicit Types (w : World) (e : event) (es : list event).

(** Every slot respects the view. *)
Lemma handle_respects e : respects (handle e).
Proof.
  destruct e; cbn [handle]; unfold_slots;
    unfold setChecked, on_cb_show_password_stateChanged, select_file_dialog;
    by respects_tac.
Qed.

#[export] Instance after_proper e : Proper (same_view ==> same_view) (after e).
Proof. intros w w' Hw. by destruct (handle_respects e w w' Hw) as [? _]. Qed.

#[export] Instance run_proper es : Proper (same_view ==> same_view) (run es).
Proof.
  induction es as [|e es IH]; intros w w' Hw; [done|].
  change (run es (after e w) ≈ run es (after e w')). apply IH. by rewrite Hw.
Qed.

(** A dialog that was shown changes nothing that can be seen. *)
Lemma with_shown_view d w : with_shown d w ≈ w.
Proof. done. Qed.

(** The dialogs of a session are the same from worlds that look the same. *)
Lemma run_dialogs es w w' :
  w ≈ w' -> exists ds, shown (run es w) = ds ++ shown w /\ shown (run es w') = ds ++ shown w'.
Proof.
  induction es as [|e es IH] in w, w' |- *; intros Hw; [by exists []|].
  change (run (e :: es) w) with (run es (after e w)).
  change (run (e :: es) w') with (run es (after e w')).
  destruct (handle_respects e w w' Hw) as (Hv & _ & ds & Hs & Hs').
  destruct (IH (after e w) (after e w') Hv) as (ds2 & Hs2 & Hs2'). exists (ds2 ++ ds).
  unfold after in *. by rewrite Hs2, Hs2', Hs, Hs', !(assoc_L (++)).
Qed.


(** After a dialog the user can go on as if it had not been shown. *)
Lemma session_after_dialog d es w : run es (with_shown d w) ≈ run es w.
Proof. by rewrite with_shown_view. Qed.

End morphisms.
