(* ===== verification/Session.v ===== *)
(** * Session: what the window remembers from one event to the next

    The file dialogs are where the window, the settings store and the
    paths meet: [select_file_dialog] reads the directory of the last
    dialog from the settings, shows the dialog there, and stores the
    directory of the file that was chosen.  This file follows a directory
    from the dialog in which it is chosen, through the settings file, to
    the dialog that is shown next, and gives the branches of the file
    slots in which nothing is encrypted or written: a dialog that is
    cancelled and a file that cannot be read. *)

From Stdlib Require Import Ascii ZArith Lia.
From stdpp Require Import base tactics option list strings gmap.
From S2P Require Import Prelude PyStr PyFormat Interfaces DataObject BlockCrypter.
From S2P Require Import UserSettings Gui GuiFacts.
Import Py.

Section session.
Context `{!Zlib, !Codecs, !PathLib, !Fernet, !Pbkdf2, !PlatformDirs, !Json str}.
Implicit Types (w : World) (save : bool).

(** Where a file dialog starts: in the stored directory, at the name of
    the file name field if it holds one. *)
Definition dialog_start (start given_filename : str) : str :=
  path_str (if bool_decide (given_filename = []) then Path start
            else path_join (Path start) (Path (path_name (Path given_filename)))).

Definition file_dialog save (dir : str) : dialog :=
  if save then SaveFileName "Save File" dir else OpenFileName "Open File" dir.

Definition last_path save : str := if save then LAST_SAVE_PATH else LAST_LOAD_PATH.

(** The dialog that is shown, whatever the user answers and whether the
    answer can be stored. *)
Lemma select_file_dialog_shows save cwd answer w start :
  get (user_settings (window w)) (disk w) (last_path save) cwd = Ok start ->
  shown (select_file_dialog save None cwd answer w).1
    = file_dialog save (dialog_start start (le_filename (window w))) :: shown w.
Proof.
  intros Hget. unfold select_file_dialog, last_path in *. gui_run. rewrite Hget. gui_run.
  destruct (negb (bool_decide (answer = []))); simpl; gui_run; [|by destruct save].
  destruct (setitem _ _ _ _) as [fs [[]|e]]; simpl; gui_run; by destruct save.
Qed.

(** A method that shows no dialog leaves the dialogs of its caller. *)
Lemma bind_shown {A B} (m : gui A) (f : A -> gui B) w :
  (forall a ds, preserves (fun w => shown w = ds) (f a)) ->
  shown ((m ≫= f) w).1 = shown (m w).1.
Proof.
  intros Hf. rewrite bind_run. destruct (m w) as [w' [a|e]] eqn:E; [|done].
  by apply (Hf a (shown w')).
Qed.

(** [_encrypt_file] touches the input, the output and the status bar. *)
Lemma _encrypt_file_keeps (P : World -> Prop) filename r :
  (forall w g, P w ->
     le_filename (g (window w)) = le_filename (window w) ->
     user_settings (g (window w)) = user_settings (window w) -> P (with_window g w)) ->
  preserves P (_encrypt_file filename r).
Proof.
  intros HP. unfold_slots. preserves_tac; by apply HP.
Qed.

(** What [Encrypt from File] leaves of the world after its dialog. *)
Definition after_dialog (wd w : World) : Prop :=
  disk w = disk wd /\ le_filename (window w) = le_filename (window wd)
  /\ user_settings (window w) = user_settings (window wd) /\ shown w = shown wd.

Lemma _encrypt_file_after_dialog wd filename r :
  preserves (after_dialog wd) (_encrypt_file filename r).
Proof.
  apply _encrypt_file_keeps. intros w g (? & ? & ? & ?) Hf Hu.
  unfold after_dialog. simpl. by rewrite Hf, Hu.
Qed.

(** C17 - the file dialog opens where the last file was chosen: with
    settings that work, after [Encrypt from File] with a file chosen in
    the dialog - whether the file could then be read and encrypted or not
    - the next [Encrypt from File] shows its dialog in the directory of
    that file, at the name of that file; the directory went through the
    settings file and the name through the file name field. *)
Theorem dialog_remembers_directory w cwd answer r cwd' answer' r' :
  (forall s, is_ok (codec_encode SETTINGS_ENCODING s) = true) ->
  usable (user_settings (window w)) (disk w) -> answer <> [] ->
  let w1 := after (EncryptFileToOutput cwd answer r) w in
  let w2 := after (EncryptFileToOutput cwd' answer' r') w1 in
  getitem (user_settings (window w)) (disk w1) LAST_LOAD_PATH
    = Ok (path_str (path_parent (Path answer)))
  /\ le_filename (window w1) = path_name (Path answer)
  /\ shown w2
      = OpenFileName "Open File"
          (dialog_start (path_str (path_parent (Path answer))) (path_name (Path answer)))
        :: shown w1.
Proof.
  intros Henc Hus Ha w1 w2.
  destruct (select_file_dialog_run false cwd answer w Henc Hus Ha)
    as (dir & b & Hd & Hus' & Hget).
  assert (Hw1 : after_dialog
                 (with_window (set_le_filename (path_name (Path answer)))
                    (with_disk (fs_put (disk w) (path_str (user_settings_file
                                                             (user_settings (window w)))) b)
                       (with_shown (OpenFileName "Open File" dir) w))) w1).
  { subst w1. unfold after. cbn [handle]. unfold on_encrypt_file_to_output_triggered.
    rewrite (run_call _ _ _ _ _ Hd). by apply _encrypt_file_after_dialog. }
  destruct Hw1 as (Hdisk & Hname & Hsettings & Hshown). gui_simpl.
  rewrite Hdisk, Hname. split; [done|]. split; [done|].
  subst w2. unfold after. cbn [handle]. unfold on_encrypt_file_to_output_triggered.
  rewrite bind_shown.
  - rewrite (select_file_dialog_shows false cwd' answer' w1
               (path_str (path_parent (Path answer)))); [by rewrite Hname|].
    unfold get, last_path. by rewrite Hsettings, Hdisk, Hget.
  - intros a ds. apply _encrypt_file_keeps. by intros ? ? ? _ _.
Qed.

(** ** Dialogs that are cancelled, and files that cannot be read *)

(** A dialog the user cancels stores nothing and changes no widget. *)
Lemma select_file_dialog_cancelled save cwd w start :
  get (user_settings (window w)) (disk w) (last_path save) cwd = Ok start ->
  select_file_dialog save None cwd [] w
    = (with_shown (file_dialog save (dialog_start start (le_filename (window w)))) w, Ok []).
Proof.
  intros Hget. unfold select_file_dialog, last_path in *. gui_run. rewrite Hget. gui_run.
  simpl. gui_run. by destruct save.
Qed.

(** [Encrypt from File] with the dialog cancelled shows the dialog and
    does nothing else. *)
Theorem cancelled_open w cwd r start :
  get (user_settings (window w)) (disk w) LAST_LOAD_PATH cwd = Ok start ->
  after (EncryptFileToOutput cwd [] r) w
    = with_shown (OpenFileName "Open File" (dialog_start start (le_filename (window w)))) w.
Proof.
  intros Hget. unfold after. cbn [handle]. unfold on_encrypt_file_to_output_triggered.
  by rewrite (run_call _ _ _ _ _ (select_file_dialog_cancelled false cwd w start Hget)).
Qed.

(** [Decrypt to File] with the dialog cancelled: the dialog proposes the
    file name of the block without its directories, the status bar says
    that nothing was saved, and the output and the files are as they
    were. *)
Theorem cancelled_save w self o cwd start :
  te_input (window w) <> [] ->
  derive_key_from_password (le_password (window w)) SALT None = Ok (key self) ->
  BlockCrypter_init (key self) None = Ok self ->
  decrypt_from_block self (te_input (window w)) = Ok o -> has_data o = true ->
  get (user_settings (window w)) (disk w) LAST_SAVE_PATH cwd = Ok start ->
  after (DecryptInputToFile cwd []) w
    = with_window (fun m => showMessage (plural_msg "Decrypted " [] (len_data o)
                                         ++ lit ", NOT saved (cancelled)...")
                              (keep_filename o m))
        (with_shown (SaveFileName "Save File"
                       (dialog_start start (le_filename (keep_filename o (window w))))) w).
Proof.
  intros Hin Hk Hs Ho Hd Hget. unfold after. cbn [handle].
  unfold on_pb_decrypt_to_file_clicked, on_decrypt_input_to_file_triggered.
  rewrite (run_call _ _ _ _ _ (decrypt_run w self o Hin Hk Hs Ho)), Hd.
  erewrite run_call.
  2: { apply (select_file_dialog_cancelled true cwd _ start).
       unfold keep_filename. by destruct (filename o). }
  gui_run. unfold keep_filename. by destruct (filename o).
Qed.

(** [Encrypt from File] on a file that cannot be read raises after the
    input was cleared: the text the user typed is gone, and with it, by
    the slot of [textChanged], the output and the status message. *)
Theorem unreadable_file_clears_input w cwd answer r e :
  (forall s, is_ok (codec_encode SETTINGS_ENCODING s) = true) ->
  usable (user_settings (window w)) (disk w) -> answer <> [] ->
  path_str (Path answer) <> path_str (user_settings_file (user_settings (window w))) ->
  fs_read (disk w) (path_str (Path answer)) = Raise e ->
  exists w',
    handle (EncryptFileToOutput cwd answer r) w = (w', Raise e) /\
    te_input (window w') = [] /\ te_output (window w') = [] /\
    status_bar (window w') = [].
Proof.
  intros Henc Hus Ha Hne Hread.
  destruct (select_file_dialog_run false cwd answer w Henc Hus Ha) as (dir & b & Hd & _).
  eexists. cbn [handle]. unfold on_encrypt_file_to_output_triggered.
  rewrite (run_call _ _ _ _ _ Hd). unfold _encrypt_file.
  rewrite bool_decide_eq_false_2 by done.
  unfold _encrypt_file_path, te_input_set, on_te_input_textChanged. gui_run.
  unfold from_path. by rewrite fs_read_put_ne, Hread by done.
Qed.

End session.
