(* ===== verification/Ui.v ===== *)
(** * Ui: the generated user interface of [src/crippy_ui.py]

    [setupUi] is a straight line of constructor and setter calls on the
    objects of the window.  The state it works on is [Ui]: the objects
    created so far under the Python name that holds them, each with its
    class, its object name, its parent and the calls made on it, and the
    connections made between signals and slots.  A statement is a function
    on that state; it gives [None] where Python raises because a name it
    uses is not bound.  [setupUi] is the list of its statements, run in
    order by [exec].

    [connectSlotsByName] is the one call of [setupUi] that looks at names:
    it connects a slot [on_<object name>_<signal>] of the window to that
    signal of the first descendant that has that object name.  The signals
    of the Qt classes are those of their documentation; [file_dropped] is
    the signal [src/myplaintextedit.py] declares. *)

From Stdlib Require Import Ascii ZArith.
From stdpp Require Import base tactics option list strings.
From S2P Require Import Prelude PyStr.
Import Py.

(** ** The objects *)

(** The classes [setupUi] instantiates, and the class of the window. *)
Inductive qclass : Type :=
  | QMainWindow | QIcon | QAction | QWidget | QVBoxLayout | QGroupBox | QGridLayout
  | QLabel | QLineEdit | QCheckBox | QSpacerItem | QHBoxLayout | MyPlainTextEdit
  | QFont | QPlainTextEdit | QPushButton | QMenuBar | QMenu | QStatusBar.

#[export] Instance qclass_eq_dec : EqDecision qclass.
Proof. solve_decision. Defined.

(** What the statements pass to a call. *)
Inductive arg : Type :=
  | Int (n : Z)
  | Str (s : str)
  | Bool (b : bool)
  | Strs (l : list str)
  | Enum (name : str)
  | Ref (var : str)
  | MenuAction (menu : str)
  | QSize
  | QRect (x y w h : Z)
  | Tr (context text : str).

#[export] Instance arg_eq_dec : EqDecision arg.
Proof. solve_decision. Defined.

(** An object: its class, the slots its class declares, its object name,
    the name of its parent and the calls made on it, the first first. *)
Record QObject : Type := {
  cls : qclass;
  meta_slots : list str;
  objectName : str;
  parent : option str;
  calls : list (str * list arg);
}.

(** A signal of an object connected to a slot of the window. *)
Record connection : Type := {
  sender : str;
  signal : str;
  slot : str;
}.

#[export] Instance connection_eq_dec : EqDecision connection.
Proof. solve_decision. Defined.

Record Ui : Type := {
  objects : list (str * QObject);
  connections : list connection;
}.

(** Icons, fonts and spacers are values; the others are [QObject]s, which
    have a name, a parent and signals. *)
Definition is_qobject (c : qclass) : bool :=
  match c with
  | QIcon | QFont | QSpacerItem => false
  | _ => true
  end.

Definition QObject_signals : list str := [lit "destroyed"; lit "objectNameChanged"].

Definition QWidget_signals : list str :=
  QObject_signals
  ++ [lit "customContextMenuRequested"; lit "windowIconChanged";
      lit "windowIconTextChanged"; lit "windowTitleChanged"].

Definition QAbstractButton_signals : list str :=
  QWidget_signals ++ [lit "clicked"; lit "pressed"; lit "released"; lit "toggled"].

Definition QPlainTextEdit_signals : list str :=
  QWidget_signals
  ++ [lit "blockCountChanged"; lit "copyAvailable"; lit "cursorPositionChanged";
      lit "modificationChanged"; lit "redoAvailable"; lit "selectionChanged";
      lit "textChanged"; lit "undoAvailable"; lit "updateRequest"].

(** [MyPlainTextEdit] of [src/myplaintextedit.py]: the signals of
    [QPlainTextEdit] and [file_dropped]. *)
Definition MyPlainTextEdit_signals : list str :=
  QPlainTextEdit_signals ++ [lit "file_dropped"].

(** The signals of a class, inherited ones included. *)
Definition signals (c : qclass) : list str :=
  match c with
  | QIcon | QFont | QSpacerItem => []
  | QVBoxLayout | QHBoxLayout | QGridLayout => QObject_signals
  | QAction =>
    QObject_signals
    ++ [lit "changed"; lit "checkableChanged"; lit "enabledChanged"; lit "hovered";
        lit "toggled"; lit "triggered"; lit "visibleChanged"]
  | QWidget => QWidget_signals
  | QMainWindow =>
    QWidget_signals
    ++ [lit "iconSizeChanged"; lit "tabifiedDockWidgetActivated"; lit "toolButtonStyleChanged"]
  | QGroupBox => QWidget_signals ++ [lit "clicked"; lit "toggled"]
  | QLabel => QWidget_signals ++ [lit "linkActivated"; lit "linkHovered"]
  | QLineEdit =>
    QWidget_signals
    ++ [lit "cursorPositionChanged"; lit "editingFinished"; lit "inputRejected";
        lit "returnPressed"; lit "selectionChanged"; lit "textChanged"; lit "textEdited"]
  | QCheckBox => QAbstractButton_signals ++ [lit "checkStateChanged"; lit "stateChanged"]
  | QPushButton => QAbstractButton_signals
  | QPlainTextEdit => QPlainTextEdit_signals
  | MyPlainTextEdit => MyPlainTextEdit_signals
  | QMenuBar => QWidget_signals ++ [lit "hovered"; lit "triggered"]
  | QMenu =>
    QWidget_signals ++ [lit "aboutToHide"; lit "aboutToShow"; lit "hovered"; lit "triggered"]
  | QStatusBar => QWidget_signals ++ [lit "messageChanged"]
  end.

(** ** The statements *)

Definition stmt : Type := Ui -> option Ui.

(** The object a name is bound to. *)
Definition lookup_object (var : str) (ui : Ui) : option QObject :=
  snd <$> List.find (fun vo => bool_decide (vo.1 = var)) (objects ui).

Definition bound (var : str) (ui : Ui) : bool :=
  match lookup_object var ui with Some _ => true | None => false end.

(** The names an argument list refers to. *)
Definition refs (args : list arg) : list str :=
  omap (fun a => match a with Ref v | MenuAction v => Some v | _ => None end) args.

Definition set_objectName (name : str) (o : QObject) : QObject :=
  {| cls := cls o; meta_slots := meta_slots o; objectName := name; parent := parent o;
     calls := calls o |}.

Definition set_parent (p : str) (o : QObject) : QObject :=
  {| cls := cls o; meta_slots := meta_slots o; objectName := objectName o; parent := Some p;
     calls := calls o |}.

Definition add_call (method : str) (args : list arg) (o : QObject) : QObject :=
  {| cls := cls o; meta_slots := meta_slots o; objectName := objectName o; parent := parent o;
     calls := calls o ++ [(method, args)] |}.

(** A change of the object a name is bound to. *)
Definition alter_object (f : QObject -> QObject) (var : str) : stmt := fun ui =>
  if bound var ui then
    Some {| objects := map (fun vo => if bool_decide (vo.1 = var) then (vo.1, f vo.2) else vo)
                           (objects ui);
            connections := connections ui |}
  else None.

(** [var = c(args)]: a new object under a name; what the name was bound to
    before is forgotten.  The parent of a [QObject] is the object its
    constructor is given; the arguments are kept as the first call. *)
Definition new (var : str) (c : qclass) (args : list arg) : stmt := fun ui =>
  if forallb (fun v => bound v ui) (refs args) then
    Some {| objects :=
              filter (fun vo => vo.1 <> var) (objects ui)
              ++ [(var, {| cls := c; meta_slots := []; objectName := [];
                           parent := match args with
                                     | Ref p :: _ => if is_qobject c then Some p else None
                                     | _ => None
                                     end;
                           calls := [(lit "__init__", args)] |})];
            connections := connections ui |}
  else None.

(** [var.method(args)], for the calls that set what the model does not
    interpret. *)
Definition call (var method : str) (args : list arg) : stmt := fun ui =>
  if forallb (fun v => bound v ui) (refs args) then alter_object (add_call method args) var ui
  else None.

(** [var.setObjectName(name)] *)
Definition setObjectName (var name : str) : stmt := alter_object (set_objectName name) var.

(** [layout.addLayout(child)]: the child layout becomes a child of the
    layout. *)
Definition addLayout (layout child : str) : stmt := fun ui =>
  call layout "addLayout" [Ref child] ui ≫= alter_object (set_parent layout) child.

(** [if not var.objectName(): s] *)
Definition unless_named (var : str) (s : stmt) : stmt := fun ui =>
  o ← lookup_object var ui;
  if bool_decide (objectName o = []) then s ui else Some ui.

(** The statements of a body, one after the other. *)
Definition exec (body : list stmt) : stmt := fun ui =>
  foldl (fun m s => m ≫= s) (Some ui) body.

(** ** [QMetaObject.connectSlotsByName] *)

(** The children of an object, in the order they were created. *)
Definition children_of (ui : Ui) (p : str) : list (str * QObject) :=
  filter (fun vo => parent vo.2 = Some p) (objects ui).

(** The descendants of an object, each before its own descendants. *)
Fixpoint findChildren_go (fuel : nat) (ui : Ui) (p : str) : list (str * QObject) :=
  match fuel with
  | O => []
  | S fuel' => flat_map (fun vo => vo :: findChildren_go fuel' ui vo.1) (children_of ui p)
  end.

Definition findChildren (ui : Ui) (p : str) : list (str * QObject) :=
  findChildren_go (length (objects ui)) ui p.

(** What is left of [s] after the prefix [pre]. *)
Definition strip_prefix (pre s : str) : option str :=
  if startswith s pre then Some (drop (length pre) s) else None.

(** The signal of [o] that a slot is named after, if there is one: the
    slot is [on_], the object name, [_] and a signal of the class. *)
Definition slot_signal (o : QObject) (slot_name : str) : option str :=
  rest ← strip_prefix "on_" slot_name;
  if bool_decide (objectName o = []) then None
  else
    signal_name ← strip_prefix (objectName o ++ lit "_") rest;
    if bool_decide (signal_name ∈ signals (cls o)) then Some signal_name else None.

(** The connection made for a slot: to the first object that matches. *)
Definition connect_slot (candidates : list (str * QObject)) (slot_name : str)
    : option connection :=
  head (omap (fun vo => (fun s => {| sender := vo.1; signal := s; slot := slot_name |})
                          <$> slot_signal vo.2 slot_name)
             candidates).

(** [QMetaObject.connectSlotsByName(root)]: every slot of [root] is matched
    against the descendants of [root] and [root] itself. *)
Definition connectSlotsByName (root : str) : stmt := fun ui =>
  o ← lookup_object root ui;
  let candidates := findChildren ui root ++ [(root, o)] in
  Some {| objects := objects ui;
          connections := connections ui ++ omap (connect_slot candidates) (meta_slots o) |}.

(** ** The program *)

(** The window: its name, size and icon. *)
Definition setupUi_window : list stmt :=
  [ unless_named "MainWindow" (setObjectName "MainWindow" "MainWindow");
    call "MainWindow" "resize" [Int 639; Int 594];
    new "icon" QIcon [];
    call "icon" "addFile"
      [Str ":/images/python-icon.svg"; QSize; Enum "QIcon.Mode.Normal"; Enum "QIcon.State.Off"];
    call "MainWindow" "setWindowIcon" [Ref "icon"] ].

(** The nine actions, children of the window. *)
Definition setupUi_actions : list stmt :=
  [ new "file_exit" QAction [Ref "MainWindow"];
    setObjectName "file_exit" "file_exit";
    new "help_about" QAction [Ref "MainWindow"];
    setObjectName "help_about" "help_about";
    new "file_open" QAction [Ref "MainWindow"];
    setObjectName "file_open" "file_open";
    new "file_save" QAction [Ref "MainWindow"];
    setObjectName "file_save" "file_save";
    new "file_new" QAction [Ref "MainWindow"];
    setObjectName "file_new" "file_new";
    new "encrypt_input_to_output" QAction [Ref "MainWindow"];
    setObjectName "encrypt_input_to_output" "encrypt_input_to_output";
    new "encrypt_file_to_output" QAction [Ref "MainWindow"];
    setObjectName "encrypt_file_to_output" "encrypt_file_to_output";
    new "decrypt_input_to_output" QAction [Ref "MainWindow"];
    setObjectName "decrypt_input_to_output" "decrypt_input_to_output";
    new "decrypt_input_to_file" QAction [Ref "MainWindow"];
    setObjectName "decrypt_input_to_file" "decrypt_input_to_file" ].

(** The central widget and the group of the password and the file name. *)
Definition setupUi_settings : list stmt :=
  [ new "main_widget" QWidget [Ref "MainWindow"];
    setObjectName "main_widget" "main_widget";
    new "verticalLayout" QVBoxLayout [Ref "main_widget"];
    call "verticalLayout" "setSpacing" [Int 6];
    call "verticalLayout" "setContentsMargins" [Int 11; Int 11; Int 11; Int 11];
    setObjectName "verticalLayout" "verticalLayout";
    new "gb_settings" QGroupBox [Ref "main_widget"];
    setObjectName "gb_settings" "gb_settings";
    new "gridLayout" QGridLayout [Ref "gb_settings"];
    call "gridLayout" "setSpacing" [Int 6];
    call "gridLayout" "setContentsMargins" [Int 11; Int 11; Int 11; Int 11];
    setObjectName "gridLayout" "gridLayout";
    new "lb_password" QLabel [Ref "gb_settings"];
    setObjectName "lb_password" "lb_password";
    call "gridLayout" "addWidget" [Ref "lb_password"; Int 0; Int 0; Int 1; Int 1];
    new "le_password" QLineEdit [Ref "gb_settings"];
    setObjectName "le_password" "le_password";
    call "le_password" "setEchoMode" [Enum "QLineEdit.EchoMode.Password"];
    call "gridLayout" "addWidget" [Ref "le_password"; Int 0; Int 1; Int 1; Int 1];
    new "cb_show_password" QCheckBox [Ref "gb_settings"];
    setObjectName "cb_show_password" "cb_show_password";
    call "gridLayout" "addWidget" [Ref "cb_show_password"; Int 0; Int 2; Int 1; Int 1];
    new "hs_1" QSpacerItem
      [Int 273; Int 20; Enum "QSizePolicy.Policy.Expanding"; Enum "QSizePolicy.Policy.Minimum"];
    call "gridLayout" "addItem" [Ref "hs_1"; Int 0; Int 3; Int 1; Int 1];
    new "lb_filename" QLabel [Ref "gb_settings"];
    setObjectName "lb_filename" "lb_filename";
    call "gridLayout" "addWidget" [Ref "lb_filename"; Int 1; Int 0; Int 1; Int 1];
    new "le_filename" QLineEdit [Ref "gb_settings"];
    setObjectName "le_filename" "le_filename";
    call "gridLayout" "addWidget" [Ref "le_filename"; Int 1; Int 1; Int 1; Int 3];
    call "verticalLayout" "addWidget" [Ref "gb_settings"] ].

(** The group of the input, with the widget of [src/myplaintextedit.py]. *)
Definition setupUi_input : list stmt :=
  [ new "gb_input" QGroupBox [Ref "main_widget"];
    setObjectName "gb_input" "gb_input";
    new "horizontalLayout_4" QHBoxLayout [Ref "gb_input"];
    call "horizontalLayout_4" "setSpacing" [Int 4];
    call "horizontalLayout_4" "setContentsMargins" [Int 11; Int 11; Int 11; Int 11];
    setObjectName "horizontalLayout_4" "horizontalLayout_4";
    call "horizontalLayout_4" "setContentsMargins" [Int 6; Int 6; Int 6; Int 6];
    new "te_input" MyPlainTextEdit [Ref "gb_input"];
    setObjectName "te_input" "te_input";
    new "font" QFont [];
    call "font" "setFamilies" [Strs [lit "Courier New"]];
    call "font" "setPointSize" [Int 10];
    call "te_input" "setFont" [Ref "font"];
    call "horizontalLayout_4" "addWidget" [Ref "te_input"];
    call "verticalLayout" "addWidget" [Ref "gb_input"] ].

(** The row of the four buttons, a layout that is created without a
    parent and added to the layout of the central widget. *)
Definition setupUi_buttons : list stmt :=
  [ new "hl_buttons" QHBoxLayout [];
    call "hl_buttons" "setSpacing" [Int 6];
    setObjectName "hl_buttons" "hl_buttons";
    call "hl_buttons" "setContentsMargins" [Int 6; Int (-1); Int 6; Int (-1)];
    new "pb_encrypt_from_file" QPushButton [Ref "main_widget"];
    setObjectName "pb_encrypt_from_file" "pb_encrypt_from_file";
    call "hl_buttons" "addWidget" [Ref "pb_encrypt_from_file"];
    new "pb_decrypt_to_file" QPushButton [Ref "main_widget"];
    setObjectName "pb_decrypt_to_file" "pb_decrypt_to_file";
    call "hl_buttons" "addWidget" [Ref "pb_decrypt_to_file"];
    new "hs_2" QSpacerItem
      [Int 40; Int 20; Enum "QSizePolicy.Policy.Expanding"; Enum "QSizePolicy.Policy.Minimum"];
    call "hl_buttons" "addItem" [Ref "hs_2"];
    new "pb_encrypt" QPushButton [Ref "main_widget"];
    setObjectName "pb_encrypt" "pb_encrypt";
    call "hl_buttons" "addWidget" [Ref "pb_encrypt"];
    new "pb_decrypt" QPushButton [Ref "main_widget"];
    setObjectName "pb_decrypt" "pb_decrypt";
    call "hl_buttons" "addWidget" [Ref "pb_decrypt"];
    addLayout "verticalLayout" "hl_buttons" ].

(** The group of the output: read-only, and it accepts no drops. *)
Definition setupUi_output : list stmt :=
  [ new "gb_output" QGroupBox [Ref "main_widget"];
    setObjectName "gb_output" "gb_output";
    new "horizontalLayout_5" QHBoxLayout [Ref "gb_output"];
    call "horizontalLayout_5" "setSpacing" [Int 4];
    call "horizontalLayout_5" "setContentsMargins" [Int 11; Int 11; Int 11; Int 11];
    setObjectName "horizontalLayout_5" "horizontalLayout_5";
    call "horizontalLayout_5" "setContentsMargins" [Int 6; Int 6; Int 6; Int 6];
    new "te_output" QPlainTextEdit [Ref "gb_output"];
    setObjectName "te_output" "te_output";
    call "te_output" "setFont" [Ref "font"];
    call "te_output" "setAcceptDrops" [Bool false];
    call "te_output" "setReadOnly" [Bool true];
    call "horizontalLayout_5" "addWidget" [Ref "te_output"];
    call "verticalLayout" "addWidget" [Ref "gb_output"] ].

(** The central widget, the menu bar, its four menus, the status bar, and
    the actions of each menu.  [file_open] and [file_save] are added to none. *)
Definition setupUi_menus : list stmt :=
  [ call "MainWindow" "setCentralWidget" [Ref "main_widget"];
    new "menu_bar" QMenuBar [Ref "MainWindow"];
    setObjectName "menu_bar" "menu_bar";
    call "menu_bar" "setGeometry" [QRect 0 0 639 33];
    new "menu_file" QMenu [Ref "menu_bar"];
    setObjectName "menu_file" "menu_file";
    new "menu_help" QMenu [Ref "menu_bar"];
    setObjectName "menu_help" "menu_help";
    new "menu_encrypt" QMenu [Ref "menu_bar"];
    setObjectName "menu_encrypt" "menu_encrypt";
    new "menu_decrypt" QMenu [Ref "menu_bar"];
    setObjectName "menu_decrypt" "menu_decrypt";
    call "MainWindow" "setMenuBar" [Ref "menu_bar"];
    new "status_bar" QStatusBar [Ref "MainWindow"];
    setObjectName "status_bar" "status_bar";
    call "MainWindow" "setStatusBar" [Ref "status_bar"];
    call "menu_bar" "addAction" [MenuAction "menu_file"];
    call "menu_bar" "addAction" [MenuAction "menu_encrypt"];
    call "menu_bar" "addAction" [MenuAction "menu_decrypt"];
    call "menu_bar" "addAction" [MenuAction "menu_help"];
    call "menu_file" "addAction" [Ref "file_new"];
    call "menu_file" "addSeparator" [];
    call "menu_file" "addAction" [Ref "file_exit"];
    call "menu_help" "addAction" [Ref "help_about"];
    call "menu_encrypt" "addAction" [Ref "encrypt_input_to_output"];
    call "menu_encrypt" "addAction" [Ref "encrypt_file_to_output"];
    call "menu_decrypt" "addAction" [Ref "decrypt_input_to_output"];
    call "menu_decrypt" "addAction" [Ref "decrypt_input_to_file"] ].

(** [retranslateUi]: the title of the window, the texts of the actions and
    their shortcuts. *)
Definition retranslateUi_actions : list stmt :=
  [ call "MainWindow" "setWindowTitle" [Tr "MainWindow" "crippy"];
    call "file_exit" "setText" [Tr "MainWindow" "E&xit"];
    call "file_exit" "setShortcut" [Tr "MainWindow" "Alt+F4"];
    call "help_about" "setText" [Tr "MainWindow" "A&bout"];
    call "help_about" "setShortcut" [Tr "MainWindow" "Alt+B"];
    call "file_open" "setText" [Tr "MainWindow" "Open (to Input)"];
    call "file_open" "setShortcut" [Tr "MainWindow" "Ctrl+O"];
    call "file_save" "setText" [Tr "MainWindow" "Save (from Output)"];
    call "file_save" "setShortcut" [Tr "MainWindow" "Ctrl+S"];
    call "file_new" "setText" [Tr "MainWindow" "&New"];
    call "file_new" "setShortcut" [Tr "MainWindow" "Ctrl+N"];
    call "encrypt_input_to_output" "setText" [Tr "MainWindow" "Input -> Output"];
    call "encrypt_file_to_output" "setText" [Tr "MainWindow" "File -> Output"] ].

(** [retranslateUi]: the texts of the widgets and the titles of the menus. *)
Definition retranslateUi_widgets : list stmt :=
  [ call "decrypt_input_to_output" "setText" [Tr "MainWindow" "Input -> Output"];
    call "decrypt_input_to_file" "setText" [Tr "MainWindow" "Input -> File"];
    call "gb_settings" "setTitle" [Tr "MainWindow" "Settings"];
    call "lb_password" "setText" [Tr "MainWindow" "Password:"];
    call "le_password" "setPlaceholderText" [Tr "MainWindow" "enter password..."];
    call "cb_show_password" "setText" [Tr "MainWindow" "Show password"];
    call "lb_filename" "setText" [Tr "MainWindow" "Filename:"];
    call "gb_input" "setTitle" [Tr "MainWindow" "Input"];
    call "te_input" "setPlaceholderText" [Tr "MainWindow" "Nothing to show here..."];
    call "pb_encrypt_from_file" "setText" [Tr "MainWindow" "Encrypt from File"];
    call "pb_decrypt_to_file" "setText" [Tr "MainWindow" "Decrypt to File"];
    call "pb_encrypt" "setText" [Tr "MainWindow" "Encrypt"];
    call "pb_decrypt" "setText" [Tr "MainWindow" "Decrypt"];
    call "gb_output" "setTitle" [Tr "MainWindow" "Output"];
    call "te_output" "setPlaceholderText" [Tr "MainWindow" "Nothing to show here..."];
    call "menu_file" "setTitle" [Tr "MainWindow" "&File"];
    call "menu_help" "setTitle" [Tr "MainWindow" "&Help"];
    call "menu_encrypt" "setTitle" [Tr "MainWindow" "Encrypt"];
    call "menu_decrypt" "setTitle" [Tr "MainWindow" "Decrypt"] ].

(** [retranslateUi(self, MainWindow)] *)
Definition retranslateUi : stmt := exec (retranslateUi_actions ++ retranslateUi_widgets).

(** [setupUi(self, MainWindow)] *)
Definition setupUi : stmt :=
  exec (setupUi_window ++ setupUi_actions ++ setupUi_settings ++ setupUi_input
        ++ setupUi_buttons ++ setupUi_output ++ setupUi_menus
        ++ [retranslateUi; connectSlotsByName "MainWindow"]).

(** The slots of [MainWindow] in [src/crippy.py]: its methods under
    [QtCore.Slot], in the order of the class. *)
Definition MainWindow_slots : list str :=
  [ lit "on_file_new_triggered";
    lit "on_file_exit_triggered";
    lit "on_help_about_triggered";
    lit "on_cb_show_password_stateChanged";
    lit "on_te_input_textChanged";
    lit "on_encrypt_input_to_output_triggered";
    lit "on_encrypt_file_to_output_triggered";
    lit "on_decrypt_input_to_output_triggered";
    lit "on_decrypt_input_to_file_triggered";
    lit "on_pb_encrypt_from_file_clicked";
    lit "on_pb_decrypt_to_file_clicked";
    lit "on_pb_encrypt_clicked";
    lit "on_pb_decrypt_clicked";
    lit "on_te_input_file_dropped" ].

(** The window before [setupUi]: a [QMainWindow] without a name, as
    [super().__init__()] of [MainWindow.__init__] leaves it. *)
Definition window_object (slots : list str) : QObject :=
  {| cls := QMainWindow; meta_slots := slots; objectName := []; parent := None; calls := [] |}.

Definition window_ui : Ui :=
  {| objects := [(lit "MainWindow", window_object MainWindow_slots)]; connections := [] |}.

(** ** What the window shows *)

(** The arguments of the last call of a method on an object. *)
Definition last_call (var method : str) (ui : Ui) : option (list arg) :=
  o ← lookup_object var ui;
  snd <$> last (filter (fun c => c.1 = method) (calls o)).

(** The actions of a menu, in the order they were added. *)
Definition menu_actions (menu : str) (ui : Ui) : list str :=
  match lookup_object menu ui with
  | Some o =>
    omap (fun c => match c with
                   | (m, [Ref a]) => if bool_decide (m = lit "addAction") then Some a else None
                   | _ => None
                   end) (calls o)
  | None => []
  end.

(** The menus of a menu bar. *)
Definition menus_of (bar : str) (ui : Ui) : list str :=
  match lookup_object bar ui with
  | Some o =>
    omap (fun c => match c with
                   | (m, [MenuAction a]) =>
                     if bool_decide (m = lit "addAction") then Some a else None
                   | _ => None
                   end) (calls o)
  | None => []
  end.

(** The actions the user can trigger: those of the menus of the bar. *)
Definition reachable_actions (bar : str) (ui : Ui) : list str :=
  flat_map (fun menu => menu_actions menu ui) (menus_of bar ui).

(** The text set on an object, and the shortcut of an action. *)
Definition text_of (var : str) (ui : Ui) : option str :=
  match last_call var "setText" ui with
  | Some [Tr _ t] => Some t
  | _ => None
  end.

Definition shortcut_of (var : str) (ui : Ui) : option str :=
  match last_call var "setShortcut" ui with
  | Some [Tr _ t] => Some t
  | _ => None
  end.

(** The objects of a class, by their names. *)
Definition objects_of (c : qclass) (ui : Ui) : list str :=
  (filter (fun vo => cls vo.2 = c) (objects ui)).*1.
