(* ===== verification/UiFacts.v ===== *)
(** * UiFacts: what [setupUi] builds

    The statements of [src/crippy_ui.py] run without an unbound name and
    leave a tree of objects under the window in which every object is named
    after the Python name that holds it.  [connectSlotsByName] connects a
    slot only to a signal its name spells out, and on this tree it connects
    every slot of the window in [src/crippy.py]. *)

From Stdlib Require Import Ascii ZArith Lia.
From stdpp Require Import base tactics option list strings.
From S2P Require Import Prelude PyStr Ui.
Import Py.

(** The user interface of the window, and the value [setupUi] gives it. *)
Definition final_ui : Ui := default window_ui (setupUi window_ui).

(** ** Slots and their names *)
Section names.
Implicit Types (o : QObject) (ui : Ui) (c : connection) (n pre s t : str).

Lemma strip_prefix_spec pre s t : strip_prefix pre s = Some t <-> s = pre ++ t.
Proof.
  unfold strip_prefix. destruct (startswith s pre) eqn:E.
  - apply startswith_spec in E as [u ->]. rewrite drop_app_length.
    split; [by intros [= <-]|by intros ->%app_inv_head].
  - split; [done|]. intros ->. by rewrite startswith_app in E.
Qed.

(** A slot matches an object exactly when it is named after the object and
    one of its signals. *)
Lemma slot_signal_spec o n s :
  slot_signal o n = Some s
  <-> objectName o <> [] /\ s ∈ signals (cls o)
      /\ n = lit "on_" ++ objectName o ++ lit "_" ++ s.
Proof.
  unfold slot_signal. split.
  - destruct (strip_prefix _ n) as [rest|] eqn:E1; [|done]. simpl.
    case_bool_decide as Hn; [done|].
    destruct (strip_prefix _ rest) as [sg|] eqn:E2; [|done]. simpl.
    case_bool_decide as Hs; [|done]. intros [= <-].
    apply strip_prefix_spec in E1 as ->. apply strip_prefix_spec in E2 as ->.
    by rewrite <- (assoc_L (++)).
  - intros (Hn & Hs & ->).
    assert (E : strip_prefix (objectName o ++ lit "_") (objectName o ++ lit "_" ++ s) = Some s).
    { apply strip_prefix_spec. by rewrite <- (assoc_L (++)). }
    rewrite (proj2 (strip_prefix_spec (lit "on_") _ _) eq_refl). cbn [mbind option_bind].
    rewrite bool_decide_false, E by done. cbn [mbind option_bind].
    by rewrite bool_decide_true.
Qed.

Lemma connect_slot_sound cands n c :
  connect_slot cands n = Some c ->
  slot c = n /\ exists o, (sender c, o) ∈ cands /\ slot_signal o n = Some (signal c).
Proof.
  unfold connect_slot. intros ([v o] & Hin & Hc)%head_Some_elem_of%list_elem_of_omap.
  simpl in Hc.
  destruct (slot_signal o n) as [s|] eqn:E; simplify_eq/=. eauto.
Qed.

Lemma connect_slot_complete cands n v o s :
  (v, o) ∈ cands -> slot_signal o n = Some s -> is_Some (connect_slot cands n).
Proof.
  intros Hin Hs. unfold connect_slot.
  destruct (omap _ cands) as [|c l] eqn:E; [|by eexists].
  assert (Hc : {| sender := v; signal := s; slot := n |} ∈ @nil connection); [|by inv Hc].
  rewrite <- E. apply list_elem_of_omap. exists (v, o). simpl. by rewrite Hs.
Qed.
End names.

(** ** The tree of objects *)

(** Every name is bound once, and the parent of an object is bound before
    the object; [seen] are the names bound before the list. *)
Fixpoint wf_objects (seen : list str) (l : list (str * QObject)) : bool :=
  match l with
  | [] => true
  | vo :: l' =>
    bool_decide (vo.1 ∉ seen)
    && from_option (fun p => bool_decide (p ∈ seen)) true (parent vo.2)
    && wf_objects (vo.1 :: seen) l'
  end.

Definition wf_ui (ui : Ui) : bool := wf_objects [] (objects ui).

(** The objects below [p]: its children, and the children of those. *)
Inductive descendant (ui : Ui) (p : str) : str -> Prop :=
  | descendant_child v o :
      (v, o) ∈ objects ui -> parent o = Some p -> descendant ui p v
  | descendant_step w v o :
      descendant ui p w -> (v, o) ∈ objects ui -> parent o = Some w -> descendant ui p v.

Section tree.
Implicit Types (o q : QObject) (ui : Ui) (l : list (str * QObject)) (v p : str).

Lemma flat_map_ext_in {A B} (f g : A -> list B) (l : list A) :
  (forall a, a ∈ l -> f a = g a) -> flat_map f l = flat_map g l.
Proof.
  induction l as [|a l IH]; intros Hfg; [done|]. simpl.
  rewrite Hfg, IH; [done| |by left]. intros b ?. apply Hfg. by right.
Qed.

Lemma elem_of_flat_map {A B} (f : A -> list B) (l : list A) (y : B) :
  y ∈ flat_map f l <-> exists x, x ∈ l /\ y ∈ f x.
Proof. rewrite list_elem_of_In, in_flat_map. by setoid_rewrite list_elem_of_In. Qed.

(** What [wf_objects] says of positions. *)
Lemma wf_objects_spec seen l :
  wf_objects seen l = true ->
  NoDup l.*1
  /\ (forall v, v ∈ l.*1 -> v ∉ seen)
  /\ forall i v o p, l !! i = Some (v, o) -> parent o = Some p ->
       p ∈ seen \/ exists j q, j < i /\ l !! j = Some (p, q).
Proof.
  induction l as [|[v o] l IH] in seen |- *; simpl.
  { intros _. split_and!; [constructor|by intros ? ?%elem_of_nil|done]. }
  intros [[Hv Hp]%andb_prop Hl%IH]%andb_prop. destruct Hl as (Hnd & Hseen & Hord).
  apply bool_decide_eq_true in Hv. split_and!.
  - constructor; [|done]. intros Hin%Hseen. apply Hin. by left.
  - intros w [->|Hw%Hseen]%elem_of_cons; [done|]. intros ?. apply Hw. by right.
  - intros [|i] w q p Hi Hq; simplify_eq/=.
    + rewrite Hq in Hp. left. by apply bool_decide_eq_true in Hp.
    + destruct (Hord i w q p Hi Hq) as [[->|?]%elem_of_cons|(j & r & ? & ?)]; [|by left|].
      * right. exists 0, o. split; [lia|done].
      * right. exists (S j), r. split; [lia|done].
Qed.

Lemma wf_ui_spec ui :
  wf_ui ui = true ->
  NoDup (objects ui).*1
  /\ forall i v o p, objects ui !! i = Some (v, o) -> parent o = Some p ->
       exists j q, j < i /\ objects ui !! j = Some (p, q).
Proof.
  intros (? & _ & Hord)%wf_objects_spec. split; [done|]. intros i v o p Hi Hp.
  by destruct (Hord i v o p Hi Hp) as [?%elem_of_nil|?].
Qed.

(** The descendants of an object among the last [k] objects are found
    with fuel [k]. *)
Lemma findChildren_go_last ui k fuel p :
  wf_ui ui = true ->
  (forall j q, objects ui !! j = Some (p, q) -> length (objects ui) - k <= j) ->
  k <= fuel ->
  findChildren_go fuel ui p = findChildren_go k ui p.
Proof.
  intros [Hnd Hord]%wf_ui_spec. revert fuel p.
  induction k as [|k IH]; intros fuel p Hp Hk.
  - assert (children_of ui p = []) as Hnone; [|by destruct fuel; simpl; rewrite ?Hnone].
    destruct (children_of ui p) as [|[v o] rest] eqn:E; [done|exfalso].
    assert (Hin : (v, o) ∈ children_of ui p) by (rewrite E; by left).
    apply list_elem_of_filter in Hin as [Hpo [i Hi]%list_elem_of_lookup].
    destruct (Hord i v o p Hi Hpo) as (j & q & Hj & Hq).
    apply Hp in Hq. apply lookup_lt_Some in Hi. lia.
  - destruct fuel as [|fuel]; [lia|]. simpl. apply flat_map_ext_in.
    intros [v o] [Hpo [i Hi]%list_elem_of_lookup]%list_elem_of_filter. simpl in *.
    f_equal. apply IH; [|lia]. intros i' q' Hi'.
    assert (i' = i) as ->.
    { eapply NoDup_lookup; [done| |]; rewrite list_lookup_fmap; [by rewrite Hi'|by rewrite Hi]. }
    destruct (Hord i v o p Hi Hpo) as (j & q & Hj & Hq). apply Hp in Hq. lia.
Qed.

(** With the tree well formed, the search for descendants ends by itself:
    fuel beyond the number of objects changes nothing. *)
Lemma findChildren_go_enough ui fuel p :
  wf_ui ui = true -> length (objects ui) <= fuel ->
  findChildren_go fuel ui p = findChildren ui p.
Proof. intros Hwf Hfuel. apply findChildren_go_last; [done| |done]. intros. lia. Qed.

Lemma descendant_below ui p w q v :
  (w, q) ∈ objects ui -> parent q = Some p -> descendant ui w v -> descendant ui p v.
Proof.
  intros Hw Hq. induction 1 as [u o Hu Hp|x u o _ IH Hu Hp].
  - apply (descendant_step ui p w u o); [by apply (descendant_child ui p w q)|done..].
  - by apply (descendant_step ui p x u o).
Qed.

Lemma findChildren_go_sound ui fuel p v o :
  (v, o) ∈ findChildren_go fuel ui p -> (v, o) ∈ objects ui /\ descendant ui p v.
Proof.
  revert p. induction fuel as [|fuel IH]; intros p; simpl; [by intros ?%elem_of_nil|].
  intros ([w q] & [Hq Hw]%list_elem_of_filter & Hin)%elem_of_flat_map.
  simpl in *. apply elem_of_cons in Hin as [[= -> ->]|[? Hd]%IH].
  - split; [done|]. eapply descendant_child; eassumption.
  - split; [done|]. by apply (descendant_below ui p w q v).
Qed.

(** A child of what was found is found with one more unit of fuel. *)
Lemma findChildren_go_child ui fuel p w v o :
  w ∈ (findChildren_go fuel ui p).*1 -> (v, o) ∈ children_of ui w ->
  (v, o) ∈ findChildren_go (S fuel) ui p.
Proof.
  revert p. induction fuel as [|fuel IH]; intros p; [by intros ?%elem_of_nil|].
  intros ([w' q'] & -> & ([c qc] & Hc & Hin)%elem_of_flat_map)%list_elem_of_fmap Hv.
  cbn [findChildren_go]. apply elem_of_flat_map. exists (c, qc). split; [done|].
  right. simpl in *. apply elem_of_cons in Hin as [[= -> ->]|Hin].
  - cbn [findChildren_go]. apply elem_of_flat_map. exists (v, o). split; [done|by left].
  - apply IH; [|done]. apply list_elem_of_fmap. by exists (w', q').
Qed.

(** [findChildren] finds the descendants, and nothing else. *)
Lemma findChildren_spec ui p v :
  wf_ui ui = true -> v ∈ (findChildren ui p).*1 <-> descendant ui p v.
Proof.
  intros Hwf. split.
  - intros ([w o] & -> & Hin)%list_elem_of_fmap. by apply findChildren_go_sound in Hin as [_ ?].
  - assert (Hchild : forall w v o, (v, o) ∈ objects ui -> parent o = Some w ->
                       w ∈ (findChildren ui p).*1 -> v ∈ (findChildren ui p).*1).
    { intros w u o Hu Hp Hw. apply list_elem_of_fmap. exists (u, o). split; [done|].
      rewrite <- (findChildren_go_enough ui (S (length (objects ui)))) by (done || lia).
      eapply findChildren_go_child; [done|]. by apply list_elem_of_filter. }
    induction 1 as [u o Hu Hp|w u o _ IH Hu Hp]; [|by eapply Hchild].
    apply list_elem_of_fmap. exists (u, o). split; [done|].
    rewrite <- (findChildren_go_enough ui (S (length (objects ui)))) by (done || lia).
    cbn [findChildren_go]. apply elem_of_flat_map. exists (u, o).
    split; [by apply list_elem_of_filter|by left].
Qed.
End tree.

(** ** The statements keep the tree well formed *)
Section statements.
Implicit Types (o q : QObject) (ui : Ui) (l : list (str * QObject)) (v p var : str).
Implicit Types (s : stmt) (f : QObject -> QObject).

Lemma filter_all {A} (P : A -> Prop) `{!forall x, Decision (P x)} (l : list A) :
  Forall P l -> filter P l = l.
Proof. induction 1 as [|x l Hx _ IH]; [done|]. by rewrite filter_cons_True, IH. Qed.

(** A statement that keeps a property of the user interface. *)
Definition keeps (P : Ui -> Prop) (s : stmt) : Prop :=
  forall ui ui', P ui -> s ui = Some ui' -> P ui'.

Lemma bound_spec v ui : bound v ui = true <-> v ∈ (objects ui).*1.
Proof.
  unfold bound, lookup_object. destruct (List.find _ _) as [[w o]|] eqn:E; simpl.
  - apply List.find_some in E as [Hin Hw%bool_decide_eq_true]. simpl in Hw. subst w.
    split; [intros _|done]. apply list_elem_of_fmap. exists (v, o). by rewrite list_elem_of_In.
  - split; [done|]. intros ([w o] & -> & Hin%list_elem_of_In)%list_elem_of_fmap.
    apply (List.find_none _ _ E) in Hin. simpl in Hin. by rewrite bool_decide_true in Hin.
Qed.

Lemma wf_objects_snoc seen l v o :
  wf_objects seen (l ++ [(v, o)]) = true
  <-> wf_objects seen l = true /\ (v ∉ seen) /\ (v ∉ l.*1)
      /\ forall p, parent o = Some p -> p ∈ seen \/ p ∈ l.*1.
Proof.
  induction l as [|[w q] l IH] in seen |- *; cbn [wf_objects app fmap list_fmap fst snd].
  - rewrite andb_true_r, andb_true_iff, bool_decide_eq_true.
    destruct (parent o) as [p|]; cbn [from_option]; rewrite ?bool_decide_eq_true.
    + split.
      * intros [? ?]. split_and!; [done..|by intros ?%elem_of_nil|]. intros ? [= <-]. by left.
      * intros (_ & ? & _ & Hp). split; [done|].
        by destruct (Hp p eq_refl) as [?|?%elem_of_nil].
    + split; [intros [? _]|by intros (_ & ? & _)].
      split_and!; [done..|by intros ?%elem_of_nil|done].
  - rewrite !andb_true_iff, IH, !not_elem_of_cons. setoid_rewrite elem_of_cons.
    rewrite bool_decide_eq_true. split.
    + intros (? & ? & ? & ? & Hp). destruct_and!. split_and!; try done.
      intros p [[->|?]|?]%Hp; eauto.
    + intros (? & ? & ? & Hp). destruct_and!. split_and!; try done.
      intros p [?|[->|?]]%Hp; eauto.
Qed.

Lemma wf_objects_alter seen l f var :
  (forall o, parent (f o) = parent o) ->
  wf_objects seen (map (fun vo => if bool_decide (vo.1 = var) then (vo.1, f vo.2) else vo) l)
  = wf_objects seen l.
Proof.
  intros Hf. induction l as [|[w q] l IH] in seen |- *; [done|]. cbn [map wf_objects fst snd].
  destruct (bool_decide (w = var)); cbn [fst snd]; by rewrite IH, ?Hf.
Qed.

(** A change that keeps the parent of the object keeps the tree. *)
Lemma alter_object_wf f var :
  (forall o, parent (f o) = parent o) -> keeps (fun ui => wf_ui ui = true) (alter_object f var).
Proof.
  intros Hf ui ui' Hwf. unfold alter_object. destruct (bound var ui); [|done].
  intros [= <-]. unfold wf_ui. simpl. by rewrite wf_objects_alter.
Qed.

Lemma setObjectName_wf var name : keeps (fun ui => wf_ui ui = true) (setObjectName var name).
Proof. by apply alter_object_wf. Qed.

Lemma call_wf var method args : keeps (fun ui => wf_ui ui = true) (call var method args).
Proof.
  intros ui ui' Hwf. unfold call. destruct (forallb _ _); [|done].
  by apply alter_object_wf.
Qed.

(** A change of an object keeps the names. *)
Lemma alter_names f var l :
  (map (fun vo => if bool_decide (vo.1 = var) then (vo.1, f vo.2) else vo) l).*1 = l.*1.
Proof.
  induction l as [|[w q] l IH]; [done|]. cbn [map fmap list_fmap] in *.
  rewrite IH. by case_bool_decide.
Qed.

(** [layout] is bound before [child]. *)
Definition precedes (layout child : str) l : Prop :=
  exists l1 l2, l = l1 ++ l2 /\ layout ∈ l1.*1 /\ child ∉ l1.*1.

Lemma wf_objects_set_parent seen l layout child :
  wf_objects seen l = true -> layout ∈ seen \/ precedes layout child l ->
  wf_objects seen
    (map (fun vo => if bool_decide (vo.1 = child) then (vo.1, set_parent layout vo.2) else vo) l)
  = true.
Proof.
  induction l as [|[w q] l IH] in seen |- *; [done|]. cbn [map wf_objects fst snd].
  intros [[Hw Hq]%andb_prop Hl]%andb_prop Hpre.
  assert (Hnext : layout ∈ w :: seen \/ precedes layout child l).
  { destruct Hpre as [?|([|[x y] l1] & l2 & E & H1 & H2)]; [left; by right|by inv H1|].
    simplify_eq/=. apply elem_of_cons in H1 as [->|?]; [left; by left|right].
    exists l1, l2. split_and!; [done..|]. intros ?. apply H2. by right. }
  destruct (bool_decide (w = child)) eqn:Hc; cbn [fst snd set_parent parent from_option];
    rewrite Hw, ?Hq, (IH _ Hl Hnext); [|done]. apply bool_decide_eq_true in Hc as ->.
  destruct Hpre as [?|([|[x y] l1] & l2 & E & H1 & H2)]; [by rewrite bool_decide_true|by inv H1|].
  simplify_eq/=. destruct H2. by left.
Qed.

(** A layout added to a layout that was created before it keeps the tree. *)
Lemma addLayout_wf layout child ui ui' :
  wf_ui ui = true -> precedes layout child (objects ui) ->
  addLayout layout child ui = Some ui' -> wf_ui ui' = true.
Proof.
  intros Hwf (l1 & l2 & E & H1 & H2). unfold addLayout.
  destruct (call _ _ _ ui) as [ui1|] eqn:E1; [simpl|done].
  pose proof (call_wf _ _ _ _ _ Hwf E1) as Hwf1. revert E1. unfold call, alter_object.
  destruct (forallb _ _); [|done]. destruct (bound layout ui); [|done]. intros [= <-].
  simpl. destruct (bound child _); [|done]. intros [= <-]. unfold wf_ui. simpl.
  apply wf_objects_set_parent; [done|]. right. rewrite E, map_app.
  eexists _, _. split; [done|]. by rewrite alter_names.
Qed.

(** A new object under a fresh name keeps the tree: its parent is one of
    the names the constructor refers to, which are bound. *)
Lemma new_wf var c args ui ui' :
  wf_ui ui = true -> bound var ui = false -> new var c args ui = Some ui' -> wf_ui ui' = true.
Proof.
  intros Hwf Hvar. unfold new. destruct (forallb _ _) eqn:Hrefs; [|done]. intros [= <-].
  assert (Hfresh : var ∉ (objects ui).*1) by (rewrite <- bound_spec; congruence).
  assert (Hsame : filter (fun vo => vo.1 <> var) (objects ui) = objects ui).
  { apply filter_all, Forall_forall. intros [w q] Hin. simpl. intros ->. apply Hfresh.
    apply list_elem_of_fmap. by exists (var, q). }
  unfold wf_ui. simpl. rewrite Hsame. apply wf_objects_snoc.
  split_and!; [done|by intros ?%elem_of_nil|done|]. simpl. intros p Hp. right.
  destruct args as [|[] args]; try done. destruct (is_qobject c); [|done].
  injection Hp as ->. apply andb_prop in Hrefs as [Hb _]. by apply bound_spec.
Qed.

(** [connectSlotsByName] changes no object. *)
Lemma connectSlotsByName_objects root ui ui' :
  connectSlotsByName root ui = Some ui' -> objects ui' = objects ui.
Proof. unfold connectSlotsByName. destruct (lookup_object _ _); [|done]. by intros [= <-]. Qed.

Lemma connectSlotsByName_wf root : keeps (fun ui => wf_ui ui = true) (connectSlotsByName root).
Proof. intros ui ui' Hwf Hc%connectSlotsByName_objects. unfold wf_ui. by rewrite Hc. Qed.

Lemma unless_named_keeps P var s : keeps P s -> keeps P (unless_named var s).
Proof.
  intros Hs ui ui' HP. unfold unless_named. destruct (lookup_object _ _); [|done]. simpl.
  case_bool_decide; [by apply Hs|by intros [= <-]].
Qed.

(** A body keeps what each of its statements keeps. *)
Lemma exec_keeps P body : Forall (keeps P) body -> keeps P (exec body).
Proof.
  unfold exec. induction body as [|s body IH] using rev_ind; intros Hall ui ui' HP.
  { by intros [= <-]. }
  apply Forall_app in Hall as [Hbody [Hs _]%Forall_cons]. rewrite foldl_snoc.
  destruct (foldl _ _ body) as [ui1|] eqn:E; [|done]. simpl. apply Hs. by eapply IH.
Qed.
End statements.

(** ** What [connectSlotsByName] connects *)
Section connect.
Implicit Types (o r : QObject) (ui : Ui) (c : connection) (root v n s : str).

(** A connection it makes is of a slot of the root, to a signal of a
    descendant or of the root itself, and the slot is named after the two. *)
Lemma connectSlotsByName_sound root ui ui' c :
  connectSlotsByName root ui = Some ui' -> c ∈ connections ui' ->
  c ∈ connections ui
  \/ exists r o, lookup_object root ui = Some r /\ slot c ∈ meta_slots r
       /\ (sender c, o) ∈ findChildren ui root ++ [(root, r)]
       /\ objectName o <> [] /\ signal c ∈ signals (cls o)
       /\ slot c = lit "on_" ++ objectName o ++ lit "_" ++ signal c.
Proof.
  unfold connectSlotsByName. destruct (lookup_object root ui) as [r|]; [simpl|done].
  intros [= <-]. simpl. intros [?|(n & Hn & Hc)%list_elem_of_omap]%elem_of_app; [by left|right].
  apply connect_slot_sound in Hc as (-> & o & Hin & (? & ? & ?)%slot_signal_spec).
  by exists r, o.
Qed.

(** A slot named after a descendant and one of its signals is connected. *)
Lemma connectSlotsByName_complete root ui ui' r v o s :
  connectSlotsByName root ui = Some ui' -> lookup_object root ui = Some r ->
  (v, o) ∈ findChildren ui root -> objectName o <> [] -> s ∈ signals (cls o) ->
  lit "on_" ++ objectName o ++ lit "_" ++ s ∈ meta_slots r ->
  exists c, c ∈ connections ui' /\ slot c = lit "on_" ++ objectName o ++ lit "_" ++ s.
Proof.
  unfold connectSlotsByName. intros Hc Hr Hin Hname Hs Hslot. rewrite Hr in Hc. simpl in Hc.
  injection Hc as <-. simpl.
  destruct (connect_slot_complete (findChildren ui root ++ [(root, r)])
              (lit "on_" ++ objectName o ++ lit "_" ++ s) v o s) as [c Hc].
  { apply elem_of_app. by left. }
  { by apply slot_signal_spec. }
  exists c. split; [|by apply connect_slot_sound in Hc as [? _]].
  apply elem_of_app. right. apply list_elem_of_omap. eauto.
Qed.
End connect.

(** ** The window of crippy *)

(** The connections the slots of [src/crippy.py] are written for. *)
Definition expected_connections : list connection :=
  map (fun x => {| sender := x.1.1; signal := x.1.2; slot := x.2 |})
    [ (lit "file_new", lit "triggered", lit "on_file_new_triggered");
      (lit "file_exit", lit "triggered", lit "on_file_exit_triggered");
      (lit "help_about", lit "triggered", lit "on_help_about_triggered");
      (lit "cb_show_password", lit "stateChanged", lit "on_cb_show_password_stateChanged");
      (lit "te_input", lit "textChanged", lit "on_te_input_textChanged");
      (lit "encrypt_input_to_output", lit "triggered",
       lit "on_encrypt_input_to_output_triggered");
      (lit "encrypt_file_to_output", lit "triggered",
       lit "on_encrypt_file_to_output_triggered");
      (lit "decrypt_input_to_output", lit "triggered",
       lit "on_decrypt_input_to_output_triggered");
      (lit "decrypt_input_to_file", lit "triggered",
       lit "on_decrypt_input_to_file_triggered");
      (lit "pb_encrypt_from_file", lit "clicked", lit "on_pb_encrypt_from_file_clicked");
      (lit "pb_decrypt_to_file", lit "clicked", lit "on_pb_decrypt_to_file_clicked");
      (lit "pb_encrypt", lit "clicked", lit "on_pb_encrypt_clicked");
      (lit "pb_decrypt", lit "clicked", lit "on_pb_decrypt_clicked");
      (lit "te_input", lit "file_dropped", lit "on_te_input_file_dropped") ].

(** The layouts: their widgets belong to the nearest ancestor that is a
    widget. *)
Definition is_layout (c : qclass) : bool :=
  match c with
  | QVBoxLayout | QHBoxLayout | QGridLayout => true
  | _ => false
  end.

Fixpoint parent_widget (fuel : nat) (ui : Ui) (v : str) : option str :=
  match fuel with
  | O => None
  | S fuel' =>
    o ← lookup_object v ui;
    if is_layout (cls o) then p ← parent o; parent_widget fuel' ui p else Some v
  end.

(** The widgets added to a layout, with the layout. *)
Definition placed (ui : Ui) : list (str * str) :=
  flat_map (fun vo => omap (fun c => match c with
                                     | (m, Ref w :: _) =>
                                       if bool_decide (m = lit "addWidget") then Some (vo.1, w)
                                       else None
                                     | _ => None
                                     end) (calls vo.2))
           (objects ui).

(** The parent Qt gives a widget that is added to a layout is the parent
    its constructor was given. *)
Definition layouts_agree (ui : Ui) : bool :=
  forallb (fun lw => bool_decide ((lookup_object lw.2 ui ≫= parent)
                                  = parent_widget (length (objects ui)) ui lw.1))
          (placed ui).

Section window.

Lemma setupUi_final : setupUi window_ui = Some final_ui.
Proof. vm_compute. reflexivity. Qed.

Lemma final_wf : wf_ui final_ui = true.
Proof. vm_compute. reflexivity. Qed.

Lemma final_connections : connections final_ui = expected_connections.
Proof. vm_compute. reflexivity. Qed.

(** Every object is named after the Python name that holds it. *)
Lemma final_names :
  Forall (fun vo => objectName vo.2 = if is_qobject (cls vo.2) then vo.1 else [])
         (objects final_ui).
Proof. by_compute. Qed.

(** Every object is in the tree of the window. *)
Lemma final_tree :
  Forall (fun vo => is_qobject (cls vo.2) = true ->
                    vo.1 = lit "MainWindow" \/ vo.1 ∈ (findChildren final_ui "MainWindow").*1)
         (objects final_ui).
Proof. by_compute. Qed.

Lemma final_layouts : layouts_agree final_ui = true.
Proof. vm_compute. reflexivity. Qed.

(** The seven actions of the menus, in the order of the menu bar. *)
Lemma final_menus :
  reachable_actions "menu_bar" final_ui
  = [lit "file_new"; lit "file_exit"; lit "encrypt_input_to_output";
     lit "encrypt_file_to_output"; lit "decrypt_input_to_output";
     lit "decrypt_input_to_file"; lit "help_about"].
Proof. vm_compute. reflexivity. Qed.

(** Every action, button, check box and label has a text, and no two
    actions share a shortcut. *)
Lemma final_texts :
  Forall (fun v => is_Some (text_of v final_ui))
         (objects_of QAction final_ui ++ objects_of QPushButton final_ui
          ++ objects_of QCheckBox final_ui ++ objects_of QLabel final_ui).
Proof. by_compute. Qed.

Lemma final_shortcuts :
  NoDup (omap (fun a => shortcut_of a final_ui) (objects_of QAction final_ui)).
Proof. by_compute. Qed.

(** The two actions that are in no menu. *)
Lemma final_unreachable :
  filter (fun a => a ∉ reachable_actions "menu_bar" final_ui) (objects_of QAction final_ui)
  = [lit "file_open"; lit "file_save"].
Proof. vm_compute. reflexivity. Qed.
End window.

(** C20 - [setupUi] runs to its end and leaves a tree: no statement uses a
    name that is not bound, every name is bound once and after its parent,
    every object is named after the Python name that holds it, and every
    object but the window is a descendant of the window. *)
Theorem setupUi_tree :
  exists ui,
    setupUi window_ui = Some ui /\ wf_ui ui = true /\
    forall v o, (v, o) ∈ objects ui -> is_qobject (cls o) = true ->
      objectName o = v /\ (v = lit "MainWindow" \/ descendant ui "MainWindow" v).
Proof.
  exists final_ui. split; [apply setupUi_final|]. split; [apply final_wf|].
  intros v o Hin Hq.
  pose proof (proj1 (Forall_forall _ _) final_names _ Hin) as Hname.
  pose proof (proj1 (Forall_forall _ _) final_tree _ Hin Hq) as Htree.
  cbn [fst snd] in *. rewrite Hq in Hname. split; [done|].
  destruct Htree as [?|?%findChildren_spec]; [by left|by right|apply final_wf].
Qed.

(** The search for the descendants of an object ends by itself on a
    well-formed tree: with fuel for every object it has found them all,
    more fuel finds nothing more, and what it finds are the descendants. *)
Theorem findChildren_terminates ui p fuel :
  wf_ui ui = true -> length (objects ui) <= fuel ->
  findChildren_go fuel ui p = findChildren ui p
  /\ forall v, v ∈ (findChildren_go fuel ui p).*1 <-> descendant ui p v.
Proof.
  intros Hwf Hfuel. rewrite findChildren_go_enough by done.
  split; [done|]. intros v. by apply findChildren_spec.
Qed.


(** C39 - two actions of the user interface cannot be triggered: [file_open]
    and [file_save] get a text and a shortcut from [retranslateUi], but
    they are added to no menu and no slot is connected to them, while
    every other action is in a menu and has its slot. *)
Theorem dead_actions :
  exists ui,
    setupUi window_ui = Some ui /\
    filter (fun a => a ∉ reachable_actions "menu_bar" ui) (objects_of QAction ui)
      = [lit "file_open"; lit "file_save"] /\
    filter (fun a => a ∉ sender <$> connections ui) (objects_of QAction ui)
      = [lit "file_open"; lit "file_save"] /\
    shortcut_of "file_open" ui = Some (lit "Ctrl+O") /\
    shortcut_of "file_save" ui = Some (lit "Ctrl+S").
Proof.
  exists final_ui. split; [apply setupUi_final|]. split; [apply final_unreachable|].
  split_and!; vm_compute; reflexivity.
Qed.
