(* ===== verification/Connect.v ===== *)
(** * Connect: the user interface and the slots of the window

    [src/crippy.py] writes no [connect]: the slots of [MainWindow] run
    because [setupUi] ends with [connectSlotsByName], which pairs them with
    signals by their names.  Here the two sides meet: the methods of the
    window by name, the signals a gesture of the user makes Qt emit, and
    [react], which runs the slots that the connections of [Ui.setupUi] give
    those signals.  [react] agrees with [Gui.handle], the dispatch the
    theorems on the window are proved for, and the widgets [MainWindow_init]
    starts from are the ones [setupUi] leaves. *)

From Stdlib Require Import Ascii ZArith Lia.
From stdpp Require Import base tactics option list strings gmap.
From S2P Require Import Prelude PyStr Interfaces DataObject BlockCrypter UserSettings.
From S2P Require Import Gui GuiFacts Ui UiFacts.
Import Py.

Section Connect.
Context `{!Zlib, !Codecs, !PathLib, !Fernet, !Pbkdf2, !PlatformDirs, !Json str}.

(** The methods of [MainWindow] under [QtCore.Slot], by name.  What a slot
    takes from outside the window is given here: the entropy of the cipher,
    the working directory, the answer to a file dialog, and the argument of
    [file_dropped]; a slot that needs what is not given is absent. *)
Definition methods (r : option fernet_entropy) (cwd answer : str) (filename : option path)
    : list (str * option (gui unit)) :=
  [ (lit "on_file_new_triggered", Some on_file_new_triggered);
    (lit "on_file_exit_triggered", Some on_file_exit_triggered);
    (lit "on_help_about_triggered", Some on_help_about_triggered);
    (lit "on_cb_show_password_stateChanged", Some on_cb_show_password_stateChanged);
    (lit "on_te_input_textChanged", Some on_te_input_textChanged);
    (lit "on_encrypt_input_to_output_triggered", on_encrypt_input_to_output_triggered <$> r);
    (lit "on_encrypt_file_to_output_triggered",
     on_encrypt_file_to_output_triggered cwd answer <$> r);
    (lit "on_decrypt_input_to_output_triggered", Some on_decrypt_input_to_output_triggered);
    (lit "on_decrypt_input_to_file_triggered",
     Some (on_decrypt_input_to_file_triggered cwd answer));
    (lit "on_pb_encrypt_from_file_clicked", on_pb_encrypt_from_file_clicked cwd answer <$> r);
    (lit "on_pb_decrypt_to_file_clicked", Some (on_pb_decrypt_to_file_clicked cwd answer));
    (lit "on_pb_encrypt_clicked", on_pb_encrypt_clicked <$> r);
    (lit "on_pb_decrypt_clicked", Some on_pb_decrypt_clicked);
    (lit "on_te_input_file_dropped",
     f ← filename; on_te_input_file_dropped f <$> r) ].

(** The slots connected to a signal of an object, in the order they were
    connected. *)
Definition connected (table : list connection) (sender_name signal_name : str) : list str :=
  slot <$> filter (fun c => sender c = sender_name /\ signal c = signal_name) table.

(** The slots of a list run one after the other; an exception ends the
    list. *)
Fixpoint run_slots (ms : list (str * option (gui unit))) (names : list str) : gui unit :=
  let run_slot n :=
    match List.find (fun m => bool_decide (m.1 = n)) ms with
    | Some (_, Some m) => m
    | _ => mret tt
    end in
  match names with
  | [] => mret tt
  | [n] => run_slot n
  | n :: names' => run_slot n;; run_slots ms names'
  end.

(** [sender.signal.emit()] *)
Definition emit (table : list connection) (ms : list (str * option (gui unit)))
    (sender_name signal_name : str) : gui unit :=
  run_slots ms (connected table sender_name signal_name).

(** What a gesture of the user does: the widget changes what it holds and
    emits its signals, and the slots connected to them run. *)
Definition react (table : list connection) (e : event) : gui unit :=
  let trigger r cwd answer action := emit table (methods r cwd answer None) action "triggered" in
  let click r cwd answer button := emit table (methods r cwd answer None) button "clicked" in
  match e with
  | FileNew => trigger None [] [] (lit "file_new")
  | FileExit => trigger None [] [] (lit "file_exit")
  | HelpAbout => trigger None [] [] (lit "help_about")
  | ShowPasswordClicked =>
    self ← get_window;
    update (set_cb_show_password (negb (cb_show_password self)));;
    emit table (methods None [] [] None) "cb_show_password" "stateChanged"
  | PasswordEdited s =>
    update (set_le_password s);;
    emit table (methods None [] [] None) "le_password" "textChanged"
  | FilenameEdited s =>
    update (set_le_filename s);;
    emit table (methods None [] [] None) "le_filename" "textChanged"
  | InputEdited s =>
    update (set_te_input s);;
    emit table (methods None [] [] None) "te_input" "textChanged"
  | EncryptInputToOutput r => trigger (Some r) [] [] (lit "encrypt_input_to_output")
  | EncryptFileToOutput cwd answer r =>
    trigger (Some r) cwd answer (lit "encrypt_file_to_output")
  | DecryptInputToOutput => trigger None [] [] (lit "decrypt_input_to_output")
  | DecryptInputToFile cwd answer => trigger None cwd answer (lit "decrypt_input_to_file")
  | PbEncrypt r => click (Some r) [] [] (lit "pb_encrypt")
  | PbEncryptFromFile cwd answer r => click (Some r) cwd answer (lit "pb_encrypt_from_file")
  | PbDecrypt => click None [] [] (lit "pb_decrypt")
  | PbDecryptToFile cwd answer => click None cwd answer (lit "pb_decrypt_to_file")
  | Dropped m r =>
    match urls m with
    | url :: _ => emit table (methods (Some r) [] [] (Some (Path url))) "te_input" "file_dropped"
    | [] =>
      update (set_te_input (text_after_drop m));;
      emit table (methods None [] [] None) "te_input" "textChanged"
    end
  end.

(** The widgets as a user interface leaves them: a line edit echoes what
    is typed unless [setEchoMode] said otherwise, and the texts, the check
    box and the status bar are what the calls on them set. *)
Definition widgets_of (ui : Ui) (s : UserSettings) : MainWindow :=
  let text var setter :=
    match last_call var setter ui with
    | Some [Str t] => t
    | _ => []
    end in
  {| user_settings := s;
     le_password := text (lit "le_password") (lit "setText");
     echo_mode := match last_call "le_password" "setEchoMode" ui with
                  | Some [Enum mode] =>
                    if bool_decide (mode = lit "QLineEdit.EchoMode.Password") then Password
                    else Normal
                  | _ => Normal
                  end;
     cb_show_password := match last_call "cb_show_password" "setChecked" ui with
                         | Some [Bool b] => b
                         | _ => false
                         end;
     le_filename := text (lit "le_filename") (lit "setText");
     te_input := text (lit "te_input") (lit "setPlainText");
     te_output := text (lit "te_output") (lit "setPlainText");
     status_bar := text (lit "status_bar") (lit "showMessage");
     closed := false |}.

(** ** The names of the slots *)

(** The methods are the slots the window declares. *)
Lemma methods_slots r cwd answer filename :
  (methods r cwd answer filename).*1 = MainWindow_slots.
Proof. reflexivity. Qed.

(** Every slot is connected, and to nothing but the signal it was written
    for. *)
Lemma slots_connected : slot <$> connections final_ui = MainWindow_slots.
Proof. by rewrite final_connections. Qed.

(** The setters the slots call: a change of the check box and of the
    input runs the slot [Gui.setChecked] and [Gui.te_input_set] run, and a
    change of the output, of the two fields or of the status bar runs no
    slot. *)
Lemma setters_wired :
  connected (connections final_ui) "cb_show_password" "stateChanged"
    = [lit "on_cb_show_password_stateChanged"]
  /\ connected (connections final_ui) "te_input" "textChanged"
      = [lit "on_te_input_textChanged"]
  /\ Forall (fun c => sender c ∉ [lit "te_output"; lit "le_password"; lit "le_filename";
                                   lit "status_bar"])
            (connections final_ui).
Proof. split_and!; [by vm_compute..|by_compute]. Qed.

(** ** The gestures and the slots they run *)

(** A click on the check box changes its state, so the signal is emitted. *)
Lemma setChecked_toggle w :
  (self ← get_window; setChecked (negb (cb_show_password self))) w
  = (self ← get_window;
     update (set_cb_show_password (negb (cb_show_password self)));;
     on_cb_show_password_stateChanged) w.
Proof.
  unfold setChecked, mbind, gui_bind, get_window. cbv beta iota.
  rewrite bool_decide_false; [done|]. by destruct (cb_show_password (window w)).
Qed.

Lemma react_handle_run e w : react expected_connections e w = handle e w.
Proof. destruct e; try reflexivity. symmetry. apply setChecked_toggle. Qed.

(** C14 - the slots run as Qt connects them by name: for every gesture of
    the user, running the slots that the connections of [setupUi] give the
    signals of the gesture does to every world what [handle] does, the
    dispatch the theorems on the window are proved for. *)
Theorem slots_run_by_name :
  exists ui,
    setupUi window_ui = Some ui /\
    forall e w, react (connections ui) e w = handle e w.
Proof.
  exists final_ui. split; [apply setupUi_final|]. intros e w.
  rewrite final_connections. apply react_handle_run.
Qed.

(** ** The widgets at the start *)

Lemma init_widgets fs :
  window (MainWindow_init fs)
  = widgets_of final_ui (user_settings (window (MainWindow_init fs))).
Proof. unfold MainWindow_init. by destruct (UserSettings_init _ _ _ _ _). Qed.

(** The output is read-only and takes no drops: no gesture of the user
    changes it, which is why no event of the model does. *)
Lemma output_read_only :
  last_call "te_output" "setReadOnly" final_ui = Some [Bool true]
  /\ last_call "te_output" "setAcceptDrops" final_ui = Some [Bool false].
Proof. by vm_compute. Qed.

(** The window starts as [setupUi] leaves it: the widgets of
    [MainWindow_init] hold what the calls of [setupUi] set - the password
    field echoes dots, the check box is not checked, the fields, the input,
    the output and the status bar are empty. *)
Theorem init_as_setupUi fs :
  exists ui,
    setupUi window_ui = Some ui /\
    window (MainWindow_init fs) = widgets_of ui (user_settings (window (MainWindow_init fs))).
Proof. exists final_ui. split; [apply setupUi_final|apply init_widgets]. Qed.

End Connect.
