(* ===== verification/Examples.v ===== *)
(** * Examples: the theorems at concrete inputs

    Every theorem on the payload, the codec and the settings store that
    has hypotheses is applied here to a concrete input, with the interfaces instantiated by the
    implementations of [Instances]: run-length coding for [zlib], the
    hexadecimal toy cipher for [Fernet], the three charsets, and POSIX
    paths.  The hypotheses are discharged by evaluation. *)

From Stdlib Require Import Ascii ZArith Lia.
From stdpp Require Import base tactics option list strings sets gmap.
From S2P Require Import Prelude PyStr PyLines PyRe Base64 Interfaces Instances.
From S2P Require Import DataObject BlockCrypter Keys Render Parse Create RoundTrip.
From S2P Require Import Headers UserSettings.
Import Py.

(** A key of 44 characters and the instance built from it. *)
Definition demo_key : bytes := replicate 44 Byte.x41.

Definition demo : BlockCrypter := {| key := demo_key; default_width := 70 |}.

(** What the toy cipher reads from its random source. *)
Definition demo_entropy : fernet_entropy := Byte.x2a.

(** The bytes of [hello world]. *)
Definition hello_bytes : bytes := map byte_of_ascii (lit "hello world").

(** A text payload whose attributes are not in lower case. *)
Definition hello : DataObject :=
  {| content_type := Some (lit "Text/Plain"); charset := Some (lit "UTF-8");
     is_zipped := false; filename := None; binary_data := Some hello_bytes |}.

(** A compressed binary payload with a file name. *)
Definition notes : DataObject :=
  {| content_type := Some (lit "application/octet-stream"); charset := None;
     is_zipped := true; filename := Some (lit "notes.txt");
     binary_data := Some (zlib_compress (replicate 40 Byte.x61)) |}.

(** A payload whose data is no compressed stream although the flag is set. *)
Definition broken : DataObject :=
  {| content_type := Some (lit "application/octet-stream"); charset := None;
     is_zipped := true; filename := Some (lit "notes.txt");
     binary_data := Some [Byte.x01] |}.

(** A binary payload whose file name holds a semicolon. *)
Definition semicolon_file : DataObject :=
  {| content_type := Some (lit "application/octet-stream"); charset := None;
     is_zipped := false; filename := Some (lit "a;b.txt");
     binary_data := Some hello_bytes |}.

(** The text [caf] followed by the letter e with an acute accent (code
    point 233), and the text payload [from_str] makes of it: five bytes in
    UTF-8. *)
Definition cafe_text : str := lit "caf" ++ [ascii_of_nat 233].

Definition cafe : DataObject :=
  {| content_type := Some (lit "text/plain"); charset := Some (lit "utf-8");
     is_zipped := false; filename := None;
     binary_data := Some (map byte_of_ascii (lit "caf") ++ [Byte.xc3; Byte.xa9]) |}.

(** The same bytes, said to be Latin-1. *)
Definition cafe_latin : DataObject := set_charset (Some (lit "latin-1")) cafe.

(** The payload [notes] with another file name, and without its
    compression flag. *)
Definition notes_renamed : DataObject := set_filename (Some (lit "../.profile")) notes.

Definition notes_unflagged : DataObject :=
  {| content_type := content_type notes; charset := None; is_zipped := false;
     filename := filename notes; binary_data := binary_data notes |}.

(** A file system with one file and one path that cannot be written. *)
Definition demo_fs : FS :=
  {| fs_files := {[ lit "in/notes.txt" := replicate 40 Byte.x61 ]};
     fs_locked := {[ lit "locked.txt" ]}; fs_dirs := {[ lit "in" ]} |}.

(** A file system without files. *)
Definition empty_fs : FS := {| fs_files := ∅; fs_locked := ∅; fs_dirs := ∅ |}.

(** The settings object of the application and the file system its
    constructor leaves. *)
Definition demo_settings : FS * UserSettings :=
  UserSettings_init empty_fs "crippy" (Some (lit "nl.benhattem")) None false.

(** A block whose end marker comes first. *)
Definition swapped_block : str :=
  _end_block ++ [NL] ++ lit "Content-Type: text/plain" ++ [NL] ++ _start_block ++ [NL].

(** A block whose first header is misspelled. *)
Definition renamed_block : str :=
  _start_block ++ [NL] ++ lit "Content-Typ: text/plain" ++ [NL]
    ++ lit "Content-Disposition: inline" ++ [NL] ++ [NL] ++ lit "abcd" ++ [NL]
    ++ _end_block ++ [NL].

(** A block without a disposition. *)
Definition no_disposition_block : str :=
  _start_block ++ [NL] ++ lit "Content-Type: text/plain" ++ [NL]
    ++ [NL] ++ lit "abcd" ++ [NL] ++ _end_block ++ [NL].

Lemma decrypt_encrypt_witness :
  encrypt_to_block demo (Some hello) (Some 8%Z) demo_entropy
    ≫= (fun block => decrypt_from_block demo (lit "Dear Bob," ++ block ++ lit "Regards"))
  = Ok (normalise hello).
Proof.
  apply (decrypt_encrypt demo hello (Some 8%Z) demo_entropy "Dear Bob," "Regards");
    [done|by_compute|by_compute].
Defined.

Lemma text_round_trip_witness :
  (o ← from_str (Some (lit "hello world")) (Some (lit "Latin-1")) None;
   block ← encrypt_to_block demo (Some o) None demo_entropy;
   o' ← decrypt_from_block demo ([] ++ block ++ lit "bye");
   as_str o' None) = Ok (Some (lit "hello world")).
Proof.
  apply (text_round_trip demo "hello world" (Some (lit "Latin-1")) None None demo_entropy [] "bye");
    [done|by_compute|by_compute|done].
Defined.

Lemma file_round_trip_witness :
  exists o' fs3,
    (o ← from_file demo_fs "in/notes.txt" None;
     block ← encrypt_to_block demo (Some o) (Some 0%Z) demo_entropy;
     decrypt_from_block demo ([] ++ block ++ [])) = Ok o' /\
    filename o' = Some (path_name (Path "in/notes.txt")) /\
    to_file o' demo_fs None None
      = (fs3, Ok (Some (path_str (Path (path_name (Path "in/notes.txt"))),
                        len (replicate 40 Byte.x61)))) /\
    fs_read fs3 (path_str (Path (path_name (Path "in/notes.txt"))))
      = Ok (replicate 40 Byte.x61).
Proof.
  apply (file_round_trip demo demo_fs "in/notes.txt" None (Some 0%Z) demo_entropy [] []
           (replicate 40 Byte.x61) demo_fs);
    [done|by_compute|done|by_compute|by_compute].
Defined.

Lemma parse_block_witness :
  decrypt_from_block demo
    (lit "see below" ++ _block "text/plain" "inline" (encoding_line true) "ab-_" ++ [])
  = token ← encode_ascii (filter (fun c => c <> NL) (lit "ab-_"));
    data ← fernet_decrypt (key demo) token;
    _create_dataobject "text/plain" "inline" (Some (lit "gzip")) data.
Proof.
  apply (parse_block "see below" "text/plain" "inline" true "ab-_" []);
    [by_compute|by_compute|by_compute|done..].
Defined.

Lemma header_edit_undetected_witness :
  exists body,
    encrypt_to_block demo (Some cafe) None demo_entropy = Ok (block_of cafe body) /\
    decrypt_from_block demo (lit "Dear Bob," ++ block_of cafe_latin body ++ [])
      = Ok (normalise cafe_latin).
Proof.
  apply (header_edit_undetected demo cafe cafe_latin None demo_entropy "Dear Bob," []);
    [done|by_compute|by_compute|by_compute|done].
Defined.

(** The text [cafe_text] is sent as UTF-8.  With the charset in the header
    line changed to Latin-1 the block is decrypted without an error, and
    the text read from it has six characters, not four. *)
Example charset_edit_changes_text :
  let body := body_of demo None demo_entropy (default [] (binary_data cafe)) in
  from_str (Some cafe_text) None (Some false) = Ok cafe /\
  encrypt_to_block demo (Some cafe) None demo_entropy
    = Ok (_block "text/plain; charset=utf-8" "inline" [] body) /\
  (o ← decrypt_from_block demo (_block "text/plain; charset=latin-1" "inline" [] body);
   as_str o None) = Ok (Some (lit "caf" ++ [ascii_of_nat 195; ascii_of_nat 169])).
Proof. by vm_compute. Qed.

(** With the file name in the header line changed, the object read from
    the block of [notes] carries the new name, and [to_file] writes the
    data under it, outside the directory it is given. *)
Example filename_edit_redirects :
  let body := body_of demo None demo_entropy (default [] (binary_data notes)) in
  encrypt_to_block demo (Some notes) None demo_entropy = Ok (block_of notes body) /\
  match decrypt_from_block demo (block_of notes_renamed body) with
  | Ok o =>
    let '(fs, written) := to_file o empty_fs None (Some (lit "/safe")) in
    written = Ok (Some (lit "../.profile", 40%Z)) /\
    fs_read fs "../.profile" = Ok (replicate 40 Byte.x61)
  | Raise _ => False
  end.
Proof. by vm_compute. Qed.

(** With the line of [Content-Encoding] taken out, the compressed bytes of
    [notes] are written as they are: the file has two bytes, not forty. *)
Example encoding_edit_changes_file :
  let body := body_of demo None demo_entropy (default [] (binary_data notes)) in
  match decrypt_from_block demo (block_of notes_unflagged body) with
  | Ok o =>
    let '(fs, written) := to_file o empty_fs None None in
    written = Ok (Some (lit "notes.txt", 2%Z)) /\
    fs_read fs "notes.txt" = Ok (zlib_compress (replicate 40 Byte.x61))
  | Raise _ => False
  end.
Proof. by vm_compute. Qed.

(** A block whose lines end in a carriage return and a newline.  The
    header values are read with the carriage return at their end, which
    the patterns of [_create_dataobject] pass over; the body keeps its
    carriage returns, since only the newlines are taken out, and that is
    the token the cipher is given. *)
Definition crlf_block : str :=
  _start_block ++ [CR; NL]
  ++ lit "Content-Type: text/plain; charset=utf-8" ++ [CR; NL]
  ++ lit "Content-Disposition: inline" ++ [CR; NL] ++ [CR; NL]
  ++ lit "ab" ++ [CR; NL] ++ lit "cd" ++ [CR; NL] ++ _end_block ++ [CR; NL].

Example crlf_block_token `{!Fernet} (self : BlockCrypter) (data : bytes) :
  decrypt_from_block self crlf_block
    = (data ← fernet_decrypt (key self)
               (map byte_of_ascii (lit "ab" ++ [CR] ++ lit "cd" ++ [CR]));
       _create_dataobject (lit "text/plain; charset=utf-8" ++ [CR])
                          (lit "inline" ++ [CR]) None data)
  /\ _create_dataobject (lit "text/plain; charset=utf-8" ++ [CR])
                        (lit "inline" ++ [CR]) None data
      = Ok {| content_type := Some (lit "text/plain"); charset := Some (lit "utf-8");
              is_zipped := false; filename := None; binary_data := Some data |}.
Proof. split; by vm_compute. Qed.

Lemma encrypt_unsupported_type_witness :
  encrypt_to_block demo
    (Some {| content_type := Some (lit "image/png"); charset := None; is_zipped := false;
             filename := None; binary_data := Some [] |}) None demo_entropy
  = Raise (InvalidDataException "content_type 'image/png' is not supported").
Proof. by apply (encrypt_unsupported_type demo _ None demo_entropy [] "image/png"). Defined.

Lemma to_file_missing_filename_witness :
  to_file hello demo_fs None (Some (lit "out"))
    = (demo_fs, Raise (MissingFilenameException "to_file(): no filename received")).
Proof. by apply (to_file_missing_filename hello demo_fs hello_bytes). Defined.

Lemma to_file_writes_witness :
  exists fs',
    to_file notes demo_fs None (Some (lit "out"))
      = (fs', Ok (Some (path_str (Path "out/notes.txt"), len (replicate 40 Byte.x61)))) /\
    fs_read fs' (path_str (Path "out/notes.txt")) = Ok (replicate 40 Byte.x61) /\
    forall p, p <> path_str (Path "out/notes.txt") ->
              fs_files fs' !! p = fs_files demo_fs !! p.
Proof.
  apply (to_file_writes notes demo_fs None (Some (lit "out"))
           (zlib_compress (replicate 40 Byte.x61)));
    [done|done|by_compute|done].
Defined.

Lemma to_file_truncates_witness :
  exists fs',
    to_file broken demo_fs (Some (lit "in/notes.txt")) None = (fs', Raise ZlibError) /\
    fs_read fs' (path_str (Path "in/notes.txt")) = Ok [].
Proof.
  apply (to_file_truncates broken demo_fs (Some (lit "in/notes.txt")) None [Byte.x01]);
    [done|done|by_compute|done].
Defined.

Lemma decrypt_no_markers_witness :
  decrypt_from_block demo (lit "no block in this text")
    = Raise (InvalidBlockException "cannot find block markers").
Proof. apply (decrypt_no_markers demo "no block in this text"). by left. Defined.

Lemma decrypt_missing_content_type_witness :
  decrypt_from_block demo renamed_block
    = Raise (InvalidBlockException "expected 'Content-Type:' not found in block").
Proof.
  apply (decrypt_missing_content_type demo renamed_block); [done|done|by_compute].
Defined.

Lemma decrypt_markers_swapped_witness :
  decrypt_from_block demo swapped_block
    = Raise (InvalidBlockException "expected 'Content-Type:' not found in block").
Proof. by apply (decrypt_markers_swapped demo swapped_block). Defined.

Lemma decrypt_missing_disposition_witness :
  decrypt_from_block demo no_disposition_block
    = Raise (InvalidBlockException "expected 'Content-Disposition:' not found in block").
Proof.
  apply (decrypt_missing_disposition demo no_disposition_block "text/plain");
    [done|done|done|by_compute].
Defined.

Lemma derive_key_accepted_witness :
  let k := B64.urlsafe_b64encode
             (pbkdf2_hmac_sha256 32 SALT 1500000 (map byte_of_ascii (lit "secret"))) in
  len k = 44%Z /\
  forallb is_b64url (map ascii_of_byte k) = true /\
  BlockCrypter_init k (Some 40%Z) = Ok {| key := k; default_width := 40 |}.
Proof. by apply (derive_key_accepted "secret" SALT None (Some 40%Z)). Defined.

Lemma filename_cut_at_delimiter_witness :
  encrypt_to_block demo (Some semicolon_file) None demo_entropy
    ≫= (fun block => decrypt_from_block demo ([] ++ block ++ []))
  = Ok {| content_type := Some (lit "application/octet-stream"); charset := None;
          is_zipped := false; filename := Some (strip (lit "a"));
          binary_data := Some hello_bytes |}.
Proof.
  apply (filename_cut_at_delimiter demo semicolon_file None demo_entropy [] [] hello_bytes
           "application/octet-stream" "a" ";" "b.txt"); by_compute.
Defined.

(** A file name with a semicolon does not survive the round trip:
    the block of a binary payload named [a;b.txt] is decrypted to a
    payload named [a], since the pattern of the file name stops at the
    semicolon. *)
Example filename_semicolon_lost :
  filename <$> (encrypt_to_block demo (Some semicolon_file) None demo_entropy
                  ≫= decrypt_from_block demo)
    = Ok (Some (lit "a")).
Proof. by vm_compute. Qed.

(** The block of the text [hello world] in UTF-8, not compressed, has
    the two header lines of a text payload, with the charset in lower
    case, no [Content-Encoding] line, an empty line and the body in lines
    of the width of the instance. *)
Lemma encrypt_renders_witness :
  encrypt_to_block demo (Some hello) None demo_entropy
    = Ok (_start_block ++ [NL]
          ++ lit "Content-Type: text/plain; charset=utf-8" ++ [NL]
          ++ lit "Content-Disposition: inline" ++ [NL]
          ++ [NL] ++ wrap (token_text demo_key demo_entropy hello_bytes) 70 ++ [NL]
          ++ _end_block ++ [NL]).
Proof.
  apply (encrypt_renders demo hello None demo_entropy hello_bytes (lit "Text/Plain"));
    [done|done|by left].
Defined.

(** ** The settings store *)
Section settings_examples.
#[local] Existing Instance windows_codecs.

Lemma settings_set_settings_witness :
  settings (V := str) demo_settings.2
    (set_settings demo_settings.2 demo_settings.1 (IsDict {[ lit "a" := lit "b" ]})).1
  = Ok {[ lit "a" := lit "b" ]}.
Proof.
  apply (settings_set_settings demo_settings.2 demo_settings.1). done.
Defined.

Lemma getitem_setitem_witness :
  let fs' := (setitem demo_settings.2 demo_settings.1 "LAST_LOAD_PATH" (lit "/tmp")).1 in
  getitem demo_settings.2 fs' "LAST_LOAD_PATH" = Ok (lit "/tmp") /\
  forall k', k' <> lit "LAST_LOAD_PATH" ->
             getitem demo_settings.2 fs' k' = getitem demo_settings.2 demo_settings.1 k'.
Proof.
  apply (getitem_setitem demo_settings.2 demo_settings.1 _ "LAST_LOAD_PATH" (lit "/tmp")).
  done.
Defined.

End settings_examples.

Lemma set_settings_truncates_witness :
  exists fs',
    set_settings demo_settings.2 demo_settings.1 (IsDict {[ lit "a" := lit "b" ]})
      = (fs', Raise LookupError) /\
    fs_read fs' (path_str (user_settings_file demo_settings.2)) = Ok [].
Proof.
  apply (set_settings_truncates demo_settings.2 demo_settings.1 {[ lit "a" := lit "b" ]});
    [by_compute|done].
Defined.

(** On a system whose codecs do not know the name [ansi], the first
    assignment of a setting breaks the store. *)
Lemma broken_without_encoding_witness :
  exists fs',
    setitem demo_settings.2 demo_settings.1 "LAST_LOAD_PATH" (lit "/tmp")
      = (fs', Raise LookupError) /\
    fs_read fs' (path_str (user_settings_file demo_settings.2)) = Ok [] /\
    (forall name default,
       get demo_settings.2 demo_settings.1 name default = Ok default /\
       get demo_settings.2 fs' name default = Raise LookupError) /\
    (forall k' v', setitem demo_settings.2 fs' k' v' = (fs', Raise LookupError)).
Proof.
  apply (broken_without_encoding demo_settings.2 demo_settings.1 "LAST_LOAD_PATH" (lit "/tmp"));
    [done|done|by vm_compute|by_compute].
Defined.
