(* ===== verification/GuiExamples.v ===== *)
(** * GuiExamples: the theorems about the window at concrete worlds

    The worlds are built from the window the constructor makes by the
    events of a user; the interfaces are instantiated as in [Examples],
    and, where the settings file has to be written, by the codecs of a
    Windows system, which know the encoding of the file.  The theorems on
    the settings store as a dictionary and on the user interface are
    applied to a session on the settings of the window and to the window
    with its actions. *)

From Stdlib Require Import Ascii ZArith Lia.
From stdpp Require Import base tactics option list strings sets gmap.
From S2P Require Import Prelude PyStr PyFormat Interfaces Instances.
From S2P Require Import DataObject BlockCrypter Keys Create RoundTrip UserSettings.
From S2P Require Import Store Gui GuiFacts GuiEquiv Session Ui UiFacts Connect Examples.
Import Py.

(** The key of the password [secret] and its [BlockCrypter]. *)
Definition secret_key : bytes :=
  match derive_key_from_password "secret" SALT None with
  | Ok k => k
  | Raise _ => []
  end.

Definition secret_crypter : BlockCrypter := {| key := secret_key; default_width := 70 |}.

(** The object [from_str] makes of [hello world]. *)
Definition hello_object : DataObject :=
  {| content_type := Some (lit "text/plain"); charset := Some (lit "utf-8");
     is_zipped := false; filename := None; binary_data := Some hello_bytes |}.

(** What the user does before a text is encrypted: the password is shown,
    typed, and the text is typed. *)
Definition typing : list event :=
  [ShowPasswordClicked; PasswordEdited "secret"; InputEdited "hello world"].

(** ** On a system that does not know the encoding of the settings *)

Definition typed : World := run typing (MainWindow_init demo_fs).

Lemma gui_round_trip_witness :
  let w1 := after (EncryptInputToOutput demo_entropy) typed in
  let w2 := after (InputEdited (lit "Dear Bob," ++ [NL] ++ te_output (window w1)
                                ++ lit "Regards")) w1 in
  let w3 := after DecryptInputToOutput w2 in
  te_output (window w3) = lit "hello world" /\
  status_bar (window w3) = plural_msg "Decrypted " "..." 11 /\
  disk w3 = disk typed /\ shown w3 = shown typed.
Proof.
  apply (gui_round_trip typed demo_entropy (lit "Dear Bob," ++ [NL]) (lit "Regards")
           hello_object); [by vm_compute..|by_compute].
Defined.

Lemma echo_follows_checkbox_witness :
  echo_mode (window typed) = if cb_show_password (window typed) then Normal else Password.
Proof.
  apply (echo_follows_checkbox demo_fs typed). apply reachable_run. constructor.
Defined.

Lemma failed_decrypt_witness :
  let d := if bool_decide (te_input (window typed) = []) then no_input
           else decryption_error in
  after DecryptInputToOutput typed
    = with_window (showMessage (status_bar (window typed) ++ lit "..."))
        (with_shown d typed) /\
  after (DecryptInputToFile "/home" "out.txt") typed = with_shown d typed.
Proof.
  apply (failed_decrypt typed secret_crypter "/home" "out.txt"); by vm_compute.
Defined.

(** A file of two bytes that are no text in UTF-8, its block under the
    password [secret], and the world in which the block was pasted into
    the input. *)
Definition raw_file : DataObject :=
  {| content_type := Some (lit "application/octet-stream"); charset := None;
     is_zipped := false; filename := Some (lit "raw.bin");
     binary_data := Some [Byte.xff; Byte.xfe] |}.

Definition raw_block : str :=
  match encrypt_to_block secret_crypter (Some raw_file) None demo_entropy with
  | Ok block => block
  | Raise _ => []
  end.

Definition pasted : World :=
  run [PasswordEdited "secret"; InputEdited raw_block] (MainWindow_init demo_fs).

Lemma undecodable_decrypt_witness :
  handle DecryptInputToOutput pasted
    = (with_window (fun m => showMessage (plural_msg "Decrypted " [] (len_data raw_file))
                               (keep_filename raw_file m)) pasted,
       Raise UnicodeDecodeError)
  /\ shown (after DecryptInputToOutput pasted) = shown pasted
  /\ te_output (window (after DecryptInputToOutput pasted)) = te_output (window pasted)
  /\ disk (after DecryptInputToOutput pasted) = disk pasted.
Proof.
  apply (undecodable_decrypt pasted secret_crypter raw_file UnicodeDecodeError);
    by vm_compute.
Defined.

(** The status bar after the failed [Decrypt]: a success message. *)
Example undecodable_decrypt_status :
  status_bar (window (after DecryptInputToOutput pasted)) = lit "Decrypted 2 bytes"
  /\ le_filename (window (after DecryptInputToOutput pasted)) = lit "raw.bin".
Proof. by vm_compute. Qed.

Lemma new_resets_witness :
  after FileNew typed = with_window (fun _ => window (MainWindow_init demo_fs)) typed.
Proof.
  apply (new_resets demo_fs typed); [|done]. apply reachable_run. constructor.
Defined.

Lemma file_dialog_without_encoding_witness :
  exists dir,
    let sf := path_str (user_settings_file (user_settings (window typed))) in
    let w1 := with_disk (fs_put (disk typed) sf [])
                (with_shown (OpenFileName "Open File" dir) typed) in
    handle (EncryptFileToOutput "/home" "in/notes.txt" demo_entropy) typed
      = (w1, Raise LookupError) /\
    handle (EncryptFileToOutput "/home" "in/notes.txt" demo_entropy) w1
      = (w1, Raise LookupError).
Proof.
  apply (file_dialog_without_encoding typed "/home" "in/notes.txt" demo_entropy
           "/home" "in/notes.txt" demo_entropy); [done|done|by vm_compute|by_compute|done].
Defined.

Lemma msg_with_correct_plural_fills_witness :
  msg_with_correct_plural (lit "Counted " ++ "{}" ++ lit " rabbit" ++ "{}" ++ lit "!") 1234567
    = Ok (lit "Counted " ++ replace (Fmt.format_thousands 1234567) "," "." ++ lit " rabbit"
          ++ lit "s" ++ lit "!").
Proof.
  apply (msg_with_correct_plural_fills "Counted " " rabbit" "!" 1234567); done.
Defined.



(** A drag of two files over the input, and a class of Qt that leaves the
    event as it finds it. *)
Definition two_files : drag :=
  {| drag_mime := {| urls := [lit "in/notes.txt"; lit "other.txt"]; text_after_drop := [] |};
     accepted := false |}.


(** The examples of the docstring of [msg_with_correct_plural], and a
    number with separators. *)
Example counted_rabbits :
  msg_with_correct_plural "Counted {} rabbit{}" 1 = Ok (lit "Counted 1 rabbit") /\
  msg_with_correct_plural "Counted {} rabbit{}" 2 = Ok (lit "Counted 2 rabbits") /\
  msg_with_correct_plural "Counted {} rabbit{}" 1234567
    = Ok (lit "Counted 1.234.567 rabbits").
Proof. by vm_compute. Qed.

(** ** On a Windows system *)
Section windows.
#[local] Existing Instance windows_codecs.

(** The window with the password typed, over the files of [demo_fs]. *)
Definition ready : World := run [PasswordEdited "secret"] (MainWindow_init demo_fs).

(** The settings file can be encoded whatever it holds. *)
Lemma settings_encodable s : is_ok (codec_encode SETTINGS_ENCODING s) = true.
Proof. done. Qed.

Lemma gui_file_round_trip_witness :
  let w1 := after (EncryptFileToOutput "/home" "in/notes.txt" demo_entropy) ready in
  let w2 := after (InputEdited ([NL] ++ te_output (window w1) ++ lit "Regards")) w1 in
  let w3 := after (DecryptInputToFile "/home" "out/copy.txt") w2 in
  fs_read (disk w3) (path_str (Path "out/copy.txt"))
    = fs_read (disk ready) (path_str (Path "in/notes.txt")) /\
  le_filename (window w3) = path_name (Path "out/copy.txt").
Proof.
  apply (gui_file_round_trip ready "/home" "in/notes.txt" demo_entropy [NL] (lit "Regards")
           "/home" "out/copy.txt" notes);
    [apply settings_encodable|split; [by vm_compute|by_compute]|by vm_compute|done
    |by vm_compute|by vm_compute|by vm_compute|by_compute|done|by_compute|by_compute].
Defined.

(** The block of [broken], which says [gzip] for data that is no
    compressed stream, pasted into the input. *)
Definition mislabelled_block : str :=
  match encrypt_to_block secret_crypter (Some broken) None demo_entropy with
  | Ok block => block
  | Raise _ => []
  end.

Definition mislabelled : World :=
  run [PasswordEdited "secret"; InputEdited mislabelled_block] (MainWindow_init demo_fs).

(** [Decrypt to File] on it, with the file [in/notes.txt] chosen: the
    forty bytes of the file are gone. *)
Lemma decrypt_to_file_empties_witness :
  exists w',
    handle (DecryptInputToFile "/home" "in/notes.txt") mislabelled = (w', Raise ZlibError) /\
    fs_read (disk w') (path_str (Path "in/notes.txt")) = Ok [] /\
    te_output (window w') = [] /\
    status_bar (window w') = plural_msg "Decrypted " [] (len_data broken).
Proof.
  eapply (decrypt_to_file_empties mislabelled secret_crypter settings_encodable
            _ _ _ "/home" "in/notes.txt" broken [Byte.x01] ZlibError).
  Unshelve. all: try (by vm_compute). all: try by_compute.
Defined.

Lemma dropped_file_encrypted_witness :
  let us := user_settings (window ready) in
  let m := {| urls := [lit "in/notes.txt"; lit "other.txt"]; text_after_drop := [] |} in
  let w1 := after (Dropped m demo_entropy) ready in
  exists self,
    derive_key_from_password (le_password (window ready)) SALT None = Ok (key self) /\
    encrypt_to_block self (Some notes) None demo_entropy = Ok (te_output (window w1)) /\
    te_input (window w1) = [] /\
    getitem us (disk w1) LAST_LOAD_PATH = Ok (path_str (path_parent (Path "in/notes.txt"))) /\
    same_but [path_str (user_settings_file us)] (disk ready) (disk w1).
Proof.
  apply (dropped_file_encrypted ready _ (lit "in/notes.txt") [lit "other.txt"]
           demo_entropy notes);
    [apply settings_encodable|split; [by vm_compute|by_compute]|by vm_compute|done
    |by vm_compute|by vm_compute|by_compute].
Defined.


Lemma dialog_remembers_directory_witness :
  let w1 := after (EncryptFileToOutput "/home" "in/notes.txt" demo_entropy) ready in
  let w2 := after (EncryptFileToOutput "/elsewhere" [] demo_entropy) w1 in
  getitem (user_settings (window ready)) (disk w1) LAST_LOAD_PATH
    = Ok (path_str (path_parent (Path "in/notes.txt")))
  /\ le_filename (window w1) = path_name (Path "in/notes.txt")
  /\ shown w2
      = OpenFileName "Open File"
          (dialog_start (path_str (path_parent (Path "in/notes.txt")))
                        (path_name (Path "in/notes.txt")))
        :: shown w1.
Proof.
  apply (dialog_remembers_directory ready "/home" "in/notes.txt" demo_entropy
           "/elsewhere" [] demo_entropy);
    [apply settings_encodable|split; [by vm_compute|by_compute]|done].
Defined.

(** The two dialogs of that session: the first opens in the working
    directory, the second at the file that was chosen in the first. *)
Example dialogs_of_two_encryptions :
  let w1 := after (EncryptFileToOutput "/home" "in/notes.txt" demo_entropy) ready in
  shown (after (EncryptFileToOutput "/elsewhere" [] demo_entropy) w1)
  = [OpenFileName "Open File" "in/notes.txt"; OpenFileName "Open File" "/home"].
Proof. by vm_compute. Qed.

(** A session on the settings of the window: a key that is missing, an
    assignment, the key again, another key, a value that is no dictionary,
    and all the settings. *)
Definition settings_session : list (op (V := str)) :=
  [ Get LAST_LOAD_PATH (lit "/home"); SetItem LAST_LOAD_PATH (lit "/data");
    GetItem LAST_LOAD_PATH; GetItem LAST_SAVE_PATH; SetSettings (NotDict "list"); Settings ].

Lemma store_refines_witness :
  let us := user_settings (window ready) in
  (impl_run us settings_session (disk ready)).2 = (spec_run settings_session ∅).2
  /\ holds us (impl_run us settings_session (disk ready)).1 (spec_run settings_session ∅).1.
Proof.
  apply (store_refines (user_settings (window ready)) settings_session (disk ready) ∅);
    [intros s; apply settings_encodable|split; [by vm_compute|by_compute]].
Defined.

End windows.

(** ** The user interface *)

(** The window and its actions, before anything is connected. *)
Definition actions_ui : Ui := default window_ui (exec (setupUi_window ++ setupUi_actions) window_ui).

(** The window with its name, as [setupUi] finds it when it connects. *)
Definition named_window : QObject :=
  default (window_object []) (lookup_object "MainWindow" actions_ui).

Definition actions_connected : Ui :=
  default actions_ui (connectSlotsByName "MainWindow" actions_ui).

Lemma findChildren_terminates_witness :
  findChildren_go 100 final_ui "MainWindow" = findChildren final_ui "MainWindow"
  /\ forall v, v ∈ (findChildren_go 100 final_ui "MainWindow").*1
                <-> descendant final_ui "MainWindow" v.
Proof.
  apply (findChildren_terminates final_ui "MainWindow" 100); [apply final_wf|by_compute].
Defined.


(** With the actions alone, the slots of the seven actions of the menus are
    connected, and the slots of the widgets are not. *)
Example actions_connections :
  slot <$> connections actions_connected
  = [lit "on_file_new_triggered"; lit "on_file_exit_triggered";
     lit "on_help_about_triggered"; lit "on_encrypt_input_to_output_triggered";
     lit "on_encrypt_file_to_output_triggered"; lit "on_decrypt_input_to_output_triggered";
     lit "on_decrypt_input_to_file_triggered"].
Proof. vm_compute. reflexivity. Qed.

(** [Decrypt] pressed on a text that was just encrypted fails, and the
    status bar keeps the message of the encryption with three more dots. *)
Example stale_status :
  let w1 := after (EncryptInputToOutput demo_entropy) typed in
  status_bar (window w1) = lit "Encrypted 11 bytes..." /\
  status_bar (window (after DecryptInputToOutput w1)) = lit "Encrypted 11 bytes......".
Proof. by vm_compute. Qed.
