(* ===== verification/Tests.v ===== *)
(** * Tests: the unit tests of [src/test_crippy_app.py], replayed

    The tests of the repository call the methods of [DataObject] and
    [BlockCrypter] on fixed inputs and compare the results with fixed
    values.  Here the same inputs are given to the model and the same
    values come out.  A test that patches [Fernet] with a mock fixes what
    one call returns; its replay assumes that of the cipher, for the one
    call, and holds for every cipher that does so.  The tests that patch
    [open] are replayed on the file system [FS]; the tests written with
    Windows paths and with the charset [utf-16] are replayed with POSIX
    paths and with [latin-1], which the instances of the interfaces have,
    and the test of automatic compression with a text the stand-in for
    zlib compresses.  The two tests that pass no argument at all
    ([TypeError]) and the two tests whose mock of [open] returns no bytes
    have no counterpart. *)

From Stdlib Require Import Ascii ZArith Lia.
From stdpp Require Import base tactics option list strings sets gmap.
From S2P Require Import Prelude PyStr Base64 Interfaces Instances.
From S2P Require Import DataObject BlockCrypter Render.
Import Py.

(** A [bytes] literal. *)
Definition b (s : string) : bytes := map byte_of_ascii (lit s).

(** [DataObject(content_type, charset, is_zipped, filename, binary_data)] *)
Definition obj (ct cs : option string) (z : bool) (f : option string) (d : option bytes)
    : DataObject :=
  {| content_type := lit <$> ct; charset := lit <$> cs; is_zipped := z;
     filename := lit <$> f; binary_data := d |}.

(** [len(s.split("\n"))] *)
Definition split_count (s : str) : nat := S (length (filter (fun c => c = NL) s)).

(** [max(len(line) for line in s.splitlines())]: the lines of the model
    keep their ends, which are not counted. *)
Definition max_line_length (s : str) : nat :=
  max_list ((fun l => length (filter (fun c => c <> NL) l)) <$> splitlines s).

(** A file system without files and one with the file a test reads. *)
Definition no_files : FS := {| fs_files := ∅; fs_locked := ∅; fs_dirs := ∅ |}.

Definition one_file (name : string) (data : bytes) : FS :=
  {| fs_files := {[ lit name := data ]}; fs_locked := ∅; fs_dirs := ∅ |}.

(** [text = NL.join(name * n)]: the characters of the name of the test,
    [n] times, one on a line.  The test suite takes a thousand
    repetitions; the replay takes a hundred. *)
Definition lines_of (name : string) (n : nat) : str :=
  join [NL] ((fun c => [c]) <$> concat (replicate n (lit name))).

(** ** [TestDataObject] *)

Example test001_no_init_parameters_required :
  DataObject_new = obj None None false None None.
Proof. done. Qed.

Example test003_from_str_none_as_input_no_zip :
  from_str None None (Some false)
    = Ok (obj (Some "text/plain") (Some "utf-8") false None None).
Proof. by vm_compute. Qed.

Example test004_from_str_none_as_input_forced_zip :
  from_str None None (Some true)
    = Ok (obj (Some "text/plain") (Some "utf-8") false None None).
Proof. by vm_compute. Qed.

Example test005_from_str_empty_str_as_input :
  from_str (Some []) None (Some false)
    = Ok (obj (Some "text/plain") (Some "utf-8") false None (Some [])).
Proof. by vm_compute. Qed.

Example test006_from_str_str_as_input :
  from_str (Some (lit "test006_from_str_str_as_input")) None (Some false)
    = Ok (obj (Some "text/plain") (Some "utf-8") false None
              (Some (b "test006_from_str_str_as_input"))).
Proof. by vm_compute. Qed.

Example test007_from_str_latin1_encoding :
  from_str (Some (lit "test007")) (Some (lit "latin-1")) (Some false)
    = Ok (obj (Some "text/plain") (Some "latin-1") false None (Some (b "test007"))).
Proof. by vm_compute. Qed.

Example test008_from_str_auto_zip_mode_no_zip :
  from_str (Some (lit "t")) None None
    = Ok (obj (Some "text/plain") (Some "utf-8") false None (Some (b "t"))).
Proof. by vm_compute. Qed.

Example test009_from_str_auto_zip_mode_zip :
  let text := concat (replicate 100 (lit "aaaaaaaaaa")) in
  from_str (Some text) None None
    = Ok (obj (Some "text/plain") (Some "utf-8") true None
              (Some (zlib_compress (map byte_of_ascii text)))).
Proof. by vm_compute. Qed.

Example test010_from_str_no_zip :
  let text := lines_of "test010_from_str_no_zip" 100 in
  from_str (Some text) None (Some false)
    = Ok (obj (Some "text/plain") (Some "utf-8") false None (Some (map byte_of_ascii text)))
  /\ length (map byte_of_ascii text) = length text.
Proof. by vm_compute. Qed.

Example test011_from_str_latin1_encoding_forced_zip :
  from_str (Some (lit "test011")) (Some (lit "latin-1")) (Some true)
    = Ok (obj (Some "text/plain") (Some "latin-1") true None
              (Some (zlib_compress (b "test011"))))
  /\ length (zlib_compress (b "test011")) <> length (lit "test011").
Proof. by vm_compute. Qed.

Example test012_as_str_no_binary_data : as_str DataObject_new None = Ok None.
Proof. by vm_compute. Qed.

Example test013_as_str_default_charset :
  as_str (obj (Some "text/plain") None false None (Some (b "test013"))) None
    = Ok (Some (lit "test013")).
Proof. by vm_compute. Qed.

Example test014_as_str_non_default_charset :
  as_str (obj (Some "text/plain") (Some "latin-1") false None (Some (b "test014"))) None
    = Ok (Some (lit "test014")).
Proof. by vm_compute. Qed.

Example test015_as_str_non_default_charset_as_argument :
  as_str (obj (Some "text/plain") None false None (Some (b "test015")))
         (Some (lit "latin-1"))
    = Ok (Some (lit "test015")).
Proof. by vm_compute. Qed.

Example test016_as_str_default_charset_zipped :
  as_str (obj (Some "text/plain") None true None (Some (zlib_compress (b "test016")))) None
    = Ok (Some (lit "test016")).
Proof. by vm_compute. Qed.

Example test017_as_str_non_default_charset_zipped :
  as_str (obj (Some "text/plain") (Some "latin-1") true None
              (Some (zlib_compress (b "test017")))) None
    = Ok (Some (lit "test017")).
Proof. by vm_compute. Qed.

Example test018_as_str_non_default_charset_as_argument_zipped :
  as_str (obj (Some "text/plain") None true None (Some (zlib_compress (b "test018"))))
         (Some (lit "latin-1"))
    = Ok (Some (lit "test018")).
Proof. by vm_compute. Qed.

Example test022_from_file_empty_file_as_input :
  from_file (one_file "test022" []) "test022" (Some false)
    = Ok (obj (Some "application/octet-stream") None false (Some "test022") (Some [])).
Proof. by vm_compute. Qed.

Example test023_from_file_no_zip :
  from_file (one_file "test023" (b "TEST023")) "test023" (Some false)
    = Ok (obj (Some "application/octet-stream") None false (Some "test023")
              (Some (b "TEST023"))).
Proof. by vm_compute. Qed.

Example test024_from_file_with_content_forced_zip :
  from_file (one_file "test024" (b "TEST024")) "test024" (Some true)
    = Ok (obj (Some "application/octet-stream") None true (Some "test024")
              (Some (zlib_compress (b "TEST024")))).
Proof. by vm_compute. Qed.

Example test025_from_file_with_content_auto_zip_mode_no_zip :
  from_file (one_file "test025" (b "t")) "test025" None
    = Ok (obj (Some "application/octet-stream") None false (Some "test025") (Some (b "t"))).
Proof. by vm_compute. Qed.

Example test026_from_file_with_content_auto_zip_mode_zip :
  let data := concat (replicate 100 (b "aaaaaaaaaa")) in
  from_file (one_file "test026" data) "test026" None
    = Ok (obj (Some "application/octet-stream") None true (Some "test026")
              (Some (zlib_compress data)))
  /\ length (zlib_compress data) <> length data.
Proof. by vm_compute. Qed.

Example test027_to_file_no_data :
  to_file DataObject_new no_files None None = (no_files, Ok None).
Proof. by vm_compute. Qed.

Example test028_to_file_filename_from_object :
  (to_file (obj None None false (Some "test028") (Some [])) no_files None None).2
    = Ok (Some (lit "test028", 0%Z)).
Proof. by vm_compute. Qed.

Example test029_to_file_filename_from_argument :
  (to_file (obj None None false (Some "not_used.txt") (Some [])) no_files
           (Some (lit "test029")) None).2
    = Ok (Some (lit "test029", 0%Z)).
Proof. by vm_compute. Qed.

Example test030_to_file_filename_missing_filename :
  exists msg,
    to_file (obj None None false None (Some [])) no_files None None
      = (no_files, Raise (MissingFilenameException msg)).
Proof. by eexists. Qed.

Example test031_to_file_filename_add_directory_from_argument :
  (to_file (obj None None false (Some "test031") (Some [])) no_files None
           (Some (lit "/temp"))).2
    = Ok (Some (lit "/temp/test031", 0%Z)).
Proof. by vm_compute. Qed.

Example test032_to_file_filename_directory_not_used :
  (to_file (obj None None false (Some "not_used.txt") (Some [])) no_files
           (Some (lit "../test032")) (Some (lit "/temp"))).2
    = Ok (Some (lit "../test032", 0%Z)).
Proof. by vm_compute. Qed.

Example test033_to_file_empty_content :
  let '(fs, r) := to_file (obj None None false (Some "test033") (Some [])) no_files
                          None None in
  r = Ok (Some (lit "test033", 0%Z)) /\ fs_read fs "test033" = Ok [].
Proof. by vm_compute. Qed.

Example test034_to_file_non_zipped_content :
  let '(fs, r) := to_file (obj None None false (Some "test034") (Some (b "TEST034")))
                          no_files None None in
  r = Ok (Some (lit "test034", 7%Z)) /\ fs_read fs "test034" = Ok (b "TEST034").
Proof. by vm_compute. Qed.

Example test035_to_file_zipped_content :
  let '(fs, r) := to_file (obj None None true (Some "test035")
                               (Some (zlib_compress (b "TEST035"))))
                          no_files None None in
  r = Ok (Some (lit "test035", 7%Z)) /\ fs_read fs "test035" = Ok (b "TEST035").
Proof. by vm_compute. Qed.

(** ** [TestBlockCrypter]

    The cipher is any [Fernet]; what the mocks of a test return is a
    hypothesis of its replay. *)
Section TestBlockCrypter.
Context `{!Fernet} `{!Pbkdf2}.

Definition PASSWORD : str := "secret".

Definition TEST_SALT : bytes :=
  map Charsets.byte_of_N
    [223; 14; 202; 8; 107; 168; 42; 97; 254; 118; 202; 170; 107; 153; 149; 237]%N.

Definition DERIVED_KEY_BIN : bytes :=
  map Charsets.byte_of_N
    [159; 78; 52; 115; 14; 166; 150; 206; 29; 64; 41; 129; 145; 113; 200; 245;
     13; 163; 10; 120; 57; 138; 49; 177; 170; 252; 228; 115; 33; 162; 226; 228]%N.

Definition DERIVED_KEY : bytes := B64.urlsafe_b64encode DERIVED_KEY_BIN.

(** [BlockCrypter(self.DERIVED_KEY)] *)
Definition bc : BlockCrypter := {| key := DERIVED_KEY; default_width := 70 |}.

Definition data_object_str : DataObject :=
  obj (Some "text/plain") (Some "utf-8") false None (Some (b "dataobject: str")).

Definition data_object_str_encrypted : bytes :=
  b "gAAAAABjLCAYakmn8Y--wK5bIBM8iBul0_xAFceVp-gtiDx8DSuqtRw_lCHXBD4c5Q-eKRcxB1peXF5AbuIfsLTe2sqTbGsuHg==".

Definition data_object_str_block : str :=
  lit "===== START BLOCK =====" ++ [NL]
  ++ lit "Content-Type: text/plain; charset=utf-8" ++ [NL]
  ++ lit "Content-Disposition: inline" ++ [NL]
  ++ [NL]
  ++ lit "gAAAAABjLCAYakmn8Y--wK5bIBM8iBul0_xAFceVp-gtiDx8DSuqtRw_lCHXBD4c5Q-eKR" ++ [NL]
  ++ lit "cxB1peXF5AbuIfsLTe2sqTbGsuHg==" ++ [NL]
  ++ lit "===== END BLOCK =====" ++ [NL].

Definition data_object_file : DataObject :=
  obj (Some "application/octet-stream") None true (Some "filename.txt")
      (Some (zlib_compress (b "dataobject: file"))).

Definition data_object_file_encrypted : bytes :=
  b "gAAAAABjLCBfkrBO5yJLi1dybS3v_egUxC63Qkh7TkuJL64uasQ_H0APGTq5oJT94JVPx3_mlLvVbQISEXyPAKKbRtDesX9AxKMDxrSYMtKKOcLsAYPigCQ=".

Definition data_object_file_block : str :=
  lit "===== START BLOCK =====" ++ [NL]
  ++ lit "Content-Type: application/octet-stream" ++ [NL]
  ++ lit "Content-Disposition: attachment; filename=" ++ [DQ] ++ lit "filename.txt" ++ [DQ]
  ++ [NL]
  ++ lit "Content-Encoding: gzip" ++ [NL]
  ++ [NL]
  ++ lit "gAAAAABjLCBfkrBO5yJLi1dybS3v_egUxC63Qkh7TkuJL64uasQ_H0APGTq5oJT94JVPx3" ++ [NL]
  ++ lit "_mlLvVbQISEXyPAKKbRtDesX9AxKMDxrSYMtKKOcLsAYPigCQ=" ++ [NL]
  ++ lit "===== END BLOCK =====" ++ [NL].

Definition data_object_file_no_zip_encrypted : bytes :=
  b "gAAAAABjLCkL0G6QXaftdznNXf_qPmg4L0HZkqryb9mikihzWKfCLhOJYZwc9W7wch6D3aUoDk8vxQl_9zWIpvipdzYT9u1Z5WeIZilOT_W5Bo0LNlr2DBE=".

Definition data_object_file_no_zip_block : str :=
  lit "===== START BLOCK =====" ++ [NL]
  ++ lit "Content-Type: application/octet-stream" ++ [NL]
  ++ lit "Content-Disposition: attachment; filename=" ++ [DQ] ++ lit "filename.txt" ++ [DQ]
  ++ [NL]
  ++ [NL]
  ++ lit "gAAAAABjLCkL0G6QXaftdznNXf_qPmg4L0HZkqryb9mikihzWKfCLhOJYZwc9W7wch6D3a" ++ [NL]
  ++ lit "UoDk8vxQl_9zWIpvipdzYT9u1Z5WeIZilOT_W5Bo0LNlr2DBE=" ++ [NL]
  ++ lit "===== END BLOCK =====" ++ [NL].

Example test002_derive_key_from_password :
  pbkdf2_hmac_sha256 32 TEST_SALT 1500000 (b "secret") = DERIVED_KEY_BIN ->
  derive_key_from_password PASSWORD TEST_SALT None
    = Ok (b "n040cw6mls4dQCmBkXHI9Q2jCng5ijGxqvzkcyGi4uQ=").
Proof.
  intros Hmock. unfold derive_key_from_password.
  change (codec_encode "utf-8" PASSWORD) with (Ok (b "secret")).
  rewrite bind_Ok. cbn [default from_option]. rewrite Hmock. by vm_compute.
Qed.

Example test003_init : BlockCrypter_init DERIVED_KEY None = Ok bc.
Proof. unfold BlockCrypter_init, DERIVED_KEY. by rewrite fernet_key_accepts. Qed.

Example test004_encrypt_to_block_none_as_dataobject r :
  encrypt_to_block bc None None r = Raise (InvalidDataException "got no DataObject").
Proof. done. Qed.

Example test005_encrypt_to_block_none_as_binary_data r :
  encrypt_to_block bc (Some (obj (Some "text/plain") (Some "utf-8") false None None)) None r
    = Raise (InvalidDataException "got no binary_data").
Proof. done. Qed.

Example test006_encrypt_to_block_none_as_content_type r :
  encrypt_to_block bc (Some (obj None (Some "utf-8") false None (Some (b "dataobject: str"))))
                   None r
    = Raise (InvalidDataException "no content_type specified").
Proof. done. Qed.

Example test007_encrypt_to_block_unsupported_content_type r :
  encrypt_to_block bc
    (Some (obj (Some "image/png") (Some "utf-8") false None (Some (b "dataobject: str"))))
    None r
    = Raise (InvalidDataException "content_type 'image/png' is not supported").
Proof. done. Qed.

(** A block is rendered from the token the mock returns. *)
Lemma mocked_encrypt self o width r bin ct0 ct cd token :
  binary_data o = Some bin -> content_type o = Some ct0 ->
  block_headers o ct0 = Ok (ct, cd) ->
  fernet_encrypt (key self) r bin = token ->
  encrypt_to_block self (Some o) width r
    = Ok (_block ct cd (encoding_line (is_zipped o))
            (wrap (map ascii_of_byte token) (default (default_width self) width))).
Proof. intros Hb Hc Hh <-. by rewrite (encrypt_render self o width r bin ct0 ct cd). Qed.

(** The mock of [Fernet.encrypt] is called with the data of the object:
    the body of the block is the token of these bytes. *)
Example test008_encrypt_to_block_binary_data_is_encrypted r :
  encrypt_to_block bc (Some data_object_str) None r
    = Ok (_block "text/plain; charset=utf-8" "inline" []
            (wrap (token_text DERIVED_KEY r (b "dataobject: str")) 70)).
Proof.
  by rewrite (encrypt_render bc data_object_str None r (b "dataobject: str")
                (lit "text/plain") _ _ eq_refl eq_refl eq_refl).
Qed.

Example test009_encrypt_to_block_text_plain r :
  fernet_encrypt DERIVED_KEY r (b "dataobject: str") = data_object_str_encrypted ->
  encrypt_to_block bc (Some data_object_str) None r = Ok data_object_str_block.
Proof. intros Hmock. by rewrite (mocked_encrypt bc
    data_object_str None r (b "dataobject: str") (lit "text/plain")
    _ _ _ eq_refl eq_refl eq_refl Hmock). Qed.

Example test010_encrypt_to_block_text_plain_no_charset r :
  fernet_encrypt DERIVED_KEY r (b "dataobject: str") = data_object_str_encrypted ->
  exists block,
    encrypt_to_block bc
      (Some (obj (Some "text/plain") None false None (Some (b "dataobject: str")))) None r
      = Ok block /\
    contains block "charset=" = false.
Proof.
  intros Hmock. rewrite (mocked_encrypt bc
    (obj (Some "text/plain") None false None (Some (b "dataobject: str"))) None r (b "dataobject: str") (lit "text/plain")
    _ _ _ eq_refl eq_refl eq_refl Hmock).
  eexists. split; [done|]. by vm_compute.
Qed.

Example test011_encrypt_to_block_application_octet_stream r :
  fernet_encrypt DERIVED_KEY r (zlib_compress (b "dataobject: file"))
    = data_object_file_encrypted ->
  encrypt_to_block bc (Some data_object_file) None r = Ok data_object_file_block.
Proof. intros Hmock. by rewrite (mocked_encrypt bc
    data_object_file None r (zlib_compress (b "dataobject: file")) (lit "application/octet-stream")
    _ _ _ eq_refl eq_refl eq_refl Hmock). Qed.

Example test012_encrypt_to_block_application_octet_stream_no_filename r :
  fernet_encrypt DERIVED_KEY r (zlib_compress (b "dataobject: file"))
    = data_object_file_encrypted ->
  exists block,
    encrypt_to_block bc
      (Some (obj (Some "application/octet-stream") None true None
                 (Some (zlib_compress (b "dataobject: file"))))) None r
      = Ok block /\
    contains block "filename=" = false.
Proof.
  intros Hmock. rewrite (mocked_encrypt bc
    (obj (Some "application/octet-stream") None true None (Some (zlib_compress (b "dataobject: file")))) None r (zlib_compress (b "dataobject: file")) (lit "application/octet-stream")
    _ _ _ eq_refl eq_refl eq_refl Hmock).
  eexists. split; [done|]. by vm_compute.
Qed.

Example test013_encrypt_to_block_text_plain_width_0 r :
  fernet_encrypt DERIVED_KEY r (b "dataobject: str") = data_object_str_encrypted ->
  exists block,
    encrypt_to_block bc (Some data_object_str) (Some 0%Z) r = Ok block /\
    split_count block = split_count data_object_str_block - 1.
Proof.
  intros Hmock. rewrite (mocked_encrypt bc
    data_object_str (Some 0%Z) r (b "dataobject: str") (lit "text/plain")
    _ _ _ eq_refl eq_refl eq_refl Hmock).
  eexists. split; [done|]. by vm_compute.
Qed.

Example test015_encrypt_to_block_text_plain_width_40_via_argument r :
  fernet_encrypt DERIVED_KEY r (b "dataobject: str") = data_object_str_encrypted ->
  exists block,
    encrypt_to_block bc (Some data_object_str) (Some 40%Z) r = Ok block /\
    max_line_length block = 40.
Proof.
  intros Hmock. rewrite (mocked_encrypt bc
    data_object_str (Some 40%Z) r (b "dataobject: str") (lit "text/plain")
    _ _ _ eq_refl eq_refl eq_refl Hmock).
  eexists. split; [done|]. by vm_compute.
Qed.

Example test014_encrypt_to_block_text_plain_width_40_via_default r :
  fernet_encrypt DERIVED_KEY r (b "dataobject: str") = data_object_str_encrypted ->
  exists self block,
    BlockCrypter_init DERIVED_KEY (Some 40%Z) = Ok self /\
    encrypt_to_block self (Some data_object_str) None r = Ok block /\
    max_line_length block = 40.
Proof.
  intros Hmock. exists {| key := DERIVED_KEY; default_width := 40 |}.
  rewrite (mocked_encrypt {| key := DERIVED_KEY; default_width := 40 |}
    data_object_str None r (b "dataobject: str") (lit "text/plain")
    _ _ _ eq_refl eq_refl eq_refl Hmock).
  eexists. split; [|split; [done|by vm_compute]].
  unfold BlockCrypter_init, DERIVED_KEY. by rewrite fernet_key_accepts.
Qed.

Example test016_decrypt_from_block_start_block_not_found :
  decrypt_from_block bc (replace data_object_str_block _start_block [])
    = Raise (InvalidBlockException "cannot find block markers").
Proof. by vm_compute. Qed.

Example test017_decrypt_from_block_end_block_not_found :
  decrypt_from_block bc (replace data_object_str_block _end_block [])
    = Raise (InvalidBlockException "cannot find block markers").
Proof. by vm_compute. Qed.

Example test018_decrypt_from_block_content_type_not_found :
  decrypt_from_block bc (replace data_object_str_block "Content-Type:" "Missing:")
    = Raise (InvalidBlockException "expected 'Content-Type:' not found in block").
Proof. by vm_compute. Qed.

Example test019_decrypt_from_block_content_disposition_not_found :
  decrypt_from_block bc (replace data_object_str_block "Content-Disposition:" "Missing:")
    = Raise (InvalidBlockException "expected 'Content-Disposition:' not found in block").
Proof. by vm_compute. Qed.

Example test020_decrypt_from_block_text_plain :
  fernet_decrypt DERIVED_KEY data_object_str_encrypted = Ok (b "dataobject: str") ->
  decrypt_from_block bc data_object_str_block
    = _create_dataobject "text/plain; charset=utf-8" "inline" None (b "dataobject: str").
Proof. intros Hmock. vm_compute in Hmock |- *. by rewrite Hmock. Qed.

Example test021_decrypt_from_block_text_plain_no_charset :
  fernet_decrypt DERIVED_KEY data_object_str_encrypted = Ok (b "dataobject: str") ->
  decrypt_from_block bc (replace data_object_str_block "; charset=utf-8" [])
    = _create_dataobject "text/plain" "inline" None (b "dataobject: str").
Proof. intros Hmock. vm_compute in Hmock |- *. by rewrite Hmock. Qed.

Example test022_decrypt_from_block_application_octet_stream :
  fernet_decrypt DERIVED_KEY data_object_file_encrypted
    = Ok (zlib_compress (b "dataobject: file")) ->
  decrypt_from_block bc data_object_file_block
    = _create_dataobject "application/octet-stream"
        (lit "attachment; filename=" ++ [DQ] ++ lit "filename.txt" ++ [DQ])
        (Some (lit "gzip")) (zlib_compress (b "dataobject: file")).
Proof. intros Hmock. vm_compute in Hmock |- *. by rewrite Hmock. Qed.

Example test023_decrypt_from_block_application_octet_stream_no_zip :
  fernet_decrypt DERIVED_KEY data_object_file_no_zip_encrypted
    = Ok data_object_file_no_zip_encrypted ->
  decrypt_from_block bc data_object_file_no_zip_block
    = _create_dataobject "application/octet-stream"
        (lit "attachment; filename=" ++ [DQ] ++ lit "filename.txt" ++ [DQ])
        None data_object_file_no_zip_encrypted.
Proof. intros Hmock. vm_compute in Hmock |- *. by rewrite Hmock. Qed.

Example test024_create_dataobject_invalid_content_type :
  _create_dataobject "image/gif"
      (lit "attachment; filename=" ++ [DQ] ++ lit "image.gif" ++ [DQ]) None (b "<gif_data>")
    = Raise (InvalidContentException
               "_create_dataobject(): content_type is not supported: 'image/gif'").
Proof. by vm_compute. Qed.

Example test025_create_dataobject_invalid_content_encoding :
  _create_dataobject "application/octet-stream"
      (lit "attachment; filename=" ++ [DQ] ++ lit "image.zip" ++ [DQ])
      (Some (lit "deflate")) (b "<gif_data>")
    = Raise (InvalidContentException
               "_create_dataobject(): content_encoding is not supported: 'deflate'").
Proof. by vm_compute. Qed.

Example test026_create_dataobject_text_plain_with_charset_no_zip :
  _create_dataobject (lit "text/plain; charset=utf-8") (lit "inline") None (b "<data placeholder>")
    = Ok (obj (Some "text/plain") (Some "utf-8") false None (Some (b "<data placeholder>"))).
Proof. by vm_compute. Qed.

Example test027_create_dataobject_text_plain_no_charset_no_zip :
  _create_dataobject (lit "text/plain") (lit "inline") None (b "<data placeholder>")
    = Ok (obj (Some "text/plain") None false None (Some (b "<data placeholder>"))).
Proof. by vm_compute. Qed.

Example test028_create_dataobject_text_plain_with_charset_zip :
  _create_dataobject (lit "text/plain; charset=utf-8") (lit "inline") (Some (lit "gzip")) (b "<data placeholder>")
    = Ok (obj (Some "text/plain") (Some "utf-8") true None (Some (b "<data placeholder>"))).
Proof. by vm_compute. Qed.

Example test029_create_dataobject_text_plain_no_charset_zip :
  _create_dataobject (lit "text/plain") (lit "inline") (Some (lit "gzip")) (b "<data placeholder>")
    = Ok (obj (Some "text/plain") None true None (Some (b "<data placeholder>"))).
Proof. by vm_compute. Qed.

Example test030_create_dataobject_application_octet_stream_with_filename_no_zip :
  _create_dataobject (lit "application/octet-stream") (lit "attachment; filename=" ++ [DQ] ++ lit "text.txt" ++ [DQ]) None (b "<data placeholder>")
    = Ok (obj (Some "application/octet-stream") None false (Some "text.txt") (Some (b "<data placeholder>"))).
Proof. by vm_compute. Qed.

Example test031_create_dataobject_application_octet_stream_no_filename_no_zip :
  _create_dataobject (lit "application/octet-stream") (lit "attachment") None (b "<data placeholder>")
    = Ok (obj (Some "application/octet-stream") None false None (Some (b "<data placeholder>"))).
Proof. by vm_compute. Qed.

Example test032_create_dataobject_application_octet_stream_with_filename_zip :
  _create_dataobject (lit "application/octet-stream") (lit "attachment; filename=" ++ [DQ] ++ lit "text.txt" ++ [DQ]) (Some (lit "gzip")) (b "<data placeholder>")
    = Ok (obj (Some "application/octet-stream") None true (Some "text.txt") (Some (b "<data placeholder>"))).
Proof. by vm_compute. Qed.

Example test033_create_dataobject_application_octet_stream_no_filename_zip :
  _create_dataobject (lit "application/octet-stream") (lit "attachment") (Some (lit "gzip")) (b "<data placeholder>")
    = Ok (obj (Some "application/octet-stream") None true None (Some (b "<data placeholder>"))).
Proof. by vm_compute. Qed.

Example test034_create_dataobject_application_octet_stream_with_spaces_in_filename_zip :
  _create_dataobject (lit "application/octet-stream") (lit "attachment; filename=" ++ [DQ] ++ lit "this name contains spaces.txt" ++ [DQ]) (Some (lit "gzip")) (b "<data placeholder>")
    = Ok (obj (Some "application/octet-stream") None true (Some "this name contains spaces.txt") (Some (b "<data placeholder>"))).
Proof. by vm_compute. Qed.

End TestBlockCrypter.

(** [generate_salt] asks [secrets.token_bytes] for 32 bytes, which is at
    least 16. *)
Example test001_generate_salt_returns_at_least_16_bytes `{!Secrets} src :
  generate_salt src None = token_bytes src 32 /\ (16 <= 32)%Z.
Proof. by split. Qed.
